(** * HMPLoader: the 3D GameStudio heightmap importer

    A shallow embedding of [code/AssetLib/HMP/HMPLoader.cpp] and the
    properties of its decode pipeline: header validation, skin chunk
    parsing, vertex decoding and quad-face assembly. *)

From Stdlib Require Import ZArith Lia Bool.
From Stdlib Require Import Strings.Byte.
From Stdlib Require Import Floats.SpecFloat.
From stdpp Require Import base list strings.

Local Open Scope Z_scope.

(** ** Machine integers

    [unsigned int] and [uint32_t] are 32 bits wide, [size_t] is 64 bits
    wide (LP64); arithmetic on them wraps around. *)
Module Word.

Definition wrap32 (z : Z) : Z := z mod 2 ^ 32.
Definition wrap64 (z : Z) : Z := z mod 2 ^ 64.

(** The value of a 32-bit pattern read as [int32_t]. *)
Definition signed32 (w : Z) : Z := if w <? 2 ^ 31 then w else w - 2 ^ 32.

(** The value of an 8-bit pattern read as [int8_t]. *)
Definition signed8 (b : Z) : Z := if b <? 2 ^ 7 then b else b - 2 ^ 8.

End Word.

(** ** IEEE 754 binary32

    The C++ type [float], on top of the Standard Library's parametric
    specification of binary floating point (24 bits of precision,
    infinities at exponent 128, round to nearest even). *)
Module F32.

Definition prec : Z := 24.
Definition emax : Z := 128.

Definition float : Type := spec_float.

(** Reinterpretation of a 32-bit pattern, as the struct overlay on the
    file buffer does for the header's [float] fields. *)
Definition of_bits (w : Z) : float :=
  let s := Z.testbit w 31 in
  let e := (w / 2 ^ 23) mod 2 ^ 8 in
  let f := w mod 2 ^ 23 in
  if e =? 0 then
    match f with
    | Zpos p => S754_finite s p (-149)
    | _ => S754_zero s
    end
  else if e =? 255 then
    (if f =? 0 then S754_infinity s else S754_nan)
  else
    match f + 2 ^ 23 with
    | Zpos p => S754_finite s p (e - 150)
    | _ => S754_nan
    end.

(** [std::isfinite]. *)
Definition isfinite (x : float) : bool :=
  match x with
  | S754_zero _ | S754_finite _ _ _ => true
  | S754_infinity _ | S754_nan => false
  end.

(** [!x] on a float: true exactly when [x == 0.0f]. *)
Definition is_zero (x : float) : bool :=
  match x with
  | S754_zero _ => true
  | _ => false
  end.

(** Conversion of an integer value ([int32_t], [unsigned int],
    [uint16_t], [int8_t] or an integer literal) to [float]. *)
Definition of_int (n : Z) : float := binary_normalize prec emax n 0 false.

Definition ltb (x y : float) : bool := SFltb x y.
Definition leb (x y : float) : bool := SFleb x y.
Definition div (x y : float) : float := SFdiv prec emax x y.
Definition mul (x y : float) : float := SFmul prec emax x y.
Definition sub (x y : float) : float := SFsub prec emax x y.
Definition add (x y : float) : float := SFadd prec emax x y.

(** The literals of the source. *)
Definition one : float := S754_finite false 8388608 (-23).    (* 1.0f *)
Definition half : float := S754_finite false 8388608 (-24).   (* 0.5f *)
Definition eight : float := S754_finite false 8388608 (-20).  (* 8.0f *)
Definition zero : float := S754_zero false.                   (* 0.0f *)

(** The integer part of a finite float, rounding toward zero. *)
Definition trunc (x : float) : option Z :=
  match x with
  | S754_zero _ => Some 0
  | S754_finite s m e =>
      let a := if 0 <=? e then Z.shiftl (Zpos m) e else Z.shiftr (Zpos m) (- e) in
      Some (if s then - a else a)
  | _ => None
  end.

(** The cast [(unsigned int)x].  It is defined when the truncated
    value fits [unsigned int]; otherwise the behaviour is undefined and
    the model returns [None]. *)
Definition to_uint (x : float) : option Z :=
  match trunc x with
  | Some z => if (0 <=? z) && (z <? 2 ^ 32) then Some z else None
  | None => None
  end.

End F32.

(** ** The file buffer

    [mBuffer] is the whole file in memory.  A read at an offset that is
    not inside the buffer yields [None]. *)
Module Buffer.

Definition byte_at (buf : list byte) (off : Z) : option Z :=
  if off <? 0 then None
  else match buf !! Z.to_nat off with
       | Some b => Some (Z.of_N (Byte.to_N b))
       | None => None
       end.

(** Little-endian loads, as the pointer casts of the source perform
    them on a little-endian host. *)
Definition u16_at (buf : list byte) (off : Z) : option Z :=
  match byte_at buf off, byte_at buf (off + 1) with
  | Some b0, Some b1 => Some (b0 + 2 ^ 8 * b1)
  | _, _ => None
  end.

Definition u32_at (buf : list byte) (off : Z) : option Z :=
  match byte_at buf off, byte_at buf (off + 1),
        byte_at buf (off + 2), byte_at buf (off + 3) with
  | Some b0, Some b1, Some b2, Some b3 =>
      Some (b0 + 2 ^ 8 * b1 + 2 ^ 16 * b2 + 2 ^ 24 * b3)
  | _, _, _, _ => None
  end.

Definition i32_at (buf : list byte) (off : Z) : option Z :=
  match u32_at buf off with
  | Some w => Some (Word.signed32 w)
  | None => None
  end.

Definition f32_at (buf : list byte) (off : Z) : option F32.float :=
  match u32_at buf off with
  | Some w => Some (F32.of_bits w)
  | None => None
  end.

End Buffer.

(** ** Output data: the scene the importer fills *)

Module aiVector3.
Record t : Type := Build { x : F32.float; y : F32.float; z : F32.float }.
End aiVector3.
Abbreviation aiVector3D := aiVector3.t.
Abbreviation Vec3 := aiVector3.Build.

(** A default-constructed [aiVector3D]. *)
Definition aiVector3D_zero : aiVector3D := Vec3 F32.zero F32.zero F32.zero.

(** [new aiVector3D[n]]. *)
Definition new_vectors (n : Z) : list aiVector3D := replicate (Z.to_nat n) aiVector3D_zero.

(** Arrays with the index checks the C++ code does not make: an access
    out of range is [None]. *)
Definition array_get {A} (a : list A) (i : Z) : option A :=
  if 0 <=? i then a !! Z.to_nat i else None.

Definition array_set {A} (a : list A) (i : Z) (v : A) : option (list A) :=
  if (0 <=? i) && (i <? Z.of_nat (length a)) then Some (<[Z.to_nat i := v]> a) else None.

Module aiFace.
(** [mIndices] is [None] for a default-constructed face (null pointer);
    an entry of an allocated index array is [None] while it holds the
    indeterminate value [new unsigned int[4]] leaves there. *)
Record t : Type := Build {
  mNumIndices : Z;
  mIndices : option (list (option Z))
}.
Definition default : t := Build 0 None.
End aiFace.

Inductive aiMaterialProperty : Type :=
| AI_MATKEY_SHADING_MODEL (mode : string)
| AI_MATKEY_COLOR_DIFFUSE (rgb : F32.float)
| AI_MATKEY_COLOR_SPECULAR (rgb : F32.float)
| AI_MATKEY_COLOR_AMBIENT (rgb : F32.float)
| AI_MATKEY_NAME (name : string)
| AI_MATKEY_SKIN (iType iWidth iHeight : Z).

Definition aiMaterial : Type := list aiMaterialProperty.

Module aiMesh.
Record t : Type := Build {
  mMaterialIndex : Z;
  mNumVertices : Z;
  mVertices : list aiVector3D;
  mNormals : list aiVector3D;
  mTextureCoords0 : option (list aiVector3D);   (* mTextureCoords[0], None = nullptr *)
  mNumUVComponents0 : Z;                        (* mNumUVComponents[0] *)
  mNumFaces : Z;
  mFaces : list aiFace.t
}.
(** [new aiMesh()]. *)
Definition default : t := Build 0 0 [] [] None 0 0 [].
End aiMesh.

Module aiNode.
Record t : Type := Build {
  mName : string;
  mNumMeshes : Z;
  mMeshes : list Z
}.
End aiNode.

Module aiScene.
Record t : Type := Build {
  mFlags : Z;
  mRootNode : option aiNode.t;
  mNumMeshes : Z;
  mMeshes : list aiMesh.t;
  mNumMaterials : Z;
  mMaterials : list aiMaterial
}.
(** A freshly constructed scene, as the caller hands it in. *)
Definition empty : t := Build 0 None 0 [] 0 [].
End aiScene.

(** ** Exceptions, undefined behaviour and the run of a method *)

(** The exceptions that leave the importer.  All but the last two are
    [DeadlyImportError]s; [what] gives their message. *)
Inductive exception : Type :=
| HMP_file_too_small
| Unknown_HMP_subformat (iMagic : Z)
| HMP4_not_supported
| HMP_header_too_small
| Trisize_not_finite
| Trisize_zero
| Numverts_x_not_finite
| Numverts_zero
| No_frames
| Unable_to_read_skin_chunk
| Size_check_failed
| Skin_lump_error (msg : string)   (* raised inside a skin-lump collaborator *)
| Bad_array_new_length.            (* [new T[n]] with a negative [n] *)

Definition what (e : exception) : string :=
  match e with
  | HMP_file_too_small => "HMP File is too small."
  | Unknown_HMP_subformat _ => "Unknown HMP subformat. Magic word is not known"
  | HMP4_not_supported => "HMP4 is currently not supported"
  | HMP_header_too_small =>
      "HMP file is too small (header size is 120 bytes, this file is smaller)"
  | Trisize_not_finite => "Size of triangles in either x or y direction is not finite"
  | Trisize_zero => "Size of triangles in either x or y direction is zero"
  | Numverts_x_not_finite => "Number of triangles in x direction is not finite"
  | Numverts_zero => "Number of triangles in either x or y direction is zero"
  | No_frames => "There are no frames. At least one should be there"
  | Unable_to_read_skin_chunk => "Unable to read HMP7 skin chunk"
  | Size_check_failed => "The file is too small or contains invalid data"
  | Skin_lump_error msg => msg
  | Bad_array_new_length => "std::bad_array_new_length"
  end.

(** The error kinds of the specification. *)
Inductive error_kind : Type :=
| OpenOrSizeError
| UnrecognizedSubformat
| UnsupportedRevision
| InvalidHeader
| TruncatedInput
| UnreadableSkinChunk
| CollaboratorError.

Definition kind_of (e : exception) : error_kind :=
  match e with
  | HMP_file_too_small | HMP_header_too_small => OpenOrSizeError
  | Unknown_HMP_subformat _ => UnrecognizedSubformat
  | HMP4_not_supported => UnsupportedRevision
  | Trisize_not_finite | Trisize_zero | Numverts_x_not_finite
  | Numverts_zero | No_frames => InvalidHeader
  | Size_check_failed => TruncatedInput
  | Unable_to_read_skin_chunk => UnreadableSkinChunk
  | Skin_lump_error _ | Bad_array_new_length => CollaboratorError
  end.

(** The ways a run can leave defined behaviour. *)
Inductive undefined_behaviour : Type :=
| ReadPastBuffer      (* a load outside the file buffer *)
| ArrayOverread       (* a load outside a vertex, normal or UV array *)
| ArrayOverwrite      (* a store outside an output array *)
| FloatCastRange      (* a float-to-unsigned cast of a value that does not fit *)
| NullDereference.    (* pScene->mMeshes[0] without a mesh *)

(** What the run did to the file buffer, newest event first. *)
Inductive event : Type :=
| EvCheck (limit : Z)     (* a test [limit <= file size] that passed *)
| EvRead (off len : Z)    (* a load of the bytes [off, off + len) *)
| EvChunk (pos : Z).      (* a skin-lump collaborator moved the cursor to [pos] *)

Record state : Type := State {
  pScene : aiScene.t;
  trace : list event
}.

Inductive outcome (A : Type) : Type :=
| Ok (a : A) (st : state)
| Throw (e : exception) (st : state)
| Undefined (u : undefined_behaviour) (st : state).
Arguments Ok {A} a st.
Arguments Throw {A} e st.
Arguments Undefined {A} u st.

Definition M (A : Type) : Type := state -> outcome A.

Definition ret {A} (a : A) : M A := fun st => Ok a st.

Definition bind {A B} (c : M A) (f : A -> M B) : M B :=
  fun st =>
    match c st with
    | Ok a st' => f a st'
    | Throw e st' => Throw e st'
    | Undefined u st' => Undefined u st'
    end.

Notation "x <- c1 ;; c2" := (bind c1 (fun x => c2))
  (at level 100, c1 at next level, right associativity).
Notation "c1 ;; c2" := (bind c1 (fun _ => c2))
  (at level 100, right associativity).

Definition throw {A} (e : exception) : M A := fun st => Throw e st.
Definition undefined {A} (u : undefined_behaviour) : M A := fun st => Undefined u st.
Definition log (ev : event) : M unit :=
  fun st => Ok tt (State (pScene st) (ev :: trace st)).
Definition get_scene : M aiScene.t := fun st => Ok (pScene st) st.
Definition put_scene (sc : aiScene.t) : M unit := fun st => Ok tt (State sc (trace st)).

(** A value that must be defined, or else the run is undefined. *)
Definition defined {A} (u : undefined_behaviour) (o : option A) : M A :=
  match o with
  | Some a => ret a
  | None => undefined u
  end.

Definition state_of {A} (o : outcome A) : state :=
  match o with
  | Ok _ st | Throw _ st | Undefined _ st => st
  end.

(** [for (unsigned int i = i0; i < i0 + n; ++i) st = body(i, st)]. *)
Fixpoint for_loop {St} (n : nat) (i : Z) (body : Z -> St -> M St) (st : St) : M St :=
  match n with
  | O => ret st
  | S n' => st' <- body i st ;; for_loop n' (i + 1) body st'
  end.

(** ** On-disk records

    Modelled from the spec: the declarations of [HMPFileData.h] are
    not among the sources.  The header is a packed record of 84 bytes
    ("skip everything to byte 84") with 32-bit little-endian fields;
    the importer uses the two triangle sizes, the vertex count in x
    direction, the skin count, the vertex count and the frame count.
    A vertex record has a 16-bit height followed by two bytes: a normal
    index and a pad byte (HMP5), or two signed normal components
    (HMP7). *)
Module Header_HMP5.
Record t : Type := Build {
  ftrisize_x : F32.float;
  ftrisize_y : F32.float;
  fnumverts_x : F32.float;
  numskins : Z;      (* int32_t *)
  numverts : Z;      (* int32_t *)
  numframes : Z      (* int32_t *)
}.
Definition sizeof : Z := 84.

(** The fields as the overlay [(const HMP::Header_HMP5 * )mBuffer]
    shows them. *)
Definition overlay (buf : list byte) : option t :=
  match Buffer.f32_at buf 36, Buffer.f32_at buf 40, Buffer.f32_at buf 44,
        Buffer.i32_at buf 48, Buffer.i32_at buf 60, Buffer.i32_at buf 68,
        Buffer.byte_at buf (sizeof - 1) with
  | Some sx, Some sy, Some nx, Some ns, Some nv, Some nf, Some _ =>
      Some (Build sx sy nx ns nv nf)
  | _, _, _, _, _, _, _ => None
  end.
End Header_HMP5.

Module Vertex_HMP5.
Definition sizeof : Z := 4.
Definition z : Z := 0.                 (* uint16_t z *)
Definition normals162index : Z := 2.   (* uint8_t normals162index *)
End Vertex_HMP5.

Module Vertex_HMP7.
Definition sizeof : Z := 4.
Definition z : Z := 0.                 (* uint16_t z *)
Definition normal_x : Z := 2.          (* int8_t normal_x *)
Definition normal_y : Z := 3.          (* int8_t normal_y *)
End Vertex_HMP7.

(** Modelled from the spec: the magic tokens are the four characters
    of the revision tag, in either byte order. *)
Definition AI_MAKE_MAGIC (c0 c1 c2 c3 : Z) : Z :=
  Z.shiftl c0 24 + Z.shiftl c1 16 + Z.shiftl c2 8 + c3.
Definition AI_HMP_MAGIC_NUMBER_BE_4 : Z := AI_MAKE_MAGIC 72 77 80 52.  (* "HMP4" *)
Definition AI_HMP_MAGIC_NUMBER_LE_4 : Z := AI_MAKE_MAGIC 52 80 77 72.  (* "4PMH" *)
Definition AI_HMP_MAGIC_NUMBER_BE_5 : Z := AI_MAKE_MAGIC 72 77 80 53.  (* "HMP5" *)
Definition AI_HMP_MAGIC_NUMBER_LE_5 : Z := AI_MAKE_MAGIC 53 80 77 72.  (* "5PMH" *)
Definition AI_HMP_MAGIC_NUMBER_BE_7 : Z := AI_MAKE_MAGIC 72 77 80 55.  (* "HMP7" *)
Definition AI_HMP_MAGIC_NUMBER_LE_7 : Z := AI_MAKE_MAGIC 55 80 77 72.  (* "7PMH" *)

(** Modelled from the spec: the terrain capability flag of the scene. *)
Definition AI_SCENE_FLAGS_TERRAIN : Z := 16.

Definition AI_DEFAULT_MATERIAL_NAME : string := "DefaultMaterial".

(** The result of a skin-lump collaborator. *)
Inductive collab (A : Type) : Type :=
| Returns (a : A)
| Raises (e : exception).
Arguments Returns {A} a.
Arguments Raises {A} e.

(** ** The importer *)
Section HMPImporter.

(** The file contents, loaded by [InternReadFile]. *)
Variable mBuffer : list byte.

(** The collaborators inherited from the MDL importer and the MD2
    normal table; each skin-lump routine is given the cursor, the
    type, the width and the height of a chunk and returns the cursor
    behind its payload. *)
Variable ParseSkinLump_3DGS_MDL7 : Z -> Z -> Z -> Z -> collab (Z * aiMaterial).
Variable SkipSkinLump_3DGS_MDL7 : Z -> Z -> Z -> Z -> collab Z.
Variable LookupNormalIndex : Z -> aiVector3D.
Variable Normalize : aiVector3D -> aiVector3D.

Definition fileSize : Z := Z.of_nat (length mBuffer).

(** [iFileSize = (unsigned int)fileSize]. *)
Definition iFileSize : Z := Word.wrap32 fileSize.

(** *** Loads from the buffer *)

Definition load {A} (rd : list byte -> Z -> option A) (len off : Z) : M A :=
  match rd mBuffer off with
  | Some v => log (EvRead off len) ;; ret v
  | None => undefined ReadPastBuffer
  end.

Definition read_u8 : Z -> M Z := load Buffer.byte_at 1.
Definition read_u16 : Z -> M Z := load Buffer.u16_at 2.
Definition read_u32 : Z -> M Z := load Buffer.u32_at 4.

(** A dereference of [pcHeader]. *)
Definition pcHeader : M Header_HMP5.t :=
  load (fun buf _ => Header_HMP5.overlay buf) Header_HMP5.sizeof 0.

(** Modelled from the spec: [SizeCheck] belongs to the MDL importer,
    whose source is absent.  Bounds guard: "given the current read
    cursor and the total buffer extent, fail with a TruncatedInput
    error if the cursor (or a projected future read extent) exceeds
    the buffer". *)
Definition SizeCheck (szPos : Z) : M unit :=
  if szPos >? iFileSize then throw Size_check_failed
  else log (EvCheck szPos).

(** [pScene->mMeshes[0]]. *)
Definition mesh0 : M aiMesh.t :=
  sc <- get_scene ;;
  defined NullDereference (aiScene.mMeshes sc !! 0%nat).

Definition set_mesh0 (m : aiMesh.t) : M unit :=
  sc <- get_scene ;;
  match aiScene.mMeshes sc with
  | _ :: rest =>
      put_scene (aiScene.Build (aiScene.mFlags sc) (aiScene.mRootNode sc)
                   (aiScene.mNumMeshes sc) (m :: rest)
                   (aiScene.mNumMaterials sc) (aiScene.mMaterials sc))
  | [] => undefined NullDereference
  end.

(** [new aiVector3D[n]] for a signed count. *)
Definition new_array (n : Z) : M (list aiVector3D) :=
  if n <? 0 then throw Bad_array_new_length else ret (new_vectors n).

(** [(unsigned int)f]. *)
Definition cast_uint (f : F32.float) : M Z := defined FloatCastRange (F32.to_uint f).

(** *** [ValidateHeader_HMP457] *)
Definition ValidateHeader_HMP457 : M unit :=
  if 120 >? iFileSize then throw HMP_header_too_small else
  log (EvCheck 120) ;;
  h <- pcHeader ;;
  if negb (F32.isfinite (Header_HMP5.ftrisize_x h))
     || negb (F32.isfinite (Header_HMP5.ftrisize_y h))
  then throw Trisize_not_finite else
  if F32.is_zero (Header_HMP5.ftrisize_x h) || F32.is_zero (Header_HMP5.ftrisize_y h)
  then throw Trisize_zero else
  if negb (F32.isfinite (Header_HMP5.fnumverts_x h))
  then throw Numverts_x_not_finite else
  if F32.ltb (Header_HMP5.fnumverts_x h) F32.one
     || F32.ltb (F32.div (F32.of_int (Header_HMP5.numverts h)) (Header_HMP5.fnumverts_x h))
                F32.one
  then throw Numverts_zero else
  if Header_HMP5.numframes h =? 0 then throw No_frames else
  ret tt.

(** *** [InternReadFile_HMP4] *)
Definition InternReadFile_HMP4 : M unit := throw HMP4_not_supported.

(** *** [ReadFirstSkin] *)

(** Lines 432-447: the type of the first skin with the one retry, its
    width and its height.  Returns them with the cursor behind. *)
Definition ReadFirstSkin_header (szCursor : Z) : M (Z * Z * Z * Z) :=
  iType <- read_u32 szCursor ;;
  let szCursor := szCursor + 4 in
  retry <-
     (if iType =? 0 then
        let szCursor := szCursor + 4 * 2 in
        iType <- read_u32 szCursor ;;
        let szCursor := szCursor + 4 in
        if iType =? 0 then throw Unable_to_read_skin_chunk
        else ret (iType, szCursor)
      else ret (iType, szCursor)) ;;
  let '(iType, szCursor) := retry in
  iWidth <- read_u32 szCursor ;;
  let szCursor := szCursor + 4 in
  iHeight <- read_u32 szCursor ;;
  let szCursor := szCursor + 4 in
  ret (iType, iWidth, iHeight, szCursor).

(** A call of a skin-lump collaborator. *)
Definition call {A} (c : collab A) : M A :=
  match c with
  | Returns a => ret a
  | Raises e => throw e
  end.

(** Lines 457-468: one turn of the loop that skips a further skin. *)
Definition skip_skin (szCursor : Z) : M Z :=
  SizeCheck (szCursor + 3 * 4) ;;
  iType <- read_u32 szCursor ;;
  let szCursor := szCursor + 4 in
  iWidth <- read_u32 szCursor ;;
  let szCursor := szCursor + 4 in
  iHeight <- read_u32 szCursor ;;
  let szCursor := szCursor + 4 in
  szCursor <- call (SkipSkinLump_3DGS_MDL7 szCursor iType iWidth iHeight) ;;
  log (EvChunk szCursor) ;;
  SizeCheck szCursor ;;
  ret szCursor.

Definition ReadFirstSkin (iNumSkins : Z) (szCursor : Z) : M Z :=
  hd <- ReadFirstSkin_header szCursor ;;
  let '(iType, iWidth, iHeight, szCursor) := hd in
  (* read the skin, this works exactly as for MDL7 *)
  lump <- call (ParseSkinLump_3DGS_MDL7 szCursor iType iWidth iHeight) ;;
  let '(szCursor, pcMat) := lump in
  log (EvChunk szCursor) ;;
  (* now we need to skip any other skins ... *)
  szCursor <- for_loop (Z.to_nat (iNumSkins - 1)) 1 (fun _ => skip_skin) szCursor ;;
  (* setup the material ... *)
  sc <- get_scene ;;
  put_scene (aiScene.Build (aiScene.mFlags sc) (aiScene.mRootNode sc)
               (aiScene.mNumMeshes sc) (aiScene.mMeshes sc) 1 [pcMat]) ;;
  ret szCursor.

(** *** [CreateMaterial] *)
Definition default_material : aiMaterial :=
  [ AI_MATKEY_SHADING_MODEL "aiShadingMode_Gouraud";
    AI_MATKEY_COLOR_DIFFUSE (F32.of_bits 0x3f19999a);    (* 0.6f *)
    AI_MATKEY_COLOR_SPECULAR (F32.of_bits 0x3f19999a);
    AI_MATKEY_COLOR_AMBIENT (F32.of_bits 0x3d4ccccd);    (* 0.05f *)
    AI_MATKEY_NAME AI_DEFAULT_MATERIAL_NAME ].

Definition CreateMaterial (szCurrent : Z) : M Z :=
  pcMesh <- mesh0 ;;
  h <- pcHeader ;;
  if negb (Header_HMP5.numskins h =? 0) then
    uv <- new_array (Header_HMP5.numverts h) ;;
    set_mesh0 (aiMesh.Build (aiMesh.mMaterialIndex pcMesh) (aiMesh.mNumVertices pcMesh)
                 (aiMesh.mVertices pcMesh) (aiMesh.mNormals pcMesh)
                 (Some uv) 2
                 (aiMesh.mNumFaces pcMesh) (aiMesh.mFaces pcMesh)) ;;
    (* now read the first skin and skip all others *)
    ReadFirstSkin (Word.wrap32 (Header_HMP5.numskins h)) szCurrent
  else
    (* generate a default material and add it to the scene *)
    sc <- get_scene ;;
    put_scene (aiScene.Build (aiScene.mFlags sc) (aiScene.mRootNode sc)
                 (aiScene.mNumMeshes sc) (aiScene.mMeshes sc) 1 [default_material]) ;;
    ret szCurrent.

(** *** [GenerateTextureCoords] *)
Definition GenerateTextureCoords (width height : Z) : M unit :=
  pcMesh <- mesh0 ;;
  match aiMesh.mTextureCoords0 pcMesh with
  | None => ret tt
  | Some uv =>
      if (height =? 0) || (width =? 0) then ret tt else
      let fY := F32.add (F32.div F32.one (F32.of_int height))
                        (F32.div (F32.div F32.one (F32.of_int height)) (F32.of_int height)) in
      let fX := F32.add (F32.div F32.one (F32.of_int width))
                        (F32.div (F32.div F32.one (F32.of_int width)) (F32.of_int width)) in
      (* the state of the loops: the array and the position of [uv] in it *)
      r <- for_loop (Z.to_nat height) 0 (fun y =>
             for_loop (Z.to_nat width) 0 (fun x (st : list aiVector3D * Z) =>
               let '(uvs, k) := st in
               uvs <- defined ArrayOverwrite
                        (array_set uvs k (Vec3 (F32.mul fX (F32.of_int x))
                                               (F32.mul fY (F32.of_int y))
                                               F32.zero)) ;;
               ret (uvs, k + 1)))
             (uv, 0) ;;
      set_mesh0 (aiMesh.Build (aiMesh.mMaterialIndex pcMesh) (aiMesh.mNumVertices pcMesh)
                   (aiMesh.mVertices pcMesh) (aiMesh.mNormals pcMesh)
                   (Some (fst r)) (aiMesh.mNumUVComponents0 pcMesh)
                   (aiMesh.mNumFaces pcMesh) (aiMesh.mFaces pcMesh))
  end.

(** *** [CreateOutputFaceList] *)

(** [*dst++ = src[i]], with [dst] at position [o] of its array. *)
Definition copy_entry (src : list aiVector3D) (i : Z)
    (dst : list aiVector3D) (o : Z) : M (list aiVector3D) :=
  v <- defined ArrayOverread (array_get src i) ;;
  defined ArrayOverwrite (array_set dst o v).

(** The four corners of the cell, in the winding of the source. *)
Definition copy_quad (src : list aiVector3D) (offset0 offset1 x : Z)
    (dst : list aiVector3D) (o : Z) : M (list aiVector3D) :=
  dst <- copy_entry src (offset0 + x) dst o ;;
  dst <- copy_entry src (offset1 + x) dst (o + 1) ;;
  dst <- copy_entry src (offset1 + x + 1) dst (o + 2) ;;
  copy_entry src (offset0 + x + 1) dst (o + 3).

(** The locals of the face loop.  [pcVertOut], [pcNorOut] and
    [pcUVOut] advance together with [iCurrent], so [iCurrent] is also
    their position in [pcVertices], [pcNormals] and [pcUVs]. *)
Record face_locals : Type := FaceLocals {
  mFaces : list aiFace.t;
  pcFaceOut : Z;
  pcVertices : list aiVector3D;
  pcNormals : list aiVector3D;
  pcUVs : option (list aiVector3D);
  iCurrent : Z
}.

Definition quad_indices (iCurrent : Z) : list (option Z) :=
  [Some iCurrent; Some (Word.wrap32 (iCurrent + 1));
   Some (Word.wrap32 (iCurrent + 2)); Some (Word.wrap32 (iCurrent + 3))].

(** The body of the inner loop for the cell in column [x] of row [y]. *)
Definition face_cell (pcMesh : aiMesh.t) (width upperBound : Z) (y x : Z)
    (st : face_locals) : M face_locals :=
  let offset0 := Word.wrap32 (y * width) in
  let offset1 := Word.wrap32 ((y + 1) * width) in
  (* pcFaceOut->mNumIndices = 4; pcFaceOut->mIndices = new unsigned int[4]; *)
  faces <- defined ArrayOverwrite
             (array_set (mFaces st) (pcFaceOut st)
                (aiFace.Build 4 (Some [None; None; None; None]))) ;;
  if (offset0 + x + 1 >=? upperBound) || (offset1 + x + 1 >=? upperBound) then
    (* continue *)
    ret (FaceLocals faces (pcFaceOut st + 1) (pcVertices st) (pcNormals st)
           (pcUVs st) (iCurrent st))
  else
    verts <- copy_quad (aiMesh.mVertices pcMesh) offset0 offset1 x
               (pcVertices st) (iCurrent st) ;;
    norms <- copy_quad (aiMesh.mNormals pcMesh) offset0 offset1 x
               (pcNormals st) (iCurrent st) ;;
    uvs <- match aiMesh.mTextureCoords0 pcMesh, pcUVs st with
           | Some src, Some dst =>
               dst <- copy_quad src offset0 offset1 x dst (iCurrent st) ;;
               ret (Some dst)
           | _, _ => ret (pcUVs st)
           end ;;
    faces <- defined ArrayOverwrite
               (array_set faces (pcFaceOut st)
                  (aiFace.Build 4 (Some (quad_indices (iCurrent st))))) ;;
    ret (FaceLocals faces (pcFaceOut st + 1) verts norms uvs
           (Word.wrap32 (iCurrent st + 4))).

Definition CreateOutputFaceList (width height : Z) : M unit :=
  pcMesh <- mesh0 ;;
  (* Allocate enough storage *)
  let mNumFaces := Word.wrap32 (Word.wrap32 (width - 1) * Word.wrap32 (height - 1)) in
  let mNumVertices := Word.wrap32 (mNumFaces * 4) in
  let st0 := FaceLocals (replicate (Z.to_nat mNumFaces) aiFace.default) 0
               (new_vectors mNumVertices) (new_vectors mNumVertices)
               (match aiMesh.mTextureCoords0 pcMesh with
                | Some _ => Some (new_vectors mNumVertices)
                | None => None
                end) 0 in
  (* Build the terrain square *)
  let upperBound := mNumVertices in
  st <- for_loop (Z.to_nat (Word.wrap32 (height - 1))) 0 (fun y =>
          for_loop (Z.to_nat (Word.wrap32 (width - 1))) 0
            (face_cell pcMesh width upperBound y))
          st0 ;;
  set_mesh0 (aiMesh.Build (aiMesh.mMaterialIndex pcMesh) mNumVertices
               (pcVertices st) (pcNormals st)
               (match aiMesh.mTextureCoords0 pcMesh with
                | Some _ => pcUVs st
                | None => None
                end)
               (aiMesh.mNumUVComponents0 pcMesh)
               mNumFaces (mFaces st)).

(** *** [InternReadFile_HMP5] and [InternReadFile_HMP7] *)

(** [(((float)src->z / 0xffff) - 0.5f) * pcHeader->ftrisize_x * 8.0f] *)
Definition height_of (h : Header_HMP5.t) (z : Z) : F32.float :=
  F32.mul (F32.mul (F32.sub (F32.div (F32.of_int z) (F32.of_int 65535)) F32.half)
                   (Header_HMP5.ftrisize_x h))
          F32.eight.

(** The position stored for the grid point in column [x] of row [y]. *)
Definition position_of (h : Header_HMP5.t) (x y z : Z) : aiVector3D :=
  Vec3 (F32.mul (F32.of_int x) (Header_HMP5.ftrisize_x h))
       (F32.mul (F32.of_int y) (Header_HMP5.ftrisize_y h))
       (height_of h z).

(** The locals of the vertex loops: the two output arrays, and the
    number [k] of records done, which is the position of [pcVertOut]
    and [pcNorOut] in them and of [src] in the record array.  The
    source stores through the two pointers into the arrays of the
    first mesh; here the loops carry the arrays, and [HMP57_body] puts
    them into the mesh when the loops are through.  The two agree on
    every run that gets behind the loops, and the loops do not throw;
    only the scene of a run that stops inside them, which is undefined
    behaviour, does not show the entries stored before. *)
Definition vertex_locals : Type := list aiVector3D * list aiVector3D * Z.

(** The body of the inner loop of [InternReadFile_HMP5]. *)
Definition load_vertex_HMP5 (h : Header_HMP5.t) (szCurrent : Z) (y x : Z)
    (st : vertex_locals) : M vertex_locals :=
  let '(verts, norms, k) := st in
  let src := szCurrent + Vertex_HMP5.sizeof * k in
  (* the stores to pcVertOut->x and ->y come first *)
  defined ArrayOverwrite (array_get verts k) ;;
  z <- read_u16 (src + Vertex_HMP5.z) ;;
  verts <- defined ArrayOverwrite (array_set verts k (position_of h x y z)) ;;
  index <- read_u8 (src + Vertex_HMP5.normals162index) ;;
  norms <- defined ArrayOverwrite (array_set norms k (LookupNormalIndex index)) ;;
  ret (verts, norms, k + 1).

(** The body of the inner loop of [InternReadFile_HMP7]. *)
Definition load_vertex_HMP7 (h : Header_HMP5.t) (szCurrent : Z) (y x : Z)
    (st : vertex_locals) : M vertex_locals :=
  let '(verts, norms, k) := st in
  let src := szCurrent + Vertex_HMP7.sizeof * k in
  defined ArrayOverwrite (array_get verts k) ;;
  z <- read_u16 (src + Vertex_HMP7.z) ;;
  verts <- defined ArrayOverwrite (array_set verts k (position_of h x y z)) ;;
  normal_x <- read_u8 (src + Vertex_HMP7.normal_x) ;;
  normal_y <- read_u8 (src + Vertex_HMP7.normal_y) ;;
  let n := Vec3 (F32.div (F32.of_int (Word.signed8 normal_x)) (F32.of_int 128))
                (F32.div (F32.of_int (Word.signed8 normal_y)) (F32.of_int 128))
                F32.one in
  norms <- defined ArrayOverwrite (array_set norms k (Normalize n)) ;;
  ret (verts, norms, k + 1).

(** Lines 218-228 and 280-299: the loops over the rows and columns
    of the grid. *)
Definition load_vertices
    (load_vertex : Z -> Z -> vertex_locals -> M vertex_locals)
    (width height : Z) (st : vertex_locals) : M vertex_locals :=
  for_loop (Z.to_nat height) 0 (fun y =>
    for_loop (Z.to_nat width) 0 (load_vertex y)) st.

(** [InternReadFile_HMP5] and [InternReadFile_HMP7] are the same text
    up to the body of the vertex loop; both test the extent of the
    vertex array with [sizeof(const HMP::Vertex_HMP7)].  The routine is
    given in three parts. *)

(** Lines 189-211 and 248-270: validation, the output mesh, the
    dimensions of the grid, the material and the gap of 36 bytes.
    Returns the header, the height, the width and the cursor. *)
Definition HMP57_prologue : M (Header_HMP5.t * Z * Z * Z) :=
  (* read the file header and skip everything to byte 84 *)
  let szCurrent := 84 in
  ValidateHeader_HMP457 ;;
  h <- pcHeader ;;
  (* generate an output mesh *)
  sc <- get_scene ;;
  put_scene (aiScene.Build (aiScene.mFlags sc) (aiScene.mRootNode sc)
               1 [aiMesh.default]
               (aiScene.mNumMaterials sc) (aiScene.mMaterials sc)) ;;
  verts <- new_array (Header_HMP5.numverts h) ;;
  norms <- new_array (Header_HMP5.numverts h) ;;
  set_mesh0 (aiMesh.Build 0 0 verts norms None 0 0 []) ;;
  height <- cast_uint (F32.div (F32.of_int (Header_HMP5.numverts h))
                               (Header_HMP5.fnumverts_x h)) ;;
  width <- cast_uint (Header_HMP5.fnumverts_x h) ;;
  (* generate/load a material for the terrain *)
  szCurrent <- CreateMaterial szCurrent ;;
  (* goto offset 120, I don't know why ... *)
  let szCurrent := szCurrent + 36 in
  ret (h, height, width, szCurrent).

(** Lines 214-244 and 274-314: the vertex loops, the texture
    coordinates, the faces and the root node. *)
Definition HMP57_body
    (load_vertex : Header_HMP5.t -> Z -> Z -> Z -> vertex_locals -> M vertex_locals)
    (h : Header_HMP5.t) (height width szCurrent : Z) : M unit :=
  (* now load all vertices from the file *)
  pcMesh <- mesh0 ;;
  r <- load_vertices (load_vertex h szCurrent) width height
         (aiMesh.mVertices pcMesh, aiMesh.mNormals pcMesh, 0) ;;
  set_mesh0 (aiMesh.Build (aiMesh.mMaterialIndex pcMesh) (aiMesh.mNumVertices pcMesh)
               (fst (fst r)) (snd (fst r))
               (aiMesh.mTextureCoords0 pcMesh) (aiMesh.mNumUVComponents0 pcMesh)
               (aiMesh.mNumFaces pcMesh) (aiMesh.mFaces pcMesh)) ;;
  (* generate texture coordinates if necessary *)
  (if negb (Header_HMP5.numskins h =? 0) then GenerateTextureCoords width height
   else ret tt) ;;
  (* now build a list of faces *)
  CreateOutputFaceList width height ;;
  (* there is no nodegraph in HMP files. Simply assign the one mesh to the root node *)
  sc <- get_scene ;;
  put_scene (aiScene.Build (aiScene.mFlags sc)
               (Some (aiNode.Build "terrain_root" 1 [0]))
               (aiScene.mNumMeshes sc) (aiScene.mMeshes sc)
               (aiScene.mNumMaterials sc) (aiScene.mMaterials sc)).

(** The extent that line 212 and line 272 test. *)
Definition vertex_extent (height width : Z) : Z :=
  Word.wrap64 (Word.wrap64 (Vertex_HMP7.sizeof * height) * width).

Definition InternReadFile_HMP57
    (load_vertex : Header_HMP5.t -> Z -> Z -> Z -> vertex_locals -> M vertex_locals)
    : M unit :=
  p <- HMP57_prologue ;;
  let '(h, height, width, szCurrent) := p in
  SizeCheck (szCurrent + vertex_extent height width) ;;
  HMP57_body load_vertex h height width szCurrent.

Definition InternReadFile_HMP5 : M unit := InternReadFile_HMP57 load_vertex_HMP5.
Definition InternReadFile_HMP7 : M unit := InternReadFile_HMP57 load_vertex_HMP7.

(** *** [InternReadFile] *)
Definition InternReadFile : M unit :=
  (* Check whether the HMP file is large enough to contain at least the file header *)
  if fileSize <? 50 then throw HMP_file_too_small else
  log (EvCheck 50) ;;
  (* Determine the file subtype and call the appropriate member function *)
  iMagic <- read_u32 0 ;;
  (if (AI_HMP_MAGIC_NUMBER_LE_4 =? iMagic) || (AI_HMP_MAGIC_NUMBER_BE_4 =? iMagic) then
     InternReadFile_HMP4
   else if (AI_HMP_MAGIC_NUMBER_LE_5 =? iMagic) || (AI_HMP_MAGIC_NUMBER_BE_5 =? iMagic) then
     InternReadFile_HMP5
   else if (AI_HMP_MAGIC_NUMBER_LE_7 =? iMagic) || (AI_HMP_MAGIC_NUMBER_BE_7 =? iMagic) then
     InternReadFile_HMP7
   else
     throw (Unknown_HMP_subformat iMagic)) ;;
  (* Set the AI_SCENE_FLAGS_TERRAIN bit *)
  sc <- get_scene ;;
  put_scene (aiScene.Build (Z.lor (aiScene.mFlags sc) AI_SCENE_FLAGS_TERRAIN)
               (aiScene.mRootNode sc)
               (aiScene.mNumMeshes sc) (aiScene.mMeshes sc)
               (aiScene.mNumMaterials sc) (aiScene.mMaterials sc)).

End HMPImporter.

(** ** Sample files *)
Module Sample.

Definition byte_of (z : Z) : byte :=
  match Byte.of_N (Z.to_N (z mod 256)) with
  | Some b => b
  | None => x00
  end.

Definition le16 (w : Z) : list byte := [byte_of w; byte_of (Z.shiftr w 8)].
Definition le32 (w : Z) : list byte :=
  [byte_of w; byte_of (Z.shiftr w 8); byte_of (Z.shiftr w 16); byte_of (Z.shiftr w 24)].
Definition zeros (n : nat) : list byte := replicate n x00.

(** The 84 bytes of a header with the given magic and fields; the
    floats are given by their bit patterns. *)
Definition header (magic : list byte) (ftrisize_x ftrisize_y fnumverts_x : Z)
    (numskins numverts numframes : Z) : list byte :=
  magic ++ zeros 32
    ++ le32 ftrisize_x ++ le32 ftrisize_y ++ le32 fnumverts_x
    ++ le32 numskins ++ zeros 8 ++ le32 numverts ++ zeros 4 ++ le32 numframes
    ++ zeros 12.

Definition HMP4 : list byte := [byte_of 72; byte_of 77; byte_of 80; byte_of 52].
Definition HMP5 : list byte := [byte_of 72; byte_of 77; byte_of 80; byte_of 53].
Definition HMP7 : list byte := [byte_of 72; byte_of 77; byte_of 80; byte_of 55].

Definition vertex_HMP5 (z index : Z) : list byte := le16 z ++ [byte_of index; x00].
Definition vertex_HMP7 (z nx ny : Z) : list byte := le16 z ++ [byte_of nx; byte_of ny].

(** Collaborators for the samples: a skin lump whose payload is
    [iWidth * iHeight] bytes, a normal table that is constant, and no
    renormalisation. *)
Definition parse_lump (szCursor iType iWidth iHeight : Z) : collab (Z * aiMaterial) :=
  Returns (szCursor + Word.wrap32 (iWidth * iHeight), [AI_MATKEY_SKIN iType iWidth iHeight]).
Definition skip_lump (szCursor iType iWidth iHeight : Z) : collab Z :=
  Returns (szCursor + Word.wrap32 (iWidth * iHeight)).
Definition normal_table (index : Z) : aiVector3D := Vec3 F32.zero F32.zero F32.one.
Definition keep (v : aiVector3D) : aiVector3D := v.

Definition st0 : state := State aiScene.empty [].

Definition import (buf : list byte) : outcome unit :=
  InternReadFile buf parse_lump skip_lump normal_table keep st0.

(** A skin chunk: type, width, height and a payload of
    [iWidth * iHeight] bytes. *)
Definition skin (iType iWidth iHeight : Z) : list byte :=
  le32 iType ++ le32 iWidth ++ le32 iHeight ++ zeros (Z.to_nat (iWidth * iHeight)).

(** A 3 x 2 terrain of revision HMP5 without skins: spacing 2.0 in
    both directions, six vertices of height 32767. *)
Definition terrain_3x2 : list byte :=
  header HMP5 0x40000000 0x40000000 0x40400000 0 6 1 ++ zeros 36
    ++ concat (replicate 6 (vertex_HMP5 32767 0)).

(** A 2 x 2 terrain of revision HMP7 with one skin whose chunk starts
    with the doubled header: a zero type tag and 8 more bytes in front
    of the real type, width and height. *)
Definition double_header : list byte :=
  header HMP7 0x40000000 0x40000000 0x40000000 1 4 1
    ++ zeros 12 ++ skin 7 2 2 ++ zeros 36
    ++ concat (replicate 4 (vertex_HMP7 32767 0 0)).

(** The terrain above with a frame count of -1. *)
Definition negative_frames : list byte :=
  header HMP5 0x40000000 0x40000000 0x40400000 0 6 (-1) ++ zeros 36
    ++ concat (replicate 6 (vertex_HMP5 32767 0)).

(** A state in which the scene holds the mesh [m]. *)
Definition holding (m : aiMesh.t) : state :=
  State (aiScene.Build 0 None 1 [m] 0 []) [].

(** A mesh that holds a decoded grid of [n] vertices. *)
Definition grid_mesh (n : Z) : aiMesh.t :=
  aiMesh.Build 0 0 (new_vectors n) (new_vectors n) None 0 0 [].

(** The header of the file on which face assembly reads outside the
    vertex array: 16777219 vertices, 2.0 of them in x direction.  The
    conversion of the vertex count to [float] rounds up to 16777220,
    so that the grid has 2 columns and 8388610 rows. *)
Definition oversized_header : Header_HMP5.t :=
  Header_HMP5.Build (F32.of_bits 0x40000000) (F32.of_bits 0x40000000)
    (F32.of_bits 0x40000000) 0 16777219 1.

(** A 1 x 4 terrain of revision HMP5 without skins. *)
Definition strip_1x4 : list byte :=
  header HMP5 0x40000000 0x40000000 0x3f800000 0 4 1 ++ zeros 36
    ++ concat (replicate 4 (vertex_HMP5 32767 0)).

(** A 2 x 2 terrain of revision HMP7 with three skins of 2 x 2 bytes. *)
Definition three_skins : list byte :=
  header HMP7 0x40000000 0x40000000 0x40000000 3 4 1
    ++ skin 7 2 2 ++ skin 7 2 2 ++ skin 7 2 2 ++ zeros 36
    ++ concat (replicate 4 (vertex_HMP7 32767 0 0)).

(** The same file cut inside the payload of its third skin. *)
Definition three_skins_cut : list byte := take 130 three_skins.

(** The 3 x 2 terrain cut behind the gap of 36 bytes: a valid header
    and no vertex. *)
Definition terrain_cut : list byte := take 120 terrain_3x2.

(** The terrain with the doubled skin header cut at 100 bytes, inside
    the header of its skin chunk: behind the second type tag and in
    front of the width and the height. *)
Definition double_header_cut : list byte := take 100 double_header.

(** A skin collaborator that moves the cursor backwards, in front of
    the buffer. *)
Definition parse_back (szCursor iType iWidth iHeight : Z) : collab (Z * aiMaterial) :=
  Returns (-100, [AI_MATKEY_SKIN iType iWidth iHeight]).

End Sample.

(** ** Auxiliary notions for the proofs *)

(** Whether a shifted mantissa has lost information. *)
Definition inexact (r : shr_record) : bool := shr_r r || shr_s r.

(** The weight of the exponent [e], scaled so that it is an integer
    for every exponent the binary32 operations meet. *)
Definition sc (e : Z) : Z := 2 ^ (e + 400).

(** A float that is zero or below. *)
Definition nonpositive (x : F32.float) : Prop :=
  match x with
  | S754_zero _ | S754_finite true _ _ | S754_infinity true => True
  | _ => False
  end.

(** The state after the events [evs] (newest first) have been logged. *)
Definition logged (evs : list event) (st : state) : state :=
  State (pScene st) (evs ++ trace st).

(** How a run ends when it does not return. *)
Inductive abort : Type :=
| Thrown (e : exception)
| Undef (u : undefined_behaviour).

(** [hoare P c Q X]: started in a state with [P], the run of [c]
    either returns a value and a state with [Q], or ends with an
    abort and a state with [X]. *)
Definition hoare {A} (P : state -> Prop) (c : M A)
    (Q : A -> state -> Prop) (X : abort -> state -> Prop) : Prop :=
  forall st, P st ->
    match c st with
    | Ok a st' => Q a st'
    | Throw e st' => X (Thrown e) st'
    | Undefined u st' => X (Undef u) st'
    end.

(** ** The header validations in the words of the specification

    "Validations, in order, each a distinct fatal condition: triangle
    spacing X and Y both finite; both non-zero; fnumverts_x finite;
    fnumverts_x >= 1.0 and numverts / fnumverts_x >= 1.0; frame count
    >= 1."  The test of the frame count is a parameter. *)
Definition frames_at_least_one (n : Z) : bool := 1 <=? n.
Definition frames_non_zero (n : Z) : bool := negb (n =? 0).

Definition header_violation (frames_ok : Z -> bool) (h : Header_HMP5.t) : option exception :=
  if negb (F32.isfinite (Header_HMP5.ftrisize_x h) && F32.isfinite (Header_HMP5.ftrisize_y h))
  then Some Trisize_not_finite
  else if negb (negb (F32.is_zero (Header_HMP5.ftrisize_x h))
                && negb (F32.is_zero (Header_HMP5.ftrisize_y h)))
  then Some Trisize_zero
  else if negb (F32.isfinite (Header_HMP5.fnumverts_x h))
  then Some Numverts_x_not_finite
  else if negb (F32.leb F32.one (Header_HMP5.fnumverts_x h)
                && F32.leb F32.one (F32.div (F32.of_int (Header_HMP5.numverts h))
                                            (Header_HMP5.fnumverts_x h)))
  then Some Numverts_zero
  else if negb (frames_ok (Header_HMP5.numframes h))
  then Some No_frames
  else None.

(** Header validation on a buffer of at least 120 bytes (and of
    less than [2 ^ 32] bytes, the range of the size that the importer
    keeps as [unsigned int]): it fails with the first violation as an
    InvalidHeader error that carries a reason, succeeds when there is
    none, and leaves the scene as it was. *)
Definition validates_header (frames_ok : Z -> bool) : Prop :=
  forall (buf : list byte) (st : state),
    120 <= fileSize buf < 2 ^ 32 ->
    exists h,
      Header_HMP5.overlay buf = Some h /\
      let st' := logged [EvRead 0 Header_HMP5.sizeof; EvCheck 120] st in
      match header_violation frames_ok h with
      | Some e =>
          ValidateHeader_HMP457 buf st = Throw e st' /\
          kind_of e = InvalidHeader /\ what e <> String.EmptyString
      | None => ValidateHeader_HMP457 buf st = Ok tt st'
      end.

(** ** The face grid in the words of the specification *)

(** The grid indices of the four corners of the cell in column [x] of
    row [y], in the winding (x,y), (x,y+1), (x+1,y+1), (x+1,y). *)
Definition cell_corners (width y x : Z) : list Z :=
  [y * width + x; (y + 1) * width + x; (y + 1) * width + x + 1; y * width + x + 1].

(** [dst] holds, from position [o] on, copies of the entries of [src]
    at the four corners of a cell. *)
Definition quad_copied (src dst : list aiVector3D) (o width y x : Z) : Prop :=
  forall (j : nat) (corner : Z),
    cell_corners width y x !! j = Some corner ->
    exists v, array_get src corner = Some v /\ array_get dst (o + Z.of_nat j) = Some v.

(** The face that owns the four output entries from [o] on. *)
Definition quad_face (o : Z) : aiFace.t :=
  aiFace.Build 4 (Some [Some o; Some (o + 1); Some (o + 2); Some (o + 3)]).

(** The output of face assembly for the cell number [c] (row by row)
    of a grid: its face, and its four duplicated entries in each
    output array. *)
Definition cell_built (pcMesh : aiMesh.t) (width : Z) (s : face_locals) (y x : Z) : Prop :=
  let c := y * (width - 1) + x in
  array_get (mFaces s) c = Some (quad_face (4 * c)) /\
  quad_copied (aiMesh.mVertices pcMesh) (pcVertices s) (4 * c) width y x /\
  quad_copied (aiMesh.mNormals pcMesh) (pcNormals s) (4 * c) width y x /\
  match aiMesh.mTextureCoords0 pcMesh, pcUVs s with
  | Some src, Some dst => quad_copied src dst (4 * c) width y x
  | None, None => True
  | _, _ => False
  end.

(** The locals of the face loop when the first [c] cells are done. *)
Definition cells_built (pcMesh : aiMesh.t) (width height : Z) (c : Z) (s : face_locals) : Prop :=
  let F := (width - 1) * (height - 1) in
  0 <= c <= F /\
  pcFaceOut s = c /\ iCurrent s = 4 * c /\
  Z.of_nat (length (mFaces s)) = F /\
  Z.of_nat (length (pcVertices s)) = 4 * F /\
  Z.of_nat (length (pcNormals s)) = 4 * F /\
  match aiMesh.mTextureCoords0 pcMesh, pcUVs s with
  | Some _, Some dst => Z.of_nat (length dst) = 4 * F
  | None, None => True
  | _, _ => False
  end /\
  forall y x, 0 <= y -> 0 <= x < width - 1 -> y * (width - 1) + x < c ->
    cell_built pcMesh width s y x.

(** All four corners of the cell are inside the arrays of the mesh. *)
Definition corners_inside (pcMesh : aiMesh.t) (width y x : Z) : Prop :=
  (y + 1) * width + x + 1 < Z.of_nat (length (aiMesh.mVertices pcMesh)) /\
  (y + 1) * width + x + 1 < Z.of_nat (length (aiMesh.mNormals pcMesh)) /\
  match aiMesh.mTextureCoords0 pcMesh with
  | Some uv => (y + 1) * width + x + 1 < Z.of_nat (length uv)
  | None => True
  end.

(** The locals of the face loop when the first [c] cells are done and
    each of them had its corners inside the arrays of the mesh. *)
Definition cells_done (pcMesh : aiMesh.t) (width height : Z) (c : Z) (s : face_locals) : Prop :=
  cells_built pcMesh width height c s /\
  forall y x, 0 <= y -> 0 <= x < width - 1 -> y * (width - 1) + x < c ->
    corners_inside pcMesh width y x.

(** The scene with its first mesh replaced. *)
Definition with_mesh0 (sc : aiScene.t) (m : aiMesh.t) : aiScene.t :=
  aiScene.Build (aiScene.mFlags sc) (aiScene.mRootNode sc) (aiScene.mNumMeshes sc)
    (m :: tail (aiScene.mMeshes sc))
    (aiScene.mNumMaterials sc) (aiScene.mMaterials sc).

(** The mesh that face assembly leaves: the counts, the duplicated
    arrays and the face list of the locals [s]. *)
Definition assembled (pcMesh : aiMesh.t) (width height : Z) (s : face_locals) : aiMesh.t :=
  aiMesh.Build (aiMesh.mMaterialIndex pcMesh)
    (4 * ((width - 1) * (height - 1)))
    (pcVertices s) (pcNormals s)
    (match aiMesh.mTextureCoords0 pcMesh with
     | Some _ => pcUVs s
     | None => None
     end)
    (aiMesh.mNumUVComponents0 pcMesh)
    ((width - 1) * (height - 1)) (mFaces s).

(** ** The vertex grid in the words of the specification *)

(** The first [k] records of the vertex payload at [szCurrent] have
    been decoded into [verts], row by row: the entry of the grid point
    in column [x] of row [y] is the position the specification gives
    for it and for the height field of its record. *)
Definition vertices_loaded (buf : list byte) (h : Header_HMP5.t)
    (szCurrent width : Z) (verts : list aiVector3D) (k : Z) : Prop :=
  forall y x, 0 <= y -> 0 <= x < width -> y * width + x < k ->
    exists z,
      Buffer.u16_at buf (szCurrent + 4 * (y * width + x)) = Some z /\
      array_get verts (y * width + x) = Some (position_of h x y z).

(** [load_vertex] decodes one record of 4 bytes: it stores the
    position of the grid point and some normal at [k], and logs its
    loads. *)
Definition decodes_record (buf : list byte) (h : Header_HMP5.t) (szCurrent : Z)
    (load_vertex : Z -> Z -> vertex_locals -> M vertex_locals) : Prop :=
  forall y x verts norms k st,
    0 <= szCurrent -> 0 <= k ->
    szCurrent + 4 * k + 4 <= Z.of_nat (length buf) ->
    k < Z.of_nat (length verts) -> k < Z.of_nat (length norms) ->
    exists z n evs,
      Buffer.u16_at buf (szCurrent + 4 * k) = Some z /\
      load_vertex y x (verts, norms, k) st =
        Ok (<[Z.to_nat k := position_of h x y z]> verts,
            <[Z.to_nat k := n]> norms, k + 1)
           (logged evs st).

(** ** Skipping skins in the words of the specification

    [skipped buf skip n c c']: from the cursor [c], [n] skin chunks are
    skipped and the cursor ends at [c'].  For each chunk the 12 bytes
    of type, width and height are inside the file and are read, the
    chunk-skip collaborator moves the cursor behind the payload, and
    the cursor is then still inside the file. *)
Inductive skipped (buf : list byte) (skip : Z -> Z -> Z -> Z -> collab Z) :
    nat -> Z -> Z -> Prop :=
| skipped_none c : skipped buf skip 0 c c
| skipped_one n c iType iWidth iHeight c' c'' :
    c + 12 <= iFileSize buf ->
    Buffer.u32_at buf c = Some iType ->
    Buffer.u32_at buf (c + 4) = Some iWidth ->
    Buffer.u32_at buf (c + 8) = Some iHeight ->
    skip (c + 12) iType iWidth iHeight = Returns c' ->
    c' <= iFileSize buf ->
    skipped buf skip n c' c'' ->
    skipped buf skip (S n) c c''.

(** The chunk at the cursor [c] is truncated: its header does not fit
    the file, or the cursor behind its payload is outside the file. *)
Definition truncated_chunk (buf : list byte) (skip : Z -> Z -> Z -> Z -> collab Z)
    (c : Z) : Prop :=
  c + 12 > iFileSize buf \/
  exists iType iWidth iHeight c',
    Buffer.u32_at buf c = Some iType /\
    Buffer.u32_at buf (c + 4) = Some iWidth /\
    Buffer.u32_at buf (c + 8) = Some iHeight /\
    skip (c + 12) iType iWidth iHeight = Returns c' /\
    c' > iFileSize buf.

(** ** Bounds checks and loads in the trace of a run *)

(** The largest extent that a passed size test of the trace vouches
    for. *)
Fixpoint checked_upto (tr : list event) : Z :=
  match tr with
  | [] => 0
  | EvCheck limit :: tr => Z.max limit (checked_upto tr)
  | _ :: tr => checked_upto tr
  end.

(** Every load of the trace is preceded by a passed size test that
    covers it. *)
Fixpoint loads_covered (tr : list event) : Prop :=
  match tr with
  | [] => True
  | EvRead off len :: tr => (0 <= off /\ off + len <= checked_upto tr) /\ loads_covered tr
  | _ :: tr => loads_covered tr
  end.

(** Every move of the cursor by a skin-lump collaborator that has a
    successor in the trace is followed at once by a passed size test
    of an extent that reaches the new cursor. *)
Fixpoint chunks_checked (tr : list event) : Prop :=
  match tr with
  | [] => True
  | ev :: tr =>
      match tr with
      | EvChunk pos :: _ => exists limit, ev = EvCheck limit /\ pos <= limit
      | _ => True
      end /\ chunks_checked tr
  end.

(** The newest event is a move of the cursor by a collaborator. *)
Definition pending (tr : list event) : Prop :=
  match tr with
  | EvChunk _ :: _ => True
  | _ => False
  end.

(** The trace of a run on [buf] in which the bounds guard has done its
    work: the passed tests are true of the buffer, the loads are
    covered by them, and the chunk moves are checked. *)
Definition guarded (buf : list byte) (tr : list event) : Prop :=
  loads_covered tr /\ chunks_checked tr /\ checked_upto tr <= Z.of_nat (length buf).

(** A guarded trace with a test of at least [L] and no chunk move
    pending. *)
Definition good (buf : list byte) (L : Z) (st : state) : Prop :=
  guarded buf (trace st) /\ L <= checked_upto (trace st) /\ ~ pending (trace st).

(** A guarded trace with a test of at least [L] whose pending chunk
    move, if there is one, went to a position up to [c]. *)
Definition held (buf : list byte) (L c : Z) (st : state) : Prop :=
  guarded buf (trace st) /\ L <= checked_upto (trace st) /\
  forall p rest, trace st = EvChunk p :: rest -> p <= c.

(** The abort of a guarded run: it is not a load outside the buffer,
    and behind a pending chunk move it is a failed size test. *)
Definition guarded_abort (buf : list byte) (a : abort) (st : state) : Prop :=
  guarded buf (trace st) /\ a <> Undef ReadPastBuffer /\
  (pending (trace st) -> a = Thrown Size_check_failed).

(** A computation that logs nothing and never loads outside the
    buffer. *)
Definition silent {A} (c : M A) : Prop :=
  forall st,
    match c st with
    | Ok _ st' | Throw _ st' => trace st' = trace st
    | Undefined u st' => trace st' = trace st /\ u <> ReadPastBuffer
    end.

(** A computation that logs nothing and always returns. *)
Definition quiet {A} (c : M A) : Prop :=
  forall st, exists a st', c st = Ok a st' /\ trace st' = trace st.

(** ** What a run does to the scene *)

(** The scene after a run of [c] is related by [R] to the scene
    before, and what [c] throws is one of [E]. *)
Definition keeps (R : aiScene.t -> aiScene.t -> Prop) (E : exception -> Prop)
    {A} (c : M A) : Prop :=
  forall st,
    match c st with
    | Ok _ st' => R (pScene st) (pScene st')
    | Throw e st' => R (pScene st) (pScene st') /\ E e
    | Undefined _ _ => True
    end.

(** Two scenes that differ at most in the contents of their meshes. *)
Definition same_shape (sc sc' : aiScene.t) : Prop :=
  aiScene.mFlags sc' = aiScene.mFlags sc /\
  aiScene.mRootNode sc' = aiScene.mRootNode sc /\
  aiScene.mNumMeshes sc' = aiScene.mNumMeshes sc /\
  length (aiScene.mMeshes sc') = length (aiScene.mMeshes sc) /\
  aiScene.mNumMaterials sc' = aiScene.mNumMaterials sc /\
  aiScene.mMaterials sc' = aiScene.mMaterials sc.

(** The failures of the dispatch and of the header validation, which
    are raised before the importer makes the output mesh. *)
Definition early (e : exception) : bool :=
  match kind_of e with
  | OpenOrSizeError | UnrecognizedSubformat | UnsupportedRevision | InvalidHeader => true
  | TruncatedInput | UnreadableSkinChunk | CollaboratorError => false
  end.

Definition late (e : exception) : Prop := early e = false.

(** The scene [sc0] of the caller after a successful import: one
    mesh, one material, the root node and the terrain flag. *)
Definition populated (sc0 sc : aiScene.t) : Prop :=
  aiScene.mFlags sc = Z.lor (aiScene.mFlags sc0) AI_SCENE_FLAGS_TERRAIN /\
  aiScene.mRootNode sc = Some (aiNode.Build "terrain_root" 1 [0]) /\
  aiScene.mNumMeshes sc = 1 /\ length (aiScene.mMeshes sc) = 1%nat /\
  aiScene.mNumMaterials sc = 1 /\ length (aiScene.mMaterials sc) = 1%nat.

(** "The caller sees exactly one of {fully-populated mesh+material+flag,
    single typed error}", and on a failure "the caller-visible scene
    receives no mesh, no material, no root node, and no terrain
    flag". *)
Definition all_or_nothing (buf : list byte)
    (parse : Z -> Z -> Z -> Z -> collab (Z * aiMaterial))
    (skip : Z -> Z -> Z -> Z -> collab Z)
    (lookup : Z -> aiVector3D) (normalize : aiVector3D -> aiVector3D) : Prop :=
  forall scene,
    match InternReadFile buf parse skip lookup normalize (State scene []) with
    | Ok _ st => populated scene (pScene st)
    | Throw _ st => pScene st = scene
    | Undefined _ _ => True
    end.

(** The scene between the allocation of the output mesh and the
    assignment of the root node; [mat] tells whether the material has
    been set: before that the materials are those of the caller's
    scene [sc0]. *)
Definition under_construction (sc0 : aiScene.t) (mat : bool) (st : state) : Prop :=
  aiScene.mFlags (pScene st) = aiScene.mFlags sc0 /\
  aiScene.mRootNode (pScene st) = aiScene.mRootNode sc0 /\
  aiScene.mNumMeshes (pScene st) = 1 /\ length (aiScene.mMeshes (pScene st)) = 1%nat /\
  if mat then
    aiScene.mNumMaterials (pScene st) = 1 /\ length (aiScene.mMaterials (pScene st)) = 1%nat
  else
    aiScene.mNumMaterials (pScene st) = aiScene.mNumMaterials sc0 /\
    aiScene.mMaterials (pScene st) = aiScene.mMaterials sc0.

(** What a failure in front of the size test of the vertex array
    (lines 189-211 and 248-270) leaves of the scene [sc0]: the root
    node, the flags and the materials are not touched; an early
    failure touches nothing, and a later one leaves the output mesh in
    the scene. *)
Definition failed_scene (sc0 : aiScene.t) (a : abort) (st : state) : Prop :=
  match a with
  | Thrown e =>
      aiScene.mFlags (pScene st) = aiScene.mFlags sc0 /\
      aiScene.mRootNode (pScene st) = aiScene.mRootNode sc0 /\
      aiScene.mNumMaterials (pScene st) = aiScene.mNumMaterials sc0 /\
      aiScene.mMaterials (pScene st) = aiScene.mMaterials sc0 /\
      (early e = true -> pScene st = sc0) /\
      (early e = false ->
       aiScene.mNumMeshes (pScene st) = 1 /\
       length (aiScene.mMeshes (pScene st)) = 1%nat)
  | Undef _ => True
  end.

(** What a failed import leaves of the scene.  Neither the root node
    nor the flags are touched.  An early failure touches nothing.  A
    later failure leaves the output mesh in the scene, and it is one
    of two: a failure of the part in front of the vertex array
    ([HMP57_prologue]: the skin tag, a skin collaborator, the bounds
    guard between the skins), which leaves the materials of the caller,
    or, when that part has returned, the failure of the bounds guard of
    the vertex array, which leaves the one material of the import in
    the scene as well. *)
Definition failed_import (buf : list byte)
    (parse : Z -> Z -> Z -> Z -> collab (Z * aiMaterial))
    (skip : Z -> Z -> Z -> Z -> collab Z)
    (st : state) (e : exception) (st' : state) : Prop :=
  aiScene.mFlags (pScene st') = aiScene.mFlags (pScene st) /\
  aiScene.mRootNode (pScene st') = aiScene.mRootNode (pScene st) /\
  (early e = true -> pScene st' = pScene st) /\
  (early e = false ->
   aiScene.mNumMeshes (pScene st') = 1 /\
   length (aiScene.mMeshes (pScene st')) = 1%nat /\
   match HMP57_prologue buf parse skip (logged [EvRead 0 4; EvCheck 50] st) with
   | Ok _ st1 =>
       e = Size_check_failed /\ st' = st1 /\
       aiScene.mNumMaterials (pScene st') = 1 /\
       length (aiScene.mMaterials (pScene st')) = 1%nat
   | Throw e1 st1 =>
       e = e1 /\ st' = st1 /\
       aiScene.mNumMaterials (pScene st') = aiScene.mNumMaterials (pScene st) /\
       aiScene.mMaterials (pScene st') = aiScene.mMaterials (pScene st)
   | Undefined _ _ => False
   end).

(** The grid that a validated header gives is larger than the vertex
    count for which the arrays are allocated. *)
Definition grid_exceeds_numverts (buf : list byte) : Prop :=
  exists h height width,
    Header_HMP5.overlay buf = Some h /\
    header_violation frames_non_zero h = None /\
    F32.to_uint (F32.div (F32.of_int (Header_HMP5.numverts h))
                         (Header_HMP5.fnumverts_x h)) = Some height /\
    F32.to_uint (Header_HMP5.fnumverts_x h) = Some width /\
    Header_HMP5.numverts h < width * height.

(** The first mesh of the scene has vertex and normal arrays of [n]
    entries, and a UV channel, if it has one, of [n] entries too. *)
Definition mesh_allocated (n : Z) (sc : aiScene.t) : Prop :=
  exists m rest,
    aiScene.mMeshes sc = m :: rest /\
    Z.of_nat (length (aiMesh.mVertices m)) = n /\
    Z.of_nat (length (aiMesh.mNormals m)) = n /\
    match aiMesh.mTextureCoords0 m with
    | Some uv => Z.of_nat (length uv) = n
    | None => True
    end.

(** An abort that is an exception. *)
Definition thrown (a : abort) (st : state) : Prop :=
  match a with
  | Thrown _ => True
  | Undef _ => False
  end.

(** ** The normals of the vertex records *)

(** The normal of the HMP5 record at [src]: the entry of the normal
    table for the index byte of the record. *)
Definition normal_HMP5 (lookup : Z -> aiVector3D) (buf : list byte) (src : Z)
    : option aiVector3D :=
  match Buffer.byte_at buf (src + 2) with
  | Some index => Some (lookup index)
  | None => None
  end.

(** The normal of the HMP7 record at [src]: its two signed bytes over
    128 and 1.0, normalised. *)
Definition normal_HMP7 (normalize : aiVector3D -> aiVector3D) (buf : list byte) (src : Z)
    : option aiVector3D :=
  match Buffer.byte_at buf (src + 2), Buffer.byte_at buf (src + 3) with
  | Some nx, Some ny =>
      Some (normalize (Vec3 (F32.div (F32.of_int (Word.signed8 nx)) (F32.of_int 128))
                            (F32.div (F32.of_int (Word.signed8 ny)) (F32.of_int 128))
                            F32.one))
  | _, _ => None
  end.

(** The first [k] entries of [norms] are the normals of the first [k]
    records. *)
Definition normals_loaded (normal_at : Z -> option aiVector3D)
    (norms : list aiVector3D) (k : Z) : Prop :=
  forall i, 0 <= i < k ->
    exists n, normal_at i = Some n /\ array_get norms i = Some n.

(** ** Texture coordinates *)

(** The texture coordinates of the grid point in column [x] of row
    [y]: [u = x * (1/width + (1/width)/width)] and the same for [v],
    in binary32. *)
Definition uv_of (width height x y : Z) : aiVector3D :=
  let fY := F32.add (F32.div F32.one (F32.of_int height))
                    (F32.div (F32.div F32.one (F32.of_int height)) (F32.of_int height)) in
  let fX := F32.add (F32.div F32.one (F32.of_int width))
                    (F32.div (F32.div F32.one (F32.of_int width)) (F32.of_int width)) in
  Vec3 (F32.mul fX (F32.of_int x)) (F32.mul fY (F32.of_int y)) F32.zero.

(** The mesh with its first UV channel replaced. *)
Definition with_uv (m : aiMesh.t) (uv : list aiVector3D) : aiMesh.t :=
  aiMesh.Build (aiMesh.mMaterialIndex m) (aiMesh.mNumVertices m)
    (aiMesh.mVertices m) (aiMesh.mNormals m) (Some uv) (aiMesh.mNumUVComponents0 m)
    (aiMesh.mNumFaces m) (aiMesh.mFaces m).

(** ** The imported terrain *)

(** The grid points (column, row) at the four corners of the cell in
    column [x] of row [y], in the winding of the faces. *)
Definition cell_corner_points (y x : Z) : list (Z * Z) :=
  [(x, y); (x, y + 1); (x + 1, y + 1); (x + 1, y)].

(** The vertex array of [m] holds, for each cell of the grid and each
    of its corners, the position decoded from the record of that grid
    point in the payload at [szCurrent]. *)
Definition terrain_positions (buf : list byte) (h : Header_HMP5.t) (szCurrent : Z)
    (width height : Z) (m : aiMesh.t) : Prop :=
  forall y x, 0 <= y < height - 1 -> 0 <= x < width - 1 ->
    array_get (aiMesh.mFaces m) (y * (width - 1) + x) =
      Some (quad_face (4 * (y * (width - 1) + x))) /\
    forall (j : nat) cx cy,
      cell_corner_points y x !! j = Some (cx, cy) ->
      exists z,
        Buffer.u16_at buf (szCurrent + 4 * (cy * width + cx)) = Some z /\
        array_get (aiMesh.mVertices m) (4 * (y * (width - 1) + x) + Z.of_nat j) =
          Some (position_of h cx cy z).

(** The UV channel of [m] holds, for each cell of the grid and each of
    its corners, the texture coordinates of that grid point. *)
Definition terrain_uvs (width height : Z) (m : aiMesh.t) : Prop :=
  exists uvs,
    aiMesh.mTextureCoords0 m = Some uvs /\
    Z.of_nat (length uvs) = 4 * ((width - 1) * (height - 1)) /\
    forall y x, 0 <= y < height - 1 -> 0 <= x < width - 1 ->
      forall (j : nat) cx cy,
        cell_corner_points y x !! j = Some (cx, cy) ->
        array_get uvs (4 * (y * (width - 1) + x) + Z.of_nat j) =
          Some (uv_of width height cx cy).

(** ** The shape of the mesh that an import returns *)

(** The counts of the mesh agree with its arrays: [mNumFaces] faces of
    four indices each, and [mNumVertices = 4 * mNumFaces] (in 32 bits)
    entries in the vertex array, the normal array and the UV channel
    when there is one. *)
Definition well_formed_mesh (m : aiMesh.t) : Prop :=
  Z.of_nat (length (aiMesh.mFaces m)) = aiMesh.mNumFaces m /\
  aiMesh.mNumVertices m = Word.wrap32 (aiMesh.mNumFaces m * 4) /\
  Z.of_nat (length (aiMesh.mVertices m)) = aiMesh.mNumVertices m /\
  Z.of_nat (length (aiMesh.mNormals m)) = aiMesh.mNumVertices m /\
  match aiMesh.mTextureCoords0 m with
  | Some uv => Z.of_nat (length uv) = aiMesh.mNumVertices m
  | None => True
  end /\
  forall i f, array_get (aiMesh.mFaces m) i = Some f ->
    aiFace.mNumIndices f = 4 /\
    exists l, aiFace.mIndices f = Some l /\ length l = 4%nat.

(** The first mesh of the scene is well formed. *)
Definition first_mesh_well_formed (st : state) : Prop :=
  exists m rest, aiScene.mMeshes (pScene st) = m :: rest /\ well_formed_mesh m.

(** ** The bounds guard of the first skin in the words of the claim *)

(** The end of the header of the first skin chunk: its type tag, width
    and height lie at offsets 84, 88 and 92, and 12 bytes further on
    when the tag at offset 84 reads as 0 and is read once more. *)
Definition first_skin_header_end (buf : list byte) : Z :=
  match Buffer.u32_at buf 84 with
  | Some 0 => 84 + 12 + 12
  | _ => 84 + 12
  end.

(** "The reads of the first skin chunk's type tag (including the
    8-byte double-header retry), width, and height are covered by such
    a check", namely one "failing with TruncatedInput rather than
    reading past the end of the buffer": a file of revision HMP5 or
    HMP7 with skins that ends inside the header of its first skin
    chunk is refused with TruncatedInput. *)
Definition truncated_skin_header_is_TruncatedInput (buf : list byte)
    (parse : Z -> Z -> Z -> Z -> collab (Z * aiMaterial))
    (skip : Z -> Z -> Z -> Z -> collab Z)
    (lookup : Z -> aiVector3D) (normalize : aiVector3D -> aiVector3D) : Prop :=
  forall scene iMagic h,
    50 <= fileSize buf ->
    Buffer.u32_at buf 0 = Some iMagic ->
    In iMagic [AI_HMP_MAGIC_NUMBER_LE_5; AI_HMP_MAGIC_NUMBER_BE_5;
               AI_HMP_MAGIC_NUMBER_LE_7; AI_HMP_MAGIC_NUMBER_BE_7] ->
    Header_HMP5.overlay buf = Some h -> Header_HMP5.numskins h <> 0 ->
    fileSize buf < first_skin_header_end buf ->
    exists e st',
      InternReadFile buf parse skip lookup normalize (State scene []) = Throw e st' /\
      kind_of e = TruncatedInput.

(** The events that the loads of the header of a skin chunk at [c]
    leave in the trace: loads of four bytes inside the 24 bytes behind
    [c], and no size test. *)
Definition skin_header_loads (c : Z) (evs : list event) : Prop :=
  Forall (fun ev => exists off, ev = EvRead off 4 /\ c <= off /\ off + 4 <= c + 24) evs.

(** * Properties *)

(** ** Machine integers *)

Lemma wrap32_small z : 0 <= z < 2 ^ 32 -> Word.wrap32 z = z.
Proof. intros H. unfold Word.wrap32. now apply Z.mod_small. Qed.

Lemma wrap64_small z : 0 <= z < 2 ^ 64 -> Word.wrap64 z = z.
Proof. intros H. unfold Word.wrap64. now apply Z.mod_small. Qed.

Lemma wrap32_range z : 0 <= Word.wrap32 z < 2 ^ 32.
Proof. unfold Word.wrap32. apply Z.mod_pos_bound. lia. Qed.

(** ** Rounding never exceeds a power of two above the exact value *)

Lemma loc_of_shr_record_exact r :
  loc_of_shr_record r = loc_Exact <-> inexact r = false.
Proof. destruct r as [m [] []]; cbn; split; congruence. Qed.

Lemma shr_1_spec r :
  0 <= shr_m r ->
  0 <= shr_m (shr_1 r) /\ shr_m (shr_1 r) * 2 <= shr_m r /\
  (inexact (shr_1 r) = true -> inexact r = true \/ shr_m (shr_1 r) * 2 < shr_m r).
Proof.
  destruct r as [m r s]. cbn [shr_m]. intros Hm.
  destruct m as [|[p|p|]|p]; cbn; try lia; unfold inexact; cbn;
    repeat split; try lia; destruct r, s; cbn; intros; auto; try lia; try discriminate.
Qed.

Lemma iter_pos_shr_1 p : forall r,
  0 <= shr_m r ->
  let r' := SpecFloat.iter_pos shr_1 p r in
  0 <= shr_m r' /\ shr_m r' * 2 ^ Zpos p <= shr_m r /\
  (inexact r' = true -> inexact r = true \/ shr_m r' * 2 ^ Zpos p < shr_m r).
Proof.
  induction p as [p IH|p IH|]; intros r Hr; cbn [SpecFloat.iter_pos].
  - destruct (shr_1_spec r Hr) as (H0 & H1 & H2).
    destruct (IH _ H0) as (H3 & H4 & H5).
    destruct (IH _ H3) as (H6 & H7 & H8).
    set (a := shr_1 r) in *. set (b := SpecFloat.iter_pos shr_1 p a) in *.
    set (c := SpecFloat.iter_pos shr_1 p b) in *. cbv zeta.
    replace (2 ^ Zpos p~1) with (2 ^ Zpos p * 2 ^ Zpos p * 2)
      by (replace (Zpos p~1) with (Zpos p + Zpos p + 1) by lia;
          rewrite !Z.pow_add_r by lia; reflexivity).
    assert (0 < 2 ^ Zpos p) by (apply Z.pow_pos_nonneg; lia).
    split; [lia|]. split; [nia|].
    intros Hc. destruct (H8 Hc) as [Hb|Hb].
    + destruct (H5 Hb) as [Ha|Ha].
      * destruct (H2 Ha) as [?|?]; [now left|right; nia].
      * right; nia.
    + right; nia.
  - destruct (IH _ Hr) as (H3 & H4 & H5).
    destruct (IH _ H3) as (H6 & H7 & H8).
    set (b := SpecFloat.iter_pos shr_1 p r) in *.
    set (c := SpecFloat.iter_pos shr_1 p b) in *. cbv zeta.
    replace (2 ^ Zpos p~0) with (2 ^ Zpos p * 2 ^ Zpos p)
      by (replace (Zpos p~0) with (Zpos p + Zpos p) by lia;
          rewrite Z.pow_add_r by lia; reflexivity).
    assert (0 < 2 ^ Zpos p) by (apply Z.pow_pos_nonneg; lia).
    split; [lia|]. split; [nia|].
    intros Hc. destruct (H8 Hc) as [Hb|Hb].
    + destruct (H5 Hb) as [Ha|Ha]; [now left|right; nia].
    + right; nia.
  - cbv zeta. rewrite Z.pow_1_r. apply shr_1_spec; assumption.
Qed.

Lemma sc_pos e : -400 <= e -> 0 < sc e.
Proof. intros. unfold sc. apply Z.pow_pos_nonneg; lia. Qed.

Lemma sc_add e n : -400 <= e -> 0 <= n -> sc (e + n) = sc e * 2 ^ n.
Proof. intros. unfold sc. rewrite <- Z.pow_add_r by lia. f_equal. lia. Qed.

Lemma sc_le a b : -400 <= a -> -400 <= b -> sc a <= sc b -> a <= b.
Proof.
  intros Ha Hb H. unfold sc in H.
  apply Z.pow_le_mono_r_iff in H; lia.
Qed.

Lemma sc_mono a b : -400 <= a -> a <= b -> sc a <= sc b.
Proof. intros. unfold sc. apply Z.pow_le_mono_r; lia. Qed.

Lemma digits2_pos_bounds p :
  2 ^ (Zpos (digits2_pos p) - 1) <= Zpos p < 2 ^ Zpos (digits2_pos p).
Proof.
  induction p as [p IH|p IH|]; cbn [digits2_pos].
  - rewrite Pos2Z.inj_succ.
    replace (Z.succ (Zpos (digits2_pos p)) - 1) with (Zpos (digits2_pos p) - 1 + 1) by lia.
    rewrite Z.pow_succ_r, Z.pow_add_r by lia. lia.
  - rewrite Pos2Z.inj_succ.
    replace (Z.succ (Zpos (digits2_pos p)) - 1) with (Zpos (digits2_pos p) - 1 + 1) by lia.
    rewrite Z.pow_succ_r, Z.pow_add_r by lia. lia.
  - cbn. lia.
Qed.

Lemma shr_spec r e n :
  0 <= shr_m r -> -400 <= e ->
  0 <= shr_m (fst (shr r e n)) /\
  snd (shr r e n) = e + Z.max n 0 /\
  shr_m (fst (shr r e n)) * sc (snd (shr r e n)) <= shr_m r * sc e /\
  (inexact (fst (shr r e n)) = true ->
   inexact r = true \/ shr_m (fst (shr r e n)) * sc (snd (shr r e n)) < shr_m r * sc e).
Proof.
  intros Hm He. destruct n as [|p|p]; cbn [shr fst snd].
  - rewrite Z.add_0_r. repeat split; auto; lia.
  - destruct (iter_pos_shr_1 p r Hm) as (H0 & H1 & H2).
    set (r' := SpecFloat.iter_pos shr_1 p r) in *.
    rewrite sc_add by lia. pose proof (sc_pos e He).
    split; [assumption|]. split; [lia|]. split; [nia|].
    intros Hi. destruct (H2 Hi) as [?|?]; [now left|right; nia].
  - rewrite Z.add_0_r. replace (e + Z.neg p) with (e + Z.neg p) by lia.
    repeat split; auto; try lia.
Qed.

Lemma inexact_of_loc m l :
  inexact (shr_record_of_loc m l) = true <-> l <> loc_Exact.
Proof. destruct l as [|[]]; cbn; split; intros; congruence. Qed.

Lemma shr_m_of_loc m l : shr_m (shr_record_of_loc m l) = m.
Proof. now destruct l as [|[]]. Qed.

Lemma round_nearest_even_bounds r :
  shr_m r <= round_nearest_even (shr_m r) (loc_of_shr_record r) <= shr_m r + 1 /\
  (inexact r = false -> round_nearest_even (shr_m r) (loc_of_shr_record r) = shr_m r).
Proof.
  destruct r as [m [] []]; cbn; try destruct (Z.even m); repeat split; intros; try lia; try discriminate.
Qed.

Lemma Zdigits2_le m e j :
  0 <= m -> -400 <= e -> -400 <= j -> e <= j -> m * sc e <= sc j ->
  Zdigits2 m + e - F32.prec <= j.
Proof.
  intros Hm He Hj Hej H. unfold F32.prec. destruct m as [|p|p]; cbn [Zdigits2]; try lia.
  pose proof (digits2_pos_bounds p) as [Hd _].
  assert (Hs : sc (Zpos (digits2_pos p) - 1 + e) <= sc j).
  { rewrite Z.add_comm, sc_add by lia. pose proof (sc_pos e He). nia. }
  apply sc_le in Hs; lia.
Qed.

Lemma binary_round_aux_le s m e l j :
  0 <= m -> -400 <= e -> e <= j -> -149 <= j <= 104 ->
  m * sc e <= sc j -> (l <> loc_Exact -> m * sc e < sc j) ->
  binary_round_aux F32.prec F32.emax s m e l = S754_zero s \/
  exists m' e', binary_round_aux F32.prec F32.emax s m e l = S754_finite s m' e' /\
                e <= e' /\ Zpos m' * sc e' <= sc j.
Proof.
  intros Hm He Hej Hj Hle Hlt. unfold binary_round_aux, shr_fexp.
  set (n1 := fexp F32.prec F32.emax (Zdigits2 m + e) - e).
  pose proof (shr_spec (shr_record_of_loc m l) e n1) as H1.
  rewrite shr_m_of_loc in H1. specialize (H1 Hm He).
  destruct (shr (shr_record_of_loc m l) e n1) as [r1 e1]. cbn [fst snd] in H1.
  destruct H1 as (Hm1 & He1 & Hv1 & Hi1).
  assert (He1j : e1 <= j).
  { pose proof (Zdigits2_le m e j Hm He ltac:(lia) Hej Hle).
    subst e1 n1. unfold fexp, emin, F32.prec, F32.emax in *. lia. }
  assert (He1' : -400 <= e1) by lia.
  pose proof (round_nearest_even_bounds r1) as [Hr Hrex].
  set (m2 := round_nearest_even (shr_m r1) (loc_of_shr_record r1)) in *.
  assert (Hm2 : m2 * sc e1 <= sc j).
  { destruct (inexact r1) eqn:Hin.
    - assert (Hs : shr_m r1 * sc e1 < sc j).
      { destruct (Hi1 eq_refl) as [Hl|Hl]; [|lia].
        apply inexact_of_loc in Hl. specialize (Hlt Hl). lia. }
      replace j with (e1 + (j - e1)) in Hs |- * by lia.
      rewrite sc_add in Hs |- * by lia.
      pose proof (sc_pos e1 He1').
      assert (shr_m r1 < 2 ^ (j - e1)) by nia. nia.
    - rewrite (Hrex eq_refl). lia. }
  set (n2 := fexp F32.prec F32.emax (Zdigits2 m2 + e1) - e1).
  pose proof (shr_spec (shr_record_of_loc m2 loc_Exact) e1 n2) as H2.
  rewrite shr_m_of_loc in H2. specialize (H2 ltac:(lia) He1').
  destruct (shr (shr_record_of_loc m2 loc_Exact) e1 n2) as [r3 e3]. cbn [fst snd] in H2.
  destruct H2 as (Hm3 & He3 & Hv3 & _).
  destruct (shr_m r3) as [|p|p] eqn:Hr3; [now left| |lia].
  right. assert (-400 <= e3) by lia.
  assert (He3j : e3 <= j).
  { apply sc_le; try lia. pose proof (sc_pos e3 ltac:(lia)). nia. }
  exists p, e3. unfold F32.emax, F32.prec.
  replace (e3 <=? 128 - 24) with true by (symmetry; apply Z.leb_le; lia).
  repeat split; try lia.
Qed.

Lemma new_location_exact nb k : new_location nb k <> loc_Exact -> k <> 0.
Proof.
  unfold new_location, new_location_even, new_location_odd.
  intros H ->. destruct (Z.even nb); cbn in H; congruence.
Qed.

Lemma SFdiv_le mn en mx ex :
  -296 <= en -> Zpos mn * sc en <= sc 31 ->
  2 ^ 23 <= Zpos mx -> -23 <= ex <= 104 ->
  SFdiv F32.prec F32.emax (S754_finite false mn en) (S754_finite false mx ex) = S754_zero false \/
  exists m' e',
    SFdiv F32.prec F32.emax (S754_finite false mn en) (S754_finite false mx ex) = S754_finite false m' e' /\
    -400 <= e' /\ Zpos m' * sc e' <= sc (8 - ex).
Proof.
  intros Hen Hn Hx Hex. cbn [SFdiv xorb]. unfold SFdiv_core_binary.
  set (e' := Z.min (fexp F32.prec F32.emax (Zdigits2 (Zpos mn) + en - (Zdigits2 (Zpos mx) + ex))) (en - ex)).
  set (s := en - ex - e').
  set (m' := match s with Z.pos _ => Z.shiftl (Zpos mn) s | 0 => Zpos mn | Z.neg _ => 0 end).
  assert (Hs : 0 <= s) by (subst s e'; lia).
  assert (Hm' : m' = Zpos mn * 2 ^ s).
  { subst m'. clearbody s. destruct s as [|p|p]; [rewrite Z.pow_0_r; lia| |lia].
    apply Z.shiftl_mul_pow2. lia. }
  pose proof (Z_div_mod m' (Zpos mx) ltac:(lia)) as Hdiv.
  destruct (Z.div_eucl m' (Zpos mx)) as [q r]. destruct Hdiv as [Hqr Hr].
  assert (H2s : 0 < 2 ^ s) by (apply Z.pow_pos_nonneg; lia).
  assert (Hq : 0 <= q) by nia.
  assert (He'lo : -400 <= e').
  { subst e'. unfold fexp, emin, F32.prec, F32.emax. lia. }
  assert (Hd1 : Zdigits2 (Zpos mn) + en - F32.prec <= 31).
  { assert (en <= 31).
    { apply sc_le; try lia. pose proof (sc_pos en ltac:(lia)). nia. }
    apply Zdigits2_le; try lia. }
  assert (Hd2 : 24 <= Zdigits2 (Zpos mx)).
  { cbn [Zdigits2]. pose proof (digits2_pos_bounds mx) as [_ Hlt].
    assert (2 ^ 23 < 2 ^ Zpos (digits2_pos mx)) by lia.
    apply Z.pow_lt_mono_r_iff in H; lia. }
  assert (He'j : e' <= 8 - ex).
  { subst e'. unfold fexp, emin, F32.prec, F32.emax in *. lia. }
  (* the scaled value of the quotient *)
  assert (Hsc : sc en * 2 ^ 23 = sc e' * 2 ^ s * 2 ^ (ex + 23)).
  { unfold sc. rewrite <- !Z.pow_add_r by lia. f_equal. subst s. lia. }
  assert (Hsc31 : sc 31 = sc (8 - ex) * 2 ^ (ex + 23)).
  { unfold sc. rewrite <- Z.pow_add_r by lia. f_equal. lia. }
  assert (H2k : 0 < 2 ^ (ex + 23)) by (apply Z.pow_pos_nonneg; lia).
  pose proof (sc_pos e' He'lo) as Hpe'.
  assert (Hq23 : q * 2 ^ 23 <= Zpos mn * 2 ^ s) by nia.
  assert (Hchain : q * sc e' * 2 ^ 23 * 2 ^ (ex + 23) <= Zpos mn * sc en * 2 ^ 23).
  { replace (Zpos mn * sc en * 2 ^ 23) with (Zpos mn * (sc en * 2 ^ 23)) by ring.
    rewrite Hsc.
    replace (Z.pos mn * (sc e' * 2 ^ s * 2 ^ (ex + 23)))
      with ((Zpos mn * 2 ^ s) * (sc e' * 2 ^ (ex + 23))) by ring.
    replace (q * sc e' * 2 ^ 23 * 2 ^ (ex + 23))
      with ((q * 2 ^ 23) * (sc e' * 2 ^ (ex + 23))) by ring.
    apply Z.mul_le_mono_nonneg_r; [nia|assumption]. }
  assert (Hle : q * sc e' <= sc (8 - ex)).
  { assert (q * sc e' * 2 ^ (ex + 23) <= sc (8 - ex) * 2 ^ (ex + 23)) by (rewrite <- Hsc31; nia).
    nia. }
  enough (Hgoal : binary_round_aux F32.prec F32.emax false q e' (new_location (Zpos mx) r) = S754_zero false \/
    exists m'0 e'0, binary_round_aux F32.prec F32.emax false q e' (new_location (Zpos mx) r) = S754_finite false m'0 e'0 /\
      e' <= e'0 /\ Zpos m'0 * sc e'0 <= sc (8 - ex)).
  { destruct Hgoal as [?|(a & b & ? & ? & ?)]; [now left|right; exists a, b; repeat split; auto; lia]. }
  apply binary_round_aux_le; try lia.
  intros Hl. apply new_location_exact in Hl.
  assert (Hq23' : q * 2 ^ 23 < Zpos mn * 2 ^ s) by nia.
  assert (q * sc e' * 2 ^ 23 * 2 ^ (ex + 23) < Zpos mn * sc en * 2 ^ 23).
  { replace (Zpos mn * sc en * 2 ^ 23) with (Zpos mn * (sc en * 2 ^ 23)) by ring.
    rewrite Hsc.
    replace (Z.pos mn * (sc e' * 2 ^ s * 2 ^ (ex + 23)))
      with ((Zpos mn * 2 ^ s) * (sc e' * 2 ^ (ex + 23))) by ring.
    replace (q * sc e' * 2 ^ 23 * 2 ^ (ex + 23))
      with ((q * 2 ^ 23) * (sc e' * 2 ^ (ex + 23))) by ring.
    apply Z.mul_lt_mono_pos_r; [nia|assumption]. }
  assert (q * sc e' * 2 ^ (ex + 23) < sc (8 - ex) * 2 ^ (ex + 23)) by (rewrite <- Hsc31; nia).
  nia.
Qed.


Lemma iter_xO d : forall m, Zpos (Pos.iter xO m d) = Zpos m * 2 ^ Zpos d.
Proof.
  induction d as [|d IH] using Pos.peano_ind; intros m.
  - cbn. lia.
  - rewrite Pos.iter_succ, Pos2Z.inj_xO, IH, Pos2Z.inj_succ, Z.pow_succ_r by lia. ring.
Qed.

Lemma shl_align_spec mx ex ex' :
  -400 <= ex -> -400 <= ex' ->
  let '(mz, ez) := shl_align mx ex ex' in
  Z.min ex ex' <= ez <= ex /\ Zpos mz * sc ez = Zpos mx * sc ex.
Proof.
  intros Hex Hex'. unfold shl_align.
  destruct (ex' - ex) as [|d|d] eqn:E; try (split; lia).
  rewrite iter_xO. split; [lia|].
  replace ex with (ex' + Zpos d) by lia. rewrite sc_add by lia. ring.
Qed.

Lemma shr_nonneg r e n : 0 <= shr_m r -> 0 <= shr_m (fst (shr r e n)).
Proof.
  intros Hm. destruct n as [|p|p]; cbn [shr fst]; try assumption.
  now destruct (iter_pos_shr_1 p r Hm).
Qed.

Lemma binary_round_aux_signed s m e l :
  0 <= m ->
  match binary_round_aux F32.prec F32.emax s m e l with
  | S754_zero s' | S754_infinity s' | S754_finite s' _ _ => s' = s
  | S754_nan => False
  end.
Proof.
  intros Hm. unfold binary_round_aux, shr_fexp.
  set (n1 := fexp F32.prec F32.emax (Zdigits2 m + e) - e).
  pose proof (shr_nonneg (shr_record_of_loc m l) e n1) as H1.
  rewrite shr_m_of_loc in H1. specialize (H1 Hm).
  destruct (shr (shr_record_of_loc m l) e n1) as [r1 e1]. cbn [fst] in H1.
  pose proof (round_nearest_even_bounds r1) as [Hr _].
  set (m2 := round_nearest_even (shr_m r1) (loc_of_shr_record r1)) in *.
  set (n2 := fexp F32.prec F32.emax (Zdigits2 m2 + e1) - e1).
  pose proof (shr_nonneg (shr_record_of_loc m2 loc_Exact) e1 n2) as H2.
  rewrite shr_m_of_loc in H2. specialize (H2 ltac:(lia)).
  destruct (shr (shr_record_of_loc m2 loc_Exact) e1 n2) as [r3 e3]. cbn [fst] in H2.
  destruct (shr_m r3) as [|p|p]; [reflexivity| |lia].
  destruct (e3 <=? F32.emax - F32.prec); reflexivity.
Qed.

(** ** Conversions and comparisons of binary32 values *)

Lemma of_int_nonpositive n : n <= 0 -> nonpositive (F32.of_int n).
Proof.
  intros Hn. destruct n as [|p|p]; [exact I|lia|].
  unfold F32.of_int, binary_normalize, binary_round.
  destruct (shl_align p 0 _) as [mz ez].
  pose proof (binary_round_aux_signed true (Zpos mz) ez loc_Exact ltac:(lia)) as H.
  destruct (binary_round_aux _ _ _ _ _ _) as [s|s| |s m e]; cbn; try subst s; auto.
Qed.

Lemma div_nonpositive x mx ex :
  nonpositive x -> nonpositive (F32.div x (S754_finite false mx ex)).
Proof.
  destruct x as [s|[]| |[] m e]; cbn; try tauto; intros _.
  unfold SFdiv_core_binary.
  set (e' := Z.min _ _). set (m' := match _ with Z.pos _ => _ | 0 => _ | Z.neg _ => _ end).
  assert (Hm' : 0 <= m').
  { subst m'. destruct (e - ex - e') as [|q|q]; try lia. apply Z.shiftl_nonneg. lia. }
  pose proof (Z_div_mod m' (Zpos mx) ltac:(lia)) as Hdiv.
  destruct (Z.div_eucl m' (Zpos mx)) as [q r]. destruct Hdiv as [Hqr Hr].
  assert (Hq : 0 <= q) by nia.
  pose proof (binary_round_aux_signed true q e' (new_location (Zpos mx) r) Hq) as H.
  destruct (binary_round_aux _ _ _ _ _ _) as [s|s| |s m0 e0]; cbn; try subst s; auto.
Qed.

Lemma ltb_nonpositive x : nonpositive x -> F32.ltb x F32.one = true.
Proof.
  destruct x as [s|[]| |[] m e]; intros H; try (exfalso; exact H); reflexivity.
Qed.

Lemma of_int_le n :
  0 < n <= 2 ^ 31 ->
  F32.of_int n = S754_zero false \/
  exists m e, F32.of_int n = S754_finite false m e /\ -149 <= e /\ Zpos m * sc e <= sc 31.
Proof.
  intros Hn. destruct n as [|p|p]; try lia.
  unfold F32.of_int, binary_normalize, binary_round.
  set (ex' := fexp F32.prec F32.emax (Zpos (digits2_pos p) + 0)).
  assert (Hex' : -149 <= ex') by (subst ex'; unfold fexp, emin, F32.prec, F32.emax; lia).
  pose proof (shl_align_spec p 0 ex' ltac:(lia) ltac:(lia)) as Hal.
  destruct (shl_align p 0 ex') as [mz ez]. destruct Hal as [Hez Hval].
  assert (Hsc : Zpos p * sc 0 <= sc 31).
  { unfold sc. cbn [Z.add]. replace (2 ^ Zpos 431) with (2 ^ 31 * 2 ^ 400)
      by (rewrite <- Z.pow_add_r by lia; reflexivity).
    assert (0 < 2 ^ 400) by (apply Z.pow_pos_nonneg; lia). cbn [Z.add]. nia. }
  destruct (binary_round_aux_le false (Zpos mz) ez loc_Exact 31) as [H|(m & e & H & He & Hv)];
    try lia; try congruence.
  - now left.
  - right. exists m, e. repeat split; auto; lia.
Qed.

Lemma of_bits_finite w s m e :
  F32.of_bits w = S754_finite s m e ->
  Zpos m < 2 ^ 24 /\ -149 <= e <= 104 /\ (e = -149 \/ 2 ^ 23 <= Zpos m).
Proof.
  unfold F32.of_bits.
  pose proof (Z.mod_pos_bound (w / 2 ^ 23) (2 ^ 8) ltac:(lia)) as He.
  pose proof (Z.mod_pos_bound w (2 ^ 23) ltac:(lia)) as Hf.
  set (e0 := (w / 2 ^ 23) mod 2 ^ 8) in *. set (f := w mod 2 ^ 23) in *.
  destruct (e0 =? 0) eqn:E0.
  - destruct f as [|p|p] eqn:Ef; try discriminate.
    intros [= _ <- <-]. lia.
  - destruct (e0 =? 255) eqn:E1.
    + destruct (f =? 0); discriminate.
    + apply Z.eqb_neq in E0, E1.
      destruct (f + 2 ^ 23) as [|p|p] eqn:Ef; try discriminate.
      intros [= _ <- <-]. lia.
Qed.

Lemma not_below_one w :
  F32.isfinite (F32.of_bits w) = true -> F32.ltb (F32.of_bits w) F32.one = false ->
  exists m e, F32.of_bits w = S754_finite false m e /\
              2 ^ 23 <= Zpos m < 2 ^ 24 /\ -23 <= e <= 104.
Proof.
  intros Hfin Hlt. destruct (F32.of_bits w) as [s|s| |s m e] eqn:E; try discriminate.
  apply of_bits_finite in E. destruct s; [discriminate|].
  exists m, e. split; [reflexivity|].
  unfold F32.ltb, SFltb, SFcompare, F32.one in Hlt.
  destruct (e ?= -23) eqn:Hc; cbv beta iota in Hlt; try discriminate.
  - apply Z.compare_eq in Hc. lia.
  - apply Z.compare_gt_iff in Hc. lia.
Qed.

Lemma trunc_normal m e :
  2 ^ 23 <= Zpos m < 2 ^ 24 -> -23 <= e ->
  exists w, F32.trunc (S754_finite false m e) = Some w /\ 0 <= w < 2 ^ (e + 24).
Proof.
  intros Hm He. cbn [F32.trunc]. eexists. split; [reflexivity|].
  destruct (Z.leb_spec 0 e).
  - rewrite Z.shiftl_mul_pow2 by lia. rewrite Z.pow_add_r by lia.
    assert (0 < 2 ^ e) by (apply Z.pow_pos_nonneg; lia). nia.
  - rewrite Z.shiftr_div_pow2 by lia.
    assert (0 < 2 ^ (- e)) by (apply Z.pow_pos_nonneg; lia).
    split; [apply Z.div_pos; lia|].
    apply Z.div_lt_upper_bound; [lia|].
    replace (2 ^ (- e) * 2 ^ (e + 24)) with (2 ^ 24)
      by (rewrite <- Z.pow_add_r by lia; f_equal; lia).
    lia.
Qed.

Lemma trunc_le m e j :
  -400 <= e -> -400 <= j -> Zpos m * sc e <= sc j ->
  exists z, F32.trunc (S754_finite false m e) = Some z /\ 0 <= z /\
            (0 <= j -> z <= 2 ^ j) /\ (j < 0 -> z = 0).
Proof.
  intros He Hj Hv. cbn [F32.trunc]. eexists. split; [reflexivity|].
  assert (Hej : e <= j).
  { apply sc_le; try lia. pose proof (sc_pos e He). nia. }
  replace j with (e + (j - e)) in Hv by lia. rewrite sc_add in Hv by lia.
  pose proof (sc_pos e He).
  assert (Hm : Zpos m <= 2 ^ (j - e)) by nia.
  destruct (Z.leb_spec 0 e).
  - rewrite Z.shiftl_mul_pow2 by lia.
    assert (0 < 2 ^ e) by (apply Z.pow_pos_nonneg; lia).
    split; [nia|]. split; [|lia].
    intros _. replace j with ((j - e) + e) at 1 by lia.
    rewrite Z.pow_add_r by lia. nia.
  - rewrite Z.shiftr_div_pow2 by lia.
    assert (0 < 2 ^ (- e)) by (apply Z.pow_pos_nonneg; lia).
    split; [apply Z.div_pos; lia|]. split.
    + intros H0j. apply Z.div_le_upper_bound; [lia|].
      replace (2 ^ (- e) * 2 ^ j) with (2 ^ (j - e))
        by (rewrite <- Z.pow_add_r by lia; f_equal; lia).
      assumption.
    + intros Hj0. apply Z.div_small. split; [lia|].
      assert (2 ^ (j - e) < 2 ^ (- e)) by (apply Z.pow_lt_mono_r; lia). lia.
Qed.

(** The grid a validated header describes is small: the product of
    its width and height does not exceed [2 ^ 32]. *)
Lemma grid_small w nv wd ht :
  - 2 ^ 31 <= nv < 2 ^ 31 ->
  F32.isfinite (F32.of_bits w) = true ->
  F32.ltb (F32.of_bits w) F32.one = false ->
  F32.ltb (F32.div (F32.of_int nv) (F32.of_bits w)) F32.one = false ->
  F32.to_uint (F32.div (F32.of_int nv) (F32.of_bits w)) = Some ht ->
  F32.to_uint (F32.of_bits w) = Some wd ->
  0 <= wd /\ 0 <= ht /\ wd * ht <= 2 ^ 32 /\ 0 < nv.
Proof.
  intros Hnv Hfin Hx Hq Hht Hwd.
  destruct (not_below_one w Hfin Hx) as (mx & ex & Efx & Hmx & Hex).
  rewrite Efx in *.
  assert (Hpos : 0 < nv).
  { destruct (Z.lt_ge_cases 0 nv) as [?|Hle]; [assumption|].
    pose proof (ltb_nonpositive _ (div_nonpositive _ mx ex (of_int_nonpositive nv Hle))).
    congruence. }
  (* the width *)
  destruct (trunc_normal mx ex Hmx ltac:(lia)) as (wd' & Etw & Hwd').
  unfold F32.to_uint in Hwd. rewrite Etw in Hwd.
  destruct ((0 <=? wd') && (wd' <? 2 ^ 32)); [|discriminate].
  injection Hwd as <-.
  (* the height *)
  assert (Hzero : F32.ltb (S754_zero false) F32.one = true) by reflexivity.
  destruct (of_int_le nv ltac:(lia)) as [En|(mn & en & En & Hen & Hvn)].
  { rewrite En in Hq. cbn in Hq. discriminate. }
  rewrite En in *.
  destruct (SFdiv_le mn en mx ex ltac:(lia) Hvn ltac:(lia) Hex)
    as [Ed|(mq & eq & Ed & Heq & Hvq)].
  { unfold F32.div in Hq. rewrite Ed in Hq. discriminate. }
  unfold F32.div in Hht. rewrite Ed in Hht.
  destruct (trunc_le mq eq (8 - ex) Heq ltac:(lia) Hvq) as (ht' & Eth & Hht0 & Hhtle & Hhtz).
  unfold F32.to_uint in Hht. rewrite Eth in Hht.
  destruct ((0 <=? ht') && (ht' <? 2 ^ 32)); [|discriminate].
  injection Hht as <-.
  repeat split; try lia.
  destruct (Z.lt_ge_cases (8 - ex) 0) as [Hneg|Hnn].
  - rewrite (Hhtz Hneg). lia.
  - specialize (Hhtle Hnn).
    assert (wd' * ht' <= 2 ^ (ex + 24) * 2 ^ (8 - ex)).
    { assert (0 < 2 ^ (8 - ex)) by (apply Z.pow_pos_nonneg; lia). nia. }
    replace (2 ^ (ex + 24) * 2 ^ (8 - ex)) with (2 ^ 32) in *
      by (rewrite <- Z.pow_add_r by lia; f_equal; lia).
    assumption.
Qed.

(** ** The monad and its loops *)

Lemma bind_Ok {A B} (c : M A) (f : A -> M B) st a st' :
  c st = Ok a st' -> bind c f st = f a st'.
Proof. intros H. unfold bind. now rewrite H. Qed.

Lemma bind_Throw {A B} (c : M A) (f : A -> M B) st e st' :
  c st = Throw e st' -> bind c f st = Throw e st'.
Proof. intros H. unfold bind. now rewrite H. Qed.

Lemma bind_Undefined {A B} (c : M A) (f : A -> M B) st u st' :
  c st = Undefined u st' -> bind c f st = Undefined u st'.
Proof. intros H. unfold bind. now rewrite H. Qed.

Lemma hoare_ret {A} (a : A) (Q : A -> state -> Prop) X :
  hoare (Q a) (ret a) Q X.
Proof. intros st H. exact H. Qed.

Lemma hoare_bind {A B} (c : M A) (f : A -> M B) P Q R X :
  hoare P c Q X -> (forall a, hoare (Q a) (f a) R X) -> hoare P (bind c f) R X.
Proof.
  intros Hc Hf st HP. specialize (Hc st HP). unfold bind.
  destruct (c st) as [a st'|e st'|u st']; auto. now apply Hf.
Qed.

Lemma hoare_conseq {A} (c : M A) (P P' : state -> Prop) (Q Q' : A -> state -> Prop)
    (X X' : abort -> state -> Prop) :
  hoare P' c Q' X' ->
  (forall st, P st -> P' st) -> (forall a st, Q' a st -> Q a st) ->
  (forall a st, X' a st -> X a st) ->
  hoare P c Q X.
Proof.
  intros H HP HQ HX st Hst. specialize (H st (HP st Hst)).
  destruct (c st); auto.
Qed.

Lemma hoare_pre {A} (c : M A) (P P' : state -> Prop) Q X :
  hoare P' c Q X -> (forall st, P st -> P' st) -> hoare P c Q X.
Proof. intros H HP. eapply hoare_conseq; eauto. Qed.

Lemma hoare_throw {A} e (P : state -> Prop) (Q : A -> state -> Prop) (X : abort -> state -> Prop) :
  (forall st, P st -> X (Thrown e) st) -> hoare P (throw e) Q X.
Proof. intros H st HP. now apply H. Qed.

Lemma hoare_undefined {A} u (P : state -> Prop) (Q : A -> state -> Prop) (X : abort -> state -> Prop) :
  (forall st, P st -> X (Undef u) st) -> hoare P (undefined u) Q X.
Proof. intros H st HP. now apply H. Qed.

Lemma hoare_assume {A} (c : M A) (P : state -> Prop) (F : Prop) Q X :
  (F -> hoare P c Q X) -> hoare (fun st => F /\ P st) c Q X.
Proof. intros H st [HF HP]. now apply H. Qed.

(** A loop keeps an invariant that each turn keeps. *)
Lemma hoare_for_loop {St} (body : Z -> St -> M St) (I : Z -> St -> state -> Prop) X n :
  forall i0 s0,
  (forall i s, i0 <= i < i0 + Z.of_nat n -> hoare (I i s) (body i s) (I (i + 1)) X) ->
  hoare (I i0 s0) (for_loop n i0 body s0) (I (i0 + Z.of_nat n)) X.
Proof.
  induction n as [|n IH]; intros i0 s0 Hbody.
  - cbn [for_loop]. rewrite Z.add_0_r. apply hoare_ret.
  - cbn [for_loop]. eapply hoare_bind.
    + apply Hbody. lia.
    + intros s1. replace (i0 + Z.of_nat (S n)) with (i0 + 1 + Z.of_nat n) by lia.
      apply IH. intros i s Hi. apply Hbody. lia.
Qed.

Lemma bind_assoc {A B C} (c : M A) (f : A -> M B) (g : B -> M C) st :
  bind (bind c f) g st = bind c (fun a => bind (f a) g) st.
Proof. unfold bind. destruct (c st); reflexivity. Qed.

Lemma for_loop_snoc {St} (body : Z -> St -> M St) n : forall i s st,
  for_loop (S n) i body s st =
  bind (for_loop n i body s) (body (i + Z.of_nat n)) st.
Proof.
  induction n as [|n IH]; intros i s st.
  - cbn [for_loop]. unfold bind, ret. rewrite Z.add_0_r.
    destruct (body i s st); reflexivity.
  - change (for_loop (S (S n)) i body s)
      with (bind (body i s) (fun s' => for_loop (S n) (i + 1) body s')).
    change (for_loop (S n) i body s)
      with (bind (body i s) (fun s' => for_loop n (i + 1) body s')).
    rewrite bind_assoc.
    destruct (body i s st) as [s1 st1|e st1|u st1] eqn:E.
    + rewrite !(bind_Ok _ _ _ _ _ E), IH.
      replace (i + 1 + Z.of_nat n) with (i + Z.of_nat (S n)) by lia. reflexivity.
    + now rewrite !(bind_Throw _ _ _ _ _ E).
    + now rewrite !(bind_Undefined _ _ _ _ _ E).
Qed.

(** A loop whose body returns its state unchanged does nothing. *)
Lemma for_loop_skip {St} (body : Z -> St -> M St) n : forall i s st,
  (forall j s' st', body j s' st' = Ok s' st') ->
  for_loop n i body s st = Ok s st.
Proof.
  induction n as [|n IH]; intros i s st Hb; cbn [for_loop]; [reflexivity|].
  unfold bind. rewrite Hb. now apply IH.
Qed.

(** ** Loads from the buffer *)

Lemma byte_at_Some buf off b :
  Buffer.byte_at buf off = Some b ->
  0 <= off < Z.of_nat (length buf) /\ 0 <= b < 2 ^ 8.
Proof.
  unfold Buffer.byte_at. destruct (Z.ltb_spec off 0); [discriminate|].
  destruct (buf !! Z.to_nat off) as [c|] eqn:E; [|discriminate].
  intros [= <-]. apply lookup_lt_Some in E.
  pose proof (Byte.to_N_bounded c). lia.
Qed.

Lemma byte_at_inside buf off :
  0 <= off < Z.of_nat (length buf) -> exists b, Buffer.byte_at buf off = Some b.
Proof.
  intros H. unfold Buffer.byte_at. destruct (Z.ltb_spec off 0); [lia|].
  destruct (lookup_lt_is_Some_2 buf (Z.to_nat off) ltac:(lia)) as [c ->]. eauto.
Qed.

Lemma u16_at_Some buf off v :
  Buffer.u16_at buf off = Some v ->
  0 <= off /\ off + 2 <= Z.of_nat (length buf) /\ 0 <= v < 2 ^ 16.
Proof.
  unfold Buffer.u16_at.
  destruct (Buffer.byte_at buf off) as [b0|] eqn:E0; [|discriminate].
  destruct (Buffer.byte_at buf (off + 1)) as [b1|] eqn:E1; [|discriminate].
  apply byte_at_Some in E0, E1. intros [= <-]. lia.
Qed.

Lemma u16_at_inside buf off :
  0 <= off -> off + 2 <= Z.of_nat (length buf) -> exists v, Buffer.u16_at buf off = Some v.
Proof.
  intros H0 H1. unfold Buffer.u16_at.
  destruct (byte_at_inside buf off ltac:(lia)) as [b0 ->].
  destruct (byte_at_inside buf (off + 1) ltac:(lia)) as [b1 ->]. eauto.
Qed.

Lemma u32_at_Some buf off v :
  Buffer.u32_at buf off = Some v ->
  0 <= off /\ off + 4 <= Z.of_nat (length buf) /\ 0 <= v < 2 ^ 32.
Proof.
  unfold Buffer.u32_at.
  destruct (Buffer.byte_at buf off) as [b0|] eqn:E0; [|discriminate].
  destruct (Buffer.byte_at buf (off + 1)) as [b1|] eqn:E1; [|discriminate].
  destruct (Buffer.byte_at buf (off + 2)) as [b2|] eqn:E2; [|discriminate].
  destruct (Buffer.byte_at buf (off + 3)) as [b3|] eqn:E3; [|discriminate].
  apply byte_at_Some in E0, E1, E2, E3. intros [= <-]. lia.
Qed.

Lemma u32_at_inside buf off :
  0 <= off -> off + 4 <= Z.of_nat (length buf) -> exists v, Buffer.u32_at buf off = Some v.
Proof.
  intros H0 H1. unfold Buffer.u32_at.
  destruct (byte_at_inside buf off ltac:(lia)) as [b0 ->].
  destruct (byte_at_inside buf (off + 1) ltac:(lia)) as [b1 ->].
  destruct (byte_at_inside buf (off + 2) ltac:(lia)) as [b2 ->].
  destruct (byte_at_inside buf (off + 3) ltac:(lia)) as [b3 ->]. eauto.
Qed.

Lemma load_Some {A} buf (rd : list byte -> Z -> option A) len off v st :
  rd buf off = Some v -> load buf rd len off st = Ok v (logged [EvRead off len] st).
Proof. intros H. unfold load. rewrite H. reflexivity. Qed.

Lemma load_None {A} buf (rd : list byte -> Z -> option A) len off st :
  rd buf off = None -> load buf rd len off st = Undefined ReadPastBuffer st.
Proof. intros H. unfold load. rewrite H. reflexivity. Qed.

Lemma read_u32_Some buf off v st :
  Buffer.u32_at buf off = Some v ->
  read_u32 buf off st = Ok v (logged [EvRead off 4] st).
Proof. apply load_Some. Qed.

(** ** The first skin's header (claim C7) *)

(** C7.  In [ReadFirstSkin], a type tag that reads as 0 makes the
    parser skip 8 bytes and read the tag once more; a second 0 raises
    "Unable to read HMP7 skin chunk" (UnreadableSkinChunk), for
    [ReadFirstSkin] as a whole too.  A non-zero tag, on the first read or on the
    retry, is followed by the reads of the 4-byte width and the
    4-byte height that lie behind it. *)
Theorem ReadFirstSkin_type_retry buf parse skip (szCursor iType : Z) (st : state) :
  Buffer.u32_at buf szCursor = Some iType ->
  (iType <> 0 ->
   forall iWidth iHeight,
     Buffer.u32_at buf (szCursor + 4) = Some iWidth ->
     Buffer.u32_at buf (szCursor + 8) = Some iHeight ->
     ReadFirstSkin_header buf szCursor st =
       Ok (iType, iWidth, iHeight, szCursor + 12)
          (logged [EvRead (szCursor + 8) 4; EvRead (szCursor + 4) 4; EvRead szCursor 4] st))
  /\
  (iType = 0 ->
   forall iType',
     Buffer.u32_at buf (szCursor + 12) = Some iType' ->
     (iType' = 0 ->
      let st' := logged [EvRead (szCursor + 12) 4; EvRead szCursor 4] st in
      ReadFirstSkin_header buf szCursor st = Throw Unable_to_read_skin_chunk st' /\
      (forall iNumSkins,
         ReadFirstSkin buf parse skip iNumSkins szCursor st =
           Throw Unable_to_read_skin_chunk st') /\
      kind_of Unable_to_read_skin_chunk = UnreadableSkinChunk)
     /\
     (iType' <> 0 ->
      forall iWidth iHeight,
        Buffer.u32_at buf (szCursor + 16) = Some iWidth ->
        Buffer.u32_at buf (szCursor + 20) = Some iHeight ->
        ReadFirstSkin_header buf szCursor st =
          Ok (iType', iWidth, iHeight, szCursor + 24)
             (logged [EvRead (szCursor + 20) 4; EvRead (szCursor + 16) 4;
                      EvRead (szCursor + 12) 4; EvRead szCursor 4] st))).
Proof.
  intros Ht. split.
  - intros Hnz iWidth iHeight Hw Hh. unfold ReadFirstSkin_header.
    rewrite (bind_Ok _ _ _ _ _ (read_u32_Some _ _ _ _ Ht)).
    apply Z.eqb_neq in Hnz. rewrite Hnz.
    unfold bind at 1. unfold ret at 1.
    rewrite (bind_Ok _ _ _ _ _ (read_u32_Some _ _ _ _ Hw)).
    replace (szCursor + 4 + 4) with (szCursor + 8) by lia.
    rewrite (bind_Ok _ _ _ _ _ (read_u32_Some _ _ _ _ Hh)).
    unfold ret, logged. cbn. do 2 f_equal. lia.
  - intros -> iType' Ht'. split.
    + intros ->. cbv zeta.
      assert (H : ReadFirstSkin_header buf szCursor st =
                  Throw Unable_to_read_skin_chunk
                    (logged [EvRead (szCursor + 12) 4; EvRead szCursor 4] st)).
      { unfold ReadFirstSkin_header.
        rewrite (bind_Ok _ _ _ _ _ (read_u32_Some _ _ _ _ Ht)).
        cbn [Z.eqb]. replace (szCursor + 4 + 4 * 2) with (szCursor + 12) by lia.
        unfold bind at 1. unfold bind at 1.
        rewrite (read_u32_Some _ _ _ _ Ht'). reflexivity. }
      repeat split; auto.
      intros n. unfold ReadFirstSkin. now rewrite (bind_Throw _ _ _ _ _ H).
    + intros Hnz iWidth iHeight Hw Hh. unfold ReadFirstSkin_header.
      rewrite (bind_Ok _ _ _ _ _ (read_u32_Some _ _ _ _ Ht)).
      cbn [Z.eqb]. replace (szCursor + 4 + 4 * 2) with (szCursor + 12) by lia.
      unfold bind at 1. unfold bind at 1.
      rewrite (read_u32_Some _ _ _ _ Ht').
      apply Z.eqb_neq in Hnz. rewrite Hnz. unfold ret at 1.
      replace (szCursor + 12 + 4) with (szCursor + 16) by lia.
      rewrite (bind_Ok _ _ _ _ _ (read_u32_Some _ _ _ _ Hw)).
      replace (szCursor + 16 + 4) with (szCursor + 20) by lia.
      rewrite (bind_Ok _ _ _ _ _ (read_u32_Some _ _ _ _ Hh)).
      unfold ret, logged. cbn. do 2 f_equal. lia.
Qed.

Lemma ReadFirstSkin_type_retry_witness :
  ReadFirstSkin_header Sample.double_header 84 Sample.st0 =
    Ok (7, 2, 2, 108)
       (logged [EvRead 104 4; EvRead 100 4; EvRead 96 4; EvRead 84 4] Sample.st0).
Proof.
  assert (H0 : Buffer.u32_at Sample.double_header 84 = Some 0)
    by (vm_compute; reflexivity).
  assert (H1 : Buffer.u32_at Sample.double_header (84 + 12) = Some 7)
    by (vm_compute; reflexivity).
  assert (H2 : Buffer.u32_at Sample.double_header (84 + 16) = Some 2)
    by (vm_compute; reflexivity).
  assert (H3 : Buffer.u32_at Sample.double_header (84 + 20) = Some 2)
    by (vm_compute; reflexivity).
  assert (H7 : 7 <> 0) by lia.
  exact (proj2 (proj2 (ReadFirstSkin_type_retry Sample.double_header
                         Sample.parse_lump Sample.skip_lump 84 0 Sample.st0 H0)
                  eq_refl 7 H1) H7 2 2 H2 H3).
Defined.

(** ** Header validation (claim C5) *)

Lemma SFcompare_antisym x y :
  SFcompare y x = match SFcompare x y with
                  | Some c => Some (CompOpp c)
                  | None => None
                  end.
Proof.
  destruct x as [sx|sx| |sx mx ex], y as [sy|sy| |sy my ey]; try reflexivity;
    try (destruct sx; reflexivity); try (destruct sy; reflexivity);
    try (destruct sx, sy; reflexivity).
  pose proof (Pos.compare_cont_antisym mx my Eq) as Hm. cbn [CompOpp] in Hm.
  cbn [SFcompare]. destruct sx, sy; try reflexivity.
  - rewrite (Z.compare_antisym ex ey).
    destruct (ex ?= ey); cbn [CompOpp]; try reflexivity.
    now rewrite <- Hm.
  - rewrite (Z.compare_antisym ex ey).
    destruct (ex ?= ey); cbn [CompOpp]; try reflexivity.
    now rewrite <- Hm.
Qed.

(** For a number, "not below 1.0" and "at least 1.0" are the same test. *)
Lemma leb_one_ltb x :
  x <> S754_nan -> F32.leb F32.one x = negb (F32.ltb x F32.one).
Proof.
  intros Hx. unfold F32.leb, F32.ltb, SFleb, SFltb.
  rewrite (SFcompare_antisym x F32.one).
  destruct (SFcompare x F32.one) as [[]|] eqn:E; try reflexivity.
  destruct x as [?|[]| |[] ? ?]; try discriminate E. congruence.
Qed.

Lemma of_int_not_nan n : F32.of_int n <> S754_nan.
Proof.
  destruct n as [|p|p]; [discriminate| |];
    unfold F32.of_int, binary_normalize, binary_round;
    destruct (shl_align p 0 _) as [mz ez].
  - pose proof (binary_round_aux_signed false (Zpos mz) ez loc_Exact ltac:(lia)) as H.
    intros E. now rewrite E in H.
  - pose proof (binary_round_aux_signed true (Zpos mz) ez loc_Exact ltac:(lia)) as H.
    intros E. now rewrite E in H.
Qed.

Lemma div_not_nan x s mx ex :
  x <> S754_nan -> F32.div x (S754_finite s mx ex) <> S754_nan.
Proof.
  intros Hx. destruct x as [sx|sx| |sx m e]; try discriminate; [congruence|].
  unfold F32.div. cbn [SFdiv]. unfold SFdiv_core_binary.
  set (e' := Z.min _ _). set (m' := match _ with Z.pos _ => _ | 0 => _ | Z.neg _ => _ end).
  assert (Hm' : 0 <= m').
  { subst m'. destruct (e - ex - e') as [|q|q]; try lia. apply Z.shiftl_nonneg. lia. }
  pose proof (Z_div_mod m' (Zpos mx) ltac:(lia)) as Hdiv.
  destruct (Z.div_eucl m' (Zpos mx)) as [q r]. destruct Hdiv as [Hqr Hr].
  assert (Hq : 0 <= q) by nia.
  pose proof (binary_round_aux_signed (xorb sx s) q e' (new_location (Zpos mx) r) Hq) as H.
  intros E. now rewrite E in H.
Qed.

Lemma overlay_inside buf :
  Header_HMP5.sizeof <= Z.of_nat (length buf) ->
  exists h, Header_HMP5.overlay buf = Some h.
Proof.
  intros H. unfold Header_HMP5.sizeof in H.
  unfold Header_HMP5.overlay, Buffer.f32_at, Buffer.i32_at.
  destruct (u32_at_inside buf 36 ltac:(lia) ltac:(lia)) as [v1 ->].
  destruct (u32_at_inside buf 40 ltac:(lia) ltac:(lia)) as [v2 ->].
  destruct (u32_at_inside buf 44 ltac:(lia) ltac:(lia)) as [v3 ->].
  destruct (u32_at_inside buf 48 ltac:(lia) ltac:(lia)) as [v4 ->].
  destruct (u32_at_inside buf 60 ltac:(lia) ltac:(lia)) as [v5 ->].
  destruct (u32_at_inside buf 68 ltac:(lia) ltac:(lia)) as [v6 ->].
  destruct (byte_at_inside buf (Header_HMP5.sizeof - 1)) as [v7 ->];
    [unfold Header_HMP5.sizeof; lia|].
  eauto.
Qed.

Lemma iFileSize_le buf : 0 <= iFileSize buf <= Z.of_nat (length buf).
Proof.
  unfold iFileSize, fileSize, Word.wrap32.
  pose proof (Z.mod_pos_bound (Z.of_nat (length buf)) (2 ^ 32) ltac:(lia)).
  pose proof (Z.mod_le (Z.of_nat (length buf)) (2 ^ 32) ltac:(lia) ltac:(lia)). lia.
Qed.

Lemma pcHeader_Some buf h st :
  Header_HMP5.overlay buf = Some h ->
  pcHeader buf st = Ok h (logged [EvRead 0 Header_HMP5.sizeof] st).
Proof. intros H. unfold pcHeader. now apply load_Some. Qed.

(** What [ValidateHeader_HMP457] does on a header it can read. *)
Lemma ValidateHeader_eq buf h st :
  120 <= iFileSize buf -> Header_HMP5.overlay buf = Some h ->
  let st' := logged [EvRead 0 Header_HMP5.sizeof; EvCheck 120] st in
  ValidateHeader_HMP457 buf st =
    match header_violation frames_non_zero h with
    | Some e => Throw e st'
    | None => Ok tt st'
    end.
Proof.
  intros Hsz Hh st'. unfold ValidateHeader_HMP457.
  destruct (Z.gtb_spec 120 (iFileSize buf)); [lia|].
  unfold bind at 1. unfold log at 1.
  rewrite (bind_Ok _ _ _ _ _ (pcHeader_Some buf h _ Hh)).
  change (logged [EvRead 0 Header_HMP5.sizeof] _) with st'.
  unfold header_violation, frames_non_zero.
  destruct h as [sx sy fx ns nv nf]. cbn [Header_HMP5.ftrisize_x Header_HMP5.ftrisize_y
    Header_HMP5.fnumverts_x Header_HMP5.numverts Header_HMP5.numframes].
  destruct (F32.isfinite sx), (F32.isfinite sy); cbn [negb orb andb]; try reflexivity.
  destruct (F32.is_zero sx), (F32.is_zero sy); cbn [negb orb andb]; try reflexivity.
  destruct (F32.isfinite fx) eqn:Hfx; cbn [negb]; try reflexivity.
  assert (Hnan : fx <> S754_nan) by (intros ->; discriminate).
  rewrite (leb_one_ltb fx Hnan).
  destruct (F32.ltb fx F32.one) eqn:Hlt; cbn [negb orb andb]; try reflexivity.
  assert (Hq : F32.div (F32.of_int nv) fx <> S754_nan).
  { destruct fx as [?|?| |s m e]; try discriminate.
    apply div_not_nan, of_int_not_nan. }
  rewrite (leb_one_ltb _ Hq).
  destruct (F32.ltb (F32.div (F32.of_int nv) fx) F32.one); cbn [negb]; try reflexivity.
  destruct (nf =? 0); reflexivity.
Qed.

Lemma header_violation_kind frames_ok h e :
  header_violation frames_ok h = Some e ->
  kind_of e = InvalidHeader /\ what e <> String.EmptyString.
Proof.
  unfold header_violation.
  repeat (match goal with |- context [if ?b then _ else _] => destruct b end);
    intros [= <-]; split; try reflexivity; discriminate.
Qed.

Lemma iFileSize_small buf : fileSize buf < 2 ^ 32 -> iFileSize buf = fileSize buf.
Proof.
  intros H. unfold iFileSize, Word.wrap32. apply Z.mod_small.
  unfold fileSize in *. lia.
Qed.

(** The test [!numframes] on a field of 32 bits: it passes when the
    field is not zero, which is "at least 1" of the field read as an
    unsigned number, and lets every negative count pass. *)
Lemma frames_non_zero_spec n :
  - 2 ^ 31 <= n < 2 ^ 31 ->
  frames_non_zero n = frames_at_least_one (Word.wrap32 n) /\
  (n < 0 -> frames_non_zero n = true /\ frames_at_least_one n = false).
Proof.
  intros Hn. unfold frames_non_zero, frames_at_least_one, Word.wrap32. split.
  - destruct (Z.eqb_spec n 0) as [->|Hne]; [reflexivity|]. cbn [negb].
    symmetry. apply Z.leb_le.
    destruct (Z.lt_ge_cases n 0).
    + rewrite <- (Z.mod_add n 1 (2 ^ 32)) by lia. rewrite Z.mod_small; lia.
    + rewrite Z.mod_small; lia.
  - intros Hneg. split.
    + destruct (Z.eqb_spec n 0); [lia|reflexivity].
    + apply Z.leb_gt. lia.
Qed.

(** C5.  What [ValidateHeader_HMP457] does.  A buffer whose size, as
    [unsigned int], is below 120 is refused as too small before the
    header is read.  On every other buffer (every buffer of 120 to
    [2 ^ 32 - 1] bytes is one) it makes the validations of
    the specification in its order: spacings finite, spacings non-zero,
    [fnumverts_x] finite, [fnumverts_x >= 1.0] and
    [numverts / fnumverts_x >= 1.0]; the last test is [!numframes],
    which refuses a frame count of zero only.  The first violation is
    raised as an InvalidHeader error with a reason of its own; the
    scene and the header are left as they were.  On the signed field
    the last test lets every negative frame count pass; it is the test
    "at least 1" of the same 32 bits read as an unsigned number. *)
Theorem ValidateHeader_HMP457_validations :
  validates_header frames_non_zero /\
  NoDup (map what [Trisize_not_finite; Trisize_zero; Numverts_x_not_finite;
                   Numverts_zero; No_frames]) /\
  (forall buf st,
     iFileSize buf < 120 ->
     ValidateHeader_HMP457 buf st = Throw HMP_header_too_small st /\
     kind_of HMP_header_too_small = OpenOrSizeError) /\
  (forall buf st h,
     120 <= iFileSize buf -> Header_HMP5.overlay buf = Some h ->
     ValidateHeader_HMP457 buf st =
       match header_violation frames_non_zero h with
       | Some e => Throw e (logged [EvRead 0 Header_HMP5.sizeof; EvCheck 120] st)
       | None => Ok tt (logged [EvRead 0 Header_HMP5.sizeof; EvCheck 120] st)
       end) /\
  (forall n, - 2 ^ 31 <= n < 2 ^ 31 ->
     frames_non_zero n = frames_at_least_one (Word.wrap32 n) /\
     (n < 0 -> frames_non_zero n = true /\ frames_at_least_one n = false)).
Proof.
  split; [|split; [|split; [|split]]].
  - intros buf st Hsz.
    assert (Hsz' : 120 <= iFileSize buf) by (rewrite iFileSize_small; lia).
    pose proof (iFileSize_le buf) as Hle.
    destruct (overlay_inside buf) as [h Hh]; [unfold Header_HMP5.sizeof; lia|].
    exists h. split; [assumption|]. cbv zeta.
    rewrite (ValidateHeader_eq buf h st Hsz' Hh).
    destruct (header_violation frames_non_zero h) as [e|] eqn:E; [|reflexivity].
    split; [reflexivity|]. eapply header_violation_kind; eassumption.
  - apply (bool_decide_unpack _). vm_compute. exact I.
  - intros buf st Hsz. split; [|reflexivity]. unfold ValidateHeader_HMP457.
    destruct (Z.gtb_spec 120 (iFileSize buf)); [reflexivity|lia].
  - intros buf st h Hsz Hh. exact (ValidateHeader_eq buf h st Hsz Hh).
  - exact frames_non_zero_spec.
Qed.

(** The validation of claim C5, with "frame count >= 1" as its last
    test, is not the one of the code: the header of
    [Sample.negative_frames], whose frame count is -1 (the bytes
    FF FF FF FF at offset 68), violates "frame count >= 1" and passes
    [ValidateHeader_HMP457]. *)
Lemma negative_frame_count_accepted : ~ validates_header frames_at_least_one.
Proof.
  intros H.
  destruct (H Sample.negative_frames Sample.st0 ltac:(vm_compute; split; [discriminate|reflexivity]))
    as (h & Hh & Hv).
  assert (E : Header_HMP5.overlay Sample.negative_frames =
              Some (Header_HMP5.Build (F32.of_bits 0x40000000) (F32.of_bits 0x40000000)
                      (F32.of_bits 0x40400000) 0 6 (-1)))
    by (vm_compute; reflexivity).
  rewrite E in Hh. injection Hh as <-.
  assert (V : header_violation frames_at_least_one
                (Header_HMP5.Build (F32.of_bits 0x40000000) (F32.of_bits 0x40000000)
                   (F32.of_bits 0x40400000) 0 6 (-1)) = Some No_frames)
    by (vm_compute; reflexivity).
  cbv zeta in Hv. rewrite V in Hv. destruct Hv as [Hv _].
  assert (R : ValidateHeader_HMP457 Sample.negative_frames Sample.st0 =
              Ok tt (logged [EvRead 0 Header_HMP5.sizeof; EvCheck 120] Sample.st0))
    by (vm_compute; reflexivity).
  rewrite R in Hv. discriminate Hv.
Qed.

(** ** Arrays *)

Lemma array_get_Some {A} (a : list A) i v :
  array_get a i = Some v -> 0 <= i < Z.of_nat (length a).
Proof.
  unfold array_get. destruct (Z.leb_spec 0 i) as [Hi|Hi]; [|discriminate].
  intros Hv. apply lookup_lt_Some in Hv. lia.
Qed.

Lemma array_get_inside {A} (a : list A) i :
  0 <= i < Z.of_nat (length a) -> exists v, array_get a i = Some v.
Proof.
  intros H. unfold array_get. destruct (Z.leb_spec 0 i); [|lia].
  apply lookup_lt_is_Some_2. lia.
Qed.

Lemma array_get_outside {A} (a : list A) i :
  Z.of_nat (length a) <= i -> array_get a i = None.
Proof.
  intros H. unfold array_get. destruct (Z.leb_spec 0 i); [|reflexivity].
  apply lookup_ge_None_2. lia.
Qed.

Lemma array_get_None {A} (a : list A) i :
  array_get a i = None -> ~ 0 <= i < Z.of_nat (length a).
Proof.
  intros H Hi. destruct (array_get_inside a i Hi) as [v Hv]. congruence.
Qed.

Lemma array_set_inside {A} (a : list A) i v :
  0 <= i < Z.of_nat (length a) -> array_set a i v = Some (<[Z.to_nat i := v]> a).
Proof.
  intros H. unfold array_set.
  destruct (Z.leb_spec 0 i); [|lia]. destruct (Z.ltb_spec i (Z.of_nat (length a))); [|lia].
  reflexivity.
Qed.

Lemma array_set_Some {A} (a a' : list A) i v :
  array_set a i v = Some a' ->
  0 <= i < Z.of_nat (length a) /\ length a' = length a /\
  array_get a' i = Some v /\
  forall j, j <> i -> array_get a' j = array_get a j.
Proof.
  unfold array_set.
  destruct (Z.leb_spec 0 i); [|discriminate].
  destruct (Z.ltb_spec i (Z.of_nat (length a))); [|discriminate].
  cbn [andb]. intros [= <-]. split; [lia|]. split; [apply length_insert|]. split.
  - unfold array_get. destruct (Z.leb_spec 0 i); [|lia].
    apply list_lookup_insert_eq. lia.
  - intros j Hj. unfold array_get. destruct (Z.leb_spec 0 j); [|reflexivity].
    apply list_lookup_insert_ne. lia.
Qed.

Lemma array_set_outside {A} (a : list A) i v :
  ~ 0 <= i < Z.of_nat (length a) -> array_set a i v = None.
Proof.
  intros H. unfold array_set.
  destruct (Z.leb_spec 0 i); [|reflexivity].
  destruct (Z.ltb_spec i (Z.of_nat (length a))); [lia|reflexivity].
Qed.

(** ** Copying the corners of a cell *)

Lemma copy_entry_spec src i dst o st :
  0 <= o < Z.of_nat (length dst) ->
  match array_get src i with
  | Some v => copy_entry src i dst o st = Ok (<[Z.to_nat o := v]> dst) st
  | None => copy_entry src i dst o st = Undefined ArrayOverread st
  end.
Proof.
  intros Ho. unfold copy_entry, bind, defined.
  destruct (array_get src i) as [v|]; [|reflexivity].
  unfold ret. now rewrite array_set_inside.
Qed.

Lemma copy_quad_spec src offset0 offset1 x dst o st :
  0 <= o -> o + 3 < Z.of_nat (length dst) ->
  (exists d,
     copy_quad src offset0 offset1 x dst o st = Ok d st /\
     length d = length dst /\
     (exists v0 v1 v2 v3,
        array_get src (offset0 + x) = Some v0 /\ array_get d o = Some v0 /\
        array_get src (offset1 + x) = Some v1 /\ array_get d (o + 1) = Some v1 /\
        array_get src (offset1 + x + 1) = Some v2 /\ array_get d (o + 2) = Some v2 /\
        array_get src (offset0 + x + 1) = Some v3 /\ array_get d (o + 3) = Some v3) /\
     (forall j, ~ o <= j <= o + 3 -> array_get d j = array_get dst j))
  \/
  (copy_quad src offset0 offset1 x dst o st = Undefined ArrayOverread st /\
   (array_get src (offset0 + x) = None \/ array_get src (offset1 + x) = None \/
    array_get src (offset1 + x + 1) = None \/ array_get src (offset0 + x + 1) = None)).
Proof.
  intros Ho Hlen. unfold copy_quad.
  pose proof (copy_entry_spec src (offset0 + x) dst o st ltac:(lia)) as H0.
  destruct (array_get src (offset0 + x)) as [v0|] eqn:E0;
    [|right; split; [now rewrite (bind_Undefined _ _ _ _ _ H0)|auto]].
  rewrite (bind_Ok _ _ _ _ _ H0).
  pose proof (array_set_inside dst o v0 ltac:(lia)) as S0.
  apply array_set_Some in S0. destruct S0 as (_ & L0 & G0 & N0).
  set (d0 := <[Z.to_nat o := v0]> dst) in *.
  pose proof (copy_entry_spec src (offset1 + x) d0 (o + 1) st ltac:(lia)) as H1.
  destruct (array_get src (offset1 + x)) as [v1|] eqn:E1;
    [|right; split; [now rewrite (bind_Undefined _ _ _ _ _ H1)|auto]].
  rewrite (bind_Ok _ _ _ _ _ H1).
  pose proof (array_set_inside d0 (o + 1) v1 ltac:(lia)) as S1.
  apply array_set_Some in S1. destruct S1 as (_ & L1 & G1 & N1).
  set (d1 := <[Z.to_nat (o + 1) := v1]> d0) in *.
  pose proof (copy_entry_spec src (offset1 + x + 1) d1 (o + 2) st ltac:(lia)) as H2.
  destruct (array_get src (offset1 + x + 1)) as [v2|] eqn:E2;
    [|right; split; [now rewrite (bind_Undefined _ _ _ _ _ H2)|auto]].
  rewrite (bind_Ok _ _ _ _ _ H2).
  pose proof (array_set_inside d1 (o + 2) v2 ltac:(lia)) as S2.
  apply array_set_Some in S2. destruct S2 as (_ & L2 & G2 & N2).
  set (d2 := <[Z.to_nat (o + 2) := v2]> d1) in *.
  pose proof (copy_entry_spec src (offset0 + x + 1) d2 (o + 3) st ltac:(lia)) as H3.
  destruct (array_get src (offset0 + x + 1)) as [v3|] eqn:E3;
    [|right; split; [assumption|auto]].
  pose proof (array_set_inside d2 (o + 3) v3 ltac:(lia)) as S3.
  apply array_set_Some in S3. destruct S3 as (_ & L3 & G3 & N3).
  set (d3 := <[Z.to_nat (o + 3) := v3]> d2) in *.
  left. exists d3. split; [assumption|]. split; [congruence|]. split.
  - exists v0, v1, v2, v3. repeat split; try assumption.
    + rewrite N3, N2, N1 by lia. assumption.
    + rewrite N3, N2 by lia. assumption.
    + rewrite N3 by lia. assumption.
  - intros j Hj. rewrite N3, N2, N1, N0 by lia. reflexivity.
Qed.

(** ** One cell of the face grid *)

Lemma cell_number_inj W y x y' x' :
  0 <= x < W -> 0 <= x' < W -> 0 <= y -> 0 <= y' ->
  y * W + x = y' * W + x' -> y = y' /\ x = x'.
Proof.
  intros Hx Hx' Hy Hy' E.
  destruct (Z.lt_total y y') as [H|[H|H]]; [exfalso; nia|subst; lia|exfalso; nia].
Qed.

Lemma quad_copied_intro src dst o width y x v0 v1 v2 v3 :
  array_get src (y * width + x) = Some v0 -> array_get dst o = Some v0 ->
  array_get src ((y + 1) * width + x) = Some v1 -> array_get dst (o + 1) = Some v1 ->
  array_get src ((y + 1) * width + x + 1) = Some v2 -> array_get dst (o + 2) = Some v2 ->
  array_get src (y * width + x + 1) = Some v3 -> array_get dst (o + 3) = Some v3 ->
  quad_copied src dst o width y x.
Proof.
  intros S0 D0 S1 D1 S2 D2 S3 D3 j corner Hj. unfold cell_corners in Hj.
  destruct j as [|[|[|[|j]]]]; cbn in Hj; try discriminate; injection Hj as <-.
  - exists v0. rewrite Z.add_0_r. auto.
  - exists v1. auto.
  - exists v2. auto.
  - exists v3. auto.
Qed.

Lemma quad_copied_frame src dst d o width y x :
  quad_copied src dst o width y x ->
  (forall j, o <= j <= o + 3 -> array_get d j = array_get dst j) ->
  quad_copied src d o width y x.
Proof.
  intros H Hd j corner Hj. destruct (H j corner Hj) as (v & Hs & Hv).
  exists v. split; [assumption|]. rewrite Hd; [assumption|].
  apply lookup_lt_Some in Hj. cbn in Hj. lia.
Qed.

Lemma guard_never_fires width height y x :
  2 <= width -> 2 <= height ->
  0 <= y < height - 1 -> 0 <= x < width - 1 ->
  (y + 1) * width + x + 1 < 4 * ((width - 1) * (height - 1)).
Proof. intros Hw Hh Hy Hx. nia. Qed.

Lemma geb_false a b : a < b -> (a >=? b) = false.
Proof. intros H. rewrite Z.geb_leb. now apply Z.leb_gt. Qed.

Lemma grid_index_bounds width height y x :
  2 <= width -> 2 <= height -> 4 * width * height <= 2 ^ 32 ->
  0 <= y < height - 1 -> 0 <= x < width - 1 ->
  0 <= y * width /\ (y + 1) * width + x + 1 < width * height /\
  width * height <= 2 ^ 30 /\
  y * (width - 1) + x < (width - 1) * (height - 1) /\
  4 * ((width - 1) * (height - 1)) < 2 ^ 32.
Proof.
  intros Hw Hh Hsz Hy Hx.
  assert (0 <= y * width) by (apply Z.mul_nonneg_nonneg; lia).
  assert ((y + 1) * width <= (height - 1) * width)
    by (apply Z.mul_le_mono_nonneg_r; lia).
  assert (y * (width - 1) <= (height - 2) * (width - 1))
    by (apply Z.mul_le_mono_nonneg_r; lia).
  assert (0 <= (width - 1) * (height - 1)) by (apply Z.mul_nonneg_nonneg; lia).
  repeat split; lia.
Qed.

Lemma face_cell_spec pcMesh width height y x s st :
  2 <= width -> 2 <= height -> 4 * width * height <= 2 ^ 32 ->
  0 <= y < height - 1 -> 0 <= x < width - 1 ->
  cells_built pcMesh width height (y * (width - 1) + x) s ->
  (corners_inside pcMesh width y x /\
   exists s',
     face_cell pcMesh width (4 * ((width - 1) * (height - 1))) y x s st = Ok s' st /\
     cells_built pcMesh width height (y * (width - 1) + x + 1) s') \/
  (~ corners_inside pcMesh width y x /\
   face_cell pcMesh width (4 * ((width - 1) * (height - 1))) y x s st =
     Undefined ArrayOverread st).
Proof.
  intros Hw Hh Hsz Hy Hx Inv.
  pose proof (grid_index_bounds width height y x Hw Hh Hsz Hy Hx)
    as (Hyw & Hmax & Hwh & HcF & HF32).
  assert (Hguard := guard_never_fires width height y x Hw Hh Hy Hx).
  unfold cells_built in Inv. cbv zeta in Inv.
  set (W := width - 1) in *. set (F := W * (height - 1)) in *.
  set (c := y * W + x) in *.
  destruct Inv as (Hc & Hface & Hcur & Lf & Lv & Ln & Luv & Hold).
  assert (Ho0 : Word.wrap32 (y * width) = y * width) by (apply wrap32_small; lia).
  assert (Ho1 : Word.wrap32 ((y + 1) * width) = (y + 1) * width) by (apply wrap32_small; lia).
  fold W F. remember (face_cell pcMesh width (4 * F) y x s st) as R eqn:ER.
  unfold face_cell in ER. rewrite Ho0, Ho1, Hface, Hcur in ER.
  set (blank := aiFace.Build 4 (Some [None; None; None; None])) in *.
  pose proof (array_set_inside (mFaces s) c blank ltac:(lia)) as Sf1.
  rewrite Sf1 in ER. unfold defined at 1 in ER. unfold bind at 1, ret at 1 in ER.
  apply array_set_Some in Sf1. destruct Sf1 as (_ & Lf1 & _ & Nf1).
  set (faces1 := <[Z.to_nat c := blank]> (mFaces s)) in *.
  replace ((y * width + x + 1 >=? 4 * F) || ((y + 1) * width + x + 1 >=? 4 * F)) with false
    in ER by (symmetry; apply orb_false_iff; split; apply geb_false; lia).
  cbv beta iota in ER.
  (* the vertices *)
  destruct (copy_quad_spec (aiMesh.mVertices pcMesh) (y * width) ((y + 1) * width) x
              (pcVertices s) (4 * c) st ltac:(lia) ltac:(lia))
    as [(dv & Ev & Ldv & (v0 & v1 & v2 & v3 & Sv0 & Dv0 & Sv1 & Dv1 & Sv2 & Dv2 & Sv3 & Dv3) & Nv)
       |(Ev & Bad)].
  2:{ right. split.
      - intros (Hin & _).
        destruct Bad as [B|[B|[B|B]]]; apply array_get_None in B; lia.
      - now rewrite (bind_Undefined _ _ _ _ _ Ev) in ER. }
  rewrite (bind_Ok _ _ _ _ _ Ev) in ER.
  (* the normals *)
  destruct (copy_quad_spec (aiMesh.mNormals pcMesh) (y * width) ((y + 1) * width) x
              (pcNormals s) (4 * c) st ltac:(lia) ltac:(lia))
    as [(dn & En & Ldn & (n0 & n1 & n2 & n3 & Sn0 & Dn0 & Sn1 & Dn1 & Sn2 & Dn2 & Sn3 & Dn3) & Nn)
       |(En & Bad)].
  2:{ right. split.
      - intros (_ & Hin & _).
        destruct Bad as [B|[B|[B|B]]]; apply array_get_None in B; lia.
      - now rewrite (bind_Undefined _ _ _ _ _ En) in ER. }
  rewrite (bind_Ok _ _ _ _ _ En) in ER.
  (* the texture coordinates *)
  assert (Huv :
    (exists uvs,
       (match aiMesh.mTextureCoords0 pcMesh, pcUVs s with
        | Some src, Some dst =>
            bind (copy_quad src (y * width) ((y + 1) * width) x dst (4 * c))
                 (fun dst => ret (Some dst))
        | _, _ => ret (pcUVs s)
        end) st = Ok uvs st /\
       match aiMesh.mTextureCoords0 pcMesh, uvs with
       | Some src, Some d =>
           Z.of_nat (length d) = 4 * F /\
           quad_copied src d (4 * c) width y x /\
           exists dst, pcUVs s = Some dst /\
             forall j, ~ 4 * c <= j <= 4 * c + 3 -> array_get d j = array_get dst j
       | None, None => pcUVs s = None
       | _, _ => False
       end /\
       match aiMesh.mTextureCoords0 pcMesh with
       | Some uv => (y + 1) * width + x + 1 < Z.of_nat (length uv)
       | None => True
       end)
    \/
    ((match aiMesh.mTextureCoords0 pcMesh, pcUVs s with
      | Some src, Some dst =>
          bind (copy_quad src (y * width) ((y + 1) * width) x dst (4 * c))
               (fun dst => ret (Some dst))
      | _, _ => ret (pcUVs s)
      end) st = Undefined ArrayOverread st /\
     match aiMesh.mTextureCoords0 pcMesh with
     | Some uv => ~ (y + 1) * width + x + 1 < Z.of_nat (length uv)
     | None => False
     end)).
  { destruct (aiMesh.mTextureCoords0 pcMesh) as [src|], (pcUVs s) as [dst|];
      try contradiction.
    - destruct (copy_quad_spec src (y * width) ((y + 1) * width) x dst (4 * c) st
                  ltac:(lia) ltac:(lia))
        as [(du & Eu & Ldu & (u0 & u1 & u2 & u3 & Su0 & Du0 & Su1 & Du1 & Su2 & Du2 & Su3 & Du3) & Nu)
           |(Eu & Bad)].
      + left. exists (Some du). rewrite (bind_Ok _ _ _ _ _ Eu). split; [reflexivity|].
        split.
        * split; [lia|]. split; [|exists dst; auto].
          eapply quad_copied_intro; eauto.
        * apply array_get_Some in Su2. lia.
      + right. rewrite (bind_Undefined _ _ _ _ _ Eu). split; [reflexivity|].
        intros Hin.
        destruct Bad as [B|[B|[B|B]]]; apply array_get_None in B; lia.
    - left. exists None. repeat split; reflexivity. }
  destruct Huv as [(uvs & Eu & Hu & Huin)|(Eu & Hubad)].
  2:{ right. split.
      - intros (_ & _ & Hin).
        destruct (aiMesh.mTextureCoords0 pcMesh); [now apply Hubad|assumption].
      - now rewrite (bind_Undefined _ _ _ _ _ Eu) in ER. }
  rewrite (bind_Ok _ _ _ _ _ Eu) in ER.
  (* the indices of the face *)
  pose proof (array_set_inside faces1 c (aiFace.Build 4 (Some (quad_indices (4 * c))))
                ltac:(lia)) as Sf2.
  rewrite Sf2 in ER. unfold defined at 1 in ER. unfold bind at 1, ret at 1 in ER.
  apply array_set_Some in Sf2. destruct Sf2 as (_ & Lf2 & Gf2 & Nf2).
  set (faces2 := <[Z.to_nat c := _]> faces1) in *.
  assert (Hin : corners_inside pcMesh width y x).
  { unfold corners_inside. apply array_get_Some in Sv2, Sn2. repeat split; try lia.
    assumption. }
  left. split; [assumption|]. eexists. split; [exact ER|].
  unfold cells_built. cbn [pcFaceOut iCurrent mFaces pcVertices pcNormals pcUVs].
  fold W F c.
  assert (Hq : quad_indices (4 * c) =
               [Some (4 * c); Some (4 * c + 1); Some (4 * c + 2); Some (4 * c + 3)]).
  { unfold quad_indices. rewrite !wrap32_small by lia. reflexivity. }
  split; [lia|]. split; [reflexivity|]. split; [rewrite wrap32_small by lia; lia|].
  split; [lia|]. split; [lia|]. split; [lia|]. split.
  - destruct (aiMesh.mTextureCoords0 pcMesh), uvs; try contradiction; [lia|exact I].
  - (* the cells built so far, and the new one *)
    intros y' x' Hy' Hx' Hlt. fold W in Hx', Hlt |- *. unfold cell_built.
    cbn [pcFaceOut iCurrent mFaces pcVertices pcNormals pcUVs]. fold W.
    destruct (Z.eq_dec (y' * W + x') c) as [Ec|Nc].
    + destruct (cell_number_inj W y' x' y x ltac:(lia) ltac:(lia) ltac:(lia) ltac:(lia) Ec)
        as [-> ->]. fold c.
      split; [rewrite Gf2, Hq; reflexivity|].
      split; [eapply quad_copied_intro; eauto|].
      split; [eapply quad_copied_intro; eauto|].
      destruct (aiMesh.mTextureCoords0 pcMesh), uvs; try contradiction; [|exact I].
      apply Hu.
    + assert (Hlt' : y' * W + x' < c) by lia.
      destruct (Hold y' x' Hy' Hx' Hlt') as (Of & Ov & On & Ou). fold W in Of, Ov, On, Ou.
      split; [rewrite Nf2, Nf1 by lia; assumption|].
      split; [eapply quad_copied_frame; [exact Ov|intros j Hj; apply Nv; lia]|].
      split; [eapply quad_copied_frame; [exact On|intros j Hj; apply Nn; lia]|].
      destruct (aiMesh.mTextureCoords0 pcMesh) as [src|], uvs as [d|]; try contradiction.
      * destruct Hu as (_ & _ & dst & Edst & Nu). rewrite Edst in Ou.
        eapply quad_copied_frame; [exact Ou|intros j Hj; apply Nu; lia].
      * rewrite Hu in Ou. exact Ou.
Qed.

(** ** The loops of [CreateOutputFaceList] *)

Lemma corners_inside_last pcMesh width height y x :
  2 <= width -> 2 <= height ->
  0 <= y < height - 1 -> 0 <= x < width - 1 ->
  corners_inside pcMesh width (height - 2) (width - 2) ->
  corners_inside pcMesh width y x.
Proof.
  intros Hw Hh Hy Hx (Hv & Hn & Hu).
  assert ((y + 1) * width <= (height - 2 + 1) * width)
    by (apply Z.mul_le_mono_nonneg_r; lia).
  unfold corners_inside. repeat split; try lia.
  destruct (aiMesh.mTextureCoords0 pcMesh); [lia|exact I].
Qed.

(** The face loops either build every cell, or stop at the first cell
    with a corner outside the arrays of the mesh by reading there. *)
Lemma face_loops_hoare pcMesh width height st :
  2 <= width -> 2 <= height -> 4 * width * height <= 2 ^ 32 ->
  forall s0, cells_done pcMesh width height 0 s0 ->
  hoare (fun st' => st' = st)
    (for_loop (Z.to_nat (height - 1)) 0 (fun y =>
       for_loop (Z.to_nat (width - 1)) 0
         (face_cell pcMesh width (4 * ((width - 1) * (height - 1))) y)) s0)
    (fun s st' => st' = st /\
       cells_done pcMesh width height ((width - 1) * (height - 1)) s)
    (fun a st' => a = Undef ArrayOverread /\ st' = st /\
       ~ corners_inside pcMesh width (height - 2) (width - 2)).
Proof.
  intros Hw Hh Hsz s0 H0.
  set (W := width - 1). set (H := height - 1).
  set (X := fun (a : abort) (st' : state) => a = Undef ArrayOverread /\ st' = st /\
              ~ corners_inside pcMesh width (height - 2) (width - 2)).
  pose proof (hoare_for_loop
    (fun y => for_loop (Z.to_nat W) 0 (face_cell pcMesh width (4 * (W * H)) y))
    (fun y s st' => st' = st /\ cells_done pcMesh width height (y * W) s)
    X (Z.to_nat H) 0 s0) as Hloop.
  eapply hoare_conseq; [apply Hloop| | |]; clear Hloop.
  - (* a row *)
    intros y s Hy. rewrite Z2Nat.id in Hy by (subst H; lia).
    pose proof (hoare_for_loop
      (face_cell pcMesh width (4 * (W * H)) y)
      (fun x s st' => st' = st /\ cells_done pcMesh width height (y * W + x) s)
      X (Z.to_nat W) 0 s) as Hrow.
    eapply hoare_conseq; [apply Hrow| | |]; clear Hrow.
    + (* a cell *)
      intros x s1 Hx. rewrite Z2Nat.id in Hx by (subst W; lia).
      intros st' (-> & Hb & Hin).
      destruct (face_cell_spec pcMesh width height y x s1 st Hw Hh Hsz
                  ltac:(subst H; lia) ltac:(subst W; lia) Hb)
        as [(Hc & s' & E & Hb')|(Hc & E)]; fold W H in E; rewrite E.
      * split; [reflexivity|]. split.
        -- replace (y * W + (x + 1)) with (y * W + x + 1) by lia. exact Hb'.
        -- intros y' x' Hy' Hx' Hlt. fold W in Hx', Hlt.
           destruct (Z.eq_dec (y' * W + x') (y * W + x)) as [Ec|Nc].
           ++ destruct (cell_number_inj W y' x' y x ltac:(lia) ltac:(lia) ltac:(lia)
                          ltac:(lia) Ec) as [-> ->]. exact Hc.
           ++ apply Hin; try assumption. fold W. lia.
      * split; [reflexivity|]. split; [reflexivity|].
        intros Hlast. apply Hc.
        apply (corners_inside_last pcMesh width height); try assumption;
          subst W H; lia.
    + intros st' (-> & Hd). split; [reflexivity|]. now rewrite Z.add_0_r.
    + intros s1 st' (-> & Hd). split; [reflexivity|].
      rewrite Z2Nat.id in Hd by (subst W; lia).
      replace ((y + 1) * W) with (y * W + W) by lia. exact Hd.
    + intros a st' Ha. exact Ha.
  - intros st' ->. split; [reflexivity|]. exact H0.
  - intros s st' (-> & Hd). split; [reflexivity|].
    rewrite Z2Nat.id in Hd by (subst H; lia).
    replace (W * H) with ((0 + H) * W) by lia. exact Hd.
  - intros a st' Ha. exact Ha.
Qed.

(** ** [CreateOutputFaceList] *)

Lemma mesh0_Some st m rest :
  aiScene.mMeshes (pScene st) = m :: rest -> mesh0 st = Ok m st.
Proof. intros H. unfold mesh0, bind, get_scene, defined. rewrite H. reflexivity. Qed.

Lemma set_mesh0_Some st m rest m' :
  aiScene.mMeshes (pScene st) = m :: rest ->
  set_mesh0 m' st = Ok tt (State (with_mesh0 (pScene st) m') (trace st)).
Proof.
  intros H. unfold set_mesh0, bind, get_scene, with_mesh0. rewrite H. reflexivity.
Qed.

Lemma length_new_vectors n : 0 <= n -> Z.of_nat (length (new_vectors n)) = n.
Proof. intros H. unfold new_vectors. rewrite length_replicate. lia. Qed.

Lemma cells_done_start pcMesh width height :
  2 <= width -> 2 <= height ->
  let F := (width - 1) * (height - 1) in
  cells_done pcMesh width height 0
    (FaceLocals (replicate (Z.to_nat F) aiFace.default) 0
       (new_vectors (4 * F)) (new_vectors (4 * F))
       (match aiMesh.mTextureCoords0 pcMesh with
        | Some _ => Some (new_vectors (4 * F))
        | None => None
        end) 0).
Proof.
  intros Hw Hh F.
  assert (HF : 0 <= F) by (apply Z.mul_nonneg_nonneg; lia).
  assert (Hnone : forall y x, 0 <= y -> 0 <= x < width - 1 -> ~ y * (width - 1) + x < 0).
  { intros y x Hy Hx. assert (0 <= y * (width - 1)) by (apply Z.mul_nonneg_nonneg; lia). lia. }
  split.
  - unfold cells_built. cbn [pcFaceOut iCurrent mFaces pcVertices pcNormals pcUVs].
    fold F. rewrite !length_new_vectors, length_replicate by lia.
    split; [lia|]. split; [reflexivity|]. split; [reflexivity|].
    split; [lia|]. split; [reflexivity|]. split; [reflexivity|]. split.
    + destruct (aiMesh.mTextureCoords0 pcMesh); [apply length_new_vectors; lia|exact I].
    + intros y x Hy Hx Hlt. exfalso. now apply (Hnone y x).
  - intros y x Hy Hx Hlt. exfalso. now apply (Hnone y x).
Qed.

(** The run of [CreateOutputFaceList] on a grid of at least 2 x 2. *)
Lemma CreateOutputFaceList_run width height st pcMesh rest :
  aiScene.mMeshes (pScene st) = pcMesh :: rest ->
  2 <= width -> 2 <= height -> 4 * width * height <= 2 ^ 32 ->
  (corners_inside pcMesh width (height - 2) (width - 2) /\
   exists s,
     cells_done pcMesh width height ((width - 1) * (height - 1)) s /\
     CreateOutputFaceList width height st =
       Ok tt (State (with_mesh0 (pScene st) (assembled pcMesh width height s)) (trace st)))
  \/
  (~ corners_inside pcMesh width (height - 2) (width - 2) /\
   CreateOutputFaceList width height st = Undefined ArrayOverread st).
Proof.
  intros Hm Hw Hh Hsz.
  pose proof (grid_index_bounds width height 0 0 Hw Hh Hsz ltac:(lia) ltac:(lia))
    as (_ & _ & _ & _ & HF32).
  set (F := (width - 1) * (height - 1)) in *.
  assert (HF : 0 <= F) by (apply Z.mul_nonneg_nonneg; lia).
  remember (CreateOutputFaceList width height st) as R eqn:ER.
  unfold CreateOutputFaceList in ER.
  rewrite (bind_Ok _ _ _ _ _ (mesh0_Some st pcMesh rest Hm)) in ER.
  rewrite (wrap32_small (width - 1)), (wrap32_small (height - 1)) in ER by lia.
  fold F in ER. rewrite (wrap32_small F) in ER by lia.
  rewrite (wrap32_small (F * 4)) in ER by lia.
  replace (F * 4) with (4 * F) in ER by lia.
  pose proof (face_loops_hoare pcMesh width height st Hw Hh Hsz _
                (cells_done_start pcMesh width height Hw Hh) st eq_refl) as Hloop.
  fold F in Hloop.
  match type of Hloop with
  | match ?run with _ => _ end =>
      destruct run as [s st'|e st'|u st'] eqn:Erun
  end.
  - destruct Hloop as (-> & Hd).
    rewrite (bind_Ok _ _ _ _ _ Erun) in ER.
    rewrite (set_mesh0_Some st pcMesh rest _ Hm) in ER.
    left. split.
    + destruct Hd as [_ Hin]. apply Hin; subst F; lia.
    + exists s. split; [exact Hd|]. exact ER.
  - destruct Hloop as (Ha & _). discriminate Ha.
  - destruct Hloop as (Ha & -> & Hout). injection Ha as ->.
    rewrite (bind_Undefined _ _ _ _ _ Erun) in ER. right. split; assumption.
Qed.

(** C9.  For a grid of at least 2 x 2 vertices that the vertex and
    normal arrays (and the UV array, if there is one) hold, and whose
    record array fits a file of 32-bit size, [CreateOutputFaceList]
    produces exactly [(width-1) * (height-1)] quad faces and output
    vertex and normal arrays of exactly 4 entries per face.  The face
    of the cell number [c] has the indices [4c .. 4c+3], which no other
    face has, and these entries are copies of the four corners of the
    cell in the winding (x,y), (x,y+1), (x+1,y+1), (x+1,y). *)
Theorem CreateOutputFaceList_quads width height st pcMesh rest :
  aiScene.mMeshes (pScene st) = pcMesh :: rest ->
  2 <= width -> 2 <= height -> 4 * width * height <= 2 ^ 32 ->
  width * height <= Z.of_nat (length (aiMesh.mVertices pcMesh)) ->
  width * height <= Z.of_nat (length (aiMesh.mNormals pcMesh)) ->
  (forall uv, aiMesh.mTextureCoords0 pcMesh = Some uv ->
              width * height <= Z.of_nat (length uv)) ->
  exists m,
    CreateOutputFaceList width height st =
      Ok tt (State (with_mesh0 (pScene st) m) (trace st)) /\
    aiMesh.mNumFaces m = (width - 1) * (height - 1) /\
    Z.of_nat (length (aiMesh.mFaces m)) = (width - 1) * (height - 1) /\
    aiMesh.mNumVertices m = 4 * ((width - 1) * (height - 1)) /\
    Z.of_nat (length (aiMesh.mVertices m)) = 4 * ((width - 1) * (height - 1)) /\
    Z.of_nat (length (aiMesh.mNormals m)) = 4 * ((width - 1) * (height - 1)) /\
    forall y x, 0 <= y < height - 1 -> 0 <= x < width - 1 ->
      array_get (aiMesh.mFaces m) (y * (width - 1) + x) =
        Some (quad_face (4 * (y * (width - 1) + x))) /\
      quad_copied (aiMesh.mVertices pcMesh) (aiMesh.mVertices m)
        (4 * (y * (width - 1) + x)) width y x /\
      quad_copied (aiMesh.mNormals pcMesh) (aiMesh.mNormals m)
        (4 * (y * (width - 1) + x)) width y x.
Proof.
  intros Hm Hw Hh Hsz Lv Ln Lu.
  destruct (CreateOutputFaceList_run width height st pcMesh rest Hm Hw Hh Hsz)
    as [(_ & s & (Hb & _) & E)|(Hout & _)].
  - exists (assembled pcMesh width height s). split; [exact E|].
    destruct Hb as (_ & _ & _ & Lf & Lvs & Lns & _ & Hcells).
    cbn [assembled aiMesh.mNumFaces aiMesh.mFaces aiMesh.mNumVertices
         aiMesh.mVertices aiMesh.mNormals].
    repeat (split; [assumption || reflexivity|]).
    intros y x Hy Hx.
    pose proof (grid_index_bounds width height y x Hw Hh Hsz Hy Hx) as (_ & _ & _ & HcF & _).
    destruct (Hcells y x ltac:(lia) Hx HcF) as (Hf & Hv & Hn & _).
    repeat split; assumption.
  - exfalso. apply Hout. unfold corners_inside.
    replace ((height - 2 + 1) * width + (width - 2) + 1) with (width * height - 1) by lia.
    repeat split; try lia.
    destruct (aiMesh.mTextureCoords0 pcMesh) as [uv|] eqn:Euv; [|exact I].
    specialize (Lu uv eq_refl). lia.
Qed.

Lemma CreateOutputFaceList_quads_witness :
  exists m,
    CreateOutputFaceList 3 2 (Sample.holding (Sample.grid_mesh 6)) =
      Ok tt (State (with_mesh0 (pScene (Sample.holding (Sample.grid_mesh 6))) m) []) /\
    aiMesh.mNumFaces m = 2 /\ Z.of_nat (length (aiMesh.mVertices m)) = 8.
Proof.
  destruct (CreateOutputFaceList_quads 3 2 (Sample.holding (Sample.grid_mesh 6))
              (Sample.grid_mesh 6) [] eq_refl ltac:(lia) ltac:(lia) ltac:(lia)
              ltac:(vm_compute; discriminate) ltac:(vm_compute; discriminate)
              ltac:(intros uv H; discriminate H))
    as (m & E & Hf & _ & _ & Hv & _).
  exists m. repeat split; assumption.
Defined.

(** C3: the guard of [CreateOutputFaceList] does not protect the reads.
    It compares the grid index with [upperBound = mNumVertices], which
    is by then the size [4 * mNumFaces] of the output arrays and not the
    allocated vertex count; for a grid of at least 2 x 2 it never holds
    ([guard_never_fires]).  When the vertex array is shorter than
    [width * height], no face is left unpopulated: the run reads the
    array outside its bounds. *)
Theorem CreateOutputFaceList_overreads width height st pcMesh rest :
  aiScene.mMeshes (pScene st) = pcMesh :: rest ->
  2 <= width -> 2 <= height -> 4 * width * height <= 2 ^ 32 ->
  Z.of_nat (length (aiMesh.mVertices pcMesh)) < width * height ->
  CreateOutputFaceList width height st = Undefined ArrayOverread st.
Proof.
  intros Hm Hw Hh Hsz Lv.
  destruct (CreateOutputFaceList_run width height st pcMesh rest Hm Hw Hh Hsz)
    as [((Hin & _) & _)|(_ & E)]; [|exact E].
  exfalso. lia.
Qed.

Lemma CreateOutputFaceList_overreads_witness :
  CreateOutputFaceList 2 2 (Sample.holding (Sample.grid_mesh 3)) =
    Undefined ArrayOverread (Sample.holding (Sample.grid_mesh 3)).
Proof.
  exact (CreateOutputFaceList_overreads 2 2 (Sample.holding (Sample.grid_mesh 3))
           (Sample.grid_mesh 3) [] eq_refl ltac:(lia) ltac:(lia) ltac:(lia)
           ltac:(vm_compute; reflexivity)).
Defined.

Lemma oversized_grid_length :
  Z.of_nat (length (aiMesh.mVertices
                      (Sample.grid_mesh (Header_HMP5.numverts Sample.oversized_header)))) =
    16777219.
Proof.
  unfold Sample.grid_mesh. cbn [aiMesh.mVertices].
  rewrite length_new_vectors
    by (cbn [Sample.oversized_header Header_HMP5.numverts]; lia).
  reflexivity.
Qed.

Lemma oversized_grid_outside :
  ~ corners_inside (Sample.grid_mesh (Header_HMP5.numverts Sample.oversized_header))
      2 (8388610 - 2) (2 - 2).
Proof. intros (Hin & _). rewrite oversized_grid_length in Hin. lia. Qed.

(** The failing input of C3: the header [Sample.oversized_header]
    passes validation and gives a grid of 2 x 8388610 = 16777220
    vertices for arrays of 16777219 entries, on which face assembly
    reads outside the vertex array. *)
Lemma oversized_grid_is_overread :
  header_violation frames_non_zero Sample.oversized_header = None /\
  F32.to_uint (F32.div (F32.of_int (Header_HMP5.numverts Sample.oversized_header))
                       (Header_HMP5.fnumverts_x Sample.oversized_header)) = Some 8388610 /\
  F32.to_uint (Header_HMP5.fnumverts_x Sample.oversized_header) = Some 2 /\
  forall st rest,
    aiScene.mMeshes (pScene st) =
      Sample.grid_mesh (Header_HMP5.numverts Sample.oversized_header) :: rest ->
    CreateOutputFaceList 2 8388610 st = Undefined ArrayOverread st.
Proof.
  split; [vm_compute; reflexivity|]. split; [vm_compute; reflexivity|].
  split; [vm_compute; reflexivity|].
  intros st rest Hm.
  destruct (CreateOutputFaceList_run 2 8388610 st _ rest Hm
              ltac:(lia) ltac:(lia) ltac:(lia))
    as [(Hin & _)|(_ & E)]; [|exact E].
  exfalso. exact (oversized_grid_outside Hin).
Qed.



(** ** The vertex loops (claim C8) *)

Lemma read_u16_Some buf off v st :
  Buffer.u16_at buf off = Some v ->
  read_u16 buf off st = Ok v (logged [EvRead off 2] st).
Proof. apply load_Some. Qed.

Lemma read_u8_Some buf off v st :
  Buffer.byte_at buf off = Some v ->
  read_u8 buf off st = Ok v (logged [EvRead off 1] st).
Proof. apply load_Some. Qed.

Lemma defined_Some {A} u (a : A) st : defined u (Some a) st = Ok a st.
Proof. reflexivity. Qed.

Lemma load_vertex_HMP5_decodes buf lookup h szCurrent :
  decodes_record buf h szCurrent (load_vertex_HMP5 buf lookup h szCurrent).
Proof.
  intros y x verts norms k st Hc Hk Hbuf Hv Hn.
  destruct (u16_at_inside buf (szCurrent + 4 * k) ltac:(lia) ltac:(lia)) as [z Hz].
  destruct (byte_at_inside buf (szCurrent + 4 * k + 2) ltac:(lia)) as [i Hi].
  destruct (array_get_inside verts k ltac:(lia)) as [v0 Hv0].
  exists z, (lookup i), [EvRead (szCurrent + 4 * k + 2) 1; EvRead (szCurrent + 4 * k) 2].
  split; [exact Hz|].
  unfold load_vertex_HMP5, Vertex_HMP5.sizeof, Vertex_HMP5.z, Vertex_HMP5.normals162index.
  rewrite Z.add_0_r, Hv0.
  rewrite (bind_Ok _ _ _ _ _ (defined_Some _ _ _)).
  rewrite (bind_Ok _ _ _ _ _ (read_u16_Some _ _ _ _ Hz)).
  rewrite (array_set_inside verts k) by lia.
  rewrite (bind_Ok _ _ _ _ _ (defined_Some _ _ _)).
  rewrite (bind_Ok _ _ _ _ _ (read_u8_Some _ _ _ _ Hi)).
  rewrite (array_set_inside norms k) by lia.
  rewrite (bind_Ok _ _ _ _ _ (defined_Some _ _ _)).
  reflexivity.
Qed.

Lemma load_vertex_HMP7_decodes buf normalize h szCurrent :
  decodes_record buf h szCurrent (load_vertex_HMP7 buf normalize h szCurrent).
Proof.
  intros y x verts norms k st Hc Hk Hbuf Hv Hn.
  destruct (u16_at_inside buf (szCurrent + 4 * k) ltac:(lia) ltac:(lia)) as [z Hz].
  destruct (byte_at_inside buf (szCurrent + 4 * k + 2) ltac:(lia)) as [nx Hnx].
  destruct (byte_at_inside buf (szCurrent + 4 * k + 3) ltac:(lia)) as [ny Hny].
  destruct (array_get_inside verts k ltac:(lia)) as [v0 Hv0].
  exists z. eexists.
  exists [EvRead (szCurrent + 4 * k + 3) 1; EvRead (szCurrent + 4 * k + 2) 1;
          EvRead (szCurrent + 4 * k) 2].
  split; [exact Hz|].
  unfold load_vertex_HMP7, Vertex_HMP7.sizeof, Vertex_HMP7.z, Vertex_HMP7.normal_x,
    Vertex_HMP7.normal_y.
  rewrite Z.add_0_r, Hv0.
  rewrite (bind_Ok _ _ _ _ _ (defined_Some _ _ _)).
  rewrite (bind_Ok _ _ _ _ _ (read_u16_Some _ _ _ _ Hz)).
  rewrite (array_set_inside verts k) by lia.
  rewrite (bind_Ok _ _ _ _ _ (defined_Some _ _ _)).
  rewrite (bind_Ok _ _ _ _ _ (read_u8_Some _ _ _ _ Hnx)).
  rewrite (bind_Ok _ _ _ _ _ (read_u8_Some _ _ _ _ Hny)).
  rewrite (array_set_inside norms k) by lia.
  rewrite (bind_Ok _ _ _ _ _ (defined_Some _ _ _)).
  reflexivity.
Qed.

(** The loops decode the whole grid when the payload is inside the
    buffer and the output arrays hold the grid. *)
Lemma load_vertices_run buf h szCurrent load_vertex width height verts norms st :
  decodes_record buf h szCurrent load_vertex ->
  0 <= szCurrent -> 0 <= width -> 0 <= height ->
  szCurrent + 4 * (width * height) <= Z.of_nat (length buf) ->
  width * height <= Z.of_nat (length verts) ->
  width * height <= Z.of_nat (length norms) ->
  exists verts' norms' st',
    load_vertices load_vertex width height (verts, norms, 0) st =
      Ok (verts', norms', width * height) st' /\
    pScene st' = pScene st /\
    length verts' = length verts /\ length norms' = length norms /\
    vertices_loaded buf h szCurrent width verts' (width * height).
Proof.
  intros Hdec Hc Hw Hh Hbuf Lv Ln.
  set (I := fun (k : Z) (s : vertex_locals) (st' : state) =>
              snd s = k /\ pScene st' = pScene st /\
              length (fst (fst s)) = length verts /\ length (snd (fst s)) = length norms /\
              vertices_loaded buf h szCurrent width (fst (fst s)) k).
  assert (Hrun : hoare (I 0 (verts, norms, 0))
            (load_vertices load_vertex width height (verts, norms, 0))
            (I (width * height)) (fun _ _ => False)).
  { unfold load_vertices.
    pose proof (hoare_for_loop
      (fun y => for_loop (Z.to_nat width) 0 (load_vertex y))
      (fun y => I (y * width)) (fun _ _ => False)
      (Z.to_nat height) 0 (verts, norms, 0)) as Hloop.
    eapply hoare_conseq; [apply Hloop| | |]; clear Hloop.
    - intros y s Hy. rewrite Z2Nat.id in Hy by lia.
      pose proof (hoare_for_loop (load_vertex y)
        (fun x => I (y * width + x)) (fun _ _ => False)
        (Z.to_nat width) 0 s) as Hrow.
      eapply hoare_conseq; [apply Hrow| | |]; clear Hrow.
      + intros x [[vs ns] k] Hx. rewrite Z2Nat.id in Hx by lia.
        intros st' (Hk & Hsc & Lvs & Lns & Hld). cbn [fst snd] in *. subst k.
        assert (Hkw : y * width + x < width * height).
        { assert ((y + 1) * width <= height * width)
            by (apply Z.mul_le_mono_nonneg_r; lia). lia. }
        assert (0 <= y * width) by (apply Z.mul_nonneg_nonneg; lia).
        destruct (Hdec y x vs ns (y * width + x) st' Hc ltac:(lia) ltac:(lia)
                    ltac:(lia) ltac:(lia)) as (z & n & evs & Hz & E).
        rewrite E. unfold I. cbn [fst snd logged pScene].
        split; [lia|]. split; [assumption|].
        rewrite !length_insert. split; [assumption|]. split; [assumption|].
        intros y' x' Hy' Hx' Hlt.
        destruct (Z.eq_dec (y' * width + x') (y * width + x)) as [Ec|Nc].
        * destruct (cell_number_inj width y' x' y x ltac:(lia) ltac:(lia) ltac:(lia)
                      ltac:(lia) Ec) as [-> ->].
          exists z. split; [exact Hz|].
          unfold array_get. destruct (Z.leb_spec 0 (y * width + x)); [|lia].
          apply list_lookup_insert_eq. lia.
        * destruct (Hld y' x' Hy' Hx' ltac:(lia)) as (z' & Hz' & Hg).
          exists z'. split; [exact Hz'|].
          unfold array_get in *.
          assert (0 <= y' * width) by (apply Z.mul_nonneg_nonneg; lia).
          destruct (Z.leb_spec 0 (y' * width + x')); [|lia].
          rewrite list_lookup_insert_ne by lia. exact Hg.
      + intros st' Hi. now rewrite Z.add_0_r.
      + intros s' st' Hi. rewrite Z2Nat.id in Hi by lia.
        replace ((y + 1) * width) with (y * width + width) by lia. exact Hi.
      + intros a st' [].
    - intros st' Hi. exact Hi.
    - intros s' st' Hi. rewrite Z2Nat.id in Hi by lia.
      replace (width * height) with ((0 + height) * width) by lia. exact Hi.
    - intros a st' []. }
  assert (H0 : I 0 (verts, norms, 0) st).
  { unfold I. cbn [fst snd]. repeat split; try reflexivity.
    intros y x Hy Hx Hlt. exfalso.
    assert (0 <= y * width) by (apply Z.mul_nonneg_nonneg; lia). lia. }
  specialize (Hrun st H0).
  destruct (load_vertices load_vertex width height (verts, norms, 0) st)
    as [[[vs ns] k] st'| |]; try contradiction.
  destruct Hrun as (Hk & Hsc & Lvs & Lns & Hld). cbn [fst snd] in *. subst k.
  exists vs, ns, st'. repeat split; assumption.
Qed.

(** C8.  In both revisions the vertex loops store, for the grid point
    in column [x_index] of row [y_index], the position with
    [x = x_index * ftrisize_x], [y = y_index * ftrisize_y] and
    [z = ((quantizedZ / 65535) - 0.5) * ftrisize_x * 8.0] in binary32
    arithmetic, where [quantizedZ] is the 16-bit height field of the
    record of the point; the loops succeed when the payload is inside
    the buffer and the arrays hold the grid.  With a spacing of 2.0 and
    a height field of 32767 the height is [-(2^23 * 2^-36) = -2^-13],
    which is -0.00012207..., and the products [index * 2.0] of the
    indices of a 3 x 2 grid are the integers [2 * index]. *)
Theorem decoded_vertex_positions buf lookup normalize h szCurrent width height
    verts norms st load_vertex :
  load_vertex = load_vertex_HMP5 buf lookup h szCurrent \/
  load_vertex = load_vertex_HMP7 buf normalize h szCurrent ->
  0 <= szCurrent -> 0 <= width -> 0 <= height ->
  szCurrent + 4 * (width * height) <= Z.of_nat (length buf) ->
  width * height <= Z.of_nat (length verts) ->
  width * height <= Z.of_nat (length norms) ->
  (exists verts' norms' st',
     load_vertices load_vertex width height (verts, norms, 0) st =
       Ok (verts', norms', width * height) st' /\
     forall y_index x_index, 0 <= y_index < height -> 0 <= x_index < width ->
       exists quantizedZ position,
         Buffer.u16_at buf (szCurrent + 4 * (y_index * width + x_index)) = Some quantizedZ /\
         array_get verts' (y_index * width + x_index) = Some position /\
         aiVector3.x position =
           F32.mul (F32.of_int x_index) (Header_HMP5.ftrisize_x h) /\
         aiVector3.y position =
           F32.mul (F32.of_int y_index) (Header_HMP5.ftrisize_y h) /\
         aiVector3.z position =
           F32.mul (F32.mul (F32.sub (F32.div (F32.of_int quantizedZ) (F32.of_int 65535))
                                     F32.half)
                            (Header_HMP5.ftrisize_x h))
                   F32.eight) /\
  (Header_HMP5.ftrisize_x h = F32.of_bits 0x40000000 ->
   height_of h 32767 = S754_finite true 8388608 (-36)) /\
  Forall (fun index => F32.mul (F32.of_int index) (F32.of_bits 0x40000000) =
                       F32.of_int (2 * index)) [0; 1; 2].
Proof.
  intros Hrev Hc Hw Hh Hbuf Lv Ln. split; [|split].
  - assert (Hdec : decodes_record buf h szCurrent load_vertex).
    { destruct Hrev as [-> | ->];
        [apply load_vertex_HMP5_decodes|apply load_vertex_HMP7_decodes]. }
    destruct (load_vertices_run buf h szCurrent load_vertex width height verts norms st
                Hdec Hc Hw Hh Hbuf Lv Ln) as (vs & ns & st' & E & _ & _ & _ & Hld).
    exists vs, ns, st'. split; [exact E|].
    intros y x Hy Hx.
    assert (y * width + x < width * height).
    { assert ((y + 1) * width <= height * width)
        by (apply Z.mul_le_mono_nonneg_r; lia). lia. }
    destruct (Hld y x ltac:(lia) Hx ltac:(lia)) as (z & Hz & Hg).
    exists z, (position_of h x y z). repeat split; assumption.
  - intros Hsx. unfold height_of. rewrite Hsx. vm_compute. reflexivity.
  - repeat constructor.
Qed.

Lemma decoded_vertex_positions_witness :
  exists verts' norms' st',
    load_vertices
      (load_vertex_HMP5 Sample.terrain_3x2 Sample.normal_table
         (Header_HMP5.Build (F32.of_bits 0x40000000) (F32.of_bits 0x40000000)
            (F32.of_bits 0x40400000) 0 6 1) 120)
      3 2 (new_vectors 6, new_vectors 6, 0) Sample.st0 =
      Ok (verts', norms', 6) st' /\
    exists position,
      array_get verts' (1 * 3 + 2) = Some position /\
      aiVector3.x position = F32.of_int 4 /\
      aiVector3.y position = F32.of_int 2 /\
      aiVector3.z position = S754_finite true 8388608 (-36).
Proof.
  destruct (decoded_vertex_positions Sample.terrain_3x2 Sample.normal_table Sample.keep
              (Header_HMP5.Build (F32.of_bits 0x40000000) (F32.of_bits 0x40000000)
                 (F32.of_bits 0x40400000) 0 6 1)
              120 3 2 (new_vectors 6) (new_vectors 6) Sample.st0 _
              (or_introl eq_refl) ltac:(lia) ltac:(lia) ltac:(lia)
              ltac:(vm_compute; discriminate) ltac:(vm_compute; discriminate)
              ltac:(vm_compute; discriminate))
    as ((vs & ns & st' & E & Hpos) & _ & _).
  exists vs, ns, st'. split; [exact E|].
  destruct (Hpos 1 2 ltac:(lia) ltac:(lia)) as (z & p & Hz & Hg & Hx & Hy & Hzz).
  exists p. split; [exact Hg|].
  assert (Ez : Buffer.u16_at Sample.terrain_3x2 (120 + 4 * (1 * 3 + 2)) = Some 32767)
    by (vm_compute; reflexivity).
  rewrite Ez in Hz. injection Hz as <-.
  rewrite Hx, Hy, Hzz. repeat split; vm_compute; reflexivity.
Defined.

(** ** Skipping the further skins (claim C6) *)

Lemma SizeCheck_passes buf szPos st :
  szPos <= iFileSize buf -> SizeCheck buf szPos st = Ok tt (logged [EvCheck szPos] st).
Proof.
  intros H. unfold SizeCheck. destruct (Z.gtb_spec szPos (iFileSize buf)); [lia|reflexivity].
Qed.

Lemma SizeCheck_fails buf szPos st :
  szPos > iFileSize buf -> SizeCheck buf szPos st = Throw Size_check_failed st.
Proof.
  intros H. unfold SizeCheck. destruct (Z.gtb_spec szPos (iFileSize buf)); [reflexivity|lia].
Qed.

Lemma skip_skin_run buf skip c iType iWidth iHeight c' st :
  c + 12 <= iFileSize buf ->
  Buffer.u32_at buf c = Some iType ->
  Buffer.u32_at buf (c + 4) = Some iWidth ->
  Buffer.u32_at buf (c + 8) = Some iHeight ->
  skip (c + 12) iType iWidth iHeight = Returns c' ->
  let st1 := logged [EvChunk c'; EvRead (c + 8) 4; EvRead (c + 4) 4; EvRead c 4;
                     EvCheck (c + 12)] st in
  skip_skin buf skip c st =
    if c' >? iFileSize buf then Throw Size_check_failed st1
    else Ok c' (logged [EvCheck c'] st1).
Proof.
  intros Hsz Ht Hw Hh Hs st1. unfold skip_skin.
  change (c + 3 * 4) with (c + 12).
  rewrite (bind_Ok _ _ _ _ _ (SizeCheck_passes buf _ _ Hsz)).
  rewrite (bind_Ok _ _ _ _ _ (read_u32_Some _ _ _ _ Ht)).
  rewrite (bind_Ok _ _ _ _ _ (read_u32_Some _ _ _ _ Hw)).
  replace (c + 4 + 4) with (c + 8) by lia.
  rewrite (bind_Ok _ _ _ _ _ (read_u32_Some _ _ _ _ Hh)).
  replace (c + 8 + 4) with (c + 12) by lia.
  rewrite Hs. unfold call at 1. unfold bind at 1, ret at 1.
  unfold bind at 1, log at 1.
  destruct (Z.gtb_spec c' (iFileSize buf)) as [Hgt|Hle].
  - assert (Hgt' : c' > iFileSize buf) by lia.
    now rewrite (bind_Throw _ _ _ _ _ (SizeCheck_fails buf c' _ Hgt')).
  - now rewrite (bind_Ok _ _ _ _ _ (SizeCheck_passes buf c' _ Hle)).
Qed.

Lemma skip_loop_skipped buf skip n c c' :
  skipped buf skip n c c' ->
  forall i st, exists st',
    for_loop n i (fun _ => skip_skin buf skip) c st = Ok c' st' /\
    pScene st' = pScene st.
Proof.
  induction 1 as [c|n c t w h c' c'' Hsz Ht Hw Hh Hs Hin _ IH]; intros i st.
  - exists st. split; reflexivity.
  - cbn [for_loop]. unfold bind at 1.
    rewrite (skip_skin_run buf skip c t w h c' st Hsz Ht Hw Hh Hs). cbv zeta.
    destruct (Z.gtb_spec c' (iFileSize buf)); [lia|].
    destruct (IH (i + 1) (logged [EvCheck c']
                (logged [EvChunk c'; EvRead (c + 8) 4; EvRead (c + 4) 4; EvRead c 4;
                         EvCheck (c + 12)] st))) as (st' & E & Hsc).
    exists st'. split; [exact E|]. now rewrite Hsc.
Qed.

Lemma skip_loop_truncated buf skip k c c' :
  skipped buf skip k c c' ->
  truncated_chunk buf skip c' ->
  forall n i st, (k < n)%nat -> exists st',
    for_loop n i (fun _ => skip_skin buf skip) c st = Throw Size_check_failed st' /\
    pScene st' = pScene st.
Proof.
  induction 1 as [c|k c t w h c' c'' Hsz Ht Hw Hh Hs Hin _ IH]; intros Htr n i st Hk.
  - destruct n as [|n]; [lia|]. cbn [for_loop]. unfold bind at 1.
    destruct Htr as [Hhd|(t & w & h & c' & Ht & Hw & Hh & Hs & Hout)].
    + unfold skip_skin. change (c + 3 * 4) with (c + 12).
      rewrite (bind_Throw _ _ _ _ _ (SizeCheck_fails buf _ st Hhd)).
      exists st. split; reflexivity.
    + destruct (Z_le_gt_dec (c + 12) (iFileSize buf)) as [Hsz|Hhd].
      * rewrite (skip_skin_run buf skip c t w h c' st Hsz Ht Hw Hh Hs). cbv zeta.
        destruct (Z.gtb_spec c' (iFileSize buf)); [|lia].
        eexists. split; reflexivity.
      * unfold skip_skin. change (c + 3 * 4) with (c + 12).
        rewrite (bind_Throw _ _ _ _ _ (SizeCheck_fails buf _ st Hhd)).
        exists st. split; reflexivity.
  - destruct n as [|n]; [lia|]. cbn [for_loop]. unfold bind at 1.
    rewrite (skip_skin_run buf skip c t w h c' st Hsz Ht Hw Hh Hs). cbv zeta.
    destruct (Z.gtb_spec c' (iFileSize buf)); [lia|].
    destruct (IH Htr n (i + 1) (logged [EvCheck c']
                (logged [EvChunk c'; EvRead (c + 8) 4; EvRead (c + 4) 4; EvRead c 4;
                         EvCheck (c + 12)] st)) ltac:(lia)) as (st' & E & Hsc).
    exists st'. split; [exact E|]. now rewrite Hsc.
Qed.

(** C6.  After the first skin has been read and its material made,
    [ReadFirstSkin] skips the remaining [iNumSkins - 1] skins: for each
    it checks the bounds of the 12 header bytes, re-reads type, width
    and height, lets the chunk-skip collaborator move the cursor, and
    checks the bounds again.  When all of them are inside the file, the
    cursor ends behind the last one and the scene keeps the material of
    the first skin only; when one of them is truncated, the run fails
    with "file is too small" (TruncatedInput) and does not stop
    silently at the skins before it.  With [iNumSkins = 3] these are
    the first chunk and two skipped ones. *)
Theorem ReadFirstSkin_skips_further_skins buf parse skip iNumSkins szCursor st
    iType iWidth iHeight c0 st0 c1 pcMat :
  1 <= iNumSkins ->
  ReadFirstSkin_header buf szCursor st = Ok (iType, iWidth, iHeight, c0) st0 ->
  parse c0 iType iWidth iHeight = Returns (c1, pcMat) ->
  (forall c2,
     skipped buf skip (Z.to_nat (iNumSkins - 1)) c1 c2 ->
     exists st',
       ReadFirstSkin buf parse skip iNumSkins szCursor st = Ok c2 st' /\
       aiScene.mNumMaterials (pScene st') = 1 /\
       aiScene.mMaterials (pScene st') = [pcMat])
  /\
  (forall k ck,
     (k < Z.to_nat (iNumSkins - 1))%nat ->
     skipped buf skip k c1 ck -> truncated_chunk buf skip ck ->
     exists st',
       ReadFirstSkin buf parse skip iNumSkins szCursor st = Throw Size_check_failed st' /\
       kind_of Size_check_failed = TruncatedInput /\
       pScene st' = pScene st0).
Proof.
  intros Hn Hhd Hp. split.
  - intros c2 Hsk. unfold ReadFirstSkin.
    rewrite (bind_Ok _ _ _ _ _ Hhd). rewrite Hp.
    unfold call at 1. unfold bind at 1, ret at 1. unfold bind at 1, log at 1.
    destruct (skip_loop_skipped buf skip _ c1 c2 Hsk 1
                (State (pScene st0) (EvChunk c1 :: trace st0))) as (st' & E & Hsc).
    rewrite (bind_Ok _ _ _ _ _ E).
    eexists. split; [reflexivity|]. split; reflexivity.
  - intros k ck Hk Hsk Htr. unfold ReadFirstSkin.
    rewrite (bind_Ok _ _ _ _ _ Hhd). rewrite Hp.
    unfold call at 1. unfold bind at 1, ret at 1. unfold bind at 1, log at 1.
    destruct (skip_loop_truncated buf skip k c1 ck Hsk Htr _ 1
                (State (pScene st0) (EvChunk c1 :: trace st0)) Hk) as (st' & E & Hsc).
    rewrite (bind_Throw _ _ _ _ _ E).
    exists st'. split; [reflexivity|]. split; [reflexivity|]. exact Hsc.
Qed.

Lemma ReadFirstSkin_skips_further_skins_witness :
  (exists st',
     ReadFirstSkin Sample.three_skins Sample.parse_lump Sample.skip_lump 3 84 Sample.st0 =
       Ok 132 st' /\
     aiScene.mMaterials (pScene st') = [[AI_MATKEY_SKIN 7 2 2]]) /\
  (exists st',
     ReadFirstSkin Sample.three_skins_cut Sample.parse_lump Sample.skip_lump 3 84 Sample.st0 =
       Throw Size_check_failed st').
Proof.
  split.
  - assert (Hhd : ReadFirstSkin_header Sample.three_skins 84 Sample.st0 =
                  Ok (7, 2, 2, 96)
                     (logged [EvRead 92 4; EvRead 88 4; EvRead 84 4] Sample.st0))
      by (vm_compute; reflexivity).
    assert (Hsk : skipped Sample.three_skins Sample.skip_lump (Z.to_nat (3 - 1)) 100 132).
    { apply (skipped_one _ _ 1 100 7 2 2 116 132);
        [vm_compute; discriminate|vm_compute; reflexivity|vm_compute; reflexivity
        |vm_compute; reflexivity|vm_compute; reflexivity|vm_compute; discriminate|].
      apply (skipped_one _ _ 0 116 7 2 2 132 132);
        [vm_compute; discriminate|vm_compute; reflexivity|vm_compute; reflexivity
        |vm_compute; reflexivity|vm_compute; reflexivity|vm_compute; discriminate|].
      apply skipped_none. }
    destruct (proj1 (ReadFirstSkin_skips_further_skins Sample.three_skins
                       Sample.parse_lump Sample.skip_lump 3 84 Sample.st0
                       7 2 2 96 _ 100 [AI_MATKEY_SKIN 7 2 2]
                       ltac:(lia) Hhd eq_refl) 132 Hsk) as (st' & E & _ & Hm).
    exists st'. split; assumption.
  - assert (Hhd : ReadFirstSkin_header Sample.three_skins_cut 84 Sample.st0 =
                  Ok (7, 2, 2, 96)
                     (logged [EvRead 92 4; EvRead 88 4; EvRead 84 4] Sample.st0))
      by (vm_compute; reflexivity).
    assert (Hsk : skipped Sample.three_skins_cut Sample.skip_lump 1 100 116).
    { apply (skipped_one _ _ 0 100 7 2 2 116 116);
        [vm_compute; discriminate|vm_compute; reflexivity|vm_compute; reflexivity
        |vm_compute; reflexivity|vm_compute; reflexivity|vm_compute; discriminate|].
      apply skipped_none. }
    assert (Htr : truncated_chunk Sample.three_skins_cut Sample.skip_lump 116).
    { right. exists 7, 2, 2, 132.
      split; [vm_compute; reflexivity|]. split; [vm_compute; reflexivity|].
      split; [vm_compute; reflexivity|]. split; vm_compute; reflexivity. }
    destruct (proj2 (ReadFirstSkin_skips_further_skins Sample.three_skins_cut
                       Sample.parse_lump Sample.skip_lump 3 84 Sample.st0
                       7 2 2 96 _ 100 [AI_MATKEY_SKIN 7 2 2]
                       ltac:(lia) Hhd eq_refl) 1%nat 116 ltac:(vm_compute; lia) Hsk Htr)
      as (st' & E & _).
    exists st'. exact E.
Defined.

(** ** The bounds check of the vertex array (claim C4) *)

Lemma bind_Ok_inv {A B} (c : M A) (f : A -> M B) st b st'' :
  bind c f st = Ok b st'' -> exists a st', c st = Ok a st' /\ f a st' = Ok b st''.
Proof.
  unfold bind. destruct (c st) as [a st'| |]; try discriminate. eauto.
Qed.

Lemma overlay_fields buf h :
  Header_HMP5.overlay buf = Some h ->
  (exists w, Header_HMP5.fnumverts_x h = F32.of_bits w) /\
  - 2 ^ 31 <= Header_HMP5.numverts h < 2 ^ 31.
Proof.
  unfold Header_HMP5.overlay, Buffer.f32_at, Buffer.i32_at.
  destruct (Buffer.u32_at buf 36); [|discriminate].
  destruct (Buffer.u32_at buf 40); [|discriminate].
  destruct (Buffer.u32_at buf 44) as [w|]; [|discriminate].
  destruct (Buffer.u32_at buf 48); [|discriminate].
  destruct (Buffer.u32_at buf 60) as [nv|] eqn:Env; [|discriminate].
  destruct (Buffer.u32_at buf 68); [|discriminate].
  destruct (Buffer.byte_at buf (Header_HMP5.sizeof - 1)); [|discriminate].
  intros [= <-]. cbn [Header_HMP5.fnumverts_x Header_HMP5.numverts].
  split; [eauto|]. apply u32_at_Some in Env. unfold Word.signed32.
  destruct (Z.ltb_spec nv (2 ^ 31)); lia.
Qed.

Lemma ValidateHeader_Ok buf st st' :
  ValidateHeader_HMP457 buf st = Ok tt st' ->
  120 <= iFileSize buf /\
  exists h, Header_HMP5.overlay buf = Some h /\
            header_violation frames_non_zero h = None /\
            st' = logged [EvRead 0 Header_HMP5.sizeof; EvCheck 120] st.
Proof.
  intros E.
  assert (Hsz : 120 <= iFileSize buf).
  { unfold ValidateHeader_HMP457 in E.
    destruct (Z.gtb_spec 120 (iFileSize buf)); [discriminate E|lia]. }
  split; [exact Hsz|].
  pose proof (iFileSize_le buf) as Hle.
  destruct (overlay_inside buf) as [h Hh]; [unfold Header_HMP5.sizeof; lia|].
  exists h. split; [exact Hh|].
  rewrite (ValidateHeader_eq buf h st Hsz Hh) in E.
  destruct (header_violation frames_non_zero h); [discriminate E|].
  injection E as <-. split; reflexivity.
Qed.

(** A header that passes validation has the properties [grid_small]
    asks for. *)
Lemma header_violation_None h :
  header_violation frames_non_zero h = None ->
  F32.isfinite (Header_HMP5.fnumverts_x h) = true /\
  F32.ltb (Header_HMP5.fnumverts_x h) F32.one = false /\
  F32.ltb (F32.div (F32.of_int (Header_HMP5.numverts h)) (Header_HMP5.fnumverts_x h))
          F32.one = false.
Proof.
  unfold header_violation.
  destruct (negb (F32.isfinite (Header_HMP5.ftrisize_x h) && _)); [discriminate|].
  destruct (negb (negb (F32.is_zero (Header_HMP5.ftrisize_x h)) && _)); [discriminate|].
  destruct (F32.isfinite (Header_HMP5.fnumverts_x h)) eqn:Hfin; [|discriminate].
  cbn [negb].
  assert (Hnan : Header_HMP5.fnumverts_x h <> S754_nan) by (intros E; rewrite E in Hfin; discriminate).
  rewrite (leb_one_ltb _ Hnan).
  destruct (F32.ltb (Header_HMP5.fnumverts_x h) F32.one) eqn:Hlt; [discriminate|].
  cbn [negb andb].
  assert (Hq : F32.div (F32.of_int (Header_HMP5.numverts h)) (Header_HMP5.fnumverts_x h)
               <> S754_nan).
  { destruct (Header_HMP5.fnumverts_x h) as [?|?| |s m e]; try discriminate.
    apply div_not_nan, of_int_not_nan. }
  rewrite (leb_one_ltb _ Hq).
  destruct (F32.ltb (F32.div _ _) F32.one); [discriminate|].
  intros _. repeat split.
Qed.

Lemma HMP57_prologue_Ok buf parse skip st h height width szCurrent st1 :
  HMP57_prologue buf parse skip st = Ok (h, height, width, szCurrent) st1 ->
  120 <= iFileSize buf /\
  Header_HMP5.overlay buf = Some h /\
  header_violation frames_non_zero h = None /\
  F32.to_uint (F32.div (F32.of_int (Header_HMP5.numverts h))
                       (Header_HMP5.fnumverts_x h)) = Some height /\
  F32.to_uint (Header_HMP5.fnumverts_x h) = Some width.
Proof.
  unfold HMP57_prologue. intros E.
  apply bind_Ok_inv in E. destruct E as ([] & sa & Ev & E).
  apply ValidateHeader_Ok in Ev. destruct Ev as (Hsz & h0 & Hh0 & Hv & ->).
  rewrite (bind_Ok _ _ _ _ _ (pcHeader_Some buf h0 _ Hh0)) in E.
  apply bind_Ok_inv in E. destruct E as (sc & sb & _ & E).
  apply bind_Ok_inv in E. destruct E as ([] & sc' & _ & E).
  apply bind_Ok_inv in E. destruct E as (verts & sd & _ & E).
  apply bind_Ok_inv in E. destruct E as (norms & se & _ & E).
  apply bind_Ok_inv in E. destruct E as ([] & sf & _ & E).
  apply bind_Ok_inv in E. destruct E as (ht & sg & Eh & E).
  apply bind_Ok_inv in E. destruct E as (wd & sh & Ew & E).
  apply bind_Ok_inv in E. destruct E as (c0 & si & _ & E).
  unfold ret in E. injection E as <- <- <- <- <-.
  unfold cast_uint, defined in Eh, Ew.
  destruct (F32.to_uint (F32.div _ _)) as [ht'|] eqn:Eht; [|discriminate Eh].
  destruct (F32.to_uint (Header_HMP5.fnumverts_x h0)) as [wd'|] eqn:Ewd; [|discriminate Ew].
  unfold ret in Eh, Ew. injection Eh as <- <-. injection Ew as <- <-.
  repeat split; assumption.
Qed.

(** The extent tested is the size of the record array, without
    wrap-around, for the grid of a validated header. *)
Lemma vertex_extent_exact h height width :
  (exists w, Header_HMP5.fnumverts_x h = F32.of_bits w) ->
  - 2 ^ 31 <= Header_HMP5.numverts h < 2 ^ 31 ->
  header_violation frames_non_zero h = None ->
  F32.to_uint (F32.div (F32.of_int (Header_HMP5.numverts h))
                       (Header_HMP5.fnumverts_x h)) = Some height ->
  F32.to_uint (Header_HMP5.fnumverts_x h) = Some width ->
  0 <= width /\ 0 <= height /\ width * height <= 2 ^ 32 /\
  0 < Header_HMP5.numverts h /\
  vertex_extent height width = 4 * (width * height).
Proof.
  intros [w Hw] Hnv Hv Hht Hwd.
  destruct (header_violation_None h Hv) as (Hfin & Hx & Hq).
  rewrite Hw in *.
  destruct (grid_small w _ width height Hnv Hfin Hx Hq Hht Hwd) as (H0w & H0h & Hwh & Hpos).
  repeat split; try assumption.
  unfold vertex_extent, Vertex_HMP7.sizeof.
  assert (Hh32 : height < 2 ^ 32).
  { unfold F32.to_uint in Hht. destruct (F32.trunc _) as [z|]; [|discriminate].
    destruct (Z.leb_spec 0 z), (Z.ltb_spec z (2 ^ 32)); try discriminate.
    injection Hht as <-. assumption. }
  rewrite (wrap64_small (4 * height)) by lia.
  rewrite wrap64_small by lia. lia.
Qed.

(** C4.  In both revisions, once the header is validated and the
    material made, the decoder tests the whole extent of the vertex
    array, [height * width * recordSize] for the record size of the
    revision, before it loads a vertex: if the extent exceeds the file,
    the run fails at once with "file is too small" (TruncatedInput) in
    the state the prologue left; otherwise the test is logged and only
    then the vertex loops run. *)
Theorem vertex_array_is_bounds_checked buf parse skip lookup normalize st
    h height width szCurrent st1 :
  HMP57_prologue buf parse skip st = Ok (h, height, width, szCurrent) st1 ->
  vertex_extent height width = height * width * Vertex_HMP5.sizeof /\
  vertex_extent height width = height * width * Vertex_HMP7.sizeof /\
  (szCurrent + height * width * Vertex_HMP5.sizeof > iFileSize buf ->
   InternReadFile_HMP5 buf parse skip lookup st = Throw Size_check_failed st1) /\
  (szCurrent + height * width * Vertex_HMP7.sizeof > iFileSize buf ->
   InternReadFile_HMP7 buf parse skip normalize st = Throw Size_check_failed st1) /\
  kind_of Size_check_failed = TruncatedInput /\
  (szCurrent + height * width * Vertex_HMP5.sizeof <= iFileSize buf ->
   InternReadFile_HMP5 buf parse skip lookup st =
     HMP57_body (load_vertex_HMP5 buf lookup) h height width szCurrent
       (logged [EvCheck (szCurrent + height * width * Vertex_HMP5.sizeof)] st1)) /\
  (szCurrent + height * width * Vertex_HMP7.sizeof <= iFileSize buf ->
   InternReadFile_HMP7 buf parse skip normalize st =
     HMP57_body (load_vertex_HMP7 buf normalize) h height width szCurrent
       (logged [EvCheck (szCurrent + height * width * Vertex_HMP7.sizeof)] st1)).
Proof.
  intros Hpro.
  destruct (HMP57_prologue_Ok _ _ _ _ _ _ _ _ _ Hpro) as (Hsz & Hh & Hv & Hht & Hwd).
  destruct (overlay_fields buf h Hh) as (Hw & Hnv).
  destruct (vertex_extent_exact h height width Hw Hnv Hv Hht Hwd)
    as (H0w & H0h & Hwh & Hpos & Hext).
  unfold Vertex_HMP5.sizeof, Vertex_HMP7.sizeof.
  assert (Hrun : forall load_vertex,
            InternReadFile_HMP57 buf parse skip load_vertex st =
            bind (SizeCheck buf (szCurrent + vertex_extent height width))
                 (fun _ => HMP57_body load_vertex h height width szCurrent) st1).
  { intros load_vertex. unfold InternReadFile_HMP57.
    now rewrite (bind_Ok _ _ _ _ _ Hpro). }
  split; [lia|]. split; [lia|]. split; [|split; [|split; [reflexivity|split]]].
  - intros Hout. unfold InternReadFile_HMP5. rewrite Hrun.
    apply bind_Throw, SizeCheck_fails. lia.
  - intros Hout. unfold InternReadFile_HMP7. rewrite Hrun.
    apply bind_Throw, SizeCheck_fails. lia.
  - intros Hin. unfold InternReadFile_HMP5. rewrite Hrun.
    assert (Hpass : szCurrent + vertex_extent height width <= iFileSize buf)
      by (rewrite Hext; lia).
    rewrite (bind_Ok _ _ _ _ _ (SizeCheck_passes buf _ st1 Hpass)).
    rewrite Hext. replace (height * width * 4) with (4 * (width * height)) by lia.
    reflexivity.
  - intros Hin. unfold InternReadFile_HMP7. rewrite Hrun.
    assert (Hpass : szCurrent + vertex_extent height width <= iFileSize buf)
      by (rewrite Hext; lia).
    rewrite (bind_Ok _ _ _ _ _ (SizeCheck_passes buf _ st1 Hpass)).
    rewrite Hext. replace (height * width * 4) with (4 * (width * height)) by lia.
    reflexivity.
Qed.

Lemma vertex_array_is_bounds_checked_witness :
  exists st1,
    InternReadFile_HMP5 Sample.terrain_cut Sample.parse_lump Sample.skip_lump
      Sample.normal_table Sample.st0 = Throw Size_check_failed st1.
Proof.
  assert (Hpro : exists h st1,
            HMP57_prologue Sample.terrain_cut Sample.parse_lump Sample.skip_lump Sample.st0 =
              Ok (h, 2, 3, 120) st1)
    by (eexists; eexists; vm_compute; reflexivity).
  destruct Hpro as (h & st1 & Hpro). exists st1.
  apply (proj1 (proj2 (proj2 (vertex_array_is_bounds_checked Sample.terrain_cut
           Sample.parse_lump Sample.skip_lump Sample.normal_table Sample.keep
           Sample.st0 h 2 3 120 st1 Hpro)))).
  vm_compute. reflexivity.
Defined.

(** ** Silent and quiet computations *)

Lemma silent_ret {A} (a : A) : silent (ret a).
Proof. intros st. reflexivity. Qed.

Lemma silent_throw {A} e : silent (@throw A e).
Proof. intros st. reflexivity. Qed.

Lemma silent_defined {A} u (o : option A) : u <> ReadPastBuffer -> silent (defined u o).
Proof. intros Hu st. destruct o; cbn; auto. Qed.

Lemma silent_bind {A B} (c : M A) (f : A -> M B) :
  silent c -> (forall a, silent (f a)) -> silent (bind c f).
Proof.
  intros Hc Hf st. specialize (Hc st). unfold bind.
  destruct (c st) as [a st'|e st'|u st']; try assumption.
  specialize (Hf a st'). destruct (f a st') as [b st''|e st''|u st''].
  - congruence.
  - congruence.
  - destruct Hf. split; congruence.
Qed.

Lemma silent_for_loop {St} (body : Z -> St -> M St) n :
  (forall i s, silent (body i s)) -> forall i s, silent (for_loop n i body s).
Proof.
  intros Hb. induction n as [|n IH]; intros i s; cbn [for_loop].
  - apply silent_ret.
  - apply silent_bind; [apply Hb|]. intros s'. apply IH.
Qed.

Lemma silent_get_scene : silent get_scene.
Proof. intros st. reflexivity. Qed.

Lemma silent_put_scene sc : silent (put_scene sc).
Proof. intros st. reflexivity. Qed.

Lemma silent_mesh0 : silent mesh0.
Proof.
  unfold mesh0. apply silent_bind; [apply silent_get_scene|].
  intros sc. apply silent_defined. discriminate.
Qed.

Lemma silent_set_mesh0 m : silent (set_mesh0 m).
Proof.
  unfold set_mesh0. apply silent_bind; [apply silent_get_scene|].
  intros sc. destruct (aiScene.mMeshes sc); [|apply silent_put_scene].
  intros st. cbn. split; [reflexivity|discriminate].
Qed.

Lemma silent_new_array n : silent (new_array n).
Proof. unfold new_array. destruct (n <? 0); [apply silent_throw|apply silent_ret]. Qed.

Lemma silent_cast_uint f : silent (cast_uint f).
Proof. apply silent_defined. discriminate. Qed.

Lemma silent_copy_quad src o0 o1 x dst o : silent (copy_quad src o0 o1 x dst o).
Proof.
  assert (Hce : forall i d p, silent (copy_entry src i d p)).
  { intros i d p. unfold copy_entry. apply silent_bind; [apply silent_defined; discriminate|].
    intros v. apply silent_defined. discriminate. }
  unfold copy_quad. repeat (apply silent_bind; [apply Hce|intros ?]). apply Hce.
Qed.

Lemma silent_face_cell pcMesh width upperBound y x s :
  silent (face_cell pcMesh width upperBound y x s).
Proof.
  unfold face_cell. apply silent_bind; [apply silent_defined; discriminate|].
  intros faces. destruct (_ || _); [apply silent_ret|].
  apply silent_bind; [apply silent_copy_quad|]. intros verts.
  apply silent_bind; [apply silent_copy_quad|]. intros norms.
  apply silent_bind.
  - destruct (aiMesh.mTextureCoords0 pcMesh), (pcUVs s); try apply silent_ret.
    apply silent_bind; [apply silent_copy_quad|]. intros d. apply silent_ret.
  - intros uvs. apply silent_bind; [apply silent_defined; discriminate|].
    intros faces'. apply silent_ret.
Qed.

Lemma silent_CreateOutputFaceList width height : silent (CreateOutputFaceList width height).
Proof.
  unfold CreateOutputFaceList. apply silent_bind; [apply silent_mesh0|]. intros pcMesh.
  apply silent_bind; [|intros s; apply silent_set_mesh0].
  apply silent_for_loop. intros y s. apply silent_for_loop. intros x s'.
  apply silent_face_cell.
Qed.

Lemma silent_GenerateTextureCoords width height :
  silent (GenerateTextureCoords width height).
Proof.
  unfold GenerateTextureCoords. apply silent_bind; [apply silent_mesh0|]. intros pcMesh.
  destruct (aiMesh.mTextureCoords0 pcMesh) as [uv|]; [|apply silent_ret].
  destruct (_ || _); [apply silent_ret|].
  apply silent_bind; [|intros r; apply silent_set_mesh0].
  apply silent_for_loop. intros y s. apply silent_for_loop. intros x [uvs k].
  apply silent_bind; [apply silent_defined; discriminate|].
  intros uvs'. apply silent_ret.
Qed.

Lemma quiet_get_scene : quiet get_scene.
Proof. intros st. exists (pScene st), st. split; reflexivity. Qed.

Lemma quiet_put_scene sc : quiet (put_scene sc).
Proof. intros st. eexists. eexists. split; reflexivity. Qed.


(** ** The bounds guard along a run *)

Lemma guarded_check buf tr limit :
  guarded buf tr -> limit <= Z.of_nat (length buf) ->
  (forall p rest, tr = EvChunk p :: rest -> p <= limit) ->
  guarded buf (EvCheck limit :: tr).
Proof.
  intros (Hl & Hc & Hu) Hlim Hp. split; [exact Hl|]. split.
  - split; [|exact Hc]. destruct tr as [|[l|o n|p] rest]; try exact I.
    exists limit. split; [reflexivity|]. now apply (Hp p rest).
  - cbn [checked_upto]. lia.
Qed.

Lemma guarded_read buf tr off len :
  guarded buf tr -> ~ pending tr -> 0 <= off -> off + len <= checked_upto tr ->
  guarded buf (EvRead off len :: tr).
Proof.
  intros (Hl & Hc & Hu) Hp H0 H1. split; [|split].
  - cbn [loads_covered]. auto.
  - split; [|exact Hc]. destruct tr as [|[l|o n|p] rest]; try exact I.
    exfalso. apply Hp. exact I.
  - exact Hu.
Qed.

Lemma guarded_chunk buf tr p :
  guarded buf tr -> ~ pending tr -> guarded buf (EvChunk p :: tr).
Proof.
  intros (Hl & Hc & Hu) Hp. split; [|split].
  - exact Hl.
  - split; [|exact Hc]. destruct tr as [|[l|o n|q] rest]; try exact I.
    exfalso. apply Hp. exact I.
  - exact Hu.
Qed.

Lemma good_abort buf L a st :
  good buf L st -> a <> Undef ReadPastBuffer -> guarded_abort buf a st.
Proof.
  intros (Hg & _ & Hp) Ha. split; [exact Hg|]. split; [exact Ha|].
  intros H. contradiction.
Qed.

Lemma good_held buf L c st : good buf L st -> held buf L c st.
Proof.
  intros (Hg & HL & Hp). split; [exact Hg|]. split; [exact HL|].
  intros p rest E. exfalso. apply Hp. rewrite E. exact I.
Qed.

Lemma good_weaken buf L L' st : L' <= L -> good buf L st -> good buf L' st.
Proof. intros H (Hg & HL & Hp). split; [exact Hg|]. split; [lia|exact Hp]. Qed.

Lemma hoare_ret_intro {A} (a : A) (P : state -> Prop) (Q : A -> state -> Prop) X :
  (forall st, P st -> Q a st) -> hoare P (ret a) Q X.
Proof. intros H st HP. now apply H. Qed.

Lemma hoare_assume_r {A} (c : M A) (P : state -> Prop) (F : Prop) Q X :
  (F -> hoare P c Q X) -> hoare (fun st => P st /\ F) c Q X.
Proof. intros H st [HP HF]. now apply H. Qed.

Lemma hoare_silent buf L {A} (c : M A) :
  silent c -> hoare (good buf L) c (fun _ => good buf L) (guarded_abort buf).
Proof.
  intros Hs st Hg. specialize (Hs st).
  destruct (c st) as [a st'|e st'|u st'].
  - unfold good in *. now rewrite Hs.
  - apply good_abort with L; [|discriminate]. unfold good in *. now rewrite Hs.
  - destruct Hs as [Ht Hu]. apply good_abort with L; [|congruence].
    unfold good in *. now rewrite Ht.
Qed.

Lemma hoare_quiet buf L c {A} (m : M A) :
  quiet m -> hoare (held buf L c) m (fun _ => held buf L c) (guarded_abort buf).
Proof.
  intros Hq st Hh. destruct (Hq st) as (a & st' & -> & Ht).
  unfold held in *. now rewrite Ht.
Qed.

Lemma hoare_defined buf L {A} u (o : option A) :
  u <> ReadPastBuffer ->
  hoare (good buf L) (defined u o) (fun a st => good buf L st /\ o = Some a)
    (guarded_abort buf).
Proof.
  intros Hu st Hg. destruct o as [a|]; cbn.
  - split; [exact Hg|reflexivity].
  - apply good_abort with L; [exact Hg|congruence].
Qed.

Lemma hoare_call buf L {A} (c : collab A) :
  hoare (good buf L) (call c) (fun a st => good buf L st /\ c = Returns a)
    (guarded_abort buf).
Proof.
  intros st Hg. destruct c as [a|e]; cbn.
  - split; [exact Hg|reflexivity].
  - apply good_abort with L; [exact Hg|discriminate].
Qed.

Lemma hoare_load buf L {A} (rd : list byte -> Z -> option A) len off :
  (off + len <= Z.of_nat (length buf) -> exists v, rd buf off = Some v) ->
  0 <= off -> off + len <= L ->
  hoare (good buf L) (load buf rd len off)
    (fun v st => good buf L st /\ rd buf off = Some v) (guarded_abort buf).
Proof.
  intros Hrd H0 HL st (Hg & Hc & Hp).
  destruct Hrd as [v Hv]; [destruct Hg as (_ & _ & Hu); lia|].
  rewrite (load_Some _ _ _ _ _ _ Hv). split; [|exact Hv].
  unfold good, logged. cbn [trace app]. split; [|split].
  - apply guarded_read; auto. lia.
  - cbn [checked_upto]. exact Hc.
  - intros H. exact H.
Qed.

Lemma hoare_read_u32 buf L off :
  0 <= off -> off + 4 <= L ->
  hoare (good buf L) (read_u32 buf off) (fun _ => good buf L) (guarded_abort buf).
Proof.
  intros H0 HL. eapply hoare_conseq.
  - apply (hoare_load buf L Buffer.u32_at 4 off); [|exact H0|exact HL].
    intros H. now apply u32_at_inside.
  - auto.
  - intros a st [H _]. exact H.
  - auto.
Qed.

Lemma hoare_read_u16 buf L off :
  0 <= off -> off + 2 <= L ->
  hoare (good buf L) (read_u16 buf off) (fun _ => good buf L) (guarded_abort buf).
Proof.
  intros H0 HL. eapply hoare_conseq.
  - apply (hoare_load buf L Buffer.u16_at 2 off); [|exact H0|exact HL].
    intros H. now apply u16_at_inside.
  - auto.
  - intros a st [H _]. exact H.
  - auto.
Qed.

Lemma hoare_read_u8 buf L off :
  0 <= off -> off + 1 <= L ->
  hoare (good buf L) (read_u8 buf off) (fun _ => good buf L) (guarded_abort buf).
Proof.
  intros H0 HL. eapply hoare_conseq.
  - apply (hoare_load buf L Buffer.byte_at 1 off); [|exact H0|exact HL].
    intros H. apply byte_at_inside. lia.
  - auto.
  - intros a st [H _]. exact H.
  - auto.
Qed.

Lemma hoare_pcHeader buf L :
  Header_HMP5.sizeof <= L ->
  hoare (good buf L) (pcHeader buf)
    (fun h st => good buf L st /\ Header_HMP5.overlay buf = Some h) (guarded_abort buf).
Proof.
  intros HL.
  apply (hoare_load buf L (fun b _ => Header_HMP5.overlay b) Header_HMP5.sizeof 0).
  - intros H. apply overlay_inside. lia.
  - lia.
  - lia.
Qed.

Lemma hoare_SizeCheck buf L c p :
  c <= p ->
  hoare (held buf L c) (SizeCheck buf p) (fun _ => good buf (Z.max L p))
    (guarded_abort buf).
Proof.
  intros Hcp st (Hg & HL & Hp). unfold SizeCheck.
  destruct (Z.gtb_spec p (iFileSize buf)).
  - unfold throw. split; [exact Hg|]. split; [discriminate|]. intros _. reflexivity.
  - unfold log, good. cbn [trace]. split; [|split].
    + apply guarded_check; [exact Hg|pose proof (iFileSize_le buf); lia|].
      intros q rest E. specialize (Hp q rest E). lia.
    + cbn [checked_upto]. lia.
    + intros Hpend. exact Hpend.
Qed.

Lemma hoare_log_chunk buf L p :
  hoare (good buf L) (log (EvChunk p)) (fun _ => held buf L p) (guarded_abort buf).
Proof.
  intros st (Hg & HL & Hp). unfold log, held. cbn [trace]. split; [|split].
  - now apply guarded_chunk.
  - cbn [checked_upto]. exact HL.
  - intros q rest [= -> _]. lia.
Qed.


(** The routines keep the guard when the skin-lump collaborators only
    move the cursor forwards. *)
Section BoundsGuard.

Variable buf : list byte.
Variable parse : Z -> Z -> Z -> Z -> collab (Z * aiMaterial).
Variable skip : Z -> Z -> Z -> Z -> collab Z.
Hypothesis parse_advances :
  forall c t w h c' m, parse c t w h = Returns (c', m) -> c <= c'.
Hypothesis skip_advances :
  forall c t w h c', skip c t w h = Returns c' -> c <= c'.

Lemma ReadFirstSkin_header_guarded L c :
  0 <= c -> c + 24 <= L ->
  hoare (good buf L) (ReadFirstSkin_header buf c)
    (fun r st => good buf L st /\ c <= snd r) (guarded_abort buf).
Proof.
  intros H0 HL. unfold ReadFirstSkin_header. cbv zeta.
  eapply hoare_bind; [apply hoare_read_u32; lia|]. intros iType.
  eapply hoare_bind
    with (Q := fun r st => good buf L st /\ (snd r = c + 4 \/ snd r = c + 16)).
  - destruct (iType =? 0).
    + eapply hoare_bind; [apply hoare_read_u32; lia|]. intros t2.
      destruct (t2 =? 0).
      * apply hoare_throw. intros st Hg.
        apply good_abort with L; [exact Hg|discriminate].
      * apply hoare_ret_intro. intros st Hg. split; [exact Hg|]. cbn [snd]. lia.
    + apply hoare_ret_intro. intros st Hg. split; [exact Hg|]. cbn [snd]. lia.
  - intros [t cur]. apply hoare_assume_r. cbn [snd]. intros Hcur.
    eapply hoare_bind; [apply hoare_read_u32; lia|]. intros w.
    eapply hoare_bind; [apply hoare_read_u32; lia|]. intros h.
    apply hoare_ret_intro. intros st Hg. split; [exact Hg|]. cbn [snd]. lia.
Qed.

Lemma skip_skin_guarded L c :
  0 <= c ->
  hoare (held buf L c) (skip_skin buf skip c)
    (fun c' st => held buf L c' st /\ 0 <= c') (guarded_abort buf).
Proof.
  intros H0. unfold skip_skin. cbv zeta.
  eapply hoare_bind; [apply (hoare_SizeCheck buf L c); lia|]. intros [].
  eapply hoare_bind; [apply hoare_read_u32; lia|]. intros t.
  eapply hoare_bind; [apply hoare_read_u32; lia|]. intros w.
  eapply hoare_bind; [apply hoare_read_u32; lia|]. intros h.
  eapply hoare_bind; [apply hoare_call|]. intros c'.
  apply hoare_assume_r. intros Hc'. apply skip_advances in Hc'.
  eapply hoare_bind; [apply hoare_log_chunk|]. intros [].
  eapply hoare_bind; [apply (hoare_SizeCheck buf _ c'); lia|]. intros [].
  apply hoare_ret_intro. intros st Hg. split; [|lia].
  apply good_held. eapply good_weaken; [|exact Hg]. lia.
Qed.

Lemma ReadFirstSkin_guarded L n c :
  0 <= c -> c + 24 <= L ->
  hoare (good buf L) (ReadFirstSkin buf parse skip n c)
    (fun c' st => held buf L c' st /\ 0 <= c') (guarded_abort buf).
Proof.
  intros H0 HL. unfold ReadFirstSkin.
  eapply hoare_bind; [apply ReadFirstSkin_header_guarded; assumption|].
  intros [[[t w] h] cur]. apply hoare_assume_r. cbn [snd]. intros Hcur.
  eapply hoare_bind; [apply hoare_call|]. intros [c2 mat].
  apply hoare_assume_r. intros Hc2. apply parse_advances in Hc2.
  eapply hoare_bind; [apply hoare_log_chunk|]. intros [].
  eapply hoare_bind.
  - eapply hoare_pre.
    + apply (hoare_for_loop (fun _ => skip_skin buf skip)
               (fun _ s st => held buf L s st /\ 0 <= s)).
      intros i s Hi. apply hoare_assume_r. intros Hs. now apply skip_skin_guarded.
    + intros st Hh. cbv beta. split; [exact Hh|lia].
  - intros c3. cbv beta. apply hoare_assume_r. intros Hc3.
    eapply hoare_bind; [apply hoare_quiet, quiet_get_scene|]. intros sc.
    eapply hoare_bind; [apply hoare_quiet, quiet_put_scene|]. intros [].
    apply hoare_ret_intro. intros st Hh. split; [exact Hh|lia].
Qed.

Lemma CreateMaterial_guarded L c :
  0 <= c -> c + 24 <= L -> Header_HMP5.sizeof <= L ->
  hoare (good buf L) (CreateMaterial buf parse skip c)
    (fun c' st => held buf L c' st /\ 0 <= c') (guarded_abort buf).
Proof.
  intros H0 HL Hhd. unfold CreateMaterial.
  eapply hoare_bind; [apply hoare_silent, silent_mesh0|]. intros pcMesh.
  eapply hoare_bind; [apply hoare_pcHeader; lia|]. intros h.
  apply hoare_assume_r. intros _.
  destruct (negb _).
  - eapply hoare_bind; [apply hoare_silent, silent_new_array|]. intros uv.
    eapply hoare_bind; [apply hoare_silent, silent_set_mesh0|]. intros [].
    apply ReadFirstSkin_guarded; assumption.
  - eapply hoare_bind; [apply hoare_silent, silent_get_scene|]. intros sc.
    eapply hoare_bind; [apply hoare_silent, silent_put_scene|]. intros [].
    apply hoare_ret_intro. intros st Hg. split; [now apply good_held|lia].
Qed.

Lemma ValidateHeader_guarded L :
  hoare (good buf L) (ValidateHeader_HMP457 buf)
    (fun _ st => good buf 120 st /\
       exists h, Header_HMP5.overlay buf = Some h /\
                 header_violation frames_non_zero h = None)
    (guarded_abort buf).
Proof.
  intros st Hg.
  destruct (Z_lt_le_dec (iFileSize buf) 120) as [Hsz|Hsz].
  - unfold ValidateHeader_HMP457. destruct (Z.gtb_spec 120 (iFileSize buf)); [|lia].
    apply good_abort with L; [exact Hg|discriminate].
  - destruct (overlay_inside buf) as [h Hh].
    { pose proof (iFileSize_le buf). unfold Header_HMP5.sizeof. lia. }
    pose proof (ValidateHeader_eq buf h st Hsz Hh) as E. cbv zeta in E. rewrite E.
    assert (Hg' : good buf 120 (logged [EvRead 0 Header_HMP5.sizeof; EvCheck 120] st)).
    { destruct Hg as (Hg & HL & Hp). unfold good, logged. cbn [trace app].
      split; [|split].
      - apply guarded_read.
        + apply guarded_check; [exact Hg|pose proof (iFileSize_le buf); lia|].
          intros p rest E'. exfalso. apply Hp. rewrite E'. exact I.
        + intros Hpend. exact Hpend.
        + lia.
        + cbn [checked_upto]. unfold Header_HMP5.sizeof. lia.
      - cbn [checked_upto]. lia.
      - intros Hpend. exact Hpend. }
    destruct (header_violation frames_non_zero h) eqn:Hv.
    + apply good_abort with 120; [exact Hg'|discriminate].
    + split; [exact Hg'|]. exists h. split; [exact Hh|exact Hv].
Qed.

Lemma HMP57_prologue_guarded L :
  hoare (good buf L) (HMP57_prologue buf parse skip)
    (fun p st =>
       let '(h, height, width, c) := p in
       held buf 120 c st /\ 0 <= c /\
       Header_HMP5.overlay buf = Some h /\
       header_violation frames_non_zero h = None /\
       F32.to_uint (F32.div (F32.of_int (Header_HMP5.numverts h))
                            (Header_HMP5.fnumverts_x h)) = Some height /\
       F32.to_uint (Header_HMP5.fnumverts_x h) = Some width)
    (guarded_abort buf).
Proof.
  unfold HMP57_prologue. cbv zeta.
  eapply hoare_bind; [apply ValidateHeader_guarded|]. intros [].
  apply hoare_assume_r. intros (h0 & Hh0 & Hv).
  eapply hoare_bind; [apply hoare_pcHeader; unfold Header_HMP5.sizeof; lia|]. intros h.
  apply hoare_assume_r. intros Hh. assert (h0 = h) by congruence. subst h0.
  eapply hoare_bind; [apply hoare_silent, silent_get_scene|]. intros sc.
  eapply hoare_bind; [apply hoare_silent, silent_put_scene|]. intros [].
  eapply hoare_bind; [apply hoare_silent, silent_new_array|]. intros verts.
  eapply hoare_bind; [apply hoare_silent, silent_new_array|]. intros norms.
  eapply hoare_bind; [apply hoare_silent, silent_set_mesh0|]. intros [].
  unfold cast_uint.
  eapply hoare_bind; [apply hoare_defined; discriminate|]. intros height.
  apply hoare_assume_r. intros Hht.
  eapply hoare_bind; [apply hoare_defined; discriminate|]. intros width.
  apply hoare_assume_r. intros Hwd.
  eapply hoare_bind;
    [apply CreateMaterial_guarded; unfold Header_HMP5.sizeof; lia|]. intros c.
  apply hoare_assume_r. intros Hc.
  apply hoare_ret_intro. intros st (Hg & HL & Hp).
  split; [|repeat split; try assumption; lia].
  split; [exact Hg|]. split; [exact HL|].
  intros p rest E. specialize (Hp p rest E). lia.
Qed.

End BoundsGuard.


Lemma load_vertex_HMP5_guarded buf lookup h L c y x verts norms k :
  0 <= c -> 0 <= k -> c + 4 * k + 4 <= L ->
  hoare (good buf L) (load_vertex_HMP5 buf lookup h c y x (verts, norms, k))
    (fun s st => good buf L st /\ snd s = k + 1) (guarded_abort buf).
Proof.
  intros H0 Hk HL.
  unfold load_vertex_HMP5, Vertex_HMP5.sizeof, Vertex_HMP5.z, Vertex_HMP5.normals162index.
  cbv zeta.
  eapply hoare_bind; [apply hoare_silent, silent_defined; discriminate|]. intros v0.
  eapply hoare_bind; [apply hoare_read_u16; lia|]. intros z.
  eapply hoare_bind; [apply hoare_silent, silent_defined; discriminate|]. intros verts'.
  eapply hoare_bind; [apply hoare_read_u8; lia|]. intros index.
  eapply hoare_bind; [apply hoare_silent, silent_defined; discriminate|]. intros norms'.
  apply hoare_ret_intro. intros st Hg. split; [exact Hg|reflexivity].
Qed.

Lemma load_vertex_HMP7_guarded buf normalize h L c y x verts norms k :
  0 <= c -> 0 <= k -> c + 4 * k + 4 <= L ->
  hoare (good buf L) (load_vertex_HMP7 buf normalize h c y x (verts, norms, k))
    (fun s st => good buf L st /\ snd s = k + 1) (guarded_abort buf).
Proof.
  intros H0 Hk HL.
  unfold load_vertex_HMP7, Vertex_HMP7.sizeof, Vertex_HMP7.z, Vertex_HMP7.normal_x,
    Vertex_HMP7.normal_y.
  cbv zeta.
  eapply hoare_bind; [apply hoare_silent, silent_defined; discriminate|]. intros v0.
  eapply hoare_bind; [apply hoare_read_u16; lia|]. intros z.
  eapply hoare_bind; [apply hoare_silent, silent_defined; discriminate|]. intros verts'.
  eapply hoare_bind; [apply hoare_read_u8; lia|]. intros nx.
  eapply hoare_bind; [apply hoare_read_u8; lia|]. intros ny.
  eapply hoare_bind; [apply hoare_silent, silent_defined; discriminate|]. intros norms'.
  apply hoare_ret_intro. intros st Hg. split; [exact Hg|reflexivity].
Qed.

(** The vertex loops stay inside an extent of [4 * (width * height)]
    bytes behind the cursor. *)
Lemma load_vertices_guarded buf
    (load_vertex : Z -> Z -> vertex_locals -> M vertex_locals) L c width height :
  (forall y x verts norms k, 0 <= k -> c + 4 * k + 4 <= L ->
     hoare (good buf L) (load_vertex y x (verts, norms, k))
       (fun s st => good buf L st /\ snd s = k + 1) (guarded_abort buf)) ->
  0 <= width -> 0 <= height -> c + 4 * (width * height) <= L ->
  forall verts norms,
  hoare (good buf L) (load_vertices load_vertex width height (verts, norms, 0))
    (fun _ => good buf L) (guarded_abort buf).
Proof.
  intros Hbody Hw Hh HL verts norms. unfold load_vertices.
  eapply hoare_conseq.
  - apply (hoare_for_loop _ (fun y s st => good buf L st /\ snd s = y * width)).
    intros y s Hy. apply hoare_assume_r. intros Hs.
    eapply hoare_conseq.
    + apply (hoare_for_loop _ (fun x s' st => good buf L st /\ snd s' = y * width + x)).
      intros x [[vs ns] k] Hx. apply hoare_assume_r. cbn [snd]. intros ->.
      rewrite Z2Nat.id in Hy, Hx by lia.
      assert (Hin : y * width + x + 1 <= width * height) by nia.
      eapply hoare_conseq.
      * apply Hbody; [nia|lia].
      * intros st Hg. exact Hg.
      * cbv beta. intros a st [Hg E]. split; [exact Hg|lia].
      * intros a st Ha. exact Ha.
    + cbv beta. intros st Hg. split; [exact Hg|lia].
    + cbv beta. intros a st [Hg E]. split; [exact Hg|].
      rewrite Z2Nat.id in E by lia. lia.
    + intros a st Ha. exact Ha.
  - cbv beta. intros st Hg. split; [exact Hg|]. cbn [snd]. lia.
  - cbv beta. intros a st [Hg _]. exact Hg.
  - intros a st Ha. exact Ha.
Qed.

Section GuardedImport.

Variable buf : list byte.
Variable parse : Z -> Z -> Z -> Z -> collab (Z * aiMaterial).
Variable skip : Z -> Z -> Z -> Z -> collab Z.
Hypothesis parse_advances :
  forall c t w h c' m, parse c t w h = Returns (c', m) -> c <= c'.
Hypothesis skip_advances :
  forall c t w h c', skip c t w h = Returns c' -> c <= c'.

Lemma InternReadFile_HMP57_guarded load_vertex L :
  (forall h c y x verts norms k L', 0 <= c -> 0 <= k -> c + 4 * k + 4 <= L' ->
     hoare (good buf L') (load_vertex h c y x (verts, norms, k))
       (fun s st => good buf L' st /\ snd s = k + 1) (guarded_abort buf)) ->
  hoare (good buf L) (InternReadFile_HMP57 buf parse skip load_vertex)
    (fun _ => good buf 0) (guarded_abort buf).
Proof.
  intros Hlv. unfold InternReadFile_HMP57.
  eapply hoare_bind;
    [apply (HMP57_prologue_guarded buf parse skip parse_advances skip_advances)|].
  intros [[[h height] width] c]. cbv beta iota.
  apply hoare_assume_r. intros (Hc & Hh & Hv & Hht & Hwd).
  destruct (overlay_fields buf h Hh) as [Hw Hnv].
  destruct (vertex_extent_exact h height width Hw Hnv Hv Hht Hwd)
    as (H0w & H0h & Hwh & Hpos & Hext).
  rewrite Hext.
  eapply hoare_bind; [apply (hoare_SizeCheck buf 120 c); nia|]. intros [].
  unfold HMP57_body.
  eapply hoare_bind; [apply hoare_silent, silent_mesh0|]. intros pcMesh.
  eapply hoare_bind.
  { apply (load_vertices_guarded buf (load_vertex h c) _ c); [|exact H0w|exact H0h|lia].
    intros y x verts norms k Hk HL. apply Hlv; assumption. }
  intros r.
  eapply hoare_bind; [apply hoare_silent, silent_set_mesh0|]. intros [].
  eapply hoare_bind.
  { apply hoare_silent. destruct (negb _);
      [apply silent_GenerateTextureCoords|apply silent_ret]. }
  intros [].
  eapply hoare_bind; [apply hoare_silent, silent_CreateOutputFaceList|]. intros [].
  eapply hoare_bind; [apply hoare_silent, silent_get_scene|]. intros sc.
  eapply hoare_conseq; [apply hoare_silent, silent_put_scene| | |].
  - intros st Hg. exact Hg.
  - cbv beta. intros a st Hg. eapply good_weaken; [|exact Hg]. lia.
  - intros a st Ha. exact Ha.
Qed.

Lemma InternReadFile_guarded lookup normalize :
  hoare (good buf 0) (InternReadFile buf parse skip lookup normalize)
    (fun _ => good buf 0) (guarded_abort buf).
Proof.
  unfold InternReadFile. destruct (Z.ltb_spec (fileSize buf) 50) as [Hsz|Hsz].
  { apply hoare_throw. intros st Hg. apply good_abort with 0; [exact Hg|discriminate]. }
  eapply hoare_bind with (Q := fun _ => good buf 50).
  { intros st (Hg & HL & Hp). unfold log, good. cbn [trace]. split; [|split].
    - apply guarded_check; [exact Hg|exact Hsz|].
      intros p rest E. exfalso. apply Hp. rewrite E. exact I.
    - cbn [checked_upto]. lia.
    - intros Hpend. exact Hpend. }
  intros [].
  eapply hoare_bind; [apply hoare_read_u32; lia|]. intros iMagic.
  eapply hoare_bind with (Q := fun _ => good buf 0).
  { destruct (_ || _).
    - apply hoare_throw. intros st Hg.
      apply good_abort with 50; [exact Hg|discriminate].
    - destruct (_ || _).
      + apply InternReadFile_HMP57_guarded. intros h c y x verts norms k L'.
        apply load_vertex_HMP5_guarded.
      + destruct (_ || _).
        * apply InternReadFile_HMP57_guarded. intros h c y x verts norms k L'.
          apply load_vertex_HMP7_guarded.
        * apply hoare_throw. intros st Hg.
          apply good_abort with 50; [exact Hg|discriminate]. }
  intros [].
  eapply hoare_bind; [apply hoare_silent, silent_get_scene|]. intros sc.
  apply hoare_silent, silent_put_scene.
Qed.

End GuardedImport.


Lemma guarded_reads_inside buf tr :
  guarded buf tr ->
  forall off len, In (EvRead off len) tr ->
    0 <= off /\ off + len <= Z.of_nat (length buf).
Proof.
  induction tr as [|ev tr IH]; intros (Hl & Hc & Hu) off len Hin; [destruct Hin|].
  assert (Htl : guarded buf tr).
  { split; [|split].
    - destruct ev; cbn [loads_covered] in Hl; tauto.
    - exact (proj2 Hc).
    - destruct ev; cbn [checked_upto] in Hu; lia. }
  destruct Hin as [->|Hin]; [|now apply IH].
  cbn [loads_covered] in Hl. destruct Htl as (_ & _ & Hu'). lia.
Qed.



(** ** The scene along a run *)

#[local] Instance same_shape_refl : Reflexive same_shape.
Proof. intros sc. repeat split. Qed.

#[local] Instance same_shape_trans : Transitive same_shape.
Proof.
  intros a b c (H1 & H2 & H3 & H4 & H5 & H6) (K1 & K2 & K3 & K4 & K5 & K6).
  repeat split; congruence.
Qed.

Section Keeps.

Context (R : aiScene.t -> aiScene.t -> Prop) `{!Reflexive R, !Transitive R}.
Context (E : exception -> Prop).

Lemma keeps_ret {A} (a : A) : keeps R E (ret a).
Proof. intros st. cbn. reflexivity. Qed.

Lemma keeps_throw {A} e : E e -> keeps R E (@throw A e).
Proof. intros He st. cbn. split; [reflexivity|exact He]. Qed.

Lemma keeps_defined {A} u (o : option A) : keeps R E (defined u o).
Proof. intros st. destruct o; cbn; [reflexivity|exact I]. Qed.

Lemma keeps_bind {A B} (c : M A) (f : A -> M B) :
  keeps R E c -> (forall a, keeps R E (f a)) -> keeps R E (bind c f).
Proof.
  intros Hc Hf st. specialize (Hc st). unfold bind.
  destruct (c st) as [a st'|e st'|u st']; try assumption.
  specialize (Hf a st'). destruct (f a st') as [b st''|e st''|u st''].
  - now transitivity (pScene st').
  - destruct Hf as [Hf He]. split; [now transitivity (pScene st')|exact He].
  - exact I.
Qed.

Lemma keeps_for_loop {St} (body : Z -> St -> M St) n :
  (forall i s, keeps R E (body i s)) -> forall i s, keeps R E (for_loop n i body s).
Proof.
  intros Hb. induction n as [|n IH]; intros i s; cbn [for_loop].
  - apply keeps_ret.
  - apply keeps_bind; [apply Hb|]. intros s'. apply IH.
Qed.

Lemma keeps_get_scene : keeps R E get_scene.
Proof. intros st. cbn. reflexivity. Qed.

Lemma keeps_log ev : keeps R E (log ev).
Proof. intros st. cbn. reflexivity. Qed.

Lemma keeps_load buf {A} (rd : list byte -> Z -> option A) len off :
  keeps R E (load buf rd len off).
Proof. intros st. unfold load. destruct (rd buf off); cbn; [reflexivity|exact I]. Qed.

Lemma keeps_call {A} (c : collab A) :
  (forall e, c = Raises e -> E e) -> keeps R E (call c).
Proof.
  intros Hc st. destruct c as [a|e]; cbn; [reflexivity|].
  split; [reflexivity|]. now apply Hc.
Qed.

Lemma keeps_mesh0 : keeps R E mesh0.
Proof.
  unfold mesh0. apply keeps_bind; [apply keeps_get_scene|].
  intros sc. apply keeps_defined.
Qed.

Lemma keeps_copy_quad src o0 o1 x dst o : keeps R E (copy_quad src o0 o1 x dst o).
Proof.
  assert (Hce : forall i d p, keeps R E (copy_entry src i d p)).
  { intros i d p. unfold copy_entry. apply keeps_bind; [apply keeps_defined|].
    intros v. apply keeps_defined. }
  unfold copy_quad. repeat (apply keeps_bind; [apply Hce|intros ?]). apply Hce.
Qed.

Lemma keeps_face_cell pcMesh width upperBound y x s :
  keeps R E (face_cell pcMesh width upperBound y x s).
Proof.
  unfold face_cell. apply keeps_bind; [apply keeps_defined|].
  intros faces. destruct (_ || _); [apply keeps_ret|].
  apply keeps_bind; [apply keeps_copy_quad|]. intros verts.
  apply keeps_bind; [apply keeps_copy_quad|]. intros norms.
  apply keeps_bind.
  - destruct (aiMesh.mTextureCoords0 pcMesh), (pcUVs s); try apply keeps_ret.
    apply keeps_bind; [apply keeps_copy_quad|]. intros d. apply keeps_ret.
  - intros uvs. apply keeps_bind; [apply keeps_defined|].
    intros faces'. apply keeps_ret.
Qed.

Lemma keeps_load_vertex_HMP5 buf lookup h c y x s :
  keeps R E (load_vertex_HMP5 buf lookup h c y x s).
Proof.
  destruct s as [[verts norms] k]. unfold load_vertex_HMP5. cbv zeta.
  apply keeps_bind; [apply keeps_defined|]. intros v0.
  apply keeps_bind; [apply keeps_load|]. intros z.
  apply keeps_bind; [apply keeps_defined|]. intros verts'.
  apply keeps_bind; [apply keeps_load|]. intros index.
  apply keeps_bind; [apply keeps_defined|]. intros norms'.
  apply keeps_ret.
Qed.

Lemma keeps_load_vertex_HMP7 buf normalize h c y x s :
  keeps R E (load_vertex_HMP7 buf normalize h c y x s).
Proof.
  destruct s as [[verts norms] k]. unfold load_vertex_HMP7. cbv zeta.
  apply keeps_bind; [apply keeps_defined|]. intros v0.
  apply keeps_bind; [apply keeps_load|]. intros z.
  apply keeps_bind; [apply keeps_defined|]. intros verts'.
  apply keeps_bind; [apply keeps_load|]. intros nx.
  apply keeps_bind; [apply keeps_load|]. intros ny.
  apply keeps_bind; [apply keeps_defined|]. intros norms'.
  apply keeps_ret.
Qed.

Lemma keeps_ReadFirstSkin_header buf c :
  E Unable_to_read_skin_chunk -> keeps R E (ReadFirstSkin_header buf c).
Proof.
  intros HE. unfold ReadFirstSkin_header. cbv zeta.
  apply keeps_bind; [apply keeps_load|]. intros iType.
  apply keeps_bind.
  - destruct (iType =? 0); [|apply keeps_ret].
    apply keeps_bind; [apply keeps_load|]. intros t2.
    destruct (t2 =? 0); [now apply keeps_throw|apply keeps_ret].
  - intros [t cur].
    apply keeps_bind; [apply keeps_load|]. intros w.
    apply keeps_bind; [apply keeps_load|]. intros h. apply keeps_ret.
Qed.

Lemma keeps_SizeCheck buf p : E Size_check_failed -> keeps R E (SizeCheck buf p).
Proof.
  intros HE. unfold SizeCheck. destruct (_ >? _); [now apply keeps_throw|apply keeps_log].
Qed.

Lemma keeps_skip_skin buf skip c :
  E Size_check_failed ->
  (forall c t w h e, skip c t w h = Raises e -> E e) ->
  keeps R E (skip_skin buf skip c).
Proof.
  intros HE Hskip. unfold skip_skin. cbv zeta.
  apply keeps_bind; [now apply keeps_SizeCheck|]. intros [].
  apply keeps_bind; [apply keeps_load|]. intros t.
  apply keeps_bind; [apply keeps_load|]. intros w.
  apply keeps_bind; [apply keeps_load|]. intros h.
  apply keeps_bind; [apply keeps_call; apply Hskip|]. intros c'.
  apply keeps_bind; [apply keeps_log|]. intros [].
  apply keeps_bind; [now apply keeps_SizeCheck|]. intros [].
  apply keeps_ret.
Qed.

End Keeps.


Lemma keeps_set_mesh0 E m : keeps same_shape E (set_mesh0 m).
Proof.
  intros st. unfold set_mesh0, bind, get_scene.
  destruct (aiScene.mMeshes (pScene st)) as [|m0 rest] eqn:Em; [exact I|].
  unfold put_scene, same_shape. cbn. rewrite Em. repeat split.
Qed.

Lemma keeps_new_array R `{!Reflexive R} (E : exception -> Prop) n :
  E Bad_array_new_length -> keeps R E (new_array n).
Proof.
  intros HE. unfold new_array. destruct (n <? 0); [now apply keeps_throw|].
  now apply keeps_ret.
Qed.

Lemma keeps_GenerateTextureCoords E width height :
  keeps same_shape E (GenerateTextureCoords width height).
Proof.
  unfold GenerateTextureCoords. apply keeps_bind; [apply _|apply keeps_mesh0; apply _|].
  intros pcMesh.
  destruct (aiMesh.mTextureCoords0 pcMesh) as [uv|]; [|apply keeps_ret; apply _].
  destruct (_ || _); [apply keeps_ret; apply _|].
  apply keeps_bind; [apply _| |intros r; apply keeps_set_mesh0].
  apply keeps_for_loop; try apply _. intros y s.
  apply keeps_for_loop; try apply _. intros x [uvs k].
  apply keeps_bind; [apply _|apply keeps_defined; apply _|].
  intros uvs'. apply keeps_ret; apply _.
Qed.

Lemma keeps_CreateOutputFaceList E width height :
  keeps same_shape E (CreateOutputFaceList width height).
Proof.
  unfold CreateOutputFaceList.
  apply keeps_bind; [apply _|apply keeps_mesh0; apply _|]. intros pcMesh.
  apply keeps_bind; [apply _| |intros s; apply keeps_set_mesh0].
  apply keeps_for_loop; try apply _. intros y s.
  apply keeps_for_loop; try apply _. intros x s'.
  apply keeps_face_cell; apply _.
Qed.

Lemma keeps_ValidateHeader buf :
  keeps eq (fun e => early e = true) (ValidateHeader_HMP457 buf).
Proof.
  unfold ValidateHeader_HMP457.
  destruct (_ >? _); [apply keeps_throw; [apply _|reflexivity]|].
  apply keeps_bind; [apply _|apply keeps_log; apply _|]. intros [].
  apply keeps_bind; [apply _|apply keeps_load; apply _|]. intros h.
  repeat match goal with
         | |- keeps _ _ (if ?b then _ else _) =>
             destruct b; [apply keeps_throw; [apply _|reflexivity]|]
         end.
  apply keeps_ret; apply _.
Qed.

Lemma failed_early sc0 e st :
  pScene st = sc0 -> early e = true -> failed_scene sc0 (Thrown e) st.
Proof.
  intros Hst He. unfold failed_scene. rewrite Hst.
  do 5 (split; [reflexivity|]). congruence.
Qed.

Lemma hoare_keeps_eq sc0 {A} (c : M A) :
  keeps eq (fun e => early e = true) c ->
  hoare (fun st => pScene st = sc0) c (fun _ st => pScene st = sc0) (failed_scene sc0).
Proof.
  intros Hk st Hst. specialize (Hk st).
  destruct (c st) as [a st'|e st'|u st'].
  - congruence.
  - destruct Hk as [Hk He]. apply failed_early; congruence.
  - exact I.
Qed.

(** In front of the material: a computation that keeps the shape of
    the scene keeps the materials of the caller, also when it
    throws. *)
Lemma hoare_keeps_shape sc0 {A} (c : M A) :
  keeps same_shape late c ->
  hoare (under_construction sc0 false) c (fun _ => under_construction sc0 false)
    (failed_scene sc0).
Proof.
  intros Hk st (H1 & H2 & H3 & H4 & H5 & H6). specialize (Hk st).
  destruct (c st) as [a st'|e st'|u st'].
  - destruct Hk as (K1 & K2 & K3 & K4 & K5 & K6).
    unfold under_construction. rewrite K1, K2, K3, K4, K5, K6. repeat split; assumption.
  - destruct Hk as [(K1 & K2 & K3 & K4 & K5 & K6) He]. unfold failed_scene.
    rewrite K1, K2, K3, K4, K5, K6. do 4 (split; [assumption|]).
    unfold late in He. split; [congruence|]. intros _. split; assumption.
  - exact I.
Qed.

(** Behind the material: a computation that keeps the shape of the
    scene and never throws. *)
Lemma hoare_keeps_shape_behind sc0 {A} (c : M A) :
  keeps same_shape (fun _ => False) c ->
  hoare (under_construction sc0 true) c (fun _ => under_construction sc0 true)
    (fun a _ => match a with Thrown _ => False | Undef _ => True end).
Proof.
  intros Hk st (H1 & H2 & H3 & H4 & H5 & H6). specialize (Hk st).
  destruct (c st) as [a st'|e st'|u st'].
  - destruct Hk as (K1 & K2 & K3 & K4 & K5 & K6).
    unfold under_construction. rewrite K1, K2, K3, K4, K5, K6. repeat split; assumption.
  - destruct Hk as [_ []].
  - exact I.
Qed.

(** [pScene->... = ...]: an assignment to fields of the scene. *)
Lemma hoare_modify {B} (f : aiScene.t -> aiScene.t) (k : M B)
    (P P' : state -> Prop) Q X :
  (forall st, P st -> P' (State (f (pScene st)) (trace st))) ->
  hoare P' k Q X ->
  hoare P (bind get_scene (fun sc => bind (put_scene (f sc)) (fun _ => k))) Q X.
Proof. intros HP Hk st Hst. apply (Hk _ (HP st Hst)). Qed.

Lemma hoare_modify_last (f : aiScene.t -> aiScene.t)
    (P : state -> Prop) (Q : unit -> state -> Prop) X :
  (forall st, P st -> Q tt (State (f (pScene st)) (trace st))) ->
  hoare P (bind get_scene (fun sc => put_scene (f sc))) Q X.
Proof. intros HP st Hst. apply (HP st Hst). Qed.

Section SceneOfImport.

Variable buf : list byte.
Variable parse : Z -> Z -> Z -> Z -> collab (Z * aiMaterial).
Variable skip : Z -> Z -> Z -> Z -> collab Z.
Hypothesis parse_raises : forall c t w h e, parse c t w h = Raises e -> late e.
Hypothesis skip_raises : forall c t w h e, skip c t w h = Raises e -> late e.
Variable sc0 : aiScene.t.

Lemma ReadFirstSkin_scene n c :
  hoare (under_construction sc0 false) (ReadFirstSkin buf parse skip n c)
    (fun _ => under_construction sc0 true) (failed_scene sc0).
Proof.
  unfold ReadFirstSkin.
  eapply hoare_bind.
  { apply hoare_keeps_shape, keeps_ReadFirstSkin_header; [apply _..|reflexivity]. }
  intros [[[t w] h] cur].
  eapply hoare_bind.
  { apply hoare_keeps_shape, keeps_call; [apply _|]. apply parse_raises. }
  intros [c2 pcMat].
  eapply hoare_bind; [apply hoare_keeps_shape, keeps_log; apply _|]. intros [].
  eapply hoare_bind.
  { apply hoare_keeps_shape, keeps_for_loop; [apply _..|]. intros i s.
    apply keeps_skip_skin; [apply _..|reflexivity|exact skip_raises]. }
  intros c3.
  eapply hoare_modify; [|apply hoare_ret].
  intros st (H1 & H2 & H3 & H4 & H5). unfold under_construction. cbn. tauto.
Qed.

Lemma CreateMaterial_scene c :
  hoare (under_construction sc0 false) (CreateMaterial buf parse skip c)
    (fun _ => under_construction sc0 true) (failed_scene sc0).
Proof.
  unfold CreateMaterial.
  eapply hoare_bind; [apply hoare_keeps_shape, keeps_mesh0; apply _|]. intros pcMesh.
  eapply hoare_bind; [apply hoare_keeps_shape, keeps_load; apply _|]. intros h.
  destruct (negb _).
  - eapply hoare_bind.
    { apply hoare_keeps_shape, keeps_new_array; [apply _|reflexivity]. }
    intros uv.
    eapply hoare_bind; [apply hoare_keeps_shape, keeps_set_mesh0|]. intros [].
    apply ReadFirstSkin_scene.
  - eapply hoare_modify; [|apply hoare_ret].
    intros st (H1 & H2 & H3 & H4 & H5). unfold under_construction. cbn. tauto.
Qed.

(** The part in front of the vertex array: when it returns, the
    output mesh and the one material are in the scene; when it throws,
    the materials are those of the caller. *)
Lemma HMP57_prologue_scene :
  hoare (fun st => pScene st = sc0) (HMP57_prologue buf parse skip)
    (fun _ => under_construction sc0 true) (failed_scene sc0).
Proof.
  unfold HMP57_prologue. cbv zeta.
  eapply hoare_bind; [apply hoare_keeps_eq, keeps_ValidateHeader|]. intros [].
  eapply hoare_bind; [apply hoare_keeps_eq, keeps_load; apply _|]. intros h.
  apply hoare_modify with (P' := under_construction sc0 false).
  { intros st Hst. unfold under_construction. cbn. rewrite Hst.
    do 4 (split; [reflexivity|]). split; reflexivity. }
  eapply hoare_bind.
  { apply hoare_keeps_shape, keeps_new_array; [apply _|reflexivity]. }
  intros verts.
  eapply hoare_bind.
  { apply hoare_keeps_shape, keeps_new_array; [apply _|reflexivity]. }
  intros norms.
  eapply hoare_bind; [apply hoare_keeps_shape, keeps_set_mesh0|]. intros [].
  eapply hoare_bind; [apply hoare_keeps_shape, keeps_defined; apply _|]. intros height.
  eapply hoare_bind; [apply hoare_keeps_shape, keeps_defined; apply _|]. intros width.
  eapply hoare_bind; [apply CreateMaterial_scene|]. intros c.
  apply hoare_ret_intro. intros st H. exact H.
Qed.

End SceneOfImport.

(** The part behind the size test of the vertex array: it never
    throws, and when it returns, the root node is set. *)
Lemma HMP57_body_scene sc0 load_vertex h height width c :
  (forall y x s, keeps same_shape (fun _ => False) (load_vertex h c y x s)) ->
  hoare (under_construction sc0 true) (HMP57_body load_vertex h height width c)
    (fun _ st =>
       aiScene.mFlags (pScene st) = aiScene.mFlags sc0 /\
       aiScene.mRootNode (pScene st) = Some (aiNode.Build "terrain_root" 1 [0]) /\
       aiScene.mNumMeshes (pScene st) = 1 /\
       length (aiScene.mMeshes (pScene st)) = 1%nat /\
       aiScene.mNumMaterials (pScene st) = 1 /\
       length (aiScene.mMaterials (pScene st)) = 1%nat)
    (fun a _ => match a with Thrown _ => False | Undef _ => True end).
Proof.
  intros Hlv. unfold HMP57_body.
  eapply hoare_bind; [apply hoare_keeps_shape_behind, keeps_mesh0; apply _|]. intros pcMesh.
  eapply hoare_bind.
  { apply hoare_keeps_shape_behind. unfold load_vertices.
    apply keeps_for_loop; [apply _..|]. intros y s.
    apply keeps_for_loop; [apply _..|]. intros x s'. apply Hlv. }
  intros r.
  eapply hoare_bind; [apply hoare_keeps_shape_behind, keeps_set_mesh0|]. intros [].
  eapply hoare_bind.
  { apply hoare_keeps_shape_behind. destruct (negb _);
      [apply keeps_GenerateTextureCoords|apply keeps_ret; apply _]. }
  intros [].
  eapply hoare_bind; [apply hoare_keeps_shape_behind, keeps_CreateOutputFaceList|].
  intros [].
  apply hoare_modify_last.
  intros st (H1 & H2 & H3 & H4 & H5 & H6). cbn. repeat split; assumption.
Qed.

(** * Further properties of the importer *)

(** ** Dispatch on the magic word *)

Ltac magic_tests :=
  repeat match goal with
         | |- context [?a =? ?b] =>
             let v := eval vm_compute in (a =? b) in change (a =? b) with v
         end;
  cbn [orb].

Lemma InternReadFile_magic buf parse skip lookup normalize st iMagic :
  50 <= fileSize buf -> Buffer.u32_at buf 0 = Some iMagic ->
  InternReadFile buf parse skip lookup normalize st =
    bind (if (AI_HMP_MAGIC_NUMBER_LE_4 =? iMagic) || (AI_HMP_MAGIC_NUMBER_BE_4 =? iMagic)
          then InternReadFile_HMP4
          else if (AI_HMP_MAGIC_NUMBER_LE_5 =? iMagic) || (AI_HMP_MAGIC_NUMBER_BE_5 =? iMagic)
          then InternReadFile_HMP5 buf parse skip lookup
          else if (AI_HMP_MAGIC_NUMBER_LE_7 =? iMagic) || (AI_HMP_MAGIC_NUMBER_BE_7 =? iMagic)
          then InternReadFile_HMP7 buf parse skip normalize
          else throw (Unknown_HMP_subformat iMagic))
      (fun _ =>
         bind get_scene (fun sc =>
           put_scene (aiScene.Build (Z.lor (aiScene.mFlags sc) AI_SCENE_FLAGS_TERRAIN)
                        (aiScene.mRootNode sc)
                        (aiScene.mNumMeshes sc) (aiScene.mMeshes sc)
                        (aiScene.mNumMaterials sc) (aiScene.mMaterials sc))))
      (logged [EvRead 0 4; EvCheck 50] st).
Proof.
  intros Hsz Hm. unfold InternReadFile.
  destruct (Z.ltb_spec (fileSize buf) 50); [lia|].
  unfold bind at 1, log at 1.
  rewrite (bind_Ok _ _ _ _ _ (read_u32_Some buf 0 iMagic _ Hm)). reflexivity.
Qed.

(** ** The bounds guard of the whole import (claim C1) *)

(** The loads of the header of the first skin chunk have no size test
    of their own: whatever the run of [ReadFirstSkin_header] does, it
    adds loads of the 24 bytes behind its cursor to the trace and
    nothing else. *)
Lemma ReadFirstSkin_header_loads buf c st :
  exists evs,
    trace (state_of (ReadFirstSkin_header buf c st)) = evs ++ trace st /\
    skin_header_loads c evs.
Proof.
  assert (Hev : forall off, c <= off -> off + 4 <= c + 24 ->
            exists off', EvRead off 4 = EvRead off' 4 /\ c <= off' /\ off' + 4 <= c + 24).
  { intros off H1 H2. exists off. auto. }
  unfold ReadFirstSkin_header, read_u32, load, skin_header_loads. cbv zeta.
  destruct (Buffer.u32_at buf c) as [t|] eqn:E0; cbn [bind log ret undefined state_of trace];
    [|exists []; split; [reflexivity|constructor]].
  unfold bind, log, ret, undefined, throw. cbn [pScene trace].
  destruct (t =? 0).
  - destruct (Buffer.u32_at buf (c + 4 + 4 * 2)) as [t2|] eqn:E1; cbn [state_of trace pScene];
      [|exists [EvRead c 4]; split; [reflexivity|];
        repeat constructor; apply Hev; lia].
    destruct (t2 =? 0); cbn [state_of trace pScene];
      [exists [EvRead (c + 4 + 4 * 2) 4; EvRead c 4]; split; [reflexivity|];
       repeat constructor; apply Hev; lia|].
    destruct (Buffer.u32_at buf (c + 4 + 4 * 2 + 4)) as [w|] eqn:E2;
      cbn [state_of trace pScene];
      [|exists [EvRead (c + 4 + 4 * 2) 4; EvRead c 4]; split; [reflexivity|];
        repeat constructor; apply Hev; lia].
    destruct (Buffer.u32_at buf (c + 4 + 4 * 2 + 4 + 4)) as [h|] eqn:E3;
      cbn [state_of trace pScene].
    + exists [EvRead (c + 4 + 4 * 2 + 4 + 4) 4; EvRead (c + 4 + 4 * 2 + 4) 4;
              EvRead (c + 4 + 4 * 2) 4; EvRead c 4].
      split; [reflexivity|]. repeat constructor; apply Hev; lia.
    + exists [EvRead (c + 4 + 4 * 2 + 4) 4; EvRead (c + 4 + 4 * 2) 4; EvRead c 4].
      split; [reflexivity|]. repeat constructor; apply Hev; lia.
  - destruct (Buffer.u32_at buf (c + 4)) as [w|] eqn:E2; cbn [state_of trace pScene];
      [|exists [EvRead c 4]; split; [reflexivity|];
        repeat constructor; apply Hev; lia].
    destruct (Buffer.u32_at buf (c + 4 + 4)) as [h|] eqn:E3; cbn [state_of trace pScene].
    + exists [EvRead (c + 4 + 4) 4; EvRead (c + 4) 4; EvRead c 4].
      split; [reflexivity|]. repeat constructor; apply Hev; lia.
    + exists [EvRead (c + 4) 4; EvRead c 4].
      split; [reflexivity|]. repeat constructor; apply Hev; lia.
Qed.

Lemma InternReadFile_short_header buf parse skip lookup normalize st iMagic :
  50 <= fileSize buf -> iFileSize buf < 120 ->
  Buffer.u32_at buf 0 = Some iMagic ->
  In iMagic [AI_HMP_MAGIC_NUMBER_LE_5; AI_HMP_MAGIC_NUMBER_BE_5;
             AI_HMP_MAGIC_NUMBER_LE_7; AI_HMP_MAGIC_NUMBER_BE_7] ->
  InternReadFile buf parse skip lookup normalize st =
    Throw HMP_header_too_small (logged [EvRead 0 4; EvCheck 50] st).
Proof.
  intros Hsz Hi Hm Hin. rewrite (InternReadFile_magic _ _ _ _ _ _ _ Hsz Hm).
  assert (Hv : forall st', ValidateHeader_HMP457 buf st' = Throw HMP_header_too_small st').
  { intros st'. unfold ValidateHeader_HMP457.
    destruct (Z.gtb_spec 120 (iFileSize buf)); [reflexivity|lia]. }
  destruct Hin as [<-|[<-|[<-|[<-|[]]]]]; magic_tests;
    unfold bind at 1;
    unfold InternReadFile_HMP5, InternReadFile_HMP7, InternReadFile_HMP57;
    unfold bind at 1; unfold HMP57_prologue; unfold bind at 1; rewrite Hv; reflexivity.
Qed.

(** C1 (as amended).  For every buffer, and collaborators that only
    move the cursor forwards, the run of the importer from an empty
    trace never loads outside the buffer: every load is preceded in
    the trace by a passed size test that covers it and lies inside the
    buffer, and every chunk move is followed at once by a passed
    [SizeCheck] that reaches the new cursor; a run that ends behind a
    chunk move ends in the failed [SizeCheck], which is
    TruncatedInput.  The size tests are of two kinds.  [SizeCheck], on
    a cursor beyond the file, fails with TruncatedInput.  The tests of
    50 bytes in [InternReadFile] and of 120 bytes in
    [ValidateHeader_HMP457] fail with OpenOrSizeError.  The loads of
    the first skin's type tag (with the retry 12 bytes on), width and
    height have no test of their own: they leave loads of the bytes
    between offsets 84 and 108 in the trace and nothing else, and keep
    the guard because the test of 120 bytes has passed; a file that
    ends among them is refused with OpenOrSizeError. *)
Theorem every_load_is_bounds_checked buf parse skip lookup normalize scene :
  (forall c t w h c' m, parse c t w h = Returns (c', m) -> c <= c') ->
  (forall c t w h c', skip c t w h = Returns c' -> c <= c') ->
  let run := InternReadFile buf parse skip lookup normalize (State scene []) in
  (forall st, run <> Undefined ReadPastBuffer st) /\
  loads_covered (trace (state_of run)) /\
  chunks_checked (trace (state_of run)) /\
  (forall off len, In (EvRead off len) (trace (state_of run)) ->
     0 <= off /\ off + len <= Z.of_nat (length buf)) /\
  (pending (trace (state_of run)) ->
     run = Throw Size_check_failed (state_of run) /\
     kind_of Size_check_failed = TruncatedInput) /\
  (forall szPos st,
     SizeCheck buf szPos st =
       if szPos >? iFileSize buf then Throw Size_check_failed st
       else Ok tt (logged [EvCheck szPos] st)) /\
  (fileSize buf < 50 ->
     run = Throw HMP_file_too_small (State scene []) /\
     kind_of HMP_file_too_small = OpenOrSizeError) /\
  (forall iMagic,
     50 <= fileSize buf -> iFileSize buf < 120 ->
     Buffer.u32_at buf 0 = Some iMagic ->
     In iMagic [AI_HMP_MAGIC_NUMBER_LE_5; AI_HMP_MAGIC_NUMBER_BE_5;
                AI_HMP_MAGIC_NUMBER_LE_7; AI_HMP_MAGIC_NUMBER_BE_7] ->
     run = Throw HMP_header_too_small (logged [EvRead 0 4; EvCheck 50] (State scene [])) /\
     kind_of HMP_header_too_small = OpenOrSizeError) /\
  (forall st, exists evs,
     trace (state_of (ReadFirstSkin_header buf 84 st)) = evs ++ trace st /\
     skin_header_loads 84 evs) /\
  (forall L, 120 <= L ->
     hoare (good buf L) (ReadFirstSkin_header buf 84) (fun _ => good buf L)
       (guarded_abort buf)).
Proof.
  intros Hparse Hskip. cbv zeta.
  assert (Hstart : good buf 0 (State scene [])).
  { unfold good, guarded. cbn. intuition lia. }
  pose proof (InternReadFile_guarded buf parse skip Hparse Hskip lookup normalize
                (State scene []) Hstart) as Hr.
  assert (Hend : guarded buf
                   (trace (state_of (InternReadFile buf parse skip lookup normalize
                                       (State scene [])))) /\
                 (forall st, InternReadFile buf parse skip lookup normalize (State scene [])
                             <> Undefined ReadPastBuffer st) /\
                 (pending (trace (state_of (InternReadFile buf parse skip lookup normalize
                                              (State scene [])))) ->
                  InternReadFile buf parse skip lookup normalize (State scene []) =
                    Throw Size_check_failed
                      (state_of (InternReadFile buf parse skip lookup normalize
                                   (State scene []))))).
  { revert Hr.
    generalize (InternReadFile buf parse skip lookup normalize (State scene [])).
    intros r Hr. destruct r as [a st'|e st'|u st']; cbn [state_of].
    - destruct Hr as (Hg & _ & Hp). split; [exact Hg|]. split; [discriminate|].
      intros Hpend. contradiction.
    - destruct Hr as (Hg & _ & Hp). split; [exact Hg|]. split; [discriminate|].
      intros Hpend. specialize (Hp Hpend). injection Hp as ->. reflexivity.
    - destruct Hr as (Hg & Hu & Hp). split; [exact Hg|]. split.
      + intros st E. apply Hu. injection E as -> _. reflexivity.
      + intros Hpend. specialize (Hp Hpend). discriminate Hp. }
  destruct Hend as (Hg & Hno & Hpend).
  split; [exact Hno|]. split; [exact (proj1 Hg)|]. split; [exact (proj1 (proj2 Hg))|].
  split; [now apply guarded_reads_inside|].
  split; [intros Hp; split; [now apply Hpend|reflexivity]|].
  split; [intros szPos st; unfold SizeCheck; destruct (szPos >? iFileSize buf); reflexivity|].
  split.
  { intros Hsz. split; [|reflexivity]. unfold InternReadFile.
    destruct (Z.ltb_spec (fileSize buf) 50); [reflexivity|lia]. }
  split.
  { intros iMagic Hsz Hi Hm Hin. split; [|reflexivity].
    now apply (InternReadFile_short_header buf parse skip lookup normalize _ iMagic). }
  split; [intros st; apply ReadFirstSkin_header_loads|].
  intros L HL. eapply hoare_conseq.
  - apply (ReadFirstSkin_header_guarded buf L 84); lia.
  - intros st H. exact H.
  - cbv beta. intros a st [H _]. exact H.
  - intros a st H. exact H.
Qed.

Lemma every_load_is_bounds_checked_witness :
  (forall st, Sample.import Sample.three_skins <> Undefined ReadPastBuffer st) /\
  loads_covered (trace (state_of (Sample.import Sample.three_skins))).
Proof.
  assert (Hparse : forall c t w h c' m,
             Sample.parse_lump c t w h = Returns (c', m) -> c <= c').
  { intros c t w h c' m [= <- _]. pose proof (wrap32_range (w * h)). lia. }
  assert (Hskip : forall c t w h c', Sample.skip_lump c t w h = Returns c' -> c <= c').
  { intros c t w h c' [= <-]. pose proof (wrap32_range (w * h)). lia. }
  pose proof (every_load_is_bounds_checked Sample.three_skins Sample.parse_lump
                Sample.skip_lump Sample.normal_table Sample.keep aiScene.empty
                Hparse Hskip) as H.
  cbv zeta in H. split; [exact (proj1 H)|exact (proj1 (proj2 H))].
Defined.

(** C1 as stated fails: the terrain with the doubled skin header, cut
    at 100 bytes, ends inside the header of its first skin chunk, and
    the test that refuses it is the one of 120 bytes in
    [ValidateHeader_HMP457], whose error is OpenOrSizeError; no
    [SizeCheck] stands in front of the loads of that header. *)
Lemma truncated_skin_header_is_OpenOrSizeError :
  ~ truncated_skin_header_is_TruncatedInput Sample.double_header_cut Sample.parse_lump
      Sample.skip_lump Sample.normal_table Sample.keep.
Proof.
  intros H.
  destruct (H aiScene.empty AI_HMP_MAGIC_NUMBER_LE_7
              (Header_HMP5.Build (F32.of_bits 0x40000000) (F32.of_bits 0x40000000)
                 (F32.of_bits 0x40000000) 1 4 1))
    as (e & st' & E & K).
  - vm_compute. discriminate.
  - vm_compute. reflexivity.
  - vm_compute. tauto.
  - vm_compute. reflexivity.
  - discriminate.
  - vm_compute. reflexivity.
  - assert (R : InternReadFile Sample.double_header_cut Sample.parse_lump Sample.skip_lump
                  Sample.normal_table Sample.keep (State aiScene.empty []) =
                Throw HMP_header_too_small
                  (logged [EvRead 0 4; EvCheck 50] (State aiScene.empty [])))
      by (vm_compute; reflexivity).
    rewrite R in E. injection E as <- _. discriminate K.
Qed.

(** The bounds guard tests a cursor against the end of the file only:
    behind a collaborator that moves the cursor in front of the buffer
    the test passes and the next chunk header is loaded from outside
    the buffer.  The guard of C1 is that of collaborators which move
    the cursor forwards. *)
Lemma backward_cursor_is_read :
  exists st,
    InternReadFile Sample.three_skins Sample.parse_back Sample.skip_lump
      Sample.normal_table Sample.keep Sample.st0 = Undefined ReadPastBuffer st.
Proof. eexists. vm_compute. reflexivity. Qed.

(** X1.  A file shorter than 50 bytes is refused as too small before
    anything is read.  Of a longer file the importer reads the first
    four bytes as a little-endian word: the tag HMP4, in either byte
    order, is refused as not supported, and a word that is none of the
    six tags is refused as an unknown subformat that carries the word.
    In each case the scene is as it was. *)
Theorem InternReadFile_refuses buf parse skip lookup normalize st :
  (fileSize buf < 50 ->
   InternReadFile buf parse skip lookup normalize st = Throw HMP_file_too_small st) /\
  (50 <= fileSize buf ->
   exists iMagic,
     Buffer.u32_at buf 0 = Some iMagic /\
     ((iMagic = AI_HMP_MAGIC_NUMBER_LE_4 \/ iMagic = AI_HMP_MAGIC_NUMBER_BE_4) ->
      InternReadFile buf parse skip lookup normalize st =
        Throw HMP4_not_supported (logged [EvRead 0 4; EvCheck 50] st)) /\
     (~ In iMagic [AI_HMP_MAGIC_NUMBER_LE_4; AI_HMP_MAGIC_NUMBER_BE_4;
                   AI_HMP_MAGIC_NUMBER_LE_5; AI_HMP_MAGIC_NUMBER_BE_5;
                   AI_HMP_MAGIC_NUMBER_LE_7; AI_HMP_MAGIC_NUMBER_BE_7] ->
      InternReadFile buf parse skip lookup normalize st =
        Throw (Unknown_HMP_subformat iMagic) (logged [EvRead 0 4; EvCheck 50] st))).
Proof.
  split.
  - intros Hsz. unfold InternReadFile.
    destruct (Z.ltb_spec (fileSize buf) 50); [reflexivity|lia].
  - intros Hsz.
    destruct (u32_at_inside buf 0 ltac:(lia) ltac:(unfold fileSize in Hsz; lia))
      as [iMagic Hm].
    exists iMagic. split; [exact Hm|]. split.
    + intros H4. rewrite (InternReadFile_magic _ _ _ _ _ _ _ Hsz Hm).
      destruct H4 as [-> | ->]; magic_tests; reflexivity.
    + intros Hno. rewrite (InternReadFile_magic _ _ _ _ _ _ _ Hsz Hm).
      cbn [In] in Hno.
      destruct (Z.eqb_spec AI_HMP_MAGIC_NUMBER_LE_4 iMagic); [tauto|].
      destruct (Z.eqb_spec AI_HMP_MAGIC_NUMBER_BE_4 iMagic); [tauto|].
      destruct (Z.eqb_spec AI_HMP_MAGIC_NUMBER_LE_5 iMagic); [tauto|].
      destruct (Z.eqb_spec AI_HMP_MAGIC_NUMBER_BE_5 iMagic); [tauto|].
      destruct (Z.eqb_spec AI_HMP_MAGIC_NUMBER_LE_7 iMagic); [tauto|].
      destruct (Z.eqb_spec AI_HMP_MAGIC_NUMBER_BE_7 iMagic); [tauto|].
      reflexivity.
Qed.

Lemma InternReadFile_refuses_witness :
  Sample.import (take 49 Sample.terrain_3x2) = Throw HMP_file_too_small Sample.st0.
Proof.
  apply (proj1 (InternReadFile_refuses (take 49 Sample.terrain_3x2) Sample.parse_lump
                  Sample.skip_lump Sample.normal_table Sample.keep Sample.st0)).
  vm_compute. reflexivity.
Defined.

(** X2.  A file of revision HMP5 or HMP7 whose size, taken as
    [unsigned int], is below the 120 bytes of the header is refused
    with "HMP file is too small (header size is 120 bytes)" before any
    field of the header is read; the scene is as it was.  The size is
    the one truncated to 32 bits, so the test also refuses a file of
    [k * 2^32 + r] bytes with [r < 120]. *)
Theorem short_header_is_refused buf parse skip lookup normalize st iMagic :
  50 <= fileSize buf -> iFileSize buf < 120 ->
  Buffer.u32_at buf 0 = Some iMagic ->
  In iMagic [AI_HMP_MAGIC_NUMBER_LE_5; AI_HMP_MAGIC_NUMBER_BE_5;
             AI_HMP_MAGIC_NUMBER_LE_7; AI_HMP_MAGIC_NUMBER_BE_7] ->
  InternReadFile buf parse skip lookup normalize st =
    Throw HMP_header_too_small (logged [EvRead 0 4; EvCheck 50] st).
Proof.
  intros Hsz Hi Hm Hin. rewrite (InternReadFile_magic _ _ _ _ _ _ _ Hsz Hm).
  assert (Hv : forall st', ValidateHeader_HMP457 buf st' = Throw HMP_header_too_small st').
  { intros st'. unfold ValidateHeader_HMP457.
    destruct (Z.gtb_spec 120 (iFileSize buf)); [reflexivity|lia]. }
  destruct Hin as [<-|[<-|[<-|[<-|[]]]]]; magic_tests;
    unfold bind at 1;
    unfold InternReadFile_HMP5, InternReadFile_HMP7, InternReadFile_HMP57;
    unfold bind at 1; unfold HMP57_prologue; unfold bind at 1; rewrite Hv; reflexivity.
Qed.

Lemma short_header_is_refused_witness :
  Sample.import (take 100 Sample.terrain_3x2) =
    Throw HMP_header_too_small (logged [EvRead 0 4; EvCheck 50] Sample.st0).
Proof.
  apply (short_header_is_refused (take 100 Sample.terrain_3x2) Sample.parse_lump
           Sample.skip_lump Sample.normal_table Sample.keep Sample.st0
           AI_HMP_MAGIC_NUMBER_LE_5).
  - vm_compute. discriminate.
  - vm_compute. reflexivity.
  - vm_compute. reflexivity.
  - left. reflexivity.
Defined.


(** ** The casts of a validated header *)

Lemma Zdigits2_sharp m e j :
  0 <= m -> -400 <= e -> e <= j -> m * sc e <= sc j -> Zdigits2 m + e <= j + 1.
Proof.
  intros Hm He Hej H. destruct m as [|p|p]; cbn [Zdigits2]; try lia.
  pose proof (digits2_pos_bounds p) as [Hd _].
  assert (Hs : sc (Zpos (digits2_pos p) - 1 + e) <= sc j).
  { rewrite Z.add_comm, sc_add by lia. pose proof (sc_pos e He). nia. }
  apply sc_le in Hs; lia.
Qed.

(** The exponent of a rounded value that does not exceed [2 ^ j]. *)
Lemma binary_round_aux_exponent s m e l j :
  0 <= m -> -400 <= e -> e <= j -> -149 <= j <= 104 ->
  m * sc e <= sc j -> (l <> loc_Exact -> m * sc e < sc j) ->
  binary_round_aux F32.prec F32.emax s m e l = S754_zero s \/
  exists m' e', binary_round_aux F32.prec F32.emax s m e l = S754_finite s m' e' /\
                e' <= Z.max e (Z.max (j - 23) (-149)).
Proof.
  intros Hm He Hej Hj Hle Hlt. unfold binary_round_aux, shr_fexp.
  set (n1 := fexp F32.prec F32.emax (Zdigits2 m + e) - e).
  pose proof (shr_spec (shr_record_of_loc m l) e n1) as H1.
  rewrite shr_m_of_loc in H1. specialize (H1 Hm He).
  destruct (shr (shr_record_of_loc m l) e n1) as [r1 e1]. cbn [fst snd] in H1.
  destruct H1 as (Hm1 & He1 & Hv1 & Hi1).
  pose proof (Zdigits2_sharp m e j Hm He Hej Hle) as Hd1.
  assert (He1j : e1 <= Z.max e (Z.max (j - 23) (-149))).
  { subst e1 n1. unfold fexp, emin, F32.prec, F32.emax in *. lia. }
  assert (He1j' : e1 <= j) by lia.
  assert (He1' : -400 <= e1) by lia.
  pose proof (round_nearest_even_bounds r1) as [Hr Hrex].
  set (m2 := round_nearest_even (shr_m r1) (loc_of_shr_record r1)) in *.
  assert (Hm2 : m2 * sc e1 <= sc j).
  { destruct (inexact r1) eqn:Hin.
    - assert (Hs : shr_m r1 * sc e1 < sc j).
      { destruct (Hi1 eq_refl) as [Hl|Hl]; [|lia].
        apply inexact_of_loc in Hl. specialize (Hlt Hl). lia. }
      replace j with (e1 + (j - e1)) in Hs |- * by lia.
      rewrite sc_add in Hs |- * by lia.
      pose proof (sc_pos e1 He1').
      assert (shr_m r1 < 2 ^ (j - e1)) by nia. nia.
    - rewrite (Hrex eq_refl). lia. }
  set (n2 := fexp F32.prec F32.emax (Zdigits2 m2 + e1) - e1).
  pose proof (shr_spec (shr_record_of_loc m2 loc_Exact) e1 n2) as H2.
  rewrite shr_m_of_loc in H2. specialize (H2 ltac:(lia) He1').
  pose proof (Zdigits2_sharp m2 e1 j ltac:(lia) He1' He1j' Hm2) as Hd2.
  destruct (shr (shr_record_of_loc m2 loc_Exact) e1 n2) as [r3 e3]. cbn [fst snd] in H2.
  destruct H2 as (Hm3 & He3 & Hv3 & _).
  destruct (shr_m r3) as [|p|p] eqn:Hr3; [now left| |lia].
  right. assert (-400 <= e3) by lia.
  assert (He3j : e3 <= j).
  { apply sc_le; try lia. pose proof (sc_pos e3 ltac:(lia)). nia. }
  exists p, e3. unfold F32.emax, F32.prec.
  replace (e3 <=? 128 - 24) with true by (symmetry; apply Z.leb_le; lia).
  split; [reflexivity|].
  subst e3 n2. unfold fexp, emin, F32.prec, F32.emax in *. lia.
Qed.

Lemma SFdiv_exponent mn en mx ex :
  -296 <= en -> Zpos mn * sc en <= sc 31 ->
  2 ^ 23 <= Zpos mx -> -23 <= ex <= 104 ->
  SFdiv F32.prec F32.emax (S754_finite false mn en) (S754_finite false mx ex) = S754_zero false \/
  exists m' e',
    SFdiv F32.prec F32.emax (S754_finite false mn en) (S754_finite false mx ex) = S754_finite false m' e' /\
    e' <= Z.max (-15 - ex) (-149).
Proof.
  intros Hen Hn Hx Hex. cbn [SFdiv xorb]. unfold SFdiv_core_binary.
  set (e' := Z.min (fexp F32.prec F32.emax (Zdigits2 (Zpos mn) + en - (Zdigits2 (Zpos mx) + ex))) (en - ex)).
  set (s := en - ex - e').
  set (m' := match s with Z.pos _ => Z.shiftl (Zpos mn) s | 0 => Zpos mn | Z.neg _ => 0 end).
  assert (Hs : 0 <= s) by (subst s e'; lia).
  assert (Hm' : m' = Zpos mn * 2 ^ s).
  { subst m'. clearbody s. destruct s as [|p|p]; [rewrite Z.pow_0_r; lia| |lia].
    apply Z.shiftl_mul_pow2. lia. }
  pose proof (Z_div_mod m' (Zpos mx) ltac:(lia)) as Hdiv.
  destruct (Z.div_eucl m' (Zpos mx)) as [q r]. destruct Hdiv as [Hqr Hr].
  assert (H2s : 0 < 2 ^ s) by (apply Z.pow_pos_nonneg; lia).
  assert (Hq : 0 <= q) by nia.
  assert (He'lo : -400 <= e').
  { subst e'. unfold fexp, emin, F32.prec, F32.emax. lia. }
  assert (Hen31 : en <= 31).
  { apply sc_le; try lia. pose proof (sc_pos en ltac:(lia)). nia. }
  pose proof (Zdigits2_sharp (Zpos mn) en 31 ltac:(lia) ltac:(lia) Hen31 Hn) as Hd1.
  assert (Hd2 : 24 <= Zdigits2 (Zpos mx)).
  { cbn [Zdigits2]. pose proof (digits2_pos_bounds mx) as [_ Hlt].
    assert (2 ^ 23 < 2 ^ Zpos (digits2_pos mx)) by lia.
    apply Z.pow_lt_mono_r_iff in H; lia. }
  assert (He'j : e' <= Z.max (-16 - ex) (-149)).
  { subst e'. unfold fexp, emin, F32.prec, F32.emax in *. lia. }
  assert (Hsc : sc en * 2 ^ 23 = sc e' * 2 ^ s * 2 ^ (ex + 23)).
  { unfold sc. rewrite <- !Z.pow_add_r by lia. f_equal. subst s. lia. }
  assert (Hsc31 : sc 31 = sc (8 - ex) * 2 ^ (ex + 23)).
  { unfold sc. rewrite <- Z.pow_add_r by lia. f_equal. lia. }
  assert (H2k : 0 < 2 ^ (ex + 23)) by (apply Z.pow_pos_nonneg; lia).
  pose proof (sc_pos e' He'lo) as Hpe'.
  assert (Hq23 : q * 2 ^ 23 <= Zpos mn * 2 ^ s) by nia.
  assert (Hchain : q * sc e' * 2 ^ 23 * 2 ^ (ex + 23) <= Zpos mn * sc en * 2 ^ 23).
  { replace (Zpos mn * sc en * 2 ^ 23) with (Zpos mn * (sc en * 2 ^ 23)) by ring.
    rewrite Hsc.
    replace (Z.pos mn * (sc e' * 2 ^ s * 2 ^ (ex + 23)))
      with ((Zpos mn * 2 ^ s) * (sc e' * 2 ^ (ex + 23))) by ring.
    replace (q * sc e' * 2 ^ 23 * 2 ^ (ex + 23))
      with ((q * 2 ^ 23) * (sc e' * 2 ^ (ex + 23))) by ring.
    apply Z.mul_le_mono_nonneg_r; [nia|assumption]. }
  assert (Hle : q * sc e' <= sc (8 - ex)).
  { assert (q * sc e' * 2 ^ (ex + 23) <= sc (8 - ex) * 2 ^ (ex + 23)) by (rewrite <- Hsc31; nia).
    nia. }
  destruct (binary_round_aux_exponent false q e' (new_location (Zpos mx) r) (8 - ex))
    as [Hz|(m0 & e0 & E0 & He0)]; try lia.
  - intros Hl. apply new_location_exact in Hl.
    assert (Hq23' : q * 2 ^ 23 < Zpos mn * 2 ^ s) by nia.
    assert (q * sc e' * 2 ^ 23 * 2 ^ (ex + 23) < Zpos mn * sc en * 2 ^ 23).
    { replace (Zpos mn * sc en * 2 ^ 23) with (Zpos mn * (sc en * 2 ^ 23)) by ring.
      rewrite Hsc.
      replace (Z.pos mn * (sc e' * 2 ^ s * 2 ^ (ex + 23)))
        with ((Zpos mn * 2 ^ s) * (sc e' * 2 ^ (ex + 23))) by ring.
      replace (q * sc e' * 2 ^ 23 * 2 ^ (ex + 23))
        with ((q * 2 ^ 23) * (sc e' * 2 ^ (ex + 23))) by ring.
      apply Z.mul_lt_mono_pos_r; [nia|assumption]. }
    assert (q * sc e' * 2 ^ (ex + 23) < sc (8 - ex) * 2 ^ (ex + 23)) by (rewrite <- Hsc31; nia).
    nia.
  - now left.
  - right. exists m0, e0. split; [exact E0|lia].
Qed.

(** A divisor of [2 ^ 32] or more gives a quotient below 1.0. *)
Lemma quotient_below_one nv mx ex :
  0 < nv <= 2 ^ 31 -> 2 ^ 23 <= Zpos mx -> 9 <= ex <= 104 ->
  F32.ltb (F32.div (F32.of_int nv) (S754_finite false mx ex)) F32.one = true.
Proof.
  intros Hnv Hmx Hex.
  destruct (of_int_le nv Hnv) as [En|(mn & en & En & Hen & Hvn)].
  { rewrite En. reflexivity. }
  rewrite En. unfold F32.div.
  destruct (SFdiv_exponent mn en mx ex ltac:(lia) Hvn Hmx ltac:(lia))
    as [Ed|(mq & eq & Ed & Heq)]; rewrite Ed; [reflexivity|].
  unfold F32.ltb, SFltb, SFcompare, F32.one.
  destruct (eq ?= -23) eqn:Hc; cbv beta iota.
  - apply Z.compare_eq in Hc. lia.
  - reflexivity.
  - apply Z.compare_gt_iff in Hc. lia.
Qed.

(** *** The result of a division has all its digits *)

Lemma Zdigits2_nonneg m : 0 <= m -> 0 <= Zdigits2 m.
Proof. destruct m; cbn [Zdigits2]; lia. Qed.

Lemma Zdigits2_ge m k : 0 <= k -> 2 ^ k <= m -> k + 1 <= Zdigits2 m.
Proof.
  intros Hk Hm. assert (0 < 2 ^ k) by (apply Z.pow_pos_nonneg; lia).
  destruct m as [|p|p]; try lia. cbn [Zdigits2].
  pose proof (digits2_pos_bounds p) as [_ Hlt].
  assert (Hp : 2 ^ k < 2 ^ Zpos (digits2_pos p)) by lia.
  apply Z.pow_lt_mono_r_iff in Hp; lia.
Qed.

Lemma Zdigits2_lower m : 0 < m -> 2 ^ (Zdigits2 m - 1) <= m.
Proof.
  intros Hm. destruct m as [|p|p]; try lia. cbn [Zdigits2].
  apply digits2_pos_bounds.
Qed.

Lemma Zdigits2_mono a b : 0 <= a <= b -> Zdigits2 a <= Zdigits2 b.
Proof.
  intros [Ha Hab]. destruct (Z.eq_dec a 0) as [->|Hne].
  - apply Zdigits2_nonneg. lia.
  - pose proof (Zdigits2_lower a ltac:(lia)).
    assert (1 <= Zdigits2 a) by (destruct a; cbn [Zdigits2]; lia).
    pose proof (Zdigits2_ge b (Zdigits2 a - 1) ltac:(lia) ltac:(lia)). lia.
Qed.

Lemma shr_1_lower r :
  0 <= shr_m r -> shr_m r < (shr_m (shr_1 r) + 1) * 2.
Proof.
  destruct r as [m r s]. cbn [shr_m]. intros Hm.
  destruct m as [|[p|p|]|p]; cbn; lia.
Qed.

Lemma iter_pos_shr_1_lower p : forall r,
  0 <= shr_m r ->
  shr_m r < (shr_m (SpecFloat.iter_pos shr_1 p r) + 1) * 2 ^ Zpos p.
Proof.
  induction p as [p IH|p IH|]; intros r Hr; cbn [SpecFloat.iter_pos].
  - pose proof (shr_1_lower r Hr) as L0.
    destruct (shr_1_spec r Hr) as (H0 & _).
    pose proof (IH _ H0) as L1.
    destruct (iter_pos_shr_1 p _ H0) as (H3 & _).
    pose proof (IH _ H3) as L2.
    destruct (iter_pos_shr_1 p _ H3) as (H6 & _).
    set (a := shr_1 r) in *. set (b := SpecFloat.iter_pos shr_1 p a) in *.
    set (c := SpecFloat.iter_pos shr_1 p b) in *.
    replace (2 ^ Zpos p~1) with (2 ^ Zpos p * 2 ^ Zpos p * 2)
      by (replace (Zpos p~1) with (Zpos p + Zpos p + 1) by lia;
          rewrite !Z.pow_add_r by lia; reflexivity).
    assert (0 < 2 ^ Zpos p) by (apply Z.pow_pos_nonneg; lia).
    nia.
  - pose proof (IH _ Hr) as L1.
    destruct (iter_pos_shr_1 p _ Hr) as (H3 & _).
    pose proof (IH _ H3) as L2.
    destruct (iter_pos_shr_1 p _ H3) as (H6 & _).
    set (b := SpecFloat.iter_pos shr_1 p r) in *.
    set (c := SpecFloat.iter_pos shr_1 p b) in *.
    replace (2 ^ Zpos p~0) with (2 ^ Zpos p * 2 ^ Zpos p)
      by (replace (Zpos p~0) with (Zpos p + Zpos p) by lia;
          rewrite Z.pow_add_r by lia; reflexivity).
    assert (0 < 2 ^ Zpos p) by (apply Z.pow_pos_nonneg; lia).
    nia.
  - rewrite Z.pow_1_r. now apply shr_1_lower.
Qed.

(** A shift by [n] places takes at most [n] digits away. *)
Lemma shr_digits r e n :
  0 <= shr_m r ->
  Zdigits2 (shr_m r) - Z.max n 0 <= Zdigits2 (shr_m (fst (shr r e n))).
Proof.
  intros Hm. destruct n as [|p|p]; cbn [shr fst]; try lia.
  pose proof (iter_pos_shr_1_lower p r Hm) as Hlo.
  destruct (iter_pos_shr_1 p r Hm) as (H0 & _).
  set (r' := SpecFloat.iter_pos shr_1 p r) in *.
  pose proof (Zdigits2_nonneg _ H0).
  destruct (Z.le_gt_cases (Zdigits2 (shr_m r)) (Zpos p)) as [?|Hd]; [lia|].
  assert (Hpos : 0 < shr_m r).
  { destruct (shr_m r) as [|q|q]; cbn [Zdigits2] in Hd; lia. }
  pose proof (Zdigits2_lower _ Hpos) as Hl.
  replace (Zdigits2 (shr_m r) - 1) with ((Zdigits2 (shr_m r) - 1 - Zpos p) + Zpos p) in Hl by lia.
  rewrite Z.pow_add_r in Hl by lia.
  assert (0 < 2 ^ Zpos p) by (apply Z.pow_pos_nonneg; lia).
  assert (0 < 2 ^ (Zdigits2 (shr_m r) - 1 - Zpos p)) by (apply Z.pow_pos_nonneg; lia).
  assert (2 ^ (Zdigits2 (shr_m r) - 1 - Zpos p) <= shr_m r') by nia.
  pose proof (Zdigits2_ge (shr_m r') (Zdigits2 (shr_m r) - 1 - Zpos p) ltac:(lia) ltac:(lia)).
  lia.
Qed.

(** Rounding a value that has all its digits gives one that has. *)
Lemma binary_round_aux_digits s m e l :
  0 <= m -> -400 <= e -> e <= fexp F32.prec F32.emax (Zdigits2 m + e) ->
  match binary_round_aux F32.prec F32.emax s m e l with
  | S754_finite _ m' e' => e' <= fexp F32.prec F32.emax (Zdigits2 (Zpos m') + e')
  | _ => True
  end.
Proof.
  intros Hm He Hin. unfold binary_round_aux, shr_fexp.
  set (n1 := fexp F32.prec F32.emax (Zdigits2 m + e) - e).
  pose proof (shr_spec (shr_record_of_loc m l) e n1) as H1.
  pose proof (shr_digits (shr_record_of_loc m l) e n1) as D1.
  rewrite shr_m_of_loc in H1, D1. specialize (H1 Hm He). specialize (D1 Hm).
  destruct (shr (shr_record_of_loc m l) e n1) as [r1 e1]. cbn [fst snd] in H1, D1.
  destruct H1 as (Hm1 & He1 & _ & _).
  pose proof (round_nearest_even_bounds r1) as [Hr _].
  set (m2 := round_nearest_even (shr_m r1) (loc_of_shr_record r1)) in *.
  pose proof (Zdigits2_mono (shr_m r1) m2 ltac:(lia)) as Hd12.
  set (n2 := fexp F32.prec F32.emax (Zdigits2 m2 + e1) - e1).
  pose proof (shr_spec (shr_record_of_loc m2 loc_Exact) e1 n2) as H2.
  pose proof (shr_digits (shr_record_of_loc m2 loc_Exact) e1 n2) as D2.
  rewrite shr_m_of_loc in H2, D2. specialize (H2 ltac:(lia) ltac:(lia)).
  specialize (D2 ltac:(lia)).
  destruct (shr (shr_record_of_loc m2 loc_Exact) e1 n2) as [r3 e3]. cbn [fst snd] in H2, D2.
  destruct H2 as (Hm3 & He3 & _ & _).
  destruct (shr_m r3) as [|p|p] eqn:Hr3; [exact I| |exact I].
  destruct (e3 <=? F32.emax - F32.prec); [|exact I].
  subst e3 e1 n2 n1. unfold fexp, emin, F32.prec, F32.emax in *. lia.
Qed.

Lemma SFdiv_digits mn en mx ex m0 e0 :
  -296 <= en -> -23 <= ex <= 104 ->
  Zdigits2 (Zpos mn) + en <= 32 ->
  SFdiv F32.prec F32.emax (S754_finite false mn en) (S754_finite false mx ex) =
    S754_finite false m0 e0 ->
  e0 <= fexp F32.prec F32.emax (Zdigits2 (Zpos m0) + e0).
Proof.
  intros Hen Hex Hd1. cbn [SFdiv xorb]. unfold SFdiv_core_binary.
  set (d1 := Zdigits2 (Zpos mn)) in *. set (d2 := Zdigits2 (Zpos mx)).
  set (e' := Z.min (fexp F32.prec F32.emax (d1 + en - (d2 + ex))) (en - ex)).
  set (s := en - ex - e').
  set (m' := match s with Z.pos _ => Z.shiftl (Zpos mn) s | 0 => Zpos mn | Z.neg _ => 0 end).
  assert (Hs : 0 <= s) by (subst s e'; lia).
  assert (Hm' : m' = Zpos mn * 2 ^ s).
  { subst m'. clearbody s. destruct s as [|p|p]; [rewrite Z.pow_0_r; lia| |lia].
    apply Z.shiftl_mul_pow2. lia. }
  pose proof (Z_div_mod m' (Zpos mx) ltac:(lia)) as Hdiv.
  assert (Hq' : fst (Z.div_eucl m' (Zpos mx)) = m' / Zpos mx) by reflexivity.
  destruct (Z.div_eucl m' (Zpos mx)) as [q r]. destruct Hdiv as [Hqr Hr].
  cbn [fst] in Hq'.
  assert (H2s : 0 < 2 ^ s) by (apply Z.pow_pos_nonneg; lia).
  assert (Hq : 0 <= q) by nia.
  assert (He'lo : -400 <= e').
  { subst e'. unfold fexp, emin, F32.prec, F32.emax. lia. }
  assert (H1d1 : 1 <= d1) by (subst d1; cbn [Zdigits2]; lia).
  assert (H1d2 : 1 <= d2) by (subst d2; cbn [Zdigits2]; lia).
  (* the digits of the quotient *)
  assert (Hdq : d1 + s - d2 <= Zdigits2 q).
  { pose proof (Zdigits2_nonneg q Hq).
    destruct (Z.le_gt_cases (d1 + s - d2) 0) as [?|Hpos]; [lia|].
    pose proof (Zdigits2_lower (Zpos mn) ltac:(lia)) as Hl1. fold d1 in Hl1.
    pose proof (digits2_pos_bounds mx) as [_ Hu2].
    change (Zpos (digits2_pos mx)) with d2 in Hu2.
    assert (Hk : 2 ^ (d1 + s - d2 - 1) * Zpos mx <= m').
    { rewrite Hm'.
      assert (E : 2 ^ (d1 - 1) * 2 ^ s = 2 ^ (d1 + s - d2 - 1) * 2 ^ d2).
      { rewrite <- !Z.pow_add_r by lia. f_equal. lia. }
      assert (0 < 2 ^ (d1 + s - d2 - 1)) by (apply Z.pow_pos_nonneg; lia).
      nia. }
    assert (2 ^ (d1 + s - d2 - 1) <= q).
    { rewrite Hq'. apply Z.div_le_lower_bound; lia. }
    pose proof (Zdigits2_ge q (d1 + s - d2 - 1) ltac:(lia) ltac:(lia)). lia. }
  intros E.
  pose proof (binary_round_aux_digits false q e' (new_location (Zpos mx) r) Hq He'lo) as H.
  rewrite E in H. apply H.
  subst e' s. unfold fexp, emin, F32.prec, F32.emax in *. lia.
Qed.

(** The integer part of a quotient that is not below 1.0 is at least 1. *)
Lemma trunc_quotient_positive nv mx ex z :
  0 < nv <= 2 ^ 31 -> -23 <= ex <= 104 ->
  F32.ltb (F32.div (F32.of_int nv) (S754_finite false mx ex)) F32.one = false ->
  F32.trunc (F32.div (F32.of_int nv) (S754_finite false mx ex)) = Some z ->
  1 <= z.
Proof.
  intros Hnv Hex Hlt Ht.
  destruct (of_int_le nv Hnv) as [En|(mn & en & En & Hen & Hvn)].
  { rewrite En in Hlt. discriminate Hlt. }
  rewrite En in Hlt, Ht. unfold F32.div in Hlt, Ht.
  assert (Hen31 : en <= 31).
  { apply sc_le; try lia. pose proof (sc_pos en ltac:(lia)). nia. }
  pose proof (Zdigits2_sharp (Zpos mn) en 31 ltac:(lia) ltac:(lia) Hen31 Hvn) as Hd1.
  pose proof (binary_round_aux_signed false) as Hsig.
  destruct (SFdiv F32.prec F32.emax (S754_finite false mn en) (S754_finite false mx ex))
    as [sq|sq| |sq mq eq] eqn:Ed; try discriminate Ht.
  - discriminate Hlt || (destruct sq; discriminate Hlt).
  - assert (sq = false).
    { destruct sq; [|reflexivity]. discriminate Hlt. }
    subst sq.
    pose proof (SFdiv_digits mn en mx ex mq eq ltac:(lia) Hex ltac:(lia) Ed) as Hcan.
    cbn [F32.trunc] in Ht. injection Ht as <-.
    unfold F32.ltb, SFltb, SFcompare, F32.one in Hlt.
    destruct (eq ?= -23) eqn:Hc; cbv beta iota in Hlt; try discriminate Hlt.
    + apply Z.compare_eq in Hc. subst eq.
      destruct (Pos.compare_cont Eq mq 8388608) eqn:Hp; try discriminate Hlt.
      * apply Pos.compare_eq in Hp. subst mq. reflexivity.
      * apply Pos.compare_gt_iff in Hp.
        change (- -23) with 23. cbn [Z.leb Z.compare].
        rewrite Z.shiftr_div_pow2 by lia.
        apply Z.div_le_lower_bound; lia.
    + apply Z.compare_gt_iff in Hc.
      assert (Hdq : 24 <= Zdigits2 (Zpos mq)).
      { unfold fexp, emin, F32.prec, F32.emax in Hcan. lia. }
      pose proof (Zdigits2_lower (Zpos mq) ltac:(lia)) as Hl.
      assert (2 ^ 23 <= 2 ^ (Zdigits2 (Zpos mq) - 1)) by (apply Z.pow_le_mono_r; lia).
      destruct (Z.leb_spec 0 eq).
      * rewrite Z.shiftl_mul_pow2 by lia.
        assert (0 < 2 ^ eq) by (apply Z.pow_pos_nonneg; lia). nia.
      * rewrite Z.shiftr_div_pow2 by lia.
        apply Z.div_le_lower_bound; [apply Z.pow_pos_nonneg; lia|].
        assert (2 ^ (- eq) <= 2 ^ 23) by (apply Z.pow_le_mono_r; lia). lia.
Qed.

Lemma trunc_normal_positive m e w :
  2 ^ 23 <= Zpos m -> -23 <= e ->
  F32.trunc (S754_finite false m e) = Some w -> 1 <= w.
Proof.
  intros Hm He. cbn [F32.trunc]. intros [= <-].
  destruct (Z.leb_spec 0 e).
  - rewrite Z.shiftl_mul_pow2 by lia.
    assert (0 < 2 ^ e) by (apply Z.pow_pos_nonneg; lia). nia.
  - rewrite Z.shiftr_div_pow2 by lia.
    apply Z.div_le_lower_bound; [apply Z.pow_pos_nonneg; lia|].
    assert (2 ^ (- e) <= 2 ^ 23) by (apply Z.pow_le_mono_r; lia). lia.
Qed.

(** The dimensions of the grid of a header that passes validation. *)
Lemma validated_grid w nv :
  - 2 ^ 31 <= nv < 2 ^ 31 ->
  F32.isfinite (F32.of_bits w) = true ->
  F32.ltb (F32.of_bits w) F32.one = false ->
  F32.ltb (F32.div (F32.of_int nv) (F32.of_bits w)) F32.one = false ->
  exists ht wd,
    F32.to_uint (F32.div (F32.of_int nv) (F32.of_bits w)) = Some ht /\
    F32.to_uint (F32.of_bits w) = Some wd /\
    1 <= wd /\ 1 <= ht /\ wd * ht <= 2 ^ 32 /\ 0 < nv.
Proof.
  intros Hnv Hfin Hx Hq.
  destruct (not_below_one w Hfin Hx) as (mx & ex & Efx & Hmx & Hex).
  rewrite Efx in *.
  assert (Hpos : 0 < nv).
  { destruct (Z.lt_ge_cases 0 nv) as [?|Hle]; [assumption|].
    pose proof (ltb_nonpositive _ (div_nonpositive _ mx ex (of_int_nonpositive nv Hle))).
    congruence. }
  assert (Hex8 : ex <= 8).
  { destruct (Z.le_gt_cases ex 8) as [?|Hgt]; [assumption|].
    pose proof (quotient_below_one nv mx ex ltac:(lia) ltac:(lia) ltac:(lia)).
    congruence. }
  (* the width *)
  destruct (trunc_normal mx ex Hmx ltac:(lia)) as (wd & Etw & Hwd).
  pose proof (trunc_normal_positive mx ex wd ltac:(lia) ltac:(lia) Etw) as Hwd1.
  assert (Hwd32 : wd < 2 ^ 32).
  { assert (2 ^ (ex + 24) <= 2 ^ 32) by (apply Z.pow_le_mono_r; lia). lia. }
  assert (Ewd : F32.to_uint (S754_finite false mx ex) = Some wd).
  { unfold F32.to_uint. rewrite Etw.
    destruct (Z.leb_spec 0 wd); [|lia]. destruct (Z.ltb_spec wd (2 ^ 32)); [|lia].
    reflexivity. }
  (* the height *)
  destruct (of_int_le nv ltac:(lia)) as [En|(mn & en & En & Hen & Hvn)].
  { rewrite En in Hq. discriminate Hq. }
  destruct (SFdiv_le mn en mx ex ltac:(lia) Hvn ltac:(lia) Hex)
    as [Ed|(mq & eq & Ed & Heq & Hvq)].
  { rewrite En in Hq. unfold F32.div in Hq. rewrite Ed in Hq. discriminate Hq. }
  destruct (trunc_le mq eq (8 - ex) Heq ltac:(lia) Hvq) as (ht & Eth & Hht0 & Hhtle & _).
  specialize (Hhtle ltac:(lia)).
  assert (Etq : F32.trunc (F32.div (F32.of_int nv) (S754_finite false mx ex)) = Some ht).
  { rewrite En. unfold F32.div. rewrite Ed. exact Eth. }
  pose proof (trunc_quotient_positive nv mx ex ht ltac:(lia) Hex Hq Etq) as Hht1.
  assert (Hht32 : ht < 2 ^ 32).
  { assert (2 ^ (8 - ex) <= 2 ^ 31) by (apply Z.pow_le_mono_r; lia). lia. }
  assert (Eht : F32.to_uint (F32.div (F32.of_int nv) (S754_finite false mx ex)) = Some ht).
  { unfold F32.to_uint. rewrite Etq.
    destruct (Z.leb_spec 0 ht); [|lia]. destruct (Z.ltb_spec ht (2 ^ 32)); [|lia].
    reflexivity. }
  exists ht, wd. split; [exact Eht|]. split; [exact Ewd|].
  split; [exact Hwd1|]. split; [exact Hht1|]. split; [|exact Hpos].
  assert (wd * ht <= 2 ^ (ex + 24) * 2 ^ (8 - ex)).
  { assert (0 < 2 ^ (8 - ex)) by (apply Z.pow_pos_nonneg; lia). nia. }
  replace (2 ^ (ex + 24) * 2 ^ (8 - ex)) with (2 ^ 32) in *
    by (rewrite <- Z.pow_add_r by lia; f_equal; lia).
  assumption.
Qed.

(** X3.  A header that passes [ValidateHeader_HMP457] gives a grid:
    both casts to [unsigned int] of lines 200 and 203 are defined (the
    truncated values fit 32 bits), the width and the height are at
    least 1, their product is at most [2 ^ 32], and the vertex count is
    positive, so that the allocation of the vertex arrays does not
    fail on a negative length. *)
Theorem validated_header_gives_grid buf st st1 :
  ValidateHeader_HMP457 buf st = Ok tt st1 ->
  exists h height width,
    Header_HMP5.overlay buf = Some h /\
    (forall st', cast_uint (F32.div (F32.of_int (Header_HMP5.numverts h))
                                    (Header_HMP5.fnumverts_x h)) st' = Ok height st') /\
    (forall st', cast_uint (Header_HMP5.fnumverts_x h) st' = Ok width st') /\
    (forall st', new_array (Header_HMP5.numverts h) st' =
                 Ok (new_vectors (Header_HMP5.numverts h)) st') /\
    1 <= width /\ 1 <= height /\ width * height <= 2 ^ 32 /\
    0 < Header_HMP5.numverts h.
Proof.
  intros E. apply ValidateHeader_Ok in E. destruct E as (_ & h & Hh & Hv & _).
  destruct (overlay_fields buf h Hh) as [[w Hw] Hnv].
  destruct (header_violation_None h Hv) as (Hfin & Hx & Hq).
  rewrite Hw in Hfin, Hx, Hq.
  destruct (validated_grid w _ Hnv Hfin Hx Hq) as (ht & wd & Eht & Ewd & H1 & H2 & H3 & H4).
  exists h, ht, wd. split; [exact Hh|]. rewrite Hw.
  split; [intros st'; unfold cast_uint; rewrite Eht; reflexivity|].
  split; [intros st'; unfold cast_uint; rewrite Ewd; reflexivity|].
  split; [|auto].
  intros st'. unfold new_array. destruct (Z.ltb_spec (Header_HMP5.numverts h) 0); [lia|].
  reflexivity.
Qed.

Lemma validated_header_gives_grid_witness :
  exists h height width,
    Header_HMP5.overlay Sample.terrain_3x2 = Some h /\
    (forall st', cast_uint (F32.div (F32.of_int (Header_HMP5.numverts h))
                                    (Header_HMP5.fnumverts_x h)) st' = Ok height st') /\
    (forall st', cast_uint (Header_HMP5.fnumverts_x h) st' = Ok width st') /\
    (forall st', new_array (Header_HMP5.numverts h) st' =
                 Ok (new_vectors (Header_HMP5.numverts h)) st') /\
    1 <= width /\ 1 <= height /\ width * height <= 2 ^ 32 /\
    0 < Header_HMP5.numverts h.
Proof.
  exact (validated_header_gives_grid Sample.terrain_3x2 Sample.st0
           (logged [EvRead 0 Header_HMP5.sizeof; EvCheck 120] Sample.st0)
           ltac:(vm_compute; reflexivity)).
Defined.


(** ** The vertex loops by the number of the record *)

(** The two loops of [load_vertices] as one loop over the records:
    an invariant in the number of records done is kept when the body
    keeps it for the record of each grid point. *)
Lemma load_vertices_indexed
    (load_vertex : Z -> Z -> vertex_locals -> M vertex_locals) width height
    (I : Z -> vertex_locals -> state -> Prop) X :
  0 <= width -> 0 <= height ->
  (forall y x s, 0 <= y < height -> 0 <= x < width ->
     hoare (I (y * width + x) s) (load_vertex y x s) (I (y * width + x + 1)) X) ->
  forall s0,
    hoare (I 0 s0) (load_vertices load_vertex width height s0) (I (width * height)) X.
Proof.
  intros Hw Hh Hbody s0. unfold load_vertices.
  eapply hoare_conseq.
  - apply (hoare_for_loop _ (fun y => I (y * width)) X).
    intros y s Hy. rewrite Z2Nat.id in Hy by lia.
    eapply hoare_conseq.
    + apply (hoare_for_loop _ (fun x => I (y * width + x)) X).
      intros x s' Hx. rewrite Z2Nat.id in Hx by lia.
      replace (y * width + (x + 1)) with (y * width + x + 1) by lia.
      apply Hbody; lia.
    + cbv beta. intros st H. now rewrite Z.add_0_r.
    + cbv beta. intros a st H. rewrite Z2Nat.id in H by lia.
      replace ((y + 1) * width) with (y * width + (0 + width)) by lia. exact H.
    + intros a st H. exact H.
  - cbv beta. intros st H. exact H.
  - cbv beta. intros a st H. rewrite Z2Nat.id in H by lia.
    replace (width * height) with ((0 + height) * width) by lia. exact H.
  - intros a st H. exact H.
Qed.

Lemma load_vertex_HMP5_overruns buf lookup h c y x verts norms k st :
  Z.of_nat (length verts) <= k ->
  load_vertex_HMP5 buf lookup h c y x (verts, norms, k) st = Undefined ArrayOverwrite st.
Proof.
  intros Hk. unfold load_vertex_HMP5. rewrite (array_get_outside verts k Hk). reflexivity.
Qed.

Lemma load_vertex_HMP7_overruns buf normalize h c y x verts norms k st :
  Z.of_nat (length verts) <= k ->
  load_vertex_HMP7 buf normalize h c y x (verts, norms, k) st = Undefined ArrayOverwrite st.
Proof.
  intros Hk. unfold load_vertex_HMP7. rewrite (array_get_outside verts k Hk). reflexivity.
Qed.

(** The loops run over the end of arrays that are shorter than the
    grid. *)
Lemma load_vertices_overrun buf h c load_vertex width height verts norms n st :
  decodes_record buf h c load_vertex ->
  (forall y x vs ns k st',
     Z.of_nat (length vs) <= k ->
     load_vertex y x (vs, ns, k) st' = Undefined ArrayOverwrite st') ->
  0 <= c -> 0 <= width -> 0 <= height ->
  Z.of_nat (length verts) = n -> Z.of_nat (length norms) = n ->
  n < width * height -> c + 4 * n <= Z.of_nat (length buf) ->
  exists st',
    load_vertices load_vertex width height (verts, norms, 0) st =
      Undefined ArrayOverwrite st'.
Proof.
  intros Hdec Hover Hc Hw Hh Lv Ln Hn Hbuf.
  set (I := fun (k : Z) (s : vertex_locals) (st' : state) =>
              snd s = k /\ k <= n /\
              Z.of_nat (length (fst (fst s))) = n /\
              Z.of_nat (length (snd (fst s))) = n).
  set (X := fun (a : abort) (st' : state) => a = Undef ArrayOverwrite).
  assert (Hbody : forall y x s, 0 <= y < height -> 0 <= x < width ->
            hoare (I (y * width + x) s) (load_vertex y x s) (I (y * width + x + 1)) X).
  { intros y x [[vs ns] k] Hy Hx st' (Hk & Hkn & Lvs & Lns).
    cbn [fst snd] in Hk, Lvs, Lns. subst k.
    assert (0 <= y * width) by (apply Z.mul_nonneg_nonneg; lia).
    destruct (Z.eq_dec (y * width + x) n) as [E|E].
    - rewrite (Hover y x vs ns (y * width + x) st' ltac:(lia)). reflexivity.
    - destruct (Hdec y x vs ns (y * width + x) st' Hc ltac:(lia) ltac:(lia)
                  ltac:(lia) ltac:(lia)) as (z & nn & evs & _ & Erun).
      rewrite Erun. unfold I. cbn [fst snd]. rewrite !length_insert.
      split; [reflexivity|]. split; [lia|]. split; assumption. }
  pose proof (load_vertices_indexed load_vertex width height I X Hw Hh Hbody
                (verts, norms, 0) st) as Hrun.
  assert (Hstart : I 0 (verts, norms, 0) st).
  { unfold I. cbn [fst snd]. split; [reflexivity|]. split; [lia|].
    split; assumption. }
  specialize (Hrun Hstart).
  destruct (load_vertices load_vertex width height (verts, norms, 0) st)
    as [s st'|e st'|u st'].
  - destruct Hrun as (_ & Hle & _). lia.
  - discriminate Hrun.
  - injection Hrun as ->. exists st'. reflexivity.
Qed.

(** X4.  The vertex loops of both revisions store [width * height]
    entries into the arrays allocated for [numverts] vertices without
    a test: when the arrays are shorter than the grid (and the file
    holds the records before), the run stores outside the arrays. *)
Theorem vertex_loops_overrun_arrays buf lookup normalize h c width height verts norms st :
  0 <= c -> 0 <= width -> 0 <= height ->
  length norms = length verts ->
  Z.of_nat (length verts) < width * height ->
  c + 4 * Z.of_nat (length verts) <= Z.of_nat (length buf) ->
  (exists st',
     load_vertices (load_vertex_HMP5 buf lookup h c) width height (verts, norms, 0) st =
       Undefined ArrayOverwrite st') /\
  (exists st',
     load_vertices (load_vertex_HMP7 buf normalize h c) width height (verts, norms, 0) st =
       Undefined ArrayOverwrite st').
Proof.
  intros Hc Hw Hh Ln Hn Hbuf. split.
  - apply (load_vertices_overrun buf h c _ width height verts norms
             (Z.of_nat (length verts))); try assumption; try lia.
    + apply load_vertex_HMP5_decodes.
    + intros y x vs ns k st' Hk. now apply load_vertex_HMP5_overruns.
  - apply (load_vertices_overrun buf h c _ width height verts norms
             (Z.of_nat (length verts))); try assumption; try lia.
    + apply load_vertex_HMP7_decodes.
    + intros y x vs ns k st' Hk. now apply load_vertex_HMP7_overruns.
Qed.

Lemma vertex_loops_overrun_arrays_witness :
  exists st',
    load_vertices (load_vertex_HMP5 Sample.terrain_3x2 Sample.normal_table
                     Sample.oversized_header 120) 2 2
      (new_vectors 3, new_vectors 3, 0) Sample.st0 = Undefined ArrayOverwrite st'.
Proof.
  exact (proj1 (vertex_loops_overrun_arrays Sample.terrain_3x2 Sample.normal_table
                  Sample.keep Sample.oversized_header 120 2 2
                  (new_vectors 3) (new_vectors 3) Sample.st0
                  ltac:(lia) ltac:(lia) ltac:(lia) eq_refl
                  ltac:(vm_compute; reflexivity) ltac:(vm_compute; discriminate))).
Defined.

(** ** The normals of the decoded grid *)

Lemma load_vertex_HMP5_normal buf lookup h c y x verts norms k st :
  0 <= c -> 0 <= k -> c + 4 * k + 4 <= Z.of_nat (length buf) ->
  k < Z.of_nat (length verts) -> k < Z.of_nat (length norms) ->
  exists v n evs,
    normal_HMP5 lookup buf (c + 4 * k) = Some n /\
    load_vertex_HMP5 buf lookup h c y x (verts, norms, k) st =
      Ok (<[Z.to_nat k := v]> verts, <[Z.to_nat k := n]> norms, k + 1) (logged evs st).
Proof.
  intros Hc Hk Hbuf Hv Hn.
  destruct (u16_at_inside buf (c + 4 * k) ltac:(lia) ltac:(lia)) as [z Hz].
  destruct (byte_at_inside buf (c + 4 * k + 2) ltac:(lia)) as [i Hi].
  destruct (array_get_inside verts k ltac:(lia)) as [v0 Hv0].
  exists (position_of h x y z), (lookup i),
    [EvRead (c + 4 * k + 2) 1; EvRead (c + 4 * k) 2].
  split; [unfold normal_HMP5; now rewrite Hi|].
  unfold load_vertex_HMP5, Vertex_HMP5.sizeof, Vertex_HMP5.z, Vertex_HMP5.normals162index.
  rewrite Z.add_0_r, Hv0.
  rewrite (bind_Ok _ _ _ _ _ (defined_Some _ _ _)).
  rewrite (bind_Ok _ _ _ _ _ (read_u16_Some _ _ _ _ Hz)).
  rewrite (array_set_inside verts k) by lia.
  rewrite (bind_Ok _ _ _ _ _ (defined_Some _ _ _)).
  rewrite (bind_Ok _ _ _ _ _ (read_u8_Some _ _ _ _ Hi)).
  rewrite (array_set_inside norms k) by lia.
  rewrite (bind_Ok _ _ _ _ _ (defined_Some _ _ _)).
  reflexivity.
Qed.

Lemma load_vertex_HMP7_normal buf normalize h c y x verts norms k st :
  0 <= c -> 0 <= k -> c + 4 * k + 4 <= Z.of_nat (length buf) ->
  k < Z.of_nat (length verts) -> k < Z.of_nat (length norms) ->
  exists v n evs,
    normal_HMP7 normalize buf (c + 4 * k) = Some n /\
    load_vertex_HMP7 buf normalize h c y x (verts, norms, k) st =
      Ok (<[Z.to_nat k := v]> verts, <[Z.to_nat k := n]> norms, k + 1) (logged evs st).
Proof.
  intros Hc Hk Hbuf Hv Hn.
  destruct (u16_at_inside buf (c + 4 * k) ltac:(lia) ltac:(lia)) as [z Hz].
  destruct (byte_at_inside buf (c + 4 * k + 2) ltac:(lia)) as [nx Hnx].
  destruct (byte_at_inside buf (c + 4 * k + 3) ltac:(lia)) as [ny Hny].
  destruct (array_get_inside verts k ltac:(lia)) as [v0 Hv0].
  exists (position_of h x y z). eexists.
  exists [EvRead (c + 4 * k + 3) 1; EvRead (c + 4 * k + 2) 1; EvRead (c + 4 * k) 2].
  split; [unfold normal_HMP7; rewrite Hnx, Hny; reflexivity|].
  unfold load_vertex_HMP7, Vertex_HMP7.sizeof, Vertex_HMP7.z, Vertex_HMP7.normal_x,
    Vertex_HMP7.normal_y.
  rewrite Z.add_0_r, Hv0.
  rewrite (bind_Ok _ _ _ _ _ (defined_Some _ _ _)).
  rewrite (bind_Ok _ _ _ _ _ (read_u16_Some _ _ _ _ Hz)).
  rewrite (array_set_inside verts k) by lia.
  rewrite (bind_Ok _ _ _ _ _ (defined_Some _ _ _)).
  rewrite (bind_Ok _ _ _ _ _ (read_u8_Some _ _ _ _ Hnx)).
  rewrite (bind_Ok _ _ _ _ _ (read_u8_Some _ _ _ _ Hny)).
  rewrite (array_set_inside norms k) by lia.
  rewrite (bind_Ok _ _ _ _ _ (defined_Some _ _ _)).
  reflexivity.
Qed.

(** The loops store the normal of record [k] at index [k] and leave
    the entries behind the grid as they were. *)
Lemma load_vertices_normals (buf : list byte) c
    (load_vertex : Z -> Z -> vertex_locals -> M vertex_locals)
    (normal_at : Z -> option aiVector3D) width height verts norms st :
  (forall y x vs ns k st',
     0 <= k -> c + 4 * k + 4 <= Z.of_nat (length buf) ->
     k < Z.of_nat (length vs) -> k < Z.of_nat (length ns) ->
     exists v n evs,
       normal_at k = Some n /\
       load_vertex y x (vs, ns, k) st' =
         Ok (<[Z.to_nat k := v]> vs, <[Z.to_nat k := n]> ns, k + 1) (logged evs st')) ->
  0 <= width -> 0 <= height ->
  c + 4 * (width * height) <= Z.of_nat (length buf) ->
  width * height <= Z.of_nat (length verts) ->
  width * height <= Z.of_nat (length norms) ->
  exists verts' norms' st',
    load_vertices load_vertex width height (verts, norms, 0) st =
      Ok (verts', norms', width * height) st' /\
    length norms' = length norms /\
    normals_loaded normal_at norms' (width * height) /\
    forall i, width * height <= i -> array_get norms' i = array_get norms i.
Proof.
  intros Hdec Hw Hh Hbuf Lv Ln.
  set (I := fun (k : Z) (s : vertex_locals) (st' : state) =>
              snd s = k /\
              length (fst (fst s)) = length verts /\
              length (snd (fst s)) = length norms /\
              normals_loaded normal_at (snd (fst s)) k /\
              forall i, k <= i -> array_get (snd (fst s)) i = array_get norms i).
  assert (Hbody : forall y x s, 0 <= y < height -> 0 <= x < width ->
            hoare (I (y * width + x) s) (load_vertex y x s) (I (y * width + x + 1))
              (fun _ _ => False)).
  { intros y x [[vs ns] k] Hy Hx st' (Hk & Lvs & Lns & Hld & Hrest).
    cbn [fst snd] in Hk, Lvs, Lns, Hld, Hrest. subst k.
    assert (0 <= y * width) by (apply Z.mul_nonneg_nonneg; lia).
    assert (Hkw : y * width + x < width * height).
    { assert ((y + 1) * width <= height * width)
        by (apply Z.mul_le_mono_nonneg_r; lia). lia. }
    destruct (Hdec y x vs ns (y * width + x) st' ltac:(lia) ltac:(lia)
                ltac:(lia) ltac:(lia)) as (v & n & evs & Hn & Erun).
    rewrite Erun. unfold I. cbn [fst snd]. rewrite !length_insert.
    split; [reflexivity|]. split; [assumption|]. split; [assumption|]. split.
    - intros i Hi. destruct (Z.eq_dec i (y * width + x)) as [->|Ne].
      + exists n. split; [exact Hn|].
        unfold array_get. destruct (Z.leb_spec 0 (y * width + x)); [|lia].
        apply list_lookup_insert_eq. lia.
      + destruct (Hld i ltac:(lia)) as (n' & Hn' & Hg).
        exists n'. split; [exact Hn'|].
        unfold array_get in *. destruct (Z.leb_spec 0 i); [|lia].
        rewrite list_lookup_insert_ne by lia. exact Hg.
    - intros i Hi. rewrite <- (Hrest i ltac:(lia)).
      unfold array_get. destruct (Z.leb_spec 0 i); [|reflexivity].
      apply list_lookup_insert_ne. lia. }
  pose proof (load_vertices_indexed load_vertex width height I (fun _ _ => False)
                Hw Hh Hbody (verts, norms, 0) st) as Hrun.
  assert (Hstart : I 0 (verts, norms, 0) st).
  { unfold I. cbn [fst snd]. split; [reflexivity|]. split; [reflexivity|].
    split; [reflexivity|]. split; [intros i Hi; lia|]. intros i Hi. reflexivity. }
  specialize (Hrun Hstart).
  destruct (load_vertices load_vertex width height (verts, norms, 0) st)
    as [[[vs ns] k] st'|e st'|u st']; try contradiction.
  destruct Hrun as (Hk & _ & Lns & Hld & Hrest). cbn [fst snd] in *. subst k.
  exists vs, ns, st'. repeat split; assumption.
Qed.

(** X5.  Behind the position, each vertex record gives the normal of
    its grid point: in revision HMP5 the entry of the normal table for
    the index byte at offset 2 of the record, in revision HMP7 the
    normalised vector of the signed bytes at offsets 2 and 3 over 128
    and of 1.0.  The normal of record [k] is stored at index [k], and
    the entries behind the grid stay as they were allocated. *)
Theorem decoded_vertex_normals buf lookup normalize h c width height verts norms st :
  0 <= c -> 0 <= width -> 0 <= height ->
  c + 4 * (width * height) <= Z.of_nat (length buf) ->
  width * height <= Z.of_nat (length verts) ->
  width * height <= Z.of_nat (length norms) ->
  (exists verts' norms' st',
     load_vertices (load_vertex_HMP5 buf lookup h c) width height (verts, norms, 0) st =
       Ok (verts', norms', width * height) st' /\
     length norms' = length norms /\
     normals_loaded (fun k => normal_HMP5 lookup buf (c + 4 * k)) norms' (width * height) /\
     forall i, width * height <= i -> array_get norms' i = array_get norms i) /\
  (exists verts' norms' st',
     load_vertices (load_vertex_HMP7 buf normalize h c) width height (verts, norms, 0) st =
       Ok (verts', norms', width * height) st' /\
     length norms' = length norms /\
     normals_loaded (fun k => normal_HMP7 normalize buf (c + 4 * k)) norms' (width * height) /\
     forall i, width * height <= i -> array_get norms' i = array_get norms i).
Proof.
  intros Hc Hw Hh Hbuf Lv Ln. split.
  - apply (load_vertices_normals buf c); try assumption.
    intros y x vs ns k st' Hk Hb Hvs Hns. now apply load_vertex_HMP5_normal.
  - apply (load_vertices_normals buf c); try assumption.
    intros y x vs ns k st' Hk Hb Hvs Hns. now apply load_vertex_HMP7_normal.
Qed.

Lemma decoded_vertex_normals_witness :
  exists verts' norms' st',
    load_vertices (load_vertex_HMP5 Sample.terrain_3x2 Sample.normal_table
                     Sample.oversized_header 120) 3 2
      (new_vectors 6, new_vectors 6, 0) Sample.st0 = Ok (verts', norms', 3 * 2) st' /\
    length norms' = length (new_vectors 6) /\
    normals_loaded (fun k => normal_HMP5 Sample.normal_table Sample.terrain_3x2 (120 + 4 * k))
      norms' (3 * 2) /\
    forall i, 3 * 2 <= i -> array_get norms' i = array_get (new_vectors 6) i.
Proof.
  exact (proj1 (decoded_vertex_normals Sample.terrain_3x2 Sample.normal_table
                  Sample.keep Sample.oversized_header 120 3 2
                  (new_vectors 6) (new_vectors 6) Sample.st0
                  ltac:(lia) ltac:(lia) ltac:(lia)
                  ltac:(vm_compute; discriminate) ltac:(vm_compute; discriminate)
                  ltac:(vm_compute; discriminate))).
Defined.


(** ** Texture coordinates *)

(** Two nested loops over the rows and columns of a grid as one loop
    over the number of the grid point. *)
Lemma grid_loop_indexed {St} (body : Z -> Z -> St -> M St) width height
    (I : Z -> St -> state -> Prop) X :
  0 <= width -> 0 <= height ->
  (forall y x s, 0 <= y < height -> 0 <= x < width ->
     hoare (I (y * width + x) s) (body y x s) (I (y * width + x + 1)) X) ->
  forall s0,
    hoare (I 0 s0)
      (for_loop (Z.to_nat height) 0 (fun y => for_loop (Z.to_nat width) 0 (body y)) s0)
      (I (width * height)) X.
Proof.
  intros Hw Hh Hbody s0.
  eapply hoare_conseq.
  - apply (hoare_for_loop _ (fun y => I (y * width)) X).
    intros y s Hy. rewrite Z2Nat.id in Hy by lia.
    eapply hoare_conseq.
    + apply (hoare_for_loop _ (fun x => I (y * width + x)) X).
      intros x s' Hx. rewrite Z2Nat.id in Hx by lia.
      replace (y * width + (x + 1)) with (y * width + x + 1) by lia.
      apply Hbody; lia.
    + cbv beta. intros st H. now rewrite Z.add_0_r.
    + cbv beta. intros a st H. rewrite Z2Nat.id in H by lia.
      replace ((y + 1) * width) with (y * width + (0 + width)) by lia. exact H.
    + intros a st H. exact H.
  - cbv beta. intros st H. exact H.
  - cbv beta. intros a st H. rewrite Z2Nat.id in H by lia.
    replace (width * height) with ((0 + height) * width) by lia. exact H.
  - intros a st H. exact H.
Qed.

(** The run of [GenerateTextureCoords] on a mesh whose UV channel
    holds the grid. *)
Lemma GenerateTextureCoords_run width height st pcMesh rest uv :
  aiScene.mMeshes (pScene st) = pcMesh :: rest ->
  aiMesh.mTextureCoords0 pcMesh = Some uv ->
  1 <= width -> 1 <= height -> width * height <= Z.of_nat (length uv) ->
  exists uv',
    GenerateTextureCoords width height st =
      Ok tt (State (with_mesh0 (pScene st) (with_uv pcMesh uv')) (trace st)) /\
    length uv' = length uv /\
    (forall y x, 0 <= y < height -> 0 <= x < width ->
       array_get uv' (y * width + x) = Some (uv_of width height x y)) /\
    (forall i, width * height <= i -> array_get uv' i = array_get uv i).
Proof.
  intros Hm Euv Hw Hh Lu.
  set (I := fun (k : Z) (s : list aiVector3D * Z) (st' : state) =>
              snd s = k /\ st' = st /\ length (fst s) = length uv /\
              (forall y x, 0 <= y -> 0 <= x < width -> y * width + x < k ->
                 array_get (fst s) (y * width + x) = Some (uv_of width height x y)) /\
              forall i, k <= i -> array_get (fst s) i = array_get uv i).
  pose proof (grid_loop_indexed
    (fun y x (s : list aiVector3D * Z) =>
       let '(uvs, k) := s in
       bind (defined ArrayOverwrite (array_set uvs k (uv_of width height x y)))
            (fun uvs => ret (uvs, k + 1)))
    width height I (fun _ _ => False) ltac:(lia) ltac:(lia)) as Hloop.
  assert (Hbody : forall y x s, 0 <= y < height -> 0 <= x < width ->
    hoare (I (y * width + x) s)
      (let '(uvs, k) := s in
       bind (defined ArrayOverwrite (array_set uvs k (uv_of width height x y)))
            (fun uvs => ret (uvs, k + 1)))
      (I (y * width + x + 1)) (fun _ _ => False)).
  { intros y x [uvs k] Hy Hx st' (Hk & -> & Ls & Hld & Hrest).
    cbn [fst snd] in Hk, Ls, Hld, Hrest. subst k.
    assert (0 <= y * width) by (apply Z.mul_nonneg_nonneg; lia).
    assert (Hkw : y * width + x < width * height).
    { assert ((y + 1) * width <= height * width)
        by (apply Z.mul_le_mono_nonneg_r; lia). lia. }
    rewrite (array_set_inside uvs (y * width + x)) by lia.
    unfold bind, defined, ret, I. cbn [fst snd]. rewrite length_insert.
    split; [reflexivity|]. split; [reflexivity|]. split; [assumption|]. split.
    - intros y' x' Hy' Hx' Hlt.
      destruct (Z.eq_dec (y' * width + x') (y * width + x)) as [Ec|Nc].
      + destruct (cell_number_inj width y' x' y x ltac:(lia) ltac:(lia) ltac:(lia)
                    ltac:(lia) Ec) as [-> ->].
        unfold array_get. destruct (Z.leb_spec 0 (y * width + x)); [|lia].
        apply list_lookup_insert_eq. lia.
      + rewrite <- (Hld y' x' Hy' Hx' ltac:(lia)).
        assert (0 <= y' * width) by (apply Z.mul_nonneg_nonneg; lia).
        unfold array_get. destruct (Z.leb_spec 0 (y' * width + x')); [|lia].
        apply list_lookup_insert_ne. lia.
    - intros i Hi. rewrite <- (Hrest i ltac:(lia)).
      unfold array_get. destruct (Z.leb_spec 0 i); [|reflexivity].
      apply list_lookup_insert_ne. lia. }
  specialize (Hloop Hbody (uv, 0) st).
  assert (Hstart : I 0 (uv, 0) st).
  { unfold I. cbn [fst snd]. split; [reflexivity|]. split; [reflexivity|].
    split; [reflexivity|]. split.
    - intros y x Hy Hx Hlt.
      assert (0 <= y * width) by (apply Z.mul_nonneg_nonneg; lia). lia.
    - intros i Hi. reflexivity. }
  specialize (Hloop Hstart).
  unfold GenerateTextureCoords.
  rewrite (bind_Ok _ _ _ _ _ (mesh0_Some st pcMesh rest Hm)). rewrite Euv.
  destruct (Z.eqb_spec height 0); [lia|]. destruct (Z.eqb_spec width 0); [lia|].
  cbn [orb]. cbv zeta. fold (uv_of width height).
  unfold uv_of in Hloop |- *. cbv zeta in Hloop.
  unfold bind at 1.
  destruct (for_loop (Z.to_nat height) 0 _ (uv, 0) st) as [[uvs k] st'|e st'|u st'];
    try contradiction.
  destruct Hloop as (Hk & -> & Ls & Hld & Hrest). cbn [fst snd] in *. subst k.
  exists uvs. split; [apply (set_mesh0_Some st pcMesh rest _ Hm)|].
  split; [assumption|]. split; [|assumption].
  intros y x Hy Hx. apply Hld; try lia.
  assert ((y + 1) * width <= height * width)
    by (apply Z.mul_le_mono_nonneg_r; lia). lia.
Qed.

(** X6.  On a mesh with a UV channel that holds the grid,
    [GenerateTextureCoords] gives the grid point in column [x] of row
    [y] the coordinates [(x * fX, y * fY, 0)] with
    [fX = 1/width + (1/width)/width] and [fY] alike, at index
    [y * width + x]; the entries behind the grid and the rest of the
    mesh stay as they were.  Without a UV channel, or with a width or
    height of 0, it does nothing. *)
Theorem GenerateTextureCoords_grid width height st pcMesh rest :
  aiScene.mMeshes (pScene st) = pcMesh :: rest ->
  (forall uv,
     aiMesh.mTextureCoords0 pcMesh = Some uv ->
     1 <= width -> 1 <= height -> width * height <= Z.of_nat (length uv) ->
     exists uv',
       GenerateTextureCoords width height st =
         Ok tt (State (with_mesh0 (pScene st) (with_uv pcMesh uv')) (trace st)) /\
       length uv' = length uv /\
       (forall y x, 0 <= y < height -> 0 <= x < width ->
          array_get uv' (y * width + x) = Some (uv_of width height x y)) /\
       (forall i, width * height <= i -> array_get uv' i = array_get uv i)) /\
  (aiMesh.mTextureCoords0 pcMesh = None \/ width = 0 \/ height = 0 ->
   GenerateTextureCoords width height st = Ok tt st).
Proof.
  intros Hm. split.
  - intros uv Euv Hw Hh Lu. now apply (GenerateTextureCoords_run width height st pcMesh rest uv).
  - intros Hno. unfold GenerateTextureCoords.
    rewrite (bind_Ok _ _ _ _ _ (mesh0_Some st pcMesh rest Hm)).
    destruct (aiMesh.mTextureCoords0 pcMesh) as [uv|]; [|reflexivity].
    destruct Hno as [Hno|[-> | ->]]; [discriminate Hno| |].
    + rewrite orb_true_r. reflexivity.
    + reflexivity.
Qed.

Lemma GenerateTextureCoords_grid_witness :
  exists uv',
    GenerateTextureCoords 4 4
      (Sample.holding (with_uv (Sample.grid_mesh 16) (new_vectors 16))) =
      Ok tt (State (with_mesh0
                      (pScene (Sample.holding (with_uv (Sample.grid_mesh 16) (new_vectors 16))))
                      (with_uv (with_uv (Sample.grid_mesh 16) (new_vectors 16)) uv')) []) /\
    array_get uv' 15 = Some (uv_of 4 4 3 3) /\
    uv_of 4 4 3 3 = Vec3 (F32.of_bits 0x3f700000) (F32.of_bits 0x3f700000) F32.zero.
Proof.
  destruct (proj1 (GenerateTextureCoords_grid 4 4
                     (Sample.holding (with_uv (Sample.grid_mesh 16) (new_vectors 16)))
                     (with_uv (Sample.grid_mesh 16) (new_vectors 16)) [] eq_refl)
              (new_vectors 16) eq_refl ltac:(lia) ltac:(lia)
              ltac:(vm_compute; discriminate))
    as (uv' & E & _ & Hg & _).
  exists uv'. split; [exact E|].
  split; [exact (Hg 3 3 ltac:(lia) ltac:(lia))|vm_compute; reflexivity].
Defined.


(** ** The import of a terrain without skins *)

Lemma bind_get_scene {B} (f : aiScene.t -> M B) st :
  bind get_scene f st = f (pScene st) st.
Proof. reflexivity. Qed.

Lemma bind_put_scene {B} sc (f : unit -> M B) st :
  bind (put_scene sc) f st = f tt (State sc (trace st)).
Proof. reflexivity. Qed.

Lemma new_array_Ok n st : 0 <= n -> new_array n st = Ok (new_vectors n) st.
Proof. intros H. unfold new_array. destruct (Z.ltb_spec n 0); [lia|reflexivity]. Qed.

(** Without skins, [CreateMaterial] stores the default material and
    leaves the cursor where it was. *)
Lemma CreateMaterial_skinless buf parse skip c st h m rest :
  aiScene.mMeshes (pScene st) = m :: rest ->
  Header_HMP5.overlay buf = Some h -> Header_HMP5.numskins h = 0 ->
  CreateMaterial buf parse skip c st =
    Ok c (State (aiScene.Build (aiScene.mFlags (pScene st)) (aiScene.mRootNode (pScene st))
                   (aiScene.mNumMeshes (pScene st)) (aiScene.mMeshes (pScene st))
                   1 [default_material])
                (EvRead 0 Header_HMP5.sizeof :: trace st)).
Proof.
  intros Hm Hh Hns. unfold CreateMaterial.
  rewrite (bind_Ok _ _ _ _ _ (mesh0_Some st m rest Hm)).
  rewrite (bind_Ok _ _ _ _ _ (pcHeader_Some buf h _ Hh)).
  rewrite Hns. reflexivity.
Qed.

Lemma HMP57_prologue_skinless buf parse skip st h height width :
  120 <= iFileSize buf -> Header_HMP5.overlay buf = Some h ->
  header_violation frames_non_zero h = None ->
  Header_HMP5.numskins h = 0 -> 0 <= Header_HMP5.numverts h ->
  F32.to_uint (F32.div (F32.of_int (Header_HMP5.numverts h))
                       (Header_HMP5.fnumverts_x h)) = Some height ->
  F32.to_uint (Header_HMP5.fnumverts_x h) = Some width ->
  exists tr,
    HMP57_prologue buf parse skip st =
      Ok (h, height, width, 120)
         (State (aiScene.Build (aiScene.mFlags (pScene st)) (aiScene.mRootNode (pScene st))
                   1 [aiMesh.Build 0 0 (new_vectors (Header_HMP5.numverts h))
                        (new_vectors (Header_HMP5.numverts h)) None 0 0 []]
                   1 [default_material]) tr).
Proof.
  intros Hsz Hh Hv Hns Hnv Hht Hwd. eexists. unfold HMP57_prologue. cbv zeta.
  pose proof (ValidateHeader_eq buf h st Hsz Hh) as EV. cbv zeta in EV. rewrite Hv in EV.
  rewrite (bind_Ok _ _ _ _ _ EV).
  rewrite (bind_Ok _ _ _ _ _ (pcHeader_Some buf h _ Hh)).
  rewrite bind_get_scene, bind_put_scene.
  rewrite (bind_Ok _ _ _ _ _ (new_array_Ok _ _ Hnv)).
  rewrite (bind_Ok _ _ _ _ _ (new_array_Ok _ _ Hnv)).
  erewrite (bind_Ok (set_mesh0 _)); [|apply (set_mesh0_Some _ aiMesh.default []); reflexivity].
  unfold cast_uint. rewrite Hht, Hwd.
  rewrite (bind_Ok _ _ _ _ _ (defined_Some _ _ _)).
  rewrite (bind_Ok _ _ _ _ _ (defined_Some _ _ _)).
  erewrite (bind_Ok (CreateMaterial _ _ _ _));
    [|eapply CreateMaterial_skinless; [reflexivity|exact Hh|exact Hns]].
  reflexivity.
Qed.

Lemma HMP57_body_skinless buf
    (load_vertex : Header_HMP5.t -> Z -> Z -> Z -> vertex_locals -> M vertex_locals)
    h height width st flags root nv :
  decodes_record buf h 120 (load_vertex h 120) ->
  pScene st =
    aiScene.Build flags root 1
      [aiMesh.Build 0 0 (new_vectors nv) (new_vectors nv) None 0 0 []]
      1 [default_material] ->
  Header_HMP5.numskins h = 0 ->
  2 <= width -> 2 <= height -> width * height <= nv ->
  120 + 4 * (width * height) <= Z.of_nat (length buf) ->
  4 * width * height <= 2 ^ 32 ->
  exists st' m,
    HMP57_body load_vertex h height width 120 st = Ok tt st' /\
    pScene st' =
      aiScene.Build flags (Some (aiNode.Build "terrain_root" 1 [0])) 1 [m]
        1 [default_material] /\
    aiMesh.mNumFaces m = (width - 1) * (height - 1) /\
    Z.of_nat (length (aiMesh.mFaces m)) = (width - 1) * (height - 1) /\
    aiMesh.mNumVertices m = 4 * ((width - 1) * (height - 1)) /\
    Z.of_nat (length (aiMesh.mVertices m)) = 4 * ((width - 1) * (height - 1)) /\
    Z.of_nat (length (aiMesh.mNormals m)) = 4 * ((width - 1) * (height - 1)) /\
    aiMesh.mTextureCoords0 m = None /\
    terrain_positions buf h 120 width height m.
Proof.
  intros Hdec Hsc Hns Hw Hh Hnv Hbuf Hsz.
  assert (H0nv : 0 <= nv) by nia.
  unfold HMP57_body.
  erewrite (bind_Ok mesh0); [|eapply mesh0_Some; rewrite Hsc; reflexivity].
  cbn [aiMesh.mVertices aiMesh.mNormals aiMesh.mMaterialIndex aiMesh.mNumVertices
       aiMesh.mTextureCoords0 aiMesh.mNumUVComponents0 aiMesh.mNumFaces aiMesh.mFaces].
  destruct (load_vertices_run buf h 120 (load_vertex h 120) width height
              (new_vectors nv) (new_vectors nv) st Hdec ltac:(lia) ltac:(lia) ltac:(lia)
              Hbuf ltac:(rewrite length_new_vectors; lia)
              ltac:(rewrite length_new_vectors; lia))
    as (verts & norms & st1 & E1 & Hsc1 & Lv & Ln & Hld).
  rewrite (bind_Ok _ _ _ _ _ E1). cbn [fst snd].
  erewrite (bind_Ok (set_mesh0 _));
    [|eapply set_mesh0_Some; rewrite Hsc1, Hsc; reflexivity].
  rewrite Hns. change (negb (0 =? 0)) with false. cbv iota.
  rewrite (bind_Ok (ret tt) _ _ tt _ eq_refl).
  set (m1 := aiMesh.Build 0 0 verts norms None 0 0 []).
  set (st2 := State (with_mesh0 (pScene st1) m1) (trace st1)).
  assert (Hm2 : aiScene.mMeshes (pScene st2) = m1 :: []).
  { subst st2. cbn [pScene]. rewrite Hsc1, Hsc. reflexivity. }
  assert (Lv' : Z.of_nat (length verts) = nv) by (rewrite Lv; now apply length_new_vectors).
  assert (Ln' : Z.of_nat (length norms) = nv) by (rewrite Ln; now apply length_new_vectors).
  destruct (CreateOutputFaceList_run width height st2 m1 [] Hm2 Hw Hh Hsz)
    as [(_ & s & (Hb & _) & E2)|(Hout & _)].
  2:{ exfalso. apply Hout. unfold corners_inside. subst m1.
      cbn [aiMesh.mVertices aiMesh.mNormals aiMesh.mTextureCoords0].
      replace ((height - 2 + 1) * width + (width - 2) + 1) with (width * height - 1) by lia.
      repeat split; lia. }
  rewrite (bind_Ok _ _ _ _ _ E2). rewrite bind_get_scene.
  exists (State (aiScene.Build flags (Some (aiNode.Build "terrain_root" 1 [0])) 1
                   [assembled m1 width height s] 1 [default_material])
                (trace st2)),
         (assembled m1 width height s).
  split.
  { unfold put_scene. subst st2. cbn [pScene trace]. rewrite Hsc1, Hsc. reflexivity. }
  split; [reflexivity|].
  destruct Hb as (_ & _ & _ & Lf & Lvs & Lns & _ & Hcells).
  cbn [assembled aiMesh.mNumFaces aiMesh.mFaces aiMesh.mNumVertices
       aiMesh.mVertices aiMesh.mNormals aiMesh.mTextureCoords0].
  split; [reflexivity|]. split; [assumption|]. split; [reflexivity|].
  split; [assumption|]. split; [assumption|]. split; [reflexivity|].
  intros y x Hy Hx.
  pose proof (grid_index_bounds width height y x Hw Hh Hsz Hy Hx)
    as (H0 & Hin & _ & HcF & _).
  destruct (Hcells y x ltac:(lia) Hx HcF) as (Hf & Hv & _).
  cbn [assembled aiMesh.mFaces aiMesh.mVertices].
  split; [exact Hf|].
  intros j cx cy Hj.
  assert (Hcorner : cell_corners width y x !! j = Some (cy * width + cx) /\
                    0 <= cy /\ 0 <= cx < width /\ cy * width + cx < width * height).
  { unfold cell_corner_points in Hj. unfold cell_corners.
    destruct j as [|[|[|[|j]]]]; cbn in Hj |- *; try discriminate Hj;
      injection Hj as <- <-; (split; [f_equal; lia|lia]). }
  destruct Hcorner as (Hc & Hcy & Hcx & Hlt).
  destruct (Hv j _ Hc) as (v & Hsrc & Hdst).
  destruct (Hld cy cx Hcy Hcx Hlt) as (z & Hz & Hg).
  exists z. split; [exact Hz|].
  subst m1. cbn [aiMesh.mVertices] in Hsrc. rewrite Hg in Hsrc.
  injection Hsrc as <-. exact Hdst.
Qed.

Lemma InternReadFile_HMP57_skinless buf parse skip
    (load_vertex : Header_HMP5.t -> Z -> Z -> Z -> vertex_locals -> M vertex_locals)
    st stV h height width :
  (forall h' c, decodes_record buf h' c (load_vertex h' c)) ->
  ValidateHeader_HMP457 buf st = Ok tt stV ->
  Header_HMP5.overlay buf = Some h -> Header_HMP5.numskins h = 0 ->
  F32.to_uint (F32.div (F32.of_int (Header_HMP5.numverts h))
                       (Header_HMP5.fnumverts_x h)) = Some height ->
  F32.to_uint (Header_HMP5.fnumverts_x h) = Some width ->
  2 <= width -> 2 <= height -> width * height <= Header_HMP5.numverts h ->
  120 + 4 * (width * height) <= iFileSize buf ->
  exists st' m,
    InternReadFile_HMP57 buf parse skip load_vertex st = Ok tt st' /\
    pScene st' =
      aiScene.Build (aiScene.mFlags (pScene st))
        (Some (aiNode.Build "terrain_root" 1 [0])) 1 [m] 1 [default_material] /\
    aiMesh.mNumFaces m = (width - 1) * (height - 1) /\
    Z.of_nat (length (aiMesh.mFaces m)) = (width - 1) * (height - 1) /\
    aiMesh.mNumVertices m = 4 * ((width - 1) * (height - 1)) /\
    Z.of_nat (length (aiMesh.mVertices m)) = 4 * ((width - 1) * (height - 1)) /\
    Z.of_nat (length (aiMesh.mNormals m)) = 4 * ((width - 1) * (height - 1)) /\
    aiMesh.mTextureCoords0 m = None /\
    terrain_positions buf h 120 width height m.
Proof.
  intros Hdec HV Hh Hns Hht Hwd Hw H2h Hnv Hfile.
  destruct (ValidateHeader_Ok buf st stV HV) as (Hsz & h0 & Hh0 & Hv & _).
  assert (h0 = h) by congruence. subst h0.
  destruct (overlay_fields buf h Hh) as [Hbits Hrange].
  destruct (vertex_extent_exact h height width Hbits Hrange Hv Hht Hwd)
    as (_ & _ & _ & Hpos & Hext).
  destruct (HMP57_prologue_skinless buf parse skip st h height width Hsz Hh Hv Hns
              ltac:(lia) Hht Hwd) as [tr Epro].
  pose proof (iFileSize_le buf) as Hle. pose proof (wrap32_range (fileSize buf)) as Hr.
  unfold InternReadFile_HMP57. rewrite (bind_Ok _ _ _ _ _ Epro). cbv beta iota.
  rewrite Hext.
  rewrite (bind_Ok _ _ _ _ _ (SizeCheck_passes buf _ _ Hfile)).
  apply (HMP57_body_skinless buf load_vertex h height width _
           (aiScene.mFlags (pScene st)) (aiScene.mRootNode (pScene st))
           (Header_HMP5.numverts h)); try assumption; try lia.
  - apply Hdec.
  - reflexivity.
  - unfold iFileSize in *. lia.
Qed.

(** X7.  End to end, for a file of revision HMP5 or HMP7 without
    skins: when the header passes validation, the grid it gives is at
    least 2 x 2 and not larger than the vertex count, and the file
    holds the [width * height] records behind offset 120, the import
    succeeds.  The scene gets the terrain flag, the root node
    "terrain_root" with the one mesh, the default material, and a mesh
    without texture coordinates of [(width-1) * (height-1)] quads and
    four vertices per quad, where the vertices of each quad are the
    positions decoded from the records of its four corner points. *)
Theorem skinless_terrain_is_imported buf parse skip lookup normalize st stV iMagic
    h height width :
  Buffer.u32_at buf 0 = Some iMagic ->
  In iMagic [AI_HMP_MAGIC_NUMBER_LE_5; AI_HMP_MAGIC_NUMBER_BE_5;
             AI_HMP_MAGIC_NUMBER_LE_7; AI_HMP_MAGIC_NUMBER_BE_7] ->
  ValidateHeader_HMP457 buf (logged [EvRead 0 4; EvCheck 50] st) = Ok tt stV ->
  Header_HMP5.overlay buf = Some h -> Header_HMP5.numskins h = 0 ->
  F32.to_uint (F32.div (F32.of_int (Header_HMP5.numverts h))
                       (Header_HMP5.fnumverts_x h)) = Some height ->
  F32.to_uint (Header_HMP5.fnumverts_x h) = Some width ->
  2 <= width -> 2 <= height -> width * height <= Header_HMP5.numverts h ->
  120 + 4 * (width * height) <= iFileSize buf ->
  exists st' m,
    InternReadFile buf parse skip lookup normalize st = Ok tt st' /\
    pScene st' =
      aiScene.Build (Z.lor (aiScene.mFlags (pScene st)) AI_SCENE_FLAGS_TERRAIN)
        (Some (aiNode.Build "terrain_root" 1 [0])) 1 [m] 1 [default_material] /\
    aiMesh.mNumFaces m = (width - 1) * (height - 1) /\
    Z.of_nat (length (aiMesh.mFaces m)) = (width - 1) * (height - 1) /\
    aiMesh.mNumVertices m = 4 * ((width - 1) * (height - 1)) /\
    Z.of_nat (length (aiMesh.mVertices m)) = 4 * ((width - 1) * (height - 1)) /\
    Z.of_nat (length (aiMesh.mNormals m)) = 4 * ((width - 1) * (height - 1)) /\
    aiMesh.mTextureCoords0 m = None /\
    terrain_positions buf h 120 width height m.
Proof.
  intros Hm Hin HV Hh Hns Hht Hwd Hw H2h Hnv Hfile.
  assert (Hsz : 50 <= fileSize buf).
  { pose proof (iFileSize_le buf). unfold fileSize. nia. }
  rewrite (InternReadFile_magic _ _ _ _ _ _ _ Hsz Hm).
  set (st0 := logged [EvRead 0 4; EvCheck 50] st) in *.
  assert (Hrun : exists st1 m,
    (if (AI_HMP_MAGIC_NUMBER_LE_4 =? iMagic) || (AI_HMP_MAGIC_NUMBER_BE_4 =? iMagic)
     then InternReadFile_HMP4
     else if (AI_HMP_MAGIC_NUMBER_LE_5 =? iMagic) || (AI_HMP_MAGIC_NUMBER_BE_5 =? iMagic)
     then InternReadFile_HMP5 buf parse skip lookup
     else if (AI_HMP_MAGIC_NUMBER_LE_7 =? iMagic) || (AI_HMP_MAGIC_NUMBER_BE_7 =? iMagic)
     then InternReadFile_HMP7 buf parse skip normalize
     else throw (Unknown_HMP_subformat iMagic)) st0 = Ok tt st1 /\
    pScene st1 =
      aiScene.Build (aiScene.mFlags (pScene st))
        (Some (aiNode.Build "terrain_root" 1 [0])) 1 [m] 1 [default_material] /\
    aiMesh.mNumFaces m = (width - 1) * (height - 1) /\
    Z.of_nat (length (aiMesh.mFaces m)) = (width - 1) * (height - 1) /\
    aiMesh.mNumVertices m = 4 * ((width - 1) * (height - 1)) /\
    Z.of_nat (length (aiMesh.mVertices m)) = 4 * ((width - 1) * (height - 1)) /\
    Z.of_nat (length (aiMesh.mNormals m)) = 4 * ((width - 1) * (height - 1)) /\
    aiMesh.mTextureCoords0 m = None /\
    terrain_positions buf h 120 width height m).
  { destruct Hin as [<-|[<-|[<-|[<-|[]]]]]; magic_tests.
    - apply (InternReadFile_HMP57_skinless buf parse skip (load_vertex_HMP5 buf lookup)
               st0 stV h height width); try assumption.
      intros h' c. apply load_vertex_HMP5_decodes.
    - apply (InternReadFile_HMP57_skinless buf parse skip (load_vertex_HMP5 buf lookup)
               st0 stV h height width); try assumption.
      intros h' c. apply load_vertex_HMP5_decodes.
    - apply (InternReadFile_HMP57_skinless buf parse skip (load_vertex_HMP7 buf normalize)
               st0 stV h height width); try assumption.
      intros h' c. apply load_vertex_HMP7_decodes.
    - apply (InternReadFile_HMP57_skinless buf parse skip (load_vertex_HMP7 buf normalize)
               st0 stV h height width); try assumption.
      intros h' c. apply load_vertex_HMP7_decodes. }
  destruct Hrun as (st1 & m & E & Hsc & Hrest).
  rewrite (bind_Ok _ _ _ _ _ E). rewrite bind_get_scene.
  eexists. exists m. split; [reflexivity|]. split; [|exact Hrest].
  cbn [pScene]. rewrite Hsc. reflexivity.
Qed.

Lemma skinless_terrain_is_imported_witness :
  exists st' m,
    Sample.import Sample.terrain_3x2 = Ok tt st' /\
    pScene st' =
      aiScene.Build (Z.lor (aiScene.mFlags (pScene Sample.st0)) AI_SCENE_FLAGS_TERRAIN)
        (Some (aiNode.Build "terrain_root" 1 [0])) 1 [m] 1 [default_material] /\
    aiMesh.mNumFaces m = (3 - 1) * (2 - 1) /\
    Z.of_nat (length (aiMesh.mFaces m)) = (3 - 1) * (2 - 1) /\
    aiMesh.mNumVertices m = 4 * ((3 - 1) * (2 - 1)) /\
    Z.of_nat (length (aiMesh.mVertices m)) = 4 * ((3 - 1) * (2 - 1)) /\
    Z.of_nat (length (aiMesh.mNormals m)) = 4 * ((3 - 1) * (2 - 1)) /\
    aiMesh.mTextureCoords0 m = None /\
    terrain_positions Sample.terrain_3x2
      (Header_HMP5.Build (F32.of_bits 0x40000000) (F32.of_bits 0x40000000)
         (F32.of_bits 0x40400000) 0 6 1)
      120 3 2 m.
Proof.
  exact (skinless_terrain_is_imported Sample.terrain_3x2 Sample.parse_lump Sample.skip_lump
           Sample.normal_table Sample.keep Sample.st0
           (logged [EvRead 0 Header_HMP5.sizeof; EvCheck 120]
              (logged [EvRead 0 4; EvCheck 50] Sample.st0))
           AI_HMP_MAGIC_NUMBER_LE_5
           (Header_HMP5.Build (F32.of_bits 0x40000000) (F32.of_bits 0x40000000)
              (F32.of_bits 0x40400000) 0 6 1)
           2 3
           ltac:(vm_compute; reflexivity) ltac:(left; reflexivity)
           ltac:(vm_compute; reflexivity) ltac:(vm_compute; reflexivity) eq_refl
           ltac:(vm_compute; reflexivity) ltac:(vm_compute; reflexivity)
           ltac:(lia) ltac:(lia) ltac:(vm_compute; discriminate)
           ltac:(vm_compute; discriminate)).
Defined.


(** ** The import of a terrain that is one vertex wide or high *)

Lemma CreateOutputFaceList_flat width height st pcMesh rest :
  aiScene.mMeshes (pScene st) = pcMesh :: rest ->
  width = 1 \/ height = 1 ->
  CreateOutputFaceList width height st =
    Ok tt (State (with_mesh0 (pScene st)
                    (aiMesh.Build (aiMesh.mMaterialIndex pcMesh) 0 [] []
                       (match aiMesh.mTextureCoords0 pcMesh with
                        | Some _ => Some []
                        | None => None
                        end)
                       (aiMesh.mNumUVComponents0 pcMesh) 0 []))
                 (trace st)).
Proof.
  intros Hm Hdeg.
  assert (HF : Word.wrap32 (Word.wrap32 (width - 1) * Word.wrap32 (height - 1)) = 0).
  { destruct Hdeg as [-> | ->]; change (Word.wrap32 (1 - 1)) with 0;
      rewrite ?Z.mul_0_l, ?Z.mul_0_r; reflexivity. }
  unfold CreateOutputFaceList.
  rewrite (bind_Ok _ _ _ _ _ (mesh0_Some st pcMesh rest Hm)).
  rewrite HF. change (Word.wrap32 (0 * 4)) with 0.
  change (Z.to_nat 0) with 0%nat. change (new_vectors 0) with (@nil aiVector3D).
  cbn [replicate].
  erewrite bind_Ok.
  2:{ destruct Hdeg as [-> | ->].
      - change (Word.wrap32 (1 - 1)) with 0. change (Z.to_nat 0) with 0%nat.
        apply for_loop_skip. intros j s' st'. reflexivity.
      - change (Word.wrap32 (1 - 1)) with 0. change (Z.to_nat 0) with 0%nat.
        reflexivity. }
  cbn [pcVertices pcNormals pcUVs mFaces].
  rewrite (set_mesh0_Some st pcMesh rest _ Hm).
  destruct (aiMesh.mTextureCoords0 pcMesh); reflexivity.
Qed.

(** X8.  End to end, for a file of revision HMP5 or HMP7 without
    skins whose validated grid is one vertex wide or one vertex high:
    when the file holds the records of the grid, the import succeeds,
    and the mesh it returns has no face and no vertex; the decoded
    vertices are dropped by face assembly. *)
Theorem flat_terrain_is_imported_empty buf parse skip lookup normalize st stV iMagic
    h height width :
  Buffer.u32_at buf 0 = Some iMagic ->
  In iMagic [AI_HMP_MAGIC_NUMBER_LE_5; AI_HMP_MAGIC_NUMBER_BE_5;
             AI_HMP_MAGIC_NUMBER_LE_7; AI_HMP_MAGIC_NUMBER_BE_7] ->
  ValidateHeader_HMP457 buf (logged [EvRead 0 4; EvCheck 50] st) = Ok tt stV ->
  Header_HMP5.overlay buf = Some h -> Header_HMP5.numskins h = 0 ->
  F32.to_uint (F32.div (F32.of_int (Header_HMP5.numverts h))
                       (Header_HMP5.fnumverts_x h)) = Some height ->
  F32.to_uint (Header_HMP5.fnumverts_x h) = Some width ->
  width = 1 \/ height = 1 ->
  width * height <= Header_HMP5.numverts h ->
  120 + 4 * (width * height) <= iFileSize buf ->
  exists st',
    InternReadFile buf parse skip lookup normalize st = Ok tt st' /\
    pScene st' =
      aiScene.Build (Z.lor (aiScene.mFlags (pScene st)) AI_SCENE_FLAGS_TERRAIN)
        (Some (aiNode.Build "terrain_root" 1 [0])) 1
        [aiMesh.Build 0 0 [] [] None 0 0 []] 1 [default_material].
Proof.
  intros Hm Hin HV Hh Hns Hht Hwd Hdeg Hnv Hfile.
  destruct (ValidateHeader_Ok buf _ stV HV) as (Hsz120 & h0 & Hh0 & Hv & _).
  assert (h0 = h) by congruence. subst h0.
  assert (Hsz : 50 <= fileSize buf).
  { pose proof (iFileSize_le buf). unfold fileSize. lia. }
  rewrite (InternReadFile_magic _ _ _ _ _ _ _ Hsz Hm).
  set (st0 := logged [EvRead 0 4; EvCheck 50] st) in *.
  destruct (overlay_fields buf h Hh) as [Hbits Hrange].
  destruct (vertex_extent_exact h height width Hbits Hrange Hv Hht Hwd)
    as (H0w & H0h & _ & Hpos & Hext).
  destruct (HMP57_prologue_skinless buf parse skip st0 h height width Hsz120 Hh Hv Hns
              ltac:(lia) Hht Hwd) as [tr Epro].
  pose proof (iFileSize_le buf) as Hle.
  assert (Hbody : forall load_vertex,
            (forall h' c, decodes_record buf h' c (load_vertex h' c)) ->
            exists st1,
              InternReadFile_HMP57 buf parse skip load_vertex st0 = Ok tt st1 /\
              pScene st1 =
                aiScene.Build (aiScene.mFlags (pScene st))
                  (Some (aiNode.Build "terrain_root" 1 [0])) 1
                  [aiMesh.Build 0 0 [] [] None 0 0 []] 1 [default_material]).
  { intros load_vertex Hdec. unfold InternReadFile_HMP57.
    rewrite (bind_Ok _ _ _ _ _ Epro). cbv beta iota. rewrite Hext.
    rewrite (bind_Ok _ _ _ _ _ (SizeCheck_passes buf _ _ Hfile)).
    unfold HMP57_body.
    erewrite (bind_Ok mesh0); [|eapply mesh0_Some; reflexivity].
    cbn [aiMesh.mVertices aiMesh.mNormals aiMesh.mMaterialIndex aiMesh.mNumVertices
         aiMesh.mTextureCoords0 aiMesh.mNumUVComponents0 aiMesh.mNumFaces aiMesh.mFaces].
    destruct (load_vertices_run buf h 120 (load_vertex h 120) width height
                (new_vectors (Header_HMP5.numverts h)) (new_vectors (Header_HMP5.numverts h))
                (logged [EvCheck (120 + 4 * (width * height))]
                   (State (aiScene.Build (aiScene.mFlags (pScene st0))
                             (aiScene.mRootNode (pScene st0)) 1
                             [aiMesh.Build 0 0 (new_vectors (Header_HMP5.numverts h))
                                (new_vectors (Header_HMP5.numverts h)) None 0 0 []]
                             1 [default_material]) tr))
                (Hdec h 120) ltac:(lia) H0w H0h
                ltac:(unfold iFileSize in *; lia)
                ltac:(rewrite length_new_vectors; lia)
                ltac:(rewrite length_new_vectors; lia))
      as (verts & norms & st1 & E1 & Hsc1 & _).
    rewrite (bind_Ok _ _ _ _ _ E1). cbn [fst snd].
    erewrite (bind_Ok (set_mesh0 _));
      [|eapply set_mesh0_Some; rewrite Hsc1; reflexivity].
    rewrite Hns. change (negb (0 =? 0)) with false. cbv iota.
    rewrite (bind_Ok (ret tt) _ _ tt _ eq_refl).
    erewrite (bind_Ok (CreateOutputFaceList _ _));
      [|eapply CreateOutputFaceList_flat;
        [cbn [pScene]; rewrite Hsc1; reflexivity|exact Hdeg]].
    rewrite bind_get_scene. eexists. split; [reflexivity|].
    cbn [pScene]. rewrite Hsc1. reflexivity. }
  assert (Hrun : exists st1,
    (if (AI_HMP_MAGIC_NUMBER_LE_4 =? iMagic) || (AI_HMP_MAGIC_NUMBER_BE_4 =? iMagic)
     then InternReadFile_HMP4
     else if (AI_HMP_MAGIC_NUMBER_LE_5 =? iMagic) || (AI_HMP_MAGIC_NUMBER_BE_5 =? iMagic)
     then InternReadFile_HMP5 buf parse skip lookup
     else if (AI_HMP_MAGIC_NUMBER_LE_7 =? iMagic) || (AI_HMP_MAGIC_NUMBER_BE_7 =? iMagic)
     then InternReadFile_HMP7 buf parse skip normalize
     else throw (Unknown_HMP_subformat iMagic)) st0 = Ok tt st1 /\
    pScene st1 =
      aiScene.Build (aiScene.mFlags (pScene st))
        (Some (aiNode.Build "terrain_root" 1 [0])) 1
        [aiMesh.Build 0 0 [] [] None 0 0 []] 1 [default_material]).
  { destruct Hin as [<-|[<-|[<-|[<-|[]]]]]; magic_tests.
    - apply (Hbody (load_vertex_HMP5 buf lookup)).
      intros h' c. apply load_vertex_HMP5_decodes.
    - apply (Hbody (load_vertex_HMP5 buf lookup)).
      intros h' c. apply load_vertex_HMP5_decodes.
    - apply (Hbody (load_vertex_HMP7 buf normalize)).
      intros h' c. apply load_vertex_HMP7_decodes.
    - apply (Hbody (load_vertex_HMP7 buf normalize)).
      intros h' c. apply load_vertex_HMP7_decodes. }
  destruct Hrun as (st1 & E & Hsc).
  rewrite (bind_Ok _ _ _ _ _ E). rewrite bind_get_scene.
  eexists. split; [reflexivity|]. cbn [pScene]. rewrite Hsc. reflexivity.
Qed.

Lemma flat_terrain_is_imported_empty_witness :
  exists st',
    Sample.import Sample.strip_1x4 = Ok tt st' /\
    pScene st' =
      aiScene.Build (Z.lor (aiScene.mFlags (pScene Sample.st0)) AI_SCENE_FLAGS_TERRAIN)
        (Some (aiNode.Build "terrain_root" 1 [0])) 1
        [aiMesh.Build 0 0 [] [] None 0 0 []] 1 [default_material].
Proof.
  exact (flat_terrain_is_imported_empty Sample.strip_1x4 Sample.parse_lump Sample.skip_lump
           Sample.normal_table Sample.keep Sample.st0
           (logged [EvRead 0 Header_HMP5.sizeof; EvCheck 120]
              (logged [EvRead 0 4; EvCheck 50] Sample.st0))
           AI_HMP_MAGIC_NUMBER_LE_5
           (Header_HMP5.Build (F32.of_bits 0x40000000) (F32.of_bits 0x40000000)
              (F32.of_bits 0x3f800000) 0 4 1)
           4 1
           ltac:(vm_compute; reflexivity) ltac:(left; reflexivity)
           ltac:(vm_compute; reflexivity) ltac:(vm_compute; reflexivity) eq_refl
           ltac:(vm_compute; reflexivity) ltac:(vm_compute; reflexivity)
           ltac:(left; reflexivity) ltac:(vm_compute; discriminate)
           ltac:(vm_compute; discriminate)).
Defined.


(** ** The import of a terrain with skins *)

Lemma ReadFirstSkin_header_plain buf c iType iWidth iHeight st :
  Buffer.u32_at buf c = Some iType -> iType <> 0 ->
  Buffer.u32_at buf (c + 4) = Some iWidth ->
  Buffer.u32_at buf (c + 4 + 4) = Some iHeight ->
  ReadFirstSkin_header buf c st =
    Ok (iType, iWidth, iHeight, c + 4 + 4 + 4)
       (logged [EvRead (c + 4 + 4) 4; EvRead (c + 4) 4; EvRead c 4] st).
Proof.
  intros Ht Hne Hw Hh. unfold ReadFirstSkin_header. cbv zeta.
  rewrite (bind_Ok _ _ _ _ _ (read_u32_Some buf _ _ _ Ht)).
  destruct (Z.eqb_spec iType 0); [contradiction|].
  rewrite (bind_Ok (ret _) _ _ _ _ eq_refl).
  rewrite (bind_Ok _ _ _ _ _ (read_u32_Some buf _ _ _ Hw)).
  rewrite (bind_Ok _ _ _ _ _ (read_u32_Some buf _ _ _ Hh)).
  reflexivity.
Qed.

Lemma ReadFirstSkin_run buf parse skip n c st iType iWidth iHeight c1 pcMat c2 :
  Buffer.u32_at buf c = Some iType -> iType <> 0 ->
  Buffer.u32_at buf (c + 4) = Some iWidth ->
  Buffer.u32_at buf (c + 4 + 4) = Some iHeight ->
  parse (c + 4 + 4 + 4) iType iWidth iHeight = Returns (c1, pcMat) ->
  skipped buf skip (Z.to_nat (n - 1)) c1 c2 ->
  exists tr,
    ReadFirstSkin buf parse skip n c st =
      Ok c2 (State (aiScene.Build (aiScene.mFlags (pScene st)) (aiScene.mRootNode (pScene st))
                      (aiScene.mNumMeshes (pScene st)) (aiScene.mMeshes (pScene st))
                      1 [pcMat]) tr).
Proof.
  intros Ht Hne Hw Hh Hp Hsk. unfold ReadFirstSkin.
  rewrite (bind_Ok _ _ _ _ _ (ReadFirstSkin_header_plain buf c _ _ _ st Ht Hne Hw Hh)).
  rewrite Hp. unfold call at 1. unfold bind at 1, ret at 1. unfold bind at 1, log at 1.
  destruct (skip_loop_skipped buf skip _ c1 c2 Hsk 1
              (State (pScene (logged [EvRead (c + 4 + 4) 4; EvRead (c + 4) 4; EvRead c 4] st))
                 (EvChunk c1 :: trace (logged [EvRead (c + 4 + 4) 4; EvRead (c + 4) 4;
                                               EvRead c 4] st))))
    as (st' & E & Hsc).
  rewrite (bind_Ok _ _ _ _ _ E). rewrite bind_get_scene, bind_put_scene.
  eexists. unfold ret. rewrite Hsc. reflexivity.
Qed.

Lemma CreateMaterial_skinned buf parse skip c st h m rest iType iWidth iHeight c1 pcMat c2 :
  aiScene.mMeshes (pScene st) = m :: rest ->
  Header_HMP5.overlay buf = Some h -> Header_HMP5.numskins h <> 0 ->
  0 <= Header_HMP5.numverts h ->
  Buffer.u32_at buf c = Some iType -> iType <> 0 ->
  Buffer.u32_at buf (c + 4) = Some iWidth ->
  Buffer.u32_at buf (c + 4 + 4) = Some iHeight ->
  parse (c + 4 + 4 + 4) iType iWidth iHeight = Returns (c1, pcMat) ->
  skipped buf skip (Z.to_nat (Word.wrap32 (Header_HMP5.numskins h) - 1)) c1 c2 ->
  exists tr,
    CreateMaterial buf parse skip c st =
      Ok c2 (State (aiScene.Build (aiScene.mFlags (pScene st)) (aiScene.mRootNode (pScene st))
                      (aiScene.mNumMeshes (pScene st))
                      (aiMesh.Build (aiMesh.mMaterialIndex m) (aiMesh.mNumVertices m)
                         (aiMesh.mVertices m) (aiMesh.mNormals m)
                         (Some (new_vectors (Header_HMP5.numverts h))) 2
                         (aiMesh.mNumFaces m) (aiMesh.mFaces m) :: rest)
                      1 [pcMat]) tr).
Proof.
  intros Hm Hh Hns Hnv Ht Hne Hw Hhe Hp Hsk. unfold CreateMaterial.
  rewrite (bind_Ok _ _ _ _ _ (mesh0_Some st m rest Hm)).
  rewrite (bind_Ok _ _ _ _ _ (pcHeader_Some buf h _ Hh)).
  destruct (Z.eqb_spec (Header_HMP5.numskins h) 0); [contradiction|]. cbn [negb].
  rewrite (bind_Ok _ _ _ _ _ (new_array_Ok _ _ Hnv)).
  erewrite (bind_Ok (set_mesh0 _)); [|eapply set_mesh0_Some; cbn [logged pScene]; exact Hm].
  destruct (ReadFirstSkin_run buf parse skip (Word.wrap32 (Header_HMP5.numskins h)) c
              (State (with_mesh0 (pScene (logged [EvRead 0 Header_HMP5.sizeof] st))
                        (aiMesh.Build (aiMesh.mMaterialIndex m) (aiMesh.mNumVertices m)
                           (aiMesh.mVertices m) (aiMesh.mNormals m)
                           (Some (new_vectors (Header_HMP5.numverts h))) 2
                           (aiMesh.mNumFaces m) (aiMesh.mFaces m)))
                 (trace (logged [EvRead 0 Header_HMP5.sizeof] st)))
              iType iWidth iHeight c1 pcMat c2 Ht Hne Hw Hhe Hp Hsk) as [tr E].
  exists tr. rewrite E. cbn [pScene logged with_mesh0 aiScene.mFlags aiScene.mRootNode
    aiScene.mNumMeshes aiScene.mMeshes]. rewrite Hm. reflexivity.
Qed.

Lemma HMP57_prologue_skinned buf parse skip st h height width
    iType iWidth iHeight c1 pcMat c2 :
  120 <= iFileSize buf -> Header_HMP5.overlay buf = Some h ->
  header_violation frames_non_zero h = None ->
  Header_HMP5.numskins h <> 0 -> 0 <= Header_HMP5.numverts h ->
  F32.to_uint (F32.div (F32.of_int (Header_HMP5.numverts h))
                       (Header_HMP5.fnumverts_x h)) = Some height ->
  F32.to_uint (Header_HMP5.fnumverts_x h) = Some width ->
  Buffer.u32_at buf 84 = Some iType -> iType <> 0 ->
  Buffer.u32_at buf 88 = Some iWidth ->
  Buffer.u32_at buf 92 = Some iHeight ->
  parse 96 iType iWidth iHeight = Returns (c1, pcMat) ->
  skipped buf skip (Z.to_nat (Word.wrap32 (Header_HMP5.numskins h) - 1)) c1 c2 ->
  exists tr,
    HMP57_prologue buf parse skip st =
      Ok (h, height, width, c2 + 36)
         (State (aiScene.Build (aiScene.mFlags (pScene st)) (aiScene.mRootNode (pScene st))
                   1 [aiMesh.Build 0 0 (new_vectors (Header_HMP5.numverts h))
                        (new_vectors (Header_HMP5.numverts h))
                        (Some (new_vectors (Header_HMP5.numverts h))) 2 0 []]
                   1 [pcMat]) tr).
Proof.
  intros Hsz Hh Hv Hns Hnv Hht Hwd Ht Hne Hw Hhe Hp Hsk.
  unfold HMP57_prologue. cbv zeta.
  pose proof (ValidateHeader_eq buf h st Hsz Hh) as EV. cbv zeta in EV. rewrite Hv in EV.
  rewrite (bind_Ok _ _ _ _ _ EV).
  rewrite (bind_Ok _ _ _ _ _ (pcHeader_Some buf h _ Hh)).
  rewrite bind_get_scene, bind_put_scene.
  rewrite (bind_Ok _ _ _ _ _ (new_array_Ok _ _ Hnv)).
  rewrite (bind_Ok _ _ _ _ _ (new_array_Ok _ _ Hnv)).
  erewrite (bind_Ok (set_mesh0 _)); [|apply (set_mesh0_Some _ aiMesh.default []); reflexivity].
  unfold cast_uint. rewrite Hht, Hwd.
  rewrite (bind_Ok _ _ _ _ _ (defined_Some _ _ _)).
  rewrite (bind_Ok _ _ _ _ _ (defined_Some _ _ _)).
  match goal with
  | |- context [bind (CreateMaterial buf parse skip 84) _ ?s] =>
      destruct (CreateMaterial_skinned buf parse skip 84 s h
                  (aiMesh.Build 0 0 (new_vectors (Header_HMP5.numverts h))
                     (new_vectors (Header_HMP5.numverts h)) None 0 0 []) []
                  iType iWidth iHeight c1 pcMat c2 eq_refl Hh Hns Hnv Ht Hne Hw Hhe Hp Hsk)
        as [tr E]
  end.
  exists tr. rewrite (bind_Ok _ _ _ _ _ E). reflexivity.
Qed.

Lemma HMP57_body_skinned buf
    (load_vertex : Header_HMP5.t -> Z -> Z -> Z -> vertex_locals -> M vertex_locals)
    h height width c st flags root nv pcMat :
  decodes_record buf h c (load_vertex h c) ->
  pScene st =
    aiScene.Build flags root 1
      [aiMesh.Build 0 0 (new_vectors nv) (new_vectors nv) (Some (new_vectors nv)) 2 0 []]
      1 [pcMat] ->
  Header_HMP5.numskins h <> 0 -> 0 <= c ->
  2 <= width -> 2 <= height -> width * height <= nv ->
  c + 4 * (width * height) <= Z.of_nat (length buf) ->
  4 * width * height <= 2 ^ 32 ->
  exists st' m,
    HMP57_body load_vertex h height width c st = Ok tt st' /\
    pScene st' =
      aiScene.Build flags (Some (aiNode.Build "terrain_root" 1 [0])) 1 [m] 1 [pcMat] /\
    aiMesh.mNumFaces m = (width - 1) * (height - 1) /\
    aiMesh.mNumVertices m = 4 * ((width - 1) * (height - 1)) /\
    aiMesh.mNumUVComponents0 m = 2 /\
    terrain_positions buf h c width height m /\
    terrain_uvs width height m.
Proof.
  intros Hdec Hsc Hns Hc Hw Hh Hnv Hbuf Hsz.
  assert (H0nv : 0 <= nv) by nia.
  unfold HMP57_body.
  erewrite (bind_Ok mesh0); [|eapply mesh0_Some; rewrite Hsc; reflexivity].
  cbn [aiMesh.mVertices aiMesh.mNormals aiMesh.mMaterialIndex aiMesh.mNumVertices
       aiMesh.mTextureCoords0 aiMesh.mNumUVComponents0 aiMesh.mNumFaces aiMesh.mFaces].
  destruct (load_vertices_run buf h c (load_vertex h c) width height
              (new_vectors nv) (new_vectors nv) st Hdec Hc ltac:(lia) ltac:(lia)
              Hbuf ltac:(rewrite length_new_vectors; lia)
              ltac:(rewrite length_new_vectors; lia))
    as (verts & norms & st1 & E1 & Hsc1 & Lv & Ln & Hld).
  rewrite (bind_Ok _ _ _ _ _ E1). cbn [fst snd].
  erewrite (bind_Ok (set_mesh0 _));
    [|eapply set_mesh0_Some; rewrite Hsc1, Hsc; reflexivity].
  destruct (Z.eqb_spec (Header_HMP5.numskins h) 0); [contradiction|]. cbn [negb].
  set (m1 := aiMesh.Build 0 0 verts norms (Some (new_vectors nv)) 2 0 []).
  set (st2 := State (with_mesh0 (pScene st1) m1) (trace st1)).
  assert (Hm2 : aiScene.mMeshes (pScene st2) = m1 :: []).
  { subst st2. cbn [pScene]. rewrite Hsc1, Hsc. reflexivity. }
  assert (Lv' : Z.of_nat (length verts) = nv) by (rewrite Lv; now apply length_new_vectors).
  assert (Ln' : Z.of_nat (length norms) = nv) by (rewrite Ln; now apply length_new_vectors).
  destruct (GenerateTextureCoords_run width height st2 m1 [] (new_vectors nv) Hm2 eq_refl
              ltac:(lia) ltac:(lia) ltac:(rewrite length_new_vectors; lia))
    as (uv & E3 & Lu & Huv & _).
  rewrite (bind_Ok _ _ _ _ _ E3).
  set (m2 := with_uv m1 uv) in *.
  set (st3 := State (with_mesh0 (pScene st2) m2) (trace st2)).
  assert (Hm3 : aiScene.mMeshes (pScene st3) = m2 :: []).
  { subst st3. cbn [pScene with_mesh0 aiScene.mMeshes]. rewrite Hm2. reflexivity. }
  assert (Lu' : Z.of_nat (length uv) = nv) by (rewrite Lu; now apply length_new_vectors).
  destruct (CreateOutputFaceList_run width height st3 m2 [] Hm3 Hw Hh Hsz)
    as [(_ & s & (Hb & _) & E2)|(Hout & _)].
  2:{ exfalso. apply Hout. unfold corners_inside. subst m2 m1.
      cbn [with_uv aiMesh.mVertices aiMesh.mNormals aiMesh.mTextureCoords0].
      replace ((height - 2 + 1) * width + (width - 2) + 1) with (width * height - 1) by lia.
      repeat split; lia. }
  rewrite (bind_Ok _ _ _ _ _ E2). rewrite bind_get_scene.
  exists (State (aiScene.Build flags (Some (aiNode.Build "terrain_root" 1 [0])) 1
                   [assembled m2 width height s] 1 [pcMat])
                (trace st3)),
         (assembled m2 width height s).
  split.
  { unfold put_scene. subst st3 st2. cbn [pScene trace]. rewrite Hsc1, Hsc. reflexivity. }
  split; [reflexivity|].
  destruct Hb as (_ & _ & _ & Lf & Lvs & Lns & Luvs & Hcells).
  split; [reflexivity|]. split; [reflexivity|]. split; [reflexivity|].
  assert (Hcorner : forall y x (j : nat) cx cy,
            0 <= y < height - 1 -> 0 <= x < width - 1 ->
            cell_corner_points y x !! j = Some (cx, cy) ->
            cell_corners width y x !! j = Some (cy * width + cx) /\
            0 <= cy < height /\ 0 <= cx < width /\ cy * width + cx < width * height).
  { intros y x j cx cy Hy Hx Hj.
    pose proof (grid_index_bounds width height y x Hw Hh Hsz Hy Hx) as (H0 & Hin & _).
    unfold cell_corner_points in Hj. unfold cell_corners.
    destruct j as [|[|[|[|j]]]]; cbn in Hj |- *; try discriminate Hj;
      injection Hj as <- <-; (split; [f_equal; lia|lia]). }
  split.
  - intros y x Hy Hx.
    pose proof (grid_index_bounds width height y x Hw Hh Hsz Hy Hx) as (_ & _ & _ & HcF & _).
    destruct (Hcells y x ltac:(lia) Hx HcF) as (Hf & Hv & _).
    cbn [assembled aiMesh.mFaces aiMesh.mVertices].
    split; [exact Hf|].
    intros j cx cy Hj.
    destruct (Hcorner y x j cx cy Hy Hx Hj) as (Hcc & Hcy & Hcx & Hlt).
    destruct (Hv j _ Hcc) as (v & Hsrc & Hdst).
    destruct (Hld cy cx ltac:(lia) Hcx Hlt) as (z & Hz & Hg).
    exists z. split; [exact Hz|].
    subst m2 m1. cbn [with_uv aiMesh.mVertices] in Hsrc. rewrite Hg in Hsrc.
    injection Hsrc as <-. exact Hdst.
  - unfold terrain_uvs. cbn [assembled aiMesh.mTextureCoords0].
    change (aiMesh.mTextureCoords0 m2) with (Some uv) in *. cbv iota.
    destruct (pcUVs s) as [dst|] eqn:Es; [|contradiction].
    exists dst. split; [reflexivity|]. split; [exact Luvs|].
    intros y x Hy Hx j cx cy Hj.
    pose proof (grid_index_bounds width height y x Hw Hh Hsz Hy Hx) as (_ & _ & _ & HcF & _).
    destruct (Hcells y x ltac:(lia) Hx HcF) as (_ & _ & _ & Hu).
    rewrite Es in Hu.
    destruct (Hcorner y x j cx cy Hy Hx Hj) as (Hcc & Hcy & Hcx & Hlt).
    destruct (Hu j _ Hcc) as (v & Hsrc & Hdst).
    rewrite (Huv cy cx Hcy Hcx) in Hsrc. injection Hsrc as <-. exact Hdst.
Qed.

(** X9.  End to end, for a file of revision HMP5 or HMP7 with skins
    whose first skin has a non-zero type tag: the first skin is given
    to the skin collaborator, the further ones are skipped, and the
    vertex records are read 36 bytes behind the cursor that the last
    skin leaves.  When the header passes validation, the grid is at
    least 2 x 2 and not larger than the vertex count, and the file
    holds the records, the import succeeds: the scene gets the flag,
    the root node, the material of the first skin, and a mesh of
    [(width-1) * (height-1)] quads with two UV components, whose
    vertices and texture coordinates are those of the four corner
    points of each quad. *)
Theorem skinned_terrain_is_imported buf parse skip lookup normalize st stV iMagic
    h height width iType iWidth iHeight c1 pcMat c2 :
  Buffer.u32_at buf 0 = Some iMagic ->
  In iMagic [AI_HMP_MAGIC_NUMBER_LE_5; AI_HMP_MAGIC_NUMBER_BE_5;
             AI_HMP_MAGIC_NUMBER_LE_7; AI_HMP_MAGIC_NUMBER_BE_7] ->
  ValidateHeader_HMP457 buf (logged [EvRead 0 4; EvCheck 50] st) = Ok tt stV ->
  Header_HMP5.overlay buf = Some h -> Header_HMP5.numskins h <> 0 ->
  F32.to_uint (F32.div (F32.of_int (Header_HMP5.numverts h))
                       (Header_HMP5.fnumverts_x h)) = Some height ->
  F32.to_uint (Header_HMP5.fnumverts_x h) = Some width ->
  Buffer.u32_at buf 84 = Some iType -> iType <> 0 ->
  Buffer.u32_at buf 88 = Some iWidth ->
  Buffer.u32_at buf 92 = Some iHeight ->
  parse 96 iType iWidth iHeight = Returns (c1, pcMat) ->
  skipped buf skip (Z.to_nat (Word.wrap32 (Header_HMP5.numskins h) - 1)) c1 c2 ->
  0 <= c2 ->
  2 <= width -> 2 <= height -> width * height <= Header_HMP5.numverts h ->
  c2 + 36 + 4 * (width * height) <= iFileSize buf ->
  exists st' m,
    InternReadFile buf parse skip lookup normalize st = Ok tt st' /\
    pScene st' =
      aiScene.Build (Z.lor (aiScene.mFlags (pScene st)) AI_SCENE_FLAGS_TERRAIN)
        (Some (aiNode.Build "terrain_root" 1 [0])) 1 [m] 1 [pcMat] /\
    aiMesh.mNumFaces m = (width - 1) * (height - 1) /\
    aiMesh.mNumVertices m = 4 * ((width - 1) * (height - 1)) /\
    aiMesh.mNumUVComponents0 m = 2 /\
    terrain_positions buf h (c2 + 36) width height m /\
    terrain_uvs width height m.
Proof.
  intros Hm Hin HV Hh Hns Hht Hwd Ht Hne Hw He Hp Hsk Hc2 H2w H2h Hnv Hfile.
  destruct (ValidateHeader_Ok buf _ stV HV) as (Hsz120 & h0 & Hh0 & Hv & _).
  assert (h0 = h) by congruence. subst h0.
  assert (Hsz : 50 <= fileSize buf).
  { pose proof (iFileSize_le buf). unfold fileSize. lia. }
  rewrite (InternReadFile_magic _ _ _ _ _ _ _ Hsz Hm).
  set (st0 := logged [EvRead 0 4; EvCheck 50] st) in *.
  destruct (overlay_fields buf h Hh) as [Hbits Hrange].
  destruct (vertex_extent_exact h height width Hbits Hrange Hv Hht Hwd)
    as (_ & _ & _ & Hpos & Hext).
  destruct (HMP57_prologue_skinned buf parse skip st0 h height width
              iType iWidth iHeight c1 pcMat c2 Hsz120 Hh Hv Hns ltac:(lia)
              Hht Hwd Ht Hne Hw He Hp Hsk) as [tr Epro].
  pose proof (iFileSize_le buf) as Hle. pose proof (wrap32_range (fileSize buf)) as Hr.
  assert (Hbody : forall load_vertex,
            (forall h' c, decodes_record buf h' c (load_vertex h' c)) ->
            exists st1 m,
              InternReadFile_HMP57 buf parse skip load_vertex st0 = Ok tt st1 /\
              pScene st1 =
                aiScene.Build (aiScene.mFlags (pScene st))
                  (Some (aiNode.Build "terrain_root" 1 [0])) 1 [m] 1 [pcMat] /\
              aiMesh.mNumFaces m = (width - 1) * (height - 1) /\
              aiMesh.mNumVertices m = 4 * ((width - 1) * (height - 1)) /\
              aiMesh.mNumUVComponents0 m = 2 /\
              terrain_positions buf h (c2 + 36) width height m /\
              terrain_uvs width height m).
  { intros load_vertex Hdec. unfold InternReadFile_HMP57.
    rewrite (bind_Ok _ _ _ _ _ Epro). cbv beta iota. rewrite Hext.
    rewrite (bind_Ok _ _ _ _ _ (SizeCheck_passes buf _ _ Hfile)).
    apply (HMP57_body_skinned buf load_vertex h height width (c2 + 36) _
             (aiScene.mFlags (pScene st)) (aiScene.mRootNode (pScene st))
             (Header_HMP5.numverts h) pcMat); try assumption; try lia.
    - apply Hdec.
    - reflexivity.
    - unfold iFileSize in *. lia. }
  assert (Hrun : exists st1 m,
    (if (AI_HMP_MAGIC_NUMBER_LE_4 =? iMagic) || (AI_HMP_MAGIC_NUMBER_BE_4 =? iMagic)
     then InternReadFile_HMP4
     else if (AI_HMP_MAGIC_NUMBER_LE_5 =? iMagic) || (AI_HMP_MAGIC_NUMBER_BE_5 =? iMagic)
     then InternReadFile_HMP5 buf parse skip lookup
     else if (AI_HMP_MAGIC_NUMBER_LE_7 =? iMagic) || (AI_HMP_MAGIC_NUMBER_BE_7 =? iMagic)
     then InternReadFile_HMP7 buf parse skip normalize
     else throw (Unknown_HMP_subformat iMagic)) st0 = Ok tt st1 /\
    pScene st1 =
      aiScene.Build (aiScene.mFlags (pScene st))
        (Some (aiNode.Build "terrain_root" 1 [0])) 1 [m] 1 [pcMat] /\
    aiMesh.mNumFaces m = (width - 1) * (height - 1) /\
    aiMesh.mNumVertices m = 4 * ((width - 1) * (height - 1)) /\
    aiMesh.mNumUVComponents0 m = 2 /\
    terrain_positions buf h (c2 + 36) width height m /\
    terrain_uvs width height m).
  { destruct Hin as [<-|[<-|[<-|[<-|[]]]]]; magic_tests.
    - apply (Hbody (load_vertex_HMP5 buf lookup)).
      intros h' c. apply load_vertex_HMP5_decodes.
    - apply (Hbody (load_vertex_HMP5 buf lookup)).
      intros h' c. apply load_vertex_HMP5_decodes.
    - apply (Hbody (load_vertex_HMP7 buf normalize)).
      intros h' c. apply load_vertex_HMP7_decodes.
    - apply (Hbody (load_vertex_HMP7 buf normalize)).
      intros h' c. apply load_vertex_HMP7_decodes. }
  destruct Hrun as (st1 & m & E & Hsc & Hrest).
  rewrite (bind_Ok _ _ _ _ _ E). rewrite bind_get_scene.
  eexists. exists m. split; [reflexivity|]. split; [|exact Hrest].
  cbn [pScene]. rewrite Hsc. reflexivity.
Qed.

Lemma skinned_terrain_is_imported_witness :
  exists st' m,
    Sample.import Sample.three_skins = Ok tt st' /\
    pScene st' =
      aiScene.Build (Z.lor (aiScene.mFlags (pScene Sample.st0)) AI_SCENE_FLAGS_TERRAIN)
        (Some (aiNode.Build "terrain_root" 1 [0])) 1 [m] 1 [[AI_MATKEY_SKIN 7 2 2]] /\
    aiMesh.mNumFaces m = (2 - 1) * (2 - 1) /\
    aiMesh.mNumVertices m = 4 * ((2 - 1) * (2 - 1)) /\
    aiMesh.mNumUVComponents0 m = 2 /\
    terrain_positions Sample.three_skins
      (Header_HMP5.Build (F32.of_bits 0x40000000) (F32.of_bits 0x40000000)
         (F32.of_bits 0x40000000) 3 4 1)
      (132 + 36) 2 2 m /\
    terrain_uvs 2 2 m.
Proof.
  assert (Hsk : skipped Sample.three_skins Sample.skip_lump
                  (Z.to_nat (Word.wrap32 3 - 1)) 100 132).
  { apply (skipped_one _ _ 1 100 7 2 2 116 132);
      [vm_compute; discriminate|vm_compute; reflexivity|vm_compute; reflexivity
      |vm_compute; reflexivity|vm_compute; reflexivity|vm_compute; discriminate|].
    apply (skipped_one _ _ 0 116 7 2 2 132 132);
      [vm_compute; discriminate|vm_compute; reflexivity|vm_compute; reflexivity
      |vm_compute; reflexivity|vm_compute; reflexivity|vm_compute; discriminate|].
    apply skipped_none. }
  exact (skinned_terrain_is_imported Sample.three_skins Sample.parse_lump Sample.skip_lump
           Sample.normal_table Sample.keep Sample.st0
           (logged [EvRead 0 Header_HMP5.sizeof; EvCheck 120]
              (logged [EvRead 0 4; EvCheck 50] Sample.st0))
           AI_HMP_MAGIC_NUMBER_LE_7
           (Header_HMP5.Build (F32.of_bits 0x40000000) (F32.of_bits 0x40000000)
              (F32.of_bits 0x40000000) 3 4 1)
           2 2 7 2 2 100 [AI_MATKEY_SKIN 7 2 2] 132
           ltac:(vm_compute; reflexivity) ltac:(right; right; left; reflexivity)
           ltac:(vm_compute; reflexivity) ltac:(vm_compute; reflexivity)
           ltac:(discriminate)
           ltac:(vm_compute; reflexivity) ltac:(vm_compute; reflexivity)
           ltac:(vm_compute; reflexivity) ltac:(discriminate)
           ltac:(vm_compute; reflexivity) ltac:(vm_compute; reflexivity)
           eq_refl Hsk
           ltac:(lia) ltac:(lia) ltac:(lia) ltac:(vm_compute; discriminate)
           ltac:(vm_compute; discriminate)).
Defined.


(** ** The shape of the mesh that an import returns *)

Lemma hoare_any {A} (c : M A) (P : state -> Prop) :
  hoare P c (fun _ _ => True) (fun _ _ => True).
Proof. intros st _. destruct (c st); exact I. Qed.

Lemma hoare_fact {A} (c : M A) (F : Prop) Q X :
  (F -> hoare (fun _ => True) c Q X) -> hoare (fun _ => F) c Q X.
Proof. intros H st HF. now apply H. Qed.

Lemma hoare_defined_value {A} u (o : option A) (F : Prop) :
  hoare (fun _ => F) (defined u o) (fun a _ => F /\ o = Some a) (fun _ _ => True).
Proof. intros st HF. destruct o; cbn; auto. Qed.

Lemma hoare_copy_quad_length src o0 o1 x dst o (F : Prop) :
  hoare (fun _ => F) (copy_quad src o0 o1 x dst o)
    (fun d _ => F /\ length d = length dst) (fun _ _ => True).
Proof.
  assert (Hce : forall i d p (G : Prop),
            hoare (fun _ => G) (copy_entry src i d p)
              (fun d' _ => G /\ length d' = length d) (fun _ _ => True)).
  { intros i d p G st HG. unfold copy_entry, bind, defined.
    destruct (array_get src i) as [v|]; [|exact I]. unfold ret.
    destruct (array_set d p v) as [d'|] eqn:E; [|exact I].
    apply array_set_Some in E. split; [exact HG|apply E]. }
  unfold copy_quad.
  eapply hoare_bind; [apply (Hce _ _ _ F)|]. intros d0. cbv beta.
  eapply hoare_bind; [apply (Hce _ _ _ (F /\ length d0 = length dst))|]. intros d1. cbv beta.
  eapply hoare_bind;
    [apply (Hce _ _ _ ((F /\ length d0 = length dst) /\ length d1 = length d0))|].
  intros d2. cbv beta.
  eapply hoare_conseq; [apply (Hce _ _ _ (((F /\ length d0 = length dst) /\
                                 length d1 = length d0) /\ length d2 = length d1))| | |].
  - intros st H. exact H.
  - cbv beta. intros d3 st ((((HF & L0) & L1) & L2) & L3). split; [exact HF|congruence].
  - intros a st H. exact H.
Qed.

(** The locals of the face loop keep the lengths of the output
    arrays, and every face behind [pcFaceOut] has its four indices. *)
Lemma face_cell_keeps_shape pcMesh width upperBound y x s (LF LV : nat) k :
  hoare (fun _ =>
           pcFaceOut s = k /\ length (mFaces s) = LF /\
           length (pcVertices s) = LV /\ length (pcNormals s) = LV /\
           match pcUVs s with Some d => length d = LV | None => True end /\
           forall i f, 0 <= i < k -> array_get (mFaces s) i = Some f ->
             aiFace.mNumIndices f = 4 /\
             exists l, aiFace.mIndices f = Some l /\ length l = 4%nat)
    (face_cell pcMesh width upperBound y x s)
    (fun s' _ =>
           pcFaceOut s' = k + 1 /\ length (mFaces s') = LF /\
           length (pcVertices s') = LV /\ length (pcNormals s') = LV /\
           match pcUVs s' with Some d => length d = LV | None => True end /\
           forall i f, 0 <= i < k + 1 -> array_get (mFaces s') i = Some f ->
             aiFace.mNumIndices f = 4 /\
             exists l, aiFace.mIndices f = Some l /\ length l = 4%nat)
    (fun _ _ => True).
Proof.
  set (J := pcFaceOut s = k /\ length (mFaces s) = LF /\
            length (pcVertices s) = LV /\ length (pcNormals s) = LV /\
            match pcUVs s with Some d => length d = LV | None => True end /\
            forall i f, 0 <= i < k -> array_get (mFaces s) i = Some f ->
              aiFace.mNumIndices f = 4 /\
              exists l, aiFace.mIndices f = Some l /\ length l = 4%nat).
  assert (Hfaces : forall faces faces' v,
            J -> aiFace.mNumIndices v = 4 ->
            (exists l, aiFace.mIndices v = Some l /\ length l = 4%nat) ->
            (length faces = LF /\
             forall i f, 0 <= i < k + 1 -> i <> k -> array_get faces i = Some f ->
               aiFace.mNumIndices f = 4 /\
               exists l, aiFace.mIndices f = Some l /\ length l = 4%nat) ->
            array_set faces k v = Some faces' ->
            length faces' = LF /\
            forall i f, 0 <= i < k + 1 -> array_get faces' i = Some f ->
              aiFace.mNumIndices f = 4 /\
              exists l, aiFace.mIndices f = Some l /\ length l = 4%nat).
  { intros faces faces' v _ Hv4 Hvl [Lf Hold] E.
    apply array_set_Some in E. destruct E as (_ & L & G & N).
    split; [congruence|]. intros i f Hi Hf.
    destruct (Z.eq_dec i k) as [->|Ne].
    - rewrite G in Hf. injection Hf as <-. split; assumption.
    - rewrite (N i Ne) in Hf. now apply (Hold i f Hi Ne). }
  unfold face_cell. cbv zeta.
  eapply hoare_bind; [apply (hoare_defined_value _ _ J)|]. intros faces. cbv beta.
  apply hoare_fact. intros [HJ E1].
  pose proof HJ as (Hk & Lf & Lv & Ln & Lu & Hold).
  rewrite Hk in E1.
  destruct (Hfaces (mFaces s) faces (aiFace.Build 4 (Some [None; None; None; None]))
              HJ eq_refl ltac:(eexists; split; reflexivity)
              ltac:(split; [exact Lf|intros i f Hi Ne; apply Hold; lia]) E1)
    as [Lf1 Hold1].
  destruct (_ || _).
  - apply hoare_ret_intro. intros st _. cbn [pcFaceOut mFaces pcVertices pcNormals pcUVs].
    repeat split; try assumption; try lia; apply (Hold1 i f); assumption.
  - eapply hoare_bind; [apply (hoare_copy_quad_length _ _ _ _ _ _ True)|].
    intros verts. cbv beta. apply hoare_fact. intros [_ Lv1].
    eapply hoare_bind; [apply (hoare_copy_quad_length _ _ _ _ _ _ True)|].
    intros norms. cbv beta. apply hoare_fact. intros [_ Ln1].
    eapply hoare_bind
      with (Q := fun uvs _ => match uvs with Some d => length d = LV | None => True end).
    { destruct (aiMesh.mTextureCoords0 pcMesh) as [src|];
        [|apply hoare_ret_intro; intros st _; exact Lu].
      destruct (pcUVs s) as [dst|]; [|apply hoare_ret_intro; intros st _; exact I].
      eapply hoare_bind; [apply (hoare_copy_quad_length _ _ _ _ _ _ True)|].
      intros d. cbv beta. apply hoare_ret_intro. intros st [_ Ld]. congruence. }
    intros uvs. cbv beta. apply hoare_fact. intros Lu2.
    eapply hoare_bind; [apply (hoare_defined_value _ _ True)|]. intros faces2. cbv beta.
    apply hoare_fact. intros [_ E2]. rewrite Hk in E2.
    destruct (Hfaces faces faces2 (aiFace.Build 4 (Some (quad_indices (iCurrent s))))
                HJ eq_refl ltac:(eexists; split; reflexivity)
                ltac:(split; [exact Lf1|intros i f Hi Ne; apply Hold1; lia]) E2)
      as [Lf2 Hold2].
    apply hoare_ret_intro. intros st _. cbn [pcFaceOut mFaces pcVertices pcNormals pcUVs].
    repeat split; try assumption; try lia; try congruence; apply (Hold2 i f); assumption.
Qed.

Lemma CreateOutputFaceList_shape width height :
  hoare (fun _ => True) (CreateOutputFaceList width height)
    (fun _ => first_mesh_well_formed) (fun _ _ => True).
Proof.
  unfold CreateOutputFaceList.
  eapply hoare_bind; [apply hoare_any|]. intros pcMesh. cbv beta zeta.
  set (F := Word.wrap32 (Word.wrap32 (width - 1) * Word.wrap32 (height - 1))).
  set (V := Word.wrap32 (F * 4)).
  pose proof (wrap32_range (Word.wrap32 (width - 1) * Word.wrap32 (height - 1))) as HF.
  pose proof (wrap32_range (F * 4)) as HV. fold F in HF. fold V in HV.
  pose proof (wrap32_range (width - 1)) as HW. pose proof (wrap32_range (height - 1)) as HH.
  set (Inv := fun (k : Z) (s : face_locals) (_ : state) =>
              pcFaceOut s = k /\ length (mFaces s) = Z.to_nat F /\
              length (pcVertices s) = Z.to_nat V /\ length (pcNormals s) = Z.to_nat V /\
              match pcUVs s with Some d => length d = Z.to_nat V | None => True end /\
              forall i f, 0 <= i < k -> array_get (mFaces s) i = Some f ->
                aiFace.mNumIndices f = 4 /\
                exists l, aiFace.mIndices f = Some l /\ length l = 4%nat).
  eapply hoare_bind
    with (Q := Inv (Word.wrap32 (width - 1) * Word.wrap32 (height - 1))).
  - eapply hoare_pre.
    + apply (grid_loop_indexed (face_cell pcMesh width V) (Word.wrap32 (width - 1))
               (Word.wrap32 (height - 1)) Inv (fun _ _ => True)); try lia.
      intros y x s Hy Hx. unfold Inv. apply face_cell_keeps_shape.
    + intros st _. unfold Inv.
      cbn [pcFaceOut mFaces pcVertices pcNormals pcUVs].
      unfold new_vectors. rewrite !length_replicate.
      split; [reflexivity|]. split; [reflexivity|]. split; [reflexivity|].
      split; [reflexivity|]. split.
      * destruct (aiMesh.mTextureCoords0 pcMesh); [apply length_replicate|exact I].
      * intros i f Hi. lia.
  - intros s. unfold Inv. apply hoare_fact. intros (Hk & Lf & Lv & Ln & Lu & Hfaces).
    intros st _. unfold set_mesh0, bind, get_scene.
    destruct (aiScene.mMeshes (pScene st)) as [|m0 rest]; [exact I|].
    unfold put_scene. eexists. exists rest. split; [reflexivity|].
    unfold well_formed_mesh.
    cbn [aiMesh.mFaces aiMesh.mNumFaces aiMesh.mNumVertices aiMesh.mVertices
         aiMesh.mNormals aiMesh.mTextureCoords0].
    rewrite Lf, Lv, Ln. split; [lia|]. split; [reflexivity|]. split; [lia|].
    split; [lia|]. split.
    + destruct (aiMesh.mTextureCoords0 pcMesh); [|exact I].
      destruct (pcUVs s); [rewrite Lu; lia|exact I].
    + intros i f Hf. apply (Hfaces i f); [|exact Hf].
      assert (Hi : 0 <= i < Z.of_nat (length (mFaces s))).
      { destruct (Z.lt_ge_cases i 0) as [Hneg|Hnn].
        - unfold array_get in Hf. destruct (Z.leb_spec 0 i); [lia|discriminate Hf].
        - split; [exact Hnn|]. destruct (Z.lt_ge_cases i (Z.of_nat (length (mFaces s))));
            [assumption|]. rewrite array_get_outside in Hf by lia. discriminate Hf. }
      rewrite Lf, Z2Nat.id in Hi by lia.
      assert (F <= Word.wrap32 (width - 1) * Word.wrap32 (height - 1)).
      { subst F. unfold Word.wrap32 at 1. apply Z.mod_le; [nia|lia]. }
      lia.
Qed.

Lemma first_mesh_well_formed_scene st sc tr :
  first_mesh_well_formed st -> aiScene.mMeshes sc = aiScene.mMeshes (pScene st) ->
  first_mesh_well_formed (State sc tr).
Proof. intros (m & rest & Hm & Hwf) E. exists m, rest. cbn [pScene]. split; congruence. Qed.

Lemma InternReadFile_shape buf parse skip lookup normalize :
  hoare (fun _ => True) (InternReadFile buf parse skip lookup normalize)
    (fun _ => first_mesh_well_formed) (fun _ _ => True).
Proof.
  assert (H57 : forall load_vertex,
            hoare (fun _ => True) (InternReadFile_HMP57 buf parse skip load_vertex)
              (fun _ => first_mesh_well_formed) (fun _ _ => True)).
  { intros load_vertex. unfold InternReadFile_HMP57.
    eapply hoare_bind; [apply hoare_any|]. intros [[[h height] width] c]. cbv beta iota.
    eapply hoare_bind; [apply hoare_any|]. intros []. unfold HMP57_body.
    eapply hoare_bind; [apply hoare_any|]. intros pcMesh.
    eapply hoare_bind; [apply hoare_any|]. intros r.
    eapply hoare_bind; [apply hoare_any|]. intros [].
    eapply hoare_bind; [apply hoare_any|]. intros [].
    eapply hoare_bind; [apply CreateOutputFaceList_shape|]. intros [].
    apply hoare_modify_last. intros st Hwf.
    now apply (first_mesh_well_formed_scene st). }
  unfold InternReadFile. destruct (_ <? _); [apply hoare_throw; auto|].
  eapply hoare_bind; [apply hoare_any|]. intros [].
  eapply hoare_bind; [apply hoare_any|]. intros iMagic.
  eapply hoare_bind with (Q := fun _ => first_mesh_well_formed).
  - destruct (_ || _); [apply hoare_throw; auto|].
    destruct (_ || _); [apply H57|].
    destruct (_ || _); [apply H57|apply hoare_throw; auto].
  - intros []. apply hoare_modify_last. intros st Hwf.
    now apply (first_mesh_well_formed_scene st).
Qed.

(** X10.  Whatever the file and the collaborators are, an import that
    returns leaves a well-formed first mesh in the scene: as many
    faces as [mNumFaces] says, each with four indices, and
    [mNumVertices = 4 * mNumFaces] (in 32 bits) entries in the vertex
    array, in the normal array and, when the file has skins, in the UV
    channel. *)
Theorem import_returns_well_formed_mesh buf parse skip lookup normalize st st' :
  InternReadFile buf parse skip lookup normalize st = Ok tt st' ->
  first_mesh_well_formed st'.
Proof.
  intros E. pose proof (InternReadFile_shape buf parse skip lookup normalize st I) as H.
  rewrite E in H. exact H.
Qed.

Lemma import_returns_well_formed_mesh_witness :
  exists st',
    InternReadFile Sample.three_skins Sample.parse_lump Sample.skip_lump
      Sample.normal_table Sample.keep Sample.st0 = Ok tt st' /\
    first_mesh_well_formed st'.
Proof.
  assert (E : exists st',
            InternReadFile Sample.three_skins Sample.parse_lump Sample.skip_lump
              Sample.normal_table Sample.keep Sample.st0 = Ok tt st')
    by (eexists; vm_compute; reflexivity).
  destruct E as [st' E]. exists st'. split; [exact E|].
  exact (import_returns_well_formed_mesh Sample.three_skins Sample.parse_lump
           Sample.skip_lump Sample.normal_table Sample.keep Sample.st0 st' E).
Defined.

(** * The outcome of every import (claim C2) *)

(** ** Computations on a scene that stays as it is *)

Lemma hoare_scene_load buf {A} (rd : list byte -> Z -> option A) len off sc X :
  (exists v, rd buf off = Some v) ->
  hoare (fun st => pScene st = sc) (load buf rd len off) (fun _ st => pScene st = sc) X.
Proof. intros [v E] st Hst. rewrite (load_Some buf rd len off v st E). exact Hst. Qed.

Lemma hoare_scene_read_u32 buf off sc X :
  0 <= off -> off + 4 <= Z.of_nat (length buf) ->
  hoare (fun st => pScene st = sc) (read_u32 buf off) (fun _ st => pScene st = sc) X.
Proof. intros H0 H1. apply hoare_scene_load. now apply u32_at_inside. Qed.

Lemma hoare_scene_log ev sc X :
  hoare (fun st => pScene st = sc) (log ev) (fun _ st => pScene st = sc) X.
Proof. intros st Hst. exact Hst. Qed.

Lemma hoare_scene_call {A} (c : collab A) sc :
  hoare (fun st => pScene st = sc) (call c)
    (fun a st => c = Returns a /\ pScene st = sc) thrown.
Proof. intros st Hst. destruct c as [a|e]; cbn; auto. Qed.

Lemma hoare_scene_SizeCheck buf p sc :
  hoare (fun st => pScene st = sc) (SizeCheck buf p)
    (fun _ st => p <= iFileSize buf /\ pScene st = sc) thrown.
Proof.
  intros st Hst. unfold SizeCheck. destruct (Z.gtb_spec p (iFileSize buf)); cbn; [exact I|].
  split; [lia|exact Hst].
Qed.

(** ** The skin part never leaves defined behaviour *)

Section DefinedImport.

Variable buf : list byte.
Variable parse : Z -> Z -> Z -> Z -> collab (Z * aiMaterial).
Variable skip : Z -> Z -> Z -> Z -> collab Z.
Hypothesis parse_advances :
  forall c t w h c' m, parse c t w h = Returns (c', m) -> c <= c'.
Hypothesis skip_advances :
  forall c t w h c', skip c t w h = Returns c' -> c <= c'.
Hypothesis header_inside : 120 <= Z.of_nat (length buf).

Lemma ReadFirstSkin_header_defined sc :
  hoare (fun st => pScene st = sc) (ReadFirstSkin_header buf 84)
    (fun r st => 96 <= snd r /\ pScene st = sc) thrown.
Proof.
  unfold ReadFirstSkin_header. cbv zeta.
  eapply hoare_bind; [apply hoare_scene_read_u32; lia|]. intros iType.
  eapply hoare_bind
    with (Q := fun r st => (snd r = 84 + 4 \/ snd r = 84 + 16) /\ pScene st = sc).
  - destruct (iType =? 0).
    + eapply hoare_bind; [apply hoare_scene_read_u32; lia|]. intros t2.
      destruct (t2 =? 0).
      * apply hoare_throw. intros st _. exact I.
      * apply hoare_ret_intro. intros st Hst. split; [cbn [snd]; lia|exact Hst].
    + apply hoare_ret_intro. intros st Hst. split; [cbn [snd]; lia|exact Hst].
  - intros [t cur]. cbn [snd]. apply hoare_assume. intros Hcur.
    eapply hoare_bind; [apply hoare_scene_read_u32; lia|]. intros w.
    eapply hoare_bind; [apply hoare_scene_read_u32; lia|]. intros h.
    apply hoare_ret_intro. intros st Hst. split; [cbn [snd]; lia|exact Hst].
Qed.

Lemma skip_skin_defined sc c :
  0 <= c ->
  hoare (fun st => pScene st = sc) (skip_skin buf skip c)
    (fun c' st => c <= c' /\ pScene st = sc) thrown.
Proof.
  intros H0. pose proof (iFileSize_le buf) as Hle. unfold skip_skin. cbv zeta.
  eapply hoare_bind; [apply hoare_scene_SizeCheck|]. intros [].
  apply hoare_assume. intros Hin.
  eapply hoare_bind; [apply hoare_scene_read_u32; lia|]. intros t.
  eapply hoare_bind; [apply hoare_scene_read_u32; lia|]. intros w.
  eapply hoare_bind; [apply hoare_scene_read_u32; lia|]. intros h.
  eapply hoare_bind; [apply hoare_scene_call|]. intros c'.
  apply hoare_assume. intros Hc'. apply skip_advances in Hc'.
  eapply hoare_bind; [apply hoare_scene_log|]. intros [].
  eapply hoare_bind; [apply hoare_scene_SizeCheck|]. intros [].
  apply hoare_ret_intro. intros st [_ Hst]. split; [lia|exact Hst].
Qed.

Lemma ReadFirstSkin_defined sc n :
  hoare (fun st => pScene st = sc) (ReadFirstSkin buf parse skip n 84)
    (fun c st => 96 <= c /\ aiScene.mMeshes (pScene st) = aiScene.mMeshes sc) thrown.
Proof.
  unfold ReadFirstSkin.
  eapply hoare_bind; [apply ReadFirstSkin_header_defined|].
  intros [[[t w] h] cur]. cbn [snd]. apply hoare_assume. intros Hcur.
  eapply hoare_bind; [apply hoare_scene_call|]. intros [c1 pcMat].
  apply hoare_assume. intros Hc1. apply parse_advances in Hc1.
  eapply hoare_bind; [apply hoare_scene_log|]. intros [].
  eapply hoare_bind.
  { eapply hoare_conseq.
    - apply (hoare_for_loop (fun _ => skip_skin buf skip)
               (fun _ c st => 96 <= c /\ pScene st = sc) thrown).
      intros i c _. apply hoare_assume. intros Hc.
      eapply hoare_conseq; [apply (skip_skin_defined sc c); lia| | |].
      + intros st Hst. exact Hst.
      + cbv beta. intros c' st [Hc' Hst]. split; [lia|exact Hst].
      + intros a st Ha. exact Ha.
    - cbv beta. intros st Hst. split; [lia|exact Hst].
    - cbv beta. intros c st Hc. exact Hc.
    - intros a st Ha. exact Ha. }
  intros c3. apply hoare_assume. intros Hc3.
  eapply hoare_modify; [|apply hoare_ret].
  intros st Hst. cbn. rewrite Hst. split; [exact Hc3|reflexivity].
Qed.

Lemma CreateMaterial_defined h st :
  Header_HMP5.overlay buf = Some h -> 0 <= Header_HMP5.numverts h ->
  mesh_allocated (Header_HMP5.numverts h) (pScene st) ->
  match CreateMaterial buf parse skip 84 st with
  | Ok c st' => 84 <= c /\ mesh_allocated (Header_HMP5.numverts h) (pScene st')
  | Throw _ _ => True
  | Undefined _ _ => False
  end.
Proof.
  intros Hh Hnv (m & rest & Hm & Lv & Ln & Luv). unfold CreateMaterial.
  rewrite (bind_Ok _ _ _ _ _ (mesh0_Some st m rest Hm)).
  rewrite (bind_Ok _ _ _ _ _ (pcHeader_Some buf h _ Hh)).
  destruct (Header_HMP5.numskins h =? 0); cbn [negb].
  - cbn. split; [lia|]. exists m, rest. rewrite Hm. auto.
  - rewrite (bind_Ok _ _ _ _ _ (new_array_Ok _ _ Hnv)).
    erewrite (bind_Ok (set_mesh0 _)); [|eapply set_mesh0_Some; exact Hm].
    match goal with
    | |- match ReadFirstSkin _ _ _ ?n 84 ?s with _ => _ end =>
        pose proof (ReadFirstSkin_defined (pScene s) n s eq_refl) as Hr;
        destruct (ReadFirstSkin buf parse skip n 84 s) as [c st'|e st'|u st']
    end.
    + destruct Hr as [Hc Hms]. split; [lia|].
      cbn [pScene logged with_mesh0 aiScene.mMeshes] in Hms. rewrite Hm in Hms.
      cbn [tail] in Hms.
      eexists _, rest. split; [exact Hms|].
      cbn [aiMesh.mVertices aiMesh.mNormals aiMesh.mTextureCoords0].
      split; [exact Lv|]. split; [exact Ln|]. now apply length_new_vectors.
    + exact I.
    + exact Hr.
Qed.

(** The part in front of the vertex array returns or throws; when it
    returns, the arrays of the output mesh have [numverts] entries and
    the cursor is behind the header. *)
Lemma HMP57_prologue_defined st :
  match HMP57_prologue buf parse skip st with
  | Ok (h, height, width, c) st1 =>
      120 <= c /\ 1 <= width /\ 1 <= height /\
      mesh_allocated (Header_HMP5.numverts h) (pScene st1)
  | Throw _ _ => True
  | Undefined _ _ => False
  end.
Proof.
  unfold HMP57_prologue. cbv zeta.
  destruct (Z.ltb_spec (iFileSize buf) 120) as [Hsz|Hsz].
  { assert (E : ValidateHeader_HMP457 buf st = Throw HMP_header_too_small st).
    { unfold ValidateHeader_HMP457.
      destruct (Z.gtb_spec 120 (iFileSize buf)); [reflexivity|lia]. }
    rewrite (bind_Throw _ _ _ _ _ E). exact I. }
  destruct (overlay_inside buf) as [h Hh]; [unfold Header_HMP5.sizeof; lia|].
  pose proof (ValidateHeader_eq buf h st Hsz Hh) as EV. cbv zeta in EV.
  destruct (header_violation frames_non_zero h) as [e|] eqn:Hv.
  { rewrite (bind_Throw _ _ _ _ _ EV). exact I. }
  rewrite (bind_Ok _ _ _ _ _ EV).
  rewrite (bind_Ok _ _ _ _ _ (pcHeader_Some buf h _ Hh)).
  rewrite bind_get_scene, bind_put_scene.
  destruct (overlay_fields buf h Hh) as [[w Hw] Hnv].
  destruct (header_violation_None h Hv) as (Hfin & Hx & Hq).
  rewrite Hw in Hfin, Hx, Hq.
  destruct (validated_grid w _ Hnv Hfin Hx Hq) as (ht & wd & Eht & Ewd & H1 & H2 & H3 & H4).
  rewrite <- Hw in Eht, Ewd.
  assert (H0 : 0 <= Header_HMP5.numverts h) by lia.
  rewrite (bind_Ok _ _ _ _ _ (new_array_Ok _ _ H0)).
  rewrite (bind_Ok _ _ _ _ _ (new_array_Ok _ _ H0)).
  erewrite (bind_Ok (set_mesh0 _)); [|apply (set_mesh0_Some _ aiMesh.default []); reflexivity].
  unfold cast_uint. rewrite Eht, Ewd.
  rewrite (bind_Ok _ _ _ _ _ (defined_Some _ _ _)).
  rewrite (bind_Ok _ _ _ _ _ (defined_Some _ _ _)).
  match goal with
  | |- match bind (CreateMaterial _ _ _ 84) _ ?s with _ => _ end =>
      pose proof (CreateMaterial_defined h s Hh H0) as Hc;
      unfold bind at 1;
      destruct (CreateMaterial buf parse skip 84 s) as [c st'|e st'|u st']
  end.
  - cbn [ret]. destruct Hc as [Hc Hmesh].
    { eexists _, []. split; [reflexivity|].
      cbn [aiMesh.mVertices aiMesh.mNormals aiMesh.mTextureCoords0].
      rewrite length_new_vectors by lia. auto. }
    split; [lia|]. split; [exact H1|]. split; [exact H2|exact Hmesh].
  - exact I.
  - apply Hc. eexists _, []. split; [reflexivity|].
    cbn [aiMesh.mVertices aiMesh.mNormals aiMesh.mTextureCoords0].
    rewrite length_new_vectors by lia. auto.
Qed.

End DefinedImport.

(** ** The part behind the size test of the vertex array *)

Lemma GenerateTextureCoords_without_uv width height st pcMesh rest :
  aiScene.mMeshes (pScene st) = pcMesh :: rest ->
  aiMesh.mTextureCoords0 pcMesh = None ->
  GenerateTextureCoords width height st = Ok tt st.
Proof.
  intros Hm Hnone. unfold GenerateTextureCoords.
  rewrite (bind_Ok _ _ _ _ _ (mesh0_Some st pcMesh rest Hm)). rewrite Hnone. reflexivity.
Qed.

(** When the grid fits the arrays, the vertex loops, the texture
    coordinates and the face list all stay inside them: the part
    returns. *)
Lemma HMP57_body_defined buf
    (load_vertex : Header_HMP5.t -> Z -> Z -> Z -> vertex_locals -> M vertex_locals)
    h height width c st nv :
  decodes_record buf h c (load_vertex h c) ->
  mesh_allocated nv (pScene st) ->
  0 <= c -> 1 <= width -> 1 <= height -> width * height <= nv ->
  c + 4 * (width * height) <= Z.of_nat (length buf) ->
  4 * width * height <= 2 ^ 32 ->
  exists st', HMP57_body load_vertex h height width c st = Ok tt st'.
Proof.
  intros Hdec (m & rest & Hm & Lv & Ln & Luv) Hc Hw Hh Hnv Hbuf Hsz.
  unfold HMP57_body.
  rewrite (bind_Ok _ _ _ _ _ (mesh0_Some st m rest Hm)).
  destruct (load_vertices_run buf h c (load_vertex h c) width height
              (aiMesh.mVertices m) (aiMesh.mNormals m) st Hdec Hc ltac:(lia) ltac:(lia)
              Hbuf ltac:(lia) ltac:(lia))
    as (verts & norms & st1 & E1 & Hsc1 & Lv1 & Ln1 & _).
  rewrite (bind_Ok _ _ _ _ _ E1). cbn [fst snd].
  erewrite (bind_Ok (set_mesh0 _)); [|eapply set_mesh0_Some; rewrite Hsc1; exact Hm].
  set (m1 := aiMesh.Build (aiMesh.mMaterialIndex m) (aiMesh.mNumVertices m) verts norms
               (aiMesh.mTextureCoords0 m) (aiMesh.mNumUVComponents0 m)
               (aiMesh.mNumFaces m) (aiMesh.mFaces m)).
  set (st2 := State (with_mesh0 (pScene st1) m1) (trace st1)).
  assert (Hm2 : aiScene.mMeshes (pScene st2) = m1 :: rest).
  { subst st2. cbn [pScene with_mesh0 aiScene.mMeshes]. rewrite Hsc1, Hm. reflexivity. }
  (* the texture coordinates *)
  assert (Huv : exists st3 m3,
            (if negb (Header_HMP5.numskins h =? 0)
             then GenerateTextureCoords width height else ret tt) st2 = Ok tt st3 /\
            aiScene.mMeshes (pScene st3) = m3 :: rest /\
            width * height <= Z.of_nat (length (aiMesh.mVertices m3)) /\
            width * height <= Z.of_nat (length (aiMesh.mNormals m3)) /\
            match aiMesh.mTextureCoords0 m3 with
            | Some uv => width * height <= Z.of_nat (length uv)
            | None => True
            end).
  { assert (Hkeep : aiScene.mMeshes (pScene st2) = m1 :: rest /\
                    width * height <= Z.of_nat (length (aiMesh.mVertices m1)) /\
                    width * height <= Z.of_nat (length (aiMesh.mNormals m1)) /\
                    match aiMesh.mTextureCoords0 m1 with
                    | Some uv => width * height <= Z.of_nat (length uv)
                    | None => True
                    end).
    { split; [exact Hm2|]. subst m1.
      cbn [aiMesh.mVertices aiMesh.mNormals aiMesh.mTextureCoords0].
      split; [lia|]. split; [lia|].
      destruct (aiMesh.mTextureCoords0 m); [lia|exact I]. }
    destruct (negb (Header_HMP5.numskins h =? 0)); [|exists st2, m1; split; [reflexivity|exact Hkeep]].
    destruct (aiMesh.mTextureCoords0 m1) as [uv|] eqn:Euv.
    - destruct Hkeep as (_ & K1 & K2 & K3).
      destruct (GenerateTextureCoords_run width height st2 m1 rest uv Hm2 Euv Hw Hh K3)
        as (uv' & E & Luv' & _).
      exists (State (with_mesh0 (pScene st2) (with_uv m1 uv')) (trace st2)), (with_uv m1 uv').
      split; [exact E|]. split.
      { cbn [pScene with_mesh0 aiScene.mMeshes]. rewrite Hm2. reflexivity. }
      cbn [with_uv aiMesh.mVertices aiMesh.mNormals aiMesh.mTextureCoords0].
      split; [exact K1|]. split; [exact K2|]. lia.
    - exists st2, m1.
      split; [now apply (GenerateTextureCoords_without_uv width height st2 m1 rest)|].
      rewrite Euv. exact Hkeep. }
  destruct Huv as (st3 & m3 & E3 & Hm3 & K1 & K2 & K3).
  rewrite (bind_Ok _ _ _ _ _ E3).
  (* the faces *)
  assert (Hfaces : exists st4, CreateOutputFaceList width height st3 = Ok tt st4).
  { destruct (Z.eq_dec width 1) as [->|Hw1].
    { eexists. apply (CreateOutputFaceList_flat 1 height st3 m3 rest Hm3). now left. }
    destruct (Z.eq_dec height 1) as [->|Hh1].
    { eexists. apply (CreateOutputFaceList_flat width 1 st3 m3 rest Hm3). now right. }
    destruct (CreateOutputFaceList_run width height st3 m3 rest Hm3 ltac:(lia) ltac:(lia) Hsz)
      as [(_ & s & _ & E)|(Hout & _)]; [eexists; exact E|].
    exfalso. apply Hout. unfold corners_inside.
    replace ((height - 2 + 1) * width + (width - 2) + 1) with (width * height - 1) by lia.
    split; [lia|]. split; [lia|].
    destruct (aiMesh.mTextureCoords0 m3); [lia|exact I]. }
  destruct Hfaces as [st4 E4].
  rewrite (bind_Ok _ _ _ _ _ E4). rewrite bind_get_scene.
  eexists. reflexivity.
Qed.

(** When the grid is larger than the arrays, the vertex loops store
    outside them. *)
Lemma HMP57_body_overrun buf
    (load_vertex : Header_HMP5.t -> Z -> Z -> Z -> vertex_locals -> M vertex_locals)
    h height width c st nv :
  decodes_record buf h c (load_vertex h c) ->
  (forall y x vs ns k st',
     Z.of_nat (length vs) <= k ->
     load_vertex h c y x (vs, ns, k) st' = Undefined ArrayOverwrite st') ->
  mesh_allocated nv (pScene st) ->
  0 <= c -> 0 <= width -> 0 <= height -> nv < width * height ->
  c + 4 * (width * height) <= Z.of_nat (length buf) ->
  exists st', HMP57_body load_vertex h height width c st = Undefined ArrayOverwrite st'.
Proof.
  intros Hdec Hover (m & rest & Hm & Lv & Ln & Luv) Hc Hw Hh Hnv Hbuf.
  unfold HMP57_body.
  rewrite (bind_Ok _ _ _ _ _ (mesh0_Some st m rest Hm)).
  destruct (load_vertices_overrun buf h c (load_vertex h c) width height
              (aiMesh.mVertices m) (aiMesh.mNormals m) nv st Hdec Hover Hc Hw Hh Lv Ln Hnv
              ltac:(lia)) as [st' E].
  exists st'. now apply bind_Undefined.
Qed.

(** ** The outcome of the import *)

(** The grid of a header that passes validation. *)
Lemma prologue_grid buf parse skip st h height width c st1 :
  HMP57_prologue buf parse skip st = Ok (h, height, width, c) st1 ->
  Header_HMP5.overlay buf = Some h /\
  header_violation frames_non_zero h = None /\
  F32.to_uint (F32.div (F32.of_int (Header_HMP5.numverts h))
                       (Header_HMP5.fnumverts_x h)) = Some height /\
  F32.to_uint (Header_HMP5.fnumverts_x h) = Some width /\
  vertex_extent height width = 4 * (width * height) /\
  120 <= iFileSize buf.
Proof.
  intros Hpro.
  destruct (HMP57_prologue_Ok _ _ _ _ _ _ _ _ _ Hpro) as (Hsz & Hh & Hv & Hht & Hwd).
  destruct (overlay_fields buf h Hh) as (Hw & Hnv).
  destruct (vertex_extent_exact h height width Hw Hnv Hv Hht Hwd) as (_ & _ & _ & _ & Hext).
  auto 10.
Qed.

Lemma InternReadFile_HMP57_defined buf parse skip
    (load_vertex : Header_HMP5.t -> Z -> Z -> Z -> vertex_locals -> M vertex_locals) st :
  (forall c t w h c' m, parse c t w h = Returns (c', m) -> c <= c') ->
  (forall c t w h c', skip c t w h = Returns c' -> c <= c') ->
  (forall h c, decodes_record buf h c (load_vertex h c)) ->
  (forall h c y x vs ns k st',
     Z.of_nat (length vs) <= k ->
     load_vertex h c y x (vs, ns, k) st' = Undefined ArrayOverwrite st') ->
  match InternReadFile_HMP57 buf parse skip load_vertex st with
  | Ok _ _ | Throw _ _ => True
  | Undefined u _ => u = ArrayOverwrite /\ grid_exceeds_numverts buf
  end.
Proof.
  intros Hparse Hskip Hdec Hover. unfold InternReadFile_HMP57.
  destruct (Z.ltb_spec (iFileSize buf) 120) as [Hsz|Hsz].
  { assert (E : HMP57_prologue buf parse skip st = Throw HMP_header_too_small st).
    { unfold HMP57_prologue. cbv zeta. apply bind_Throw. unfold ValidateHeader_HMP457.
      destruct (Z.gtb_spec 120 (iFileSize buf)); [reflexivity|lia]. }
    rewrite (bind_Throw _ _ _ _ _ E). exact I. }
  pose proof (iFileSize_le buf) as Hle.
  pose proof (wrap32_range (fileSize buf)) as Hr. fold (iFileSize buf) in Hr.
  pose proof (HMP57_prologue_defined buf parse skip Hparse Hskip ltac:(lia) st) as Hpro.
  destruct (HMP57_prologue buf parse skip st) as [[[[h height] width] c] st1|e st1|u st1] eqn:Epro.
  - destruct Hpro as (Hc & Hw & Hh & Hmesh).
    destruct (prologue_grid _ _ _ _ _ _ _ _ _ Epro) as (Hov & Hv & Hht & Hwd & Hext & _).
    rewrite (bind_Ok _ _ _ _ _ Epro). cbv beta iota. rewrite Hext.
    unfold bind at 1. unfold SizeCheck.
    destruct (Z.gtb_spec (c + 4 * (width * height)) (iFileSize buf)) as [Hout|Hin];
      [exact I|].
    cbn [log].
    destruct (Z.le_gt_cases (width * height) (Header_HMP5.numverts h)) as [Hfit|Hbig].
    + destruct (HMP57_body_defined buf load_vertex h height width c
                  (State (pScene st1) (EvCheck (c + 4 * (width * height)) :: trace st1))
                  (Header_HMP5.numverts h) (Hdec h c) Hmesh ltac:(lia) Hw Hh Hfit
                  ltac:(lia) ltac:(lia)) as [st' E].
      rewrite E. exact I.
    + destruct (HMP57_body_overrun buf load_vertex h height width c
                  (State (pScene st1) (EvCheck (c + 4 * (width * height)) :: trace st1))
                  (Header_HMP5.numverts h) (Hdec h c) (Hover h c) Hmesh ltac:(lia)
                  ltac:(lia) ltac:(lia) Hbig ltac:(lia)) as [st' E].
      rewrite E. split; [reflexivity|]. exists h, height, width. auto.
  - rewrite (bind_Throw _ _ _ _ _ Epro). exact I.
  - destruct Hpro.
Qed.

(** The import returns, throws, or stores outside the vertex arrays
    of a grid that exceeds the vertex count. *)
Lemma InternReadFile_defined buf parse skip lookup normalize st :
  (forall c t w h c' m, parse c t w h = Returns (c', m) -> c <= c') ->
  (forall c t w h c', skip c t w h = Returns c' -> c <= c') ->
  match InternReadFile buf parse skip lookup normalize st with
  | Ok _ _ | Throw _ _ => True
  | Undefined u _ => u = ArrayOverwrite /\ grid_exceeds_numverts buf
  end.
Proof.
  intros Hparse Hskip.
  destruct (Z.ltb_spec (fileSize buf) 50) as [Hsz|Hsz].
  { unfold InternReadFile. destruct (Z.ltb_spec (fileSize buf) 50); [exact I|lia]. }
  destruct (u32_at_inside buf 0 ltac:(lia) ltac:(unfold fileSize in Hsz; lia)) as [iMagic Hm].
  rewrite (InternReadFile_magic _ _ _ _ _ _ _ Hsz Hm).
  set (st0 := logged [EvRead 0 4; EvCheck 50] st).
  pose proof (InternReadFile_HMP57_defined buf parse skip (load_vertex_HMP5 buf lookup) st0
                Hparse Hskip (load_vertex_HMP5_decodes buf lookup)
                (fun h c y x vs ns k st' Hk =>
                   load_vertex_HMP5_overruns buf lookup h c y x vs ns k st' Hk)) as H5.
  pose proof (InternReadFile_HMP57_defined buf parse skip (load_vertex_HMP7 buf normalize) st0
                Hparse Hskip (load_vertex_HMP7_decodes buf normalize)
                (fun h c y x vs ns k st' Hk =>
                   load_vertex_HMP7_overruns buf normalize h c y x vs ns k st' Hk)) as H7.
  fold (InternReadFile_HMP5 buf parse skip lookup) in H5.
  fold (InternReadFile_HMP7 buf parse skip normalize) in H7.
  unfold bind at 1.
  destruct (_ || _); [exact I|].
  destruct (_ || _).
  { destruct (InternReadFile_HMP5 buf parse skip lookup st0); [exact I|exact I|exact H5]. }
  destruct (_ || _).
  { destruct (InternReadFile_HMP7 buf parse skip normalize st0); [exact I|exact I|exact H7]. }
  exact I.
Qed.
(** ** The scene that an import leaves *)

Lemma InternReadFile_HMP57_scene buf parse skip
    (load_vertex : Header_HMP5.t -> Z -> Z -> Z -> vertex_locals -> M vertex_locals) st :
  (forall c t w h e, parse c t w h = Raises e -> late e) ->
  (forall c t w h e, skip c t w h = Raises e -> late e) ->
  (forall h c y x s, keeps same_shape (fun _ => False) (load_vertex h c y x s)) ->
  match InternReadFile_HMP57 buf parse skip load_vertex st with
  | Ok _ st' =>
      aiScene.mFlags (pScene st') = aiScene.mFlags (pScene st) /\
      aiScene.mRootNode (pScene st') = Some (aiNode.Build "terrain_root" 1 [0]) /\
      aiScene.mNumMeshes (pScene st') = 1 /\
      length (aiScene.mMeshes (pScene st')) = 1%nat /\
      aiScene.mNumMaterials (pScene st') = 1 /\
      length (aiScene.mMaterials (pScene st')) = 1%nat
  | Throw e st' =>
      aiScene.mFlags (pScene st') = aiScene.mFlags (pScene st) /\
      aiScene.mRootNode (pScene st') = aiScene.mRootNode (pScene st) /\
      (early e = true -> pScene st' = pScene st) /\
      (early e = false ->
       aiScene.mNumMeshes (pScene st') = 1 /\
       length (aiScene.mMeshes (pScene st')) = 1%nat /\
       match HMP57_prologue buf parse skip st with
       | Ok _ st1 =>
           e = Size_check_failed /\ st' = st1 /\
           aiScene.mNumMaterials (pScene st') = 1 /\
           length (aiScene.mMaterials (pScene st')) = 1%nat
       | Throw e1 st1 =>
           e = e1 /\ st' = st1 /\
           aiScene.mNumMaterials (pScene st') = aiScene.mNumMaterials (pScene st) /\
           aiScene.mMaterials (pScene st') = aiScene.mMaterials (pScene st)
       | Undefined _ _ => False
       end)
  | Undefined _ _ => True
  end.
Proof.
  intros Hparse Hskip Hlv. unfold InternReadFile_HMP57.
  pose proof (HMP57_prologue_scene buf parse skip Hparse Hskip (pScene st) st eq_refl)
    as Hpro.
  destruct (HMP57_prologue buf parse skip st) as [[[[h height] width] c] st1|e st1|u st1]
    eqn:Epro.
  - rewrite (bind_Ok _ _ _ _ _ Epro). cbv beta iota.
    unfold bind at 1. unfold SizeCheck.
    destruct (_ >? _).
    + cbn [throw]. destruct Hpro as (H1 & H2 & H3 & H4 & H5 & H6).
      split; [exact H1|]. split; [exact H2|]. split; [discriminate|].
      intros _. repeat split; assumption.
    + cbn [log].
      match goal with
      | |- match HMP57_body _ _ _ _ _ ?s with _ => _ end =>
          pose proof (HMP57_body_scene (pScene st) load_vertex h height width c (Hlv h c)
                        s Hpro) as Hbody;
          destruct (HMP57_body load_vertex h height width c s) as [a st'|e st'|u st']
      end.
      * exact Hbody.
      * destruct Hbody.
      * exact I.
  - rewrite (bind_Throw _ _ _ _ _ Epro).
    destruct Hpro as (H1 & H2 & H3 & H4 & H5 & H6).
    split; [exact H1|]. split; [exact H2|]. split; [exact H5|].
    intros He. destruct (H6 He) as [K1 K2]. repeat split; assumption.
  - rewrite (bind_Undefined _ _ _ _ _ Epro). exact I.
Qed.

Lemma load_vertex_HMP5_never_throws buf lookup h c y x s :
  keeps same_shape (fun _ => False) (load_vertex_HMP5 buf lookup h c y x s).
Proof. apply keeps_load_vertex_HMP5; apply _. Qed.

Lemma load_vertex_HMP7_never_throws buf normalize h c y x s :
  keeps same_shape (fun _ => False) (load_vertex_HMP7 buf normalize h c y x s).
Proof. apply keeps_load_vertex_HMP7; apply _. Qed.

Lemma InternReadFile_scene buf parse skip lookup normalize st :
  (forall c t w h e, parse c t w h = Raises e -> late e) ->
  (forall c t w h e, skip c t w h = Raises e -> late e) ->
  match InternReadFile buf parse skip lookup normalize st with
  | Ok _ st' => populated (pScene st) (pScene st')
  | Throw e st' => failed_import buf parse skip st e st'
  | Undefined _ _ => True
  end.
Proof.
  intros Hparse Hskip.
  assert (Hearly : forall e st', pScene st' = pScene st -> early e = true ->
                     failed_import buf parse skip st e st').
  { intros e st' Hst He. unfold failed_import. rewrite Hst.
    do 3 (split; [reflexivity|]). congruence. }
  destruct (Z.ltb_spec (fileSize buf) 50) as [Hsz|Hsz].
  { unfold InternReadFile. destruct (Z.ltb_spec (fileSize buf) 50); [|lia].
    now apply Hearly. }
  destruct (u32_at_inside buf 0 ltac:(lia) ltac:(unfold fileSize in Hsz; lia)) as [iMagic Hm].
  rewrite (InternReadFile_magic _ _ _ _ _ _ _ Hsz Hm).
  set (st0 := logged [EvRead 0 4; EvCheck 50] st).
  assert (Hst0 : pScene st0 = pScene st) by reflexivity.
  assert (Hrun : forall load_vertex,
            (forall h c y x s, keeps same_shape (fun _ => False) (load_vertex h c y x s)) ->
            match
              bind (InternReadFile_HMP57 buf parse skip load_vertex)
                (fun _ =>
                   bind get_scene (fun sc =>
                     put_scene (aiScene.Build
                                  (Z.lor (aiScene.mFlags sc) AI_SCENE_FLAGS_TERRAIN)
                                  (aiScene.mRootNode sc)
                                  (aiScene.mNumMeshes sc) (aiScene.mMeshes sc)
                                  (aiScene.mNumMaterials sc) (aiScene.mMaterials sc))))
                st0
            with
            | Ok _ st' => populated (pScene st) (pScene st')
            | Throw e st' => failed_import buf parse skip st e st'
            | Undefined _ _ => True
            end).
  { intros load_vertex Hlv.
    pose proof (InternReadFile_HMP57_scene buf parse skip load_vertex st0 Hparse Hskip Hlv)
      as H.
    unfold bind at 1.
    destruct (InternReadFile_HMP57 buf parse skip load_vertex st0) as [a st1|e st1|u st1].
    - destruct H as (H1 & H2 & H3 & H4 & H5 & H6). unfold populated. cbn.
      rewrite H1. repeat split; assumption.
    - unfold failed_import. fold st0. exact H.
    - exact I. }
  unfold bind at 1.
  destruct (_ || _).
  { cbn. now apply Hearly. }
  destruct (_ || _).
  { apply (Hrun (load_vertex_HMP5 buf lookup)).
    intros h c y x s. apply load_vertex_HMP5_never_throws. }
  destruct (_ || _).
  { apply (Hrun (load_vertex_HMP7 buf normalize)).
    intros h c y x s. apply load_vertex_HMP7_never_throws. }
  cbn. now apply Hearly.
Qed.

(** C2 (as amended).  For every buffer, with skin collaborators that
    move the cursor forwards and raise errors of their own, the import
    ends in one of three ways.  It returns, and has given the scene
    one mesh, one material, the root node and the terrain flag.  Or it
    throws, and has set neither the root node nor the terrain flag:
    after a failure of the dispatch or of the validation of the header
    the scene is untouched; after a later failure the output mesh is
    in the scene of the caller, with the materials of the caller when
    the part in front of the vertex array has failed (the skin tag, a
    collaborator, the bounds guard between the skins), and with the
    one material of the import when that part has returned and the
    bounds guard of the vertex array has failed.  Or the grid of the
    validated header exceeds its vertex count and the vertex loops
    store outside the arrays, which is undefined behaviour; there is
    no other undefined run. *)
Theorem InternReadFile_outcome buf parse skip lookup normalize st :
  (forall c t w h e, parse c t w h = Raises e -> early e = false) ->
  (forall c t w h e, skip c t w h = Raises e -> early e = false) ->
  (forall c t w h c' m, parse c t w h = Returns (c', m) -> c <= c') ->
  (forall c t w h c', skip c t w h = Returns c' -> c <= c') ->
  match InternReadFile buf parse skip lookup normalize st with
  | Ok _ st' => populated (pScene st) (pScene st')
  | Throw e st' => failed_import buf parse skip st e st'
  | Undefined u _ => u = ArrayOverwrite /\ grid_exceeds_numverts buf
  end.
Proof.
  intros Hparse Hskip Hpadv Hsadv.
  pose proof (InternReadFile_scene buf parse skip lookup normalize st Hparse Hskip) as Hs.
  pose proof (InternReadFile_defined buf parse skip lookup normalize st Hpadv Hsadv) as Hd.
  destruct (InternReadFile buf parse skip lookup normalize st) as [a st'|e st'|u st'].
  - exact Hs.
  - exact Hs.
  - exact Hd.
Qed.

Lemma InternReadFile_outcome_witness :
  match InternReadFile Sample.three_skins_cut Sample.parse_lump Sample.skip_lump
          Sample.normal_table Sample.keep Sample.st0 with
  | Ok _ st' => populated (pScene Sample.st0) (pScene st')
  | Throw e st' =>
      failed_import Sample.three_skins_cut Sample.parse_lump Sample.skip_lump
        Sample.st0 e st'
  | Undefined u _ => u = ArrayOverwrite /\ grid_exceeds_numverts Sample.three_skins_cut
  end.
Proof.
  apply (InternReadFile_outcome Sample.three_skins_cut Sample.parse_lump
           Sample.skip_lump Sample.normal_table Sample.keep Sample.st0).
  - intros c t w h e E. discriminate E.
  - intros c t w h e E. discriminate E.
  - intros c t w h c' m [= <- _]. pose proof (wrap32_range (w * h)). lia.
  - intros c t w h c' [= <-]. pose proof (wrap32_range (w * h)). lia.
Defined.

(** The claim as stated fails on the 3 x 2 terrain cut behind its
    header: the bounds guard of the vertex array throws when the mesh
    and the material are already in the scene. *)
Lemma truncated_vertex_array_leaves_mesh :
  ~ all_or_nothing Sample.terrain_cut Sample.parse_lump Sample.skip_lump
      Sample.normal_table Sample.keep.
Proof.
  intros H. specialize (H aiScene.empty). vm_compute in H. discriminate H.
Qed.
